(** * Uma Musume PC automation: screen classification, dispatch loop and
      window-region tracking

    A shallow embedding of [src/uma_automation.py] (class
    [UmaMusumeAutomation]) and [src/window_detector.py] (class
    [WindowDetector]).

    The Python methods mutate the automation object, write to the log, sleep,
    grab the screen and inject clicks.  They are embedded in a small monad
    that threads the mutable fields, collects the observable effects in
    chronological order and propagates exceptions.  Everything the program
    obtains from outside (the OS window query, the screen grabber, OpenCV's
    template matcher, Tesseract, the click injector, the stop button of the
    GUI thread) is an oracle of the [World] record; the theorems hold for
    every world. *)

From Stdlib Require Import ZArith Floats String Ascii List Lia Bool Reals Lra.
From stdpp Require Import base option gmap strings list.
Import ListNotations.

Local Open Scope string_scope.
Local Open Scope list_scope.
Local Open Scope Z_scope.

(** ** Python values *)

(** [(x, y, width, height)], the tuple stored in [WindowDetector.window_rect]. *)
Definition Rect : Type := Z * Z * Z * Z.

(** [(left, top, right, bottom)], the tuple handed to [ImageGrab.grab] and
    returned by [find_template]. *)
Definition Box : Type := Z * Z * Z * Z.

(** The two exception classes the code distinguishes: [except Exception]
    catches the second and lets the first through. *)
Inductive exn : Type :=
| KeyboardInterrupt
| Exception.

(** Outcome of a Python call: a value or a raised exception. *)
Inductive Res (A : Type) : Type :=
| Return (a : A)
| Raise (e : exn).
Arguments Return {A} a.
Arguments Raise {A} e.

(** ** Observable effects *)

Inductive level : Type := DEBUG | INFO | WARNING | ERROR.

(** One constructor per [logger] call site; the interpolated values are the
    constructor arguments (the text of a caught exception is dropped). *)
Inductive log_msg : Type :=
| UsingGameRegion (region : Box)
| FailedToCaptureScreen
| TemplateNotFound (template_name : string)
| OcrFailed
| ClickedAt (x y : Z)
| FailedToClickAt (x y : Z)
| ErrorFocusingWindow
| HandlingMainMenu
| HandlingTrainingScreen
| HandlingEventScreen
| HandlingRaceScreen
| HandlingRaceResultScreen
| HandlingTrainingResultScreen
| HandlingChoiceScreen
| ChoiceText (choice_text : string)
| ErrorDetected (indicator : string)
| StartingAutomation
| GameWindowDetected (region : Box)
| GameWindowNotDetected
| FailedToCaptureScreenshot
| ErrorDetectedWaiting
| CurrentScreen (current_screen : string)
| TooManyUnknownScreens
| UnknownScreenDetected (current_screen : string)
| AutomationStoppedByUser
| ErrorInAutomationLoop
| AutomationStopped
| SessionStatsReport (training_sessions races_completed events_handled errors_encountered : Z).

Inductive event : Type :=
| Log (l : level) (m : log_msg)
| Sleep (seconds : float)
| WindowQuery
| Grab (bbox : option Box)
| Focus
| Click (x y : Z).

(** ** The mutable fields *)

Record SessionStats : Type := mkStats {
  training_sessions : Z;
  races_completed : Z;
  events_handled : Z;
  errors_encountered : Z
}.

(** [running], [game_region] and [session_stats] are attributes of
    [UmaMusumeAutomation]; [window_rect] is the attribute of its
    [WindowDetector]; [consecutive_unknown_screens] is the local variable of
    [run_automation], kept here because it survives the [try] of an
    iteration.  [clock] counts the calls made to the outside world. *)
Record State : Type := mkState {
  running : bool;
  window_rect : option Rect;
  game_region : option Box;
  session_stats : SessionStats;
  consecutive_unknown_screens : Z;
  clock : nat
}.

Definition set_running (b : bool) (s : State) : State :=
  mkState b (window_rect s) (game_region s) (session_stats s)
          (consecutive_unknown_screens s) (clock s).
Definition set_window_rect (r : option Rect) (s : State) : State :=
  mkState (running s) r (game_region s) (session_stats s)
          (consecutive_unknown_screens s) (clock s).
Definition set_game_region (r : option Box) (s : State) : State :=
  mkState (running s) (window_rect s) r (session_stats s)
          (consecutive_unknown_screens s) (clock s).
Definition set_session_stats (st : SessionStats) (s : State) : State :=
  mkState (running s) (window_rect s) (game_region s) st
          (consecutive_unknown_screens s) (clock s).
Definition set_consecutive_unknown_screens (n : Z) (s : State) : State :=
  mkState (running s) (window_rect s) (game_region s) (session_stats s)
          n (clock s).
Definition tick (s : State) : State :=
  mkState (running s) (window_rect s) (game_region s) (session_stats s)
          (consecutive_unknown_screens s) (S (clock s)).

Definition incr_training_sessions (st : SessionStats) : SessionStats :=
  mkStats (training_sessions st + 1) (races_completed st) (events_handled st)
          (errors_encountered st).
Definition incr_races_completed (st : SessionStats) : SessionStats :=
  mkStats (training_sessions st) (races_completed st + 1) (events_handled st)
          (errors_encountered st).
Definition incr_events_handled (st : SessionStats) : SessionStats :=
  mkStats (training_sessions st) (races_completed st) (events_handled st + 1)
          (errors_encountered st).
Definition incr_errors_encountered (st : SessionStats) : SessionStats :=
  mkStats (training_sessions st) (races_completed st) (events_handled st)
          (errors_encountered st + 1).

(** [__init__]: nothing running, nothing cached, every counter zero. *)
Definition initial_stats : SessionStats := mkStats 0 0 0 0.
Definition initial_state : State := mkState false None None initial_stats 0 0.

(** ** The monad of the embedding *)

Definition M (A : Type) : Type := State -> Res A * State * list event.

Definition ret {A} (a : A) : M A := fun s => (Return a, s, []).

Definition bind {A B} (m : M A) (f : A -> M B) : M B :=
  fun s =>
    match m s with
    | (Return a, s1, w1) =>
        match f a s1 with
        | (r, s2, w2) => (r, s2, w1 ++ w2)
        end
    | (Raise e, s1, w1) => (Raise e, s1, w1)
    end.

(** [try: m except Exception: h]; a [KeyboardInterrupt] passes through. *)
Definition try_except {A} (m : M A) (h : M A) : M A :=
  fun s =>
    match m s with
    | (Raise Exception, s1, w1) =>
        match h s1 with
        | (r, s2, w2) => (r, s2, w1 ++ w2)
        end
    | other => other
    end.

Definition gets {A} (f : State -> A) : M A := fun s => (Return (f s), s, []).
Definition modify (f : State -> State) : M unit := fun s => (Return tt, f s, []).
Definition emit (e : event) : M unit := fun s => (Return tt, s, [e]).
Definition log (l : level) (m : log_msg) : M unit := emit (Log l m).

(** [time.sleep], recorded as an event.  Every sleep of the model returns:
    a [KeyboardInterrupt] delivered while the program sleeps, and the
    [ValueError] of a negative duration, are outside the model.  What is
    stated of the effects after a sleep is stated of the runs in which the
    sleep returns. *)
Definition sleep (seconds : float) : M unit := emit (Sleep seconds).

(** A call to the outside world: the answer is the oracle's at the current
    clock, the call is recorded and the clock advances. *)
Definition ask {A} (e : event) (oracle : nat -> Res A) : M A :=
  fun s => (oracle (clock s), tick s, [e]).

Declare Scope py_scope.
Delimit Scope py_scope with py.
Notation "x <- m ;; k" := (bind m (fun x => k))
  (at level 100, m at next level, right associativity) : py_scope.
Notation "m ;;; k" := (bind m (fun _ => k))
  (at level 100, right associativity) : py_scope.
Local Open Scope py_scope.

Definition result_of {A} (o : Res A * State * list event) : Res A := fst (fst o).
Definition state_of {A} (o : Res A * State * list event) : State := snd (fst o).
Definition events_of {A} (o : Res A * State * list event) : list event := snd o.

(** ** The outside world and the configuration *)

Record World (Frame Template : Type) : Type := mkWorld {
  (** [WindowDetector.find_uma_musume_window]: the platform's window
      enumeration *)
  find_uma_musume_window : nat -> Res (option Rect);
  (** [ImageGrab.grab] followed by the conversion to an OpenCV array *)
  ImageGrab_grab : nat -> option Box -> Res Frame;
  (** [cv2.matchTemplate] with [TM_CCOEFF_NORMED] followed by
      [cv2.minMaxLoc]: the best score [max_val] and its place [max_loc] *)
  cv2_matchTemplate : Frame -> Template -> Res (float * (Z * Z));
  (** [template.shape[:2]], height first *)
  template_shape : Template -> Z * Z;
  (** the crop, the grey-scale conversion, Otsu's threshold and
      [pytesseract.image_to_string] *)
  image_to_string : Frame -> option Box -> Res string;
  (** [pyautogui.click] *)
  pyautogui_click : nat -> Z -> Z -> Res unit;
  (** the [osascript] call of [focus_game_window]: its return code *)
  osascript_activate : nat -> Res Z;
  (** whether the GUI thread has cleared [running] when the loop tests it *)
  stop_requested : nat -> bool;
  (** [pyautogui.size()] *)
  pyautogui_size : Z * Z;
  (** [platform.system()] *)
  system : string
}.
Arguments find_uma_musume_window {Frame Template}.
Arguments ImageGrab_grab {Frame Template}.
Arguments cv2_matchTemplate {Frame Template}.
Arguments template_shape {Frame Template}.
Arguments image_to_string {Frame Template}.
Arguments pyautogui_click {Frame Template}.
Arguments osascript_activate {Frame Template}.
Arguments stop_requested {Frame Template}.
Arguments pyautogui_size {Frame Template}.
Arguments system {Frame Template}.

(** The keys of [config.ini] the modelled methods read, already parsed:
    [getboolean] and [float] have accepted the values.  A value they
    reject, which raises a [ValueError] at the place of the read, is
    outside the model. *)
Record Config : Type := mkConfig {
  window_detection_enabled : bool;
  skip_races : bool;
  screenshot_delay : float
}.

(** The fallbacks of the [config.get...] calls. *)
Definition default_config : Config := mkConfig true false 1%float.

(** ** Python's string operations used by the error scan *)

Definition ascii_lower (c : ascii) : ascii :=
  let n := nat_of_ascii c in
  if (Nat.leb 65 n && Nat.leb n 90)%bool then ascii_of_nat (n + 32) else c.

(** [str.lower()] on the ASCII letters. *)
Fixpoint str_lower (s : string) : string :=
  match s with
  | EmptyString => EmptyString
  | String c rest => String (ascii_lower c) (str_lower rest)
  end.

(** [str.isspace()] on one ASCII character: tab, line feed, vertical tab,
    form feed, carriage return, the four separators 28..31 and the space. *)
Definition ascii_isspace (c : ascii) : bool :=
  let n := nat_of_ascii c in
  ((Nat.leb 9 n && Nat.leb n 13) || (Nat.leb 28 n && Nat.leb n 32))%bool.

Fixpoint lstrip (s : string) : string :=
  match s with
  | EmptyString => EmptyString
  | String c rest => if ascii_isspace c then lstrip rest else s
  end.

Fixpoint rstrip (s : string) : string :=
  match s with
  | EmptyString => EmptyString
  | String c rest =>
      match rstrip rest with
      | EmptyString => if ascii_isspace c then EmptyString else String c EmptyString
      | r => String c r
      end
  end.

(** [str.strip()] on a string of ASCII characters; the Unicode spaces
    Python strips as well are outside the model. *)
Definition str_strip (s : string) : string := rstrip (lstrip s).

(** [needle in hay] for two strings. *)
Fixpoint str_in (needle hay : string) : bool :=
  if String.prefix needle hay then true
  else match hay with
       | EmptyString => false
       | String _ rest => str_in needle rest
       end.

(** ** Python's numbers in the coordinate mapping

    A Python [float] is an IEEE-754 binary64 number, here Rocq's primitive
    [float]; an [int] is unbounded, here [Z].  The four operations below
    are those the two mapping methods apply; each is rounded to nearest,
    ties to even, as IEEE-754 and CPython prescribe. *)

(** An [int] as an unrounded binary number. *)
Definition Z2SF (z : Z) : spec_float :=
  match z with
  | Z0 => S754_zero false
  | Zpos p => S754_finite false p 0
  | Zneg p => S754_finite true p 0
  end.

(** A computed number as a Python [float]; the two operations on [int]s
    raise [OverflowError] rather than produce an infinity. *)
Definition finite_float (f : spec_float) : Res float :=
  match f with
  | S754_infinity _ | S754_nan => Raise Exception
  | _ => Return (SF2Prim f)
  end.

(** [a / b] on two [int]s: the correctly rounded quotient;
    [ZeroDivisionError] when [b] is zero. *)
Definition int_truediv (a b : Z) : Res float :=
  if Z.eqb b 0 then Raise Exception
  else finite_float (SFdiv prec emax (Z2SF a) (Z2SF b)).

(** The conversion of an [int] operand of a mixed operation. *)
Definition float_of_int (z : Z) : Res float :=
  finite_float (binary_normalize prec emax z 0 false).

(** [int(f)]: truncation toward zero; [ValueError] on a NaN and
    [OverflowError] on an infinity. *)
Definition int_of_float (f : float) : Res Z :=
  match Prim2SF f with
  | S754_nan | S754_infinity _ => Raise Exception
  | S754_zero _ => Return 0
  | S754_finite s m e => Return (cond_Zopp s (Z.shiftl (Zpos m) e))
  end.

Definition res_bind {A B} (r : Res A) (f : A -> Res B) : Res B :=
  match r with
  | Return a => f a
  | Raise e => Raise e
  end.

(** [(x - origin) / extent], one axis of [get_relative_coordinates]. *)
Definition to_relative (origin extent x : Z) : Res float :=
  int_truediv (x - origin) extent.

(** [int(origin + (rel * extent))], one axis of [get_absolute_coordinates]. *)
Definition to_absolute (origin extent : Z) (rel : float) : Res Z :=
  res_bind (float_of_int extent) (fun fextent =>
  res_bind (float_of_int origin) (fun forigin =>
  int_of_float (forigin + rel * fextent)%float)).

(** [int(rel * extent)], one axis of the fall-back of
    [get_absolute_coordinates]. *)
Definition to_absolute_screen (extent : Z) (rel : float) : Res Z :=
  res_bind (float_of_int extent) (fun fextent =>
  int_of_float (rel * fextent)%float).

(** Truth value of an [Optional] tuple in an [if]: [None] is false, and a
    tuple of four components is never empty, hence true. *)
Definition truthy {A} (o : option A) : bool :=
  match o with
  | Some _ => true
  | None => false
  end.

(** The centre of a matched box, with Python's floor division. *)
Definition centroid (b : Box) : Z * Z :=
  match b with
  | (x1, y1, x2, y2) => ((x1 + x2) / 2, (y1 + y2) / 2)
  end.

(** Default of the [threshold] parameter of [find_template]. *)
Definition default_threshold : float := 0x1.999999999999ap-1%float.

(** Default of the [delay] parameter of [click_at]. *)
Definition default_click_delay : float := 0.5%float.

Definition max_unknown_screens : Z := 10.

Definition error_indicators : list string :=
  ["error"; "failed"; "connection lost"; "retry"].

Definition training_options : list string :=
  ["speed_train"; "stamina_train"; "power_train";
   "guts_train"; "intelligence_train"; "technique_train"].

(** What an iteration of the [while] does next. *)
Inductive loop_ctl : Type := Continue | Break.

(** How the bounded unrolling of the [while] ended. *)
Inductive loop_status : Type := LoopExited | OutOfFuel.

Section Automation.

Context {Frame Template : Type}.
Variable W : World Frame Template.
Variable config : Config.
(** [self.templates], filled once by [load_templates]. *)
Variable templates : gmap string Template.

(** *** [window_detector.py] *)

(** [WindowDetector.get_game_region]. *)
Definition get_game_region : M (option Box) :=
  cached <- gets window_rect ;;
  (match cached with
   | None =>
       found <- ask WindowQuery (find_uma_musume_window W) ;;
       modify (set_window_rect found)
   | Some _ => ret tt
   end) ;;;
  rect <- gets window_rect ;;
  match rect with
  | Some (x, y, width, height) => ret (Some (x, y, x + width, y + height))
  | None => ret None
  end.

(** [WindowDetector.focus_game_window]. *)
Definition focus_game_window : M bool :=
  if String.eqb (system W) "Darwin" then
    try_except
      (returncode <- ask Focus (osascript_activate W) ;;
       ret (Z.eqb returncode 0))
      (log ERROR ErrorFocusingWindow ;;; ret false)
  else ret false.

(** An operation on numbers inside a method. *)
Definition lift_res {A} (r : Res A) : M A := fun s => (r, s, []).

(** [WindowDetector.get_relative_coordinates]. *)
Definition get_relative_coordinates (x y : Z) : M (float * float) :=
  rect <- gets window_rect ;;
  match rect with
  | Some (window_x, window_y, window_w, window_h) =>
      rel_x <- lift_res (to_relative window_x window_w x) ;;
      rel_y <- lift_res (to_relative window_y window_h y) ;;
      ret (rel_x, rel_y)
  | None =>
      rel_x <- lift_res (int_truediv x (fst (pyautogui_size W))) ;;
      rel_y <- lift_res (int_truediv y (snd (pyautogui_size W))) ;;
      ret (rel_x, rel_y)
  end.

(** [WindowDetector.get_absolute_coordinates]. *)
Definition get_absolute_coordinates (rel_x rel_y : float) : M (Z * Z) :=
  rect <- gets window_rect ;;
  match rect with
  | Some (window_x, window_y, window_w, window_h) =>
      abs_x <- lift_res (to_absolute window_x window_w rel_x) ;;
      abs_y <- lift_res (to_absolute window_y window_h rel_y) ;;
      ret (abs_x, abs_y)
  | None =>
      match pyautogui_size W with
      | (screen_w, screen_h) =>
          abs_x <- lift_res (to_absolute_screen screen_w rel_x) ;;
          abs_y <- lift_res (to_absolute_screen screen_h rel_y) ;;
          ret (abs_x, abs_y)
      end
  end.

(** The round trip of one point through the two methods. *)
Definition round_trip (x y : Z) : M (Z * Z) :=
  rel <- get_relative_coordinates x y ;;
  get_absolute_coordinates (fst rel) (snd rel).

(** *** [uma_automation.py] *)

(** [UmaMusumeAutomation.capture_screen]. *)
Definition capture_screen (region : option Box) : M (option Frame) :=
  try_except
    ((if window_detection_enabled config then
        r <- get_game_region ;; modify (set_game_region r)
      else ret tt) ;;;
     cached <- gets game_region ;;
     region <- (match region, cached with
                | None, Some g => log DEBUG (UsingGameRegion g) ;;; ret (Some g)
                | _, _ => ret region
                end) ;;
     screenshot <- ask (Grab region) (fun t => ImageGrab_grab W t region) ;;
     ret (Some screenshot))
    (log ERROR FailedToCaptureScreen ;;; ret None).

(** [cv2.matchTemplate] and [cv2.minMaxLoc] on the screenshot the caller
    holds; OpenCV rejects [None]. *)
Definition match_template (screenshot : option Frame) (template : Template)
  : M (float * (Z * Z)) :=
  fun s =>
    match screenshot with
    | Some frame => (cv2_matchTemplate W frame template, s, [])
    | None => (Raise Exception, s, [])
    end.

(** [UmaMusumeAutomation.find_template]. *)
Definition find_template (template_name : string) (screenshot : option Frame)
    (threshold : float) : M (option Box) :=
  match templates !! template_name with
  | None => log WARNING (TemplateNotFound template_name) ;;; ret None
  | Some template =>
      best <- match_template screenshot template ;;
      match best with
      | (max_val, (x, y)) =>
          if PrimFloat.leb threshold max_val then
            match template_shape W template with
            | (h, w) => ret (Some (x, y, x + w, y + h))
            end
          else ret None
      end
  end.

(** [UmaMusumeAutomation.ocr_text]. *)
Definition ocr_text (image : option Frame) (region : option Box) : M string :=
  try_except
    (text <- (fun s =>
                match image with
                | Some frame => (image_to_string W frame region, s, [])
                | None => (Raise Exception, s, [])
                end) ;;
     ret (str_strip text))
    (log ERROR OcrFailed ;;; ret "").

(** [UmaMusumeAutomation.click_at]. *)
Definition click_at (x y : Z) (delay : float) : M unit :=
  try_except
    ((if window_detection_enabled config then
        focus_game_window ;;; sleep 0x1.999999999999ap-4
      else ret tt) ;;;
     ask (Click x y) (fun t => pyautogui_click W t x y) ;;;
     sleep delay ;;;
     log INFO (ClickedAt x y))
    (log ERROR (FailedToClickAt x y) ;;;
     modify (fun s => set_session_stats (incr_errors_encountered (session_stats s)) s)).

(** [UmaMusumeAutomation.detect_screen]. *)
Definition detect_screen (screenshot : option Frame) : M string :=
  m <- find_template "main_menu" screenshot default_threshold ;;
  if truthy m then ret "main_menu" else
  t <- find_template "training_screen" screenshot default_threshold ;;
  if truthy t then ret "training_screen" else
  r <- find_template "race_screen" screenshot default_threshold ;;
  if truthy r then ret "race_screen" else
  e <- find_template "event_screen" screenshot default_threshold ;;
  if truthy e then ret "event_screen" else
  ret "unknown".

(** The recurring step of the handlers: click the centre of a matched box. *)
Definition click_centre (b : Box) : M unit :=
  match centroid b with
  | (x, y) => click_at x y default_click_delay
  end.

(** [UmaMusumeAutomation.handle_main_menu]. *)
Definition handle_main_menu : M bool :=
  log INFO HandlingMainMenu ;;;
  screenshot <- capture_screen None ;;
  training_btn <- find_template "training_button" screenshot default_threshold ;;
  match training_btn with
  | Some b => click_centre b ;;; ret true
  | None => ret false
  end.

(** The [for option in training_options] of [handle_training_screen]. *)
Fixpoint try_training_options (options : list string) (screenshot : option Frame)
  : M bool :=
  match options with
  | [] => ret false
  | option :: rest =>
      btn <- find_template option screenshot default_threshold ;;
      match btn with
      | Some b => click_centre b ;;; ret true
      | None => try_training_options rest screenshot
      end
  end.

(** [UmaMusumeAutomation.handle_training_screen]. *)
Definition handle_training_screen : M bool :=
  log INFO HandlingTrainingScreen ;;;
  screenshot <- capture_screen None ;;
  try_training_options training_options screenshot.

(** [UmaMusumeAutomation.handle_event_screen]. *)
Definition handle_event_screen : M bool :=
  log INFO HandlingEventScreen ;;;
  screenshot <- capture_screen None ;;
  confirm_btn <- find_template "confirm_button" screenshot default_threshold ;;
  match confirm_btn with
  | Some b => click_centre b ;;; ret true
  | None => ret false
  end.

(** The tail of [handle_race_screen]: the race start button. *)
Definition press_race_start (screenshot : option Frame) : M bool :=
  start_btn <- find_template "race_start_button" screenshot default_threshold ;;
  match start_btn with
  | Some b => click_centre b ;;; ret true
  | None => ret false
  end.

(** [UmaMusumeAutomation.handle_race_screen]. *)
Definition handle_race_screen : M bool :=
  log INFO HandlingRaceScreen ;;;
  screenshot <- capture_screen None ;;
  if skip_races config then
    skip_btn <- find_template "skip_race_button" screenshot default_threshold ;;
    match skip_btn with
    | Some b => click_centre b ;;; ret true
    | None => press_race_start screenshot
    end
  else press_race_start screenshot.

(** [UmaMusumeAutomation.handle_race_result]. *)
Definition handle_race_result : M bool :=
  log INFO HandlingRaceResultScreen ;;;
  screenshot <- capture_screen None ;;
  continue_btn <- find_template "continue_button" screenshot default_threshold ;;
  match continue_btn with
  | Some b =>
      click_centre b ;;;
      modify (fun s => set_session_stats (incr_races_completed (session_stats s)) s) ;;;
      ret true
  | None => ret false
  end.

(** [UmaMusumeAutomation.handle_training_result]. *)
Definition handle_training_result : M bool :=
  log INFO HandlingTrainingResultScreen ;;;
  screenshot <- capture_screen None ;;
  continue_btn <- find_template "continue_button" screenshot default_threshold ;;
  match continue_btn with
  | Some b =>
      click_centre b ;;;
      modify (fun s => set_session_stats (incr_training_sessions (session_stats s)) s) ;;;
      ret true
  | None => ret false
  end.

(** [UmaMusumeAutomation.handle_choice_screen]. *)
Definition handle_choice_screen : M bool :=
  log INFO HandlingChoiceScreen ;;;
  screenshot <- capture_screen None ;;
  choice_text <- ocr_text screenshot None ;;
  log INFO (ChoiceText choice_text) ;;;
  option_btn <- find_template "choice_option_1" screenshot default_threshold ;;
  match option_btn with
  | Some b =>
      click_centre b ;;;
      modify (fun s => set_session_stats (incr_events_handled (session_stats s)) s) ;;;
      ret true
  | None => ret false
  end.

(** The [for indicator in error_indicators] of [check_for_errors]. *)
Fixpoint scan_indicators (indicators : list string) (screenshot_text : string)
  : M bool :=
  match indicators with
  | [] => ret false
  | indicator :: rest =>
      if str_in indicator screenshot_text then
        log WARNING (ErrorDetected indicator) ;;; ret true
      else scan_indicators rest screenshot_text
  end.

(** [UmaMusumeAutomation.check_for_errors]. *)
Definition check_for_errors (screenshot : option Frame) : M bool :=
  text <- ocr_text screenshot None ;;
  scan_indicators error_indicators (str_lower text).

(** [UmaMusumeAutomation.get_session_stats]. *)
Definition get_session_stats : M SessionStats := gets session_stats.

(** The [else] branch of the dispatch in [run_automation]: the fallback for
    a screen no handler is registered for. *)
Definition click_continue_fallback (current_screen : string)
    (screenshot : option Frame) : M bool :=
  log WARNING (UnknownScreenDetected current_screen) ;;;
  continue_btn <- find_template "continue_button" screenshot default_threshold ;;
  match continue_btn with
  | Some b => click_centre b ;;; ret true
  | None => ret false
  end.

(** The [if]/[elif] chain of [run_automation], in the order of the source. *)
Definition dispatch (current_screen : string) (screenshot : option Frame) : M bool :=
  if String.eqb current_screen "main_menu" then handle_main_menu
  else if String.eqb current_screen "training_screen" then handle_training_screen
  else if String.eqb current_screen "event_screen" then handle_event_screen
  else if String.eqb current_screen "race_screen" then handle_race_screen
  else if String.eqb current_screen "race_result" then handle_race_result
  else if String.eqb current_screen "training_result" then handle_training_result
  else if String.eqb current_screen "choice_screen" then handle_choice_screen
  else click_continue_fallback current_screen screenshot.

(** The bookkeeping of [consecutive_unknown_screens] in [run_automation]. *)
Definition count_unknown (current_screen : string) : M loop_ctl :=
  if negb (String.eqb current_screen "unknown") then
    modify (set_consecutive_unknown_screens 0) ;;; ret Continue
  else
    modify (fun s => set_consecutive_unknown_screens
                       (consecutive_unknown_screens s + 1) s) ;;;
    n <- gets consecutive_unknown_screens ;;
    if Z.leb max_unknown_screens n then
      log ERROR TooManyUnknownScreens ;;; ret Break
    else ret Continue.

(** The statements of an iteration that follow the classification: the
    log line, the bookkeeping of the counter, the dispatch and the pacing. *)
Definition act_on (current_screen : string) (screenshot : option Frame)
  : M loop_ctl :=
  log INFO (CurrentScreen current_screen) ;;;
  ctl <- count_unknown current_screen ;;
  match ctl with
  | Break => ret Break
  | Continue =>
      handled <- dispatch current_screen screenshot ;;
      (if negb handled then sleep (screenshot_delay config)
       else sleep 0.5) ;;;
      ret Continue
  end.

(** The statements inside the [try] of one iteration. *)
Definition iteration_body : M loop_ctl :=
  screenshot <- capture_screen None ;;
  match screenshot with
  | None =>
      log WARNING FailedToCaptureScreenshot ;;; sleep 1 ;;; ret Continue
  | Some _ =>
      failed <- check_for_errors screenshot ;;
      if failed then
        log WARNING ErrorDetectedWaiting ;;; sleep 3 ;;; ret Continue
      else
        current_screen <- detect_screen screenshot ;;
        act_on current_screen screenshot
  end.

(** One iteration with its two [except] clauses. *)
Definition iteration : M loop_ctl :=
  fun s =>
    match iteration_body s with
    | (Raise KeyboardInterrupt, s1, w1) =>
        (Return Break, s1, w1 ++ [Log INFO AutomationStoppedByUser])
    | (Raise Exception, s1, w1) =>
        (Return Continue,
         set_session_stats (incr_errors_encountered (session_stats s1)) s1,
         w1 ++ [Log ERROR ErrorInAutomationLoop; Sleep 2])
    | other => other
    end.

(** The test of [while self.running]: the GUI thread may have cleared the
    flag since the last test. *)
Definition poll_running : M bool :=
  fun s =>
    let s1 := if stop_requested W (clock s) then set_running false s else s in
    (Return (running s1), tick s1, []).

(** The [while] loop, unrolled at most [fuel] times. *)
Fixpoint automation_loop (fuel : nat) : M loop_status :=
  match fuel with
  | O => ret OutOfFuel
  | S fuel' =>
      go <- poll_running ;;
      if go then
        ctl <- iteration ;;
        match ctl with
        | Continue => automation_loop fuel'
        | Break => ret LoopExited
        end
      else ret LoopExited
  end.

(** [UmaMusumeAutomation.run_automation]; the statements after the loop run
    once the loop has been left. *)
Definition run_automation (fuel : nat) : M loop_status :=
  log INFO StartingAutomation ;;;
  modify (set_running true) ;;;
  (if window_detection_enabled config then
     r <- get_game_region ;;
     modify (set_game_region r) ;;;
     match r with
     | Some region => log INFO (GameWindowDetected region)
     | None => log WARNING GameWindowNotDetected
     end
   else ret tt) ;;;
  modify (set_consecutive_unknown_screens 0) ;;;
  status <- automation_loop fuel ;;
  match status with
  | OutOfFuel => ret OutOfFuel
  | LoopExited =>
      modify (set_running false) ;;;
      log INFO AutomationStopped ;;;
      st <- get_session_stats ;;
      log INFO (SessionStatsReport (training_sessions st) (races_completed st)
                                   (events_handled st) (errors_encountered st)) ;;;
      ret LoopExited
  end.

End Automation.

(** ** Concrete worlds

    A frame of the test worlds lists the templates visible in it and the
    text Tesseract reads from it; a template is its own name. *)

Module Scenario.

Record frame : Type := mkFrame {
  visible : list string;
  text : string
}.

Definition has (name : string) (names : list string) : bool :=
  existsb (String.eqb name) names.

(** A visible template matches with score 1 at (10, 20); any other scores
    one tenth. *)
Definition matcher (f : frame) (t : string) : Res (float * (Z * Z)) :=
  if has t (visible f) then Return (1%float, (10, 20))
  else Return (0x1.999999999999ap-4%float, (0, 0)).

(** A world showing [screen t] at clock [t], in which every click and every
    window query succeeds and nobody presses stop. *)
Definition showing (screen : nat -> Res frame) : World frame string :=
  mkWorld frame string
    (fun _ => Return (Some (100, 50, 800, 600)))
    (fun t _ => screen t)
    matcher
    (fun _ => (30, 40))
    (fun f _ => Return (text f))
    (fun _ _ _ => Return tt)
    (fun _ => Return 0)
    (fun _ => false)
    (1920, 1080)
    "Linux".

(** The same world with a click injector that fails. *)
Definition showing_click_fails (screen : nat -> Res frame) : World frame string :=
  mkWorld frame string
    (fun _ => Return (Some (100, 50, 800, 600)))
    (fun t _ => screen t)
    matcher
    (fun _ => (30, 40))
    (fun f _ => Return (text f))
    (fun _ _ _ => Raise Exception)
    (fun _ => Return 0)
    (fun _ => false)
    (1920, 1080)
    "Linux".


Definition blank : frame := mkFrame [] "".
Definition main_menu_frame : frame := mkFrame ["main_menu"; "training_button"] "Home".
Definition result_frame : frame := mkFrame ["continue_button"] "Result".
Definition banner_frame : frame := mkFrame ["main_menu"] "Connection Lost".

(** The library of a full installation: every name is its own template. *)
Definition library : gmap string string :=
  list_to_map
    (map (fun n => (n, n))
       ["main_menu"; "training_screen"; "race_screen"; "event_screen";
        "training_button"; "continue_button"; "choice_option_1";
        "confirm_button"; "race_start_button"; "skip_race_button"]).

(** No window tracking, so that a frame costs one call to the world. *)
Definition untracked : Config := mkConfig false false 1%float.

(** Nine blank frames, then the main menu: with [untracked] an iteration on
    a blank frame takes two ticks (the loop test and the grab). *)
Definition nine_blank_then_menu (t : nat) : Res frame :=
  if Nat.ltb t 18 then Return blank else Return main_menu_frame.

Definition started : State := mkState true None None initial_stats 0 0.
Definition cached : State :=
  mkState true (Some (100, 50, 800, 600)) None initial_stats 0 0.

(** A window of 2^61 by 2^61 pixels at the origin. *)
Definition far_window : State :=
  mkState true (Some (0, 0, 2 ^ 61, 2 ^ 61)) None initial_stats 0 0.

End Scenario.

(** * Vocabulary of the statements *)

(** [follows I R P m]: started in a state satisfying [I], whatever the
    outcome, [m] ends in a state satisfying [I], moves the state along [R]
    and produces only events satisfying [P]. *)
Definition follows {A} (I : State -> Prop) (R : State -> State -> Prop)
    (P : event -> Prop) (m : M A) : Prop :=
  forall s, I s ->
    I (state_of (m s)) /\ R s (state_of (m s)) /\ Forall P (events_of (m s)).

(** The step of the program an event comes from. *)
Inductive kind : Type :=
| Querying
| Capturing
| Matching
| Reading
| Sleeping
| Clicking
| Handling
| ResultHandling
| Scanning
| Classifying
| Stopping
| Looping.

Definition kind_of (e : event) : kind :=
  match e with
  | WindowQuery => Querying
  | Grab _ => Capturing
  | Focus => Clicking
  | Click _ _ => Clicking
  | Sleep _ => Sleeping
  | Log _ m =>
      match m with
      | UsingGameRegion _ | FailedToCaptureScreen => Capturing
      | TemplateNotFound _ => Matching
      | OcrFailed => Reading
      | ClickedAt _ _ | FailedToClickAt _ _ | ErrorFocusingWindow => Clicking
      | HandlingMainMenu | HandlingTrainingScreen | HandlingEventScreen
      | HandlingRaceScreen | UnknownScreenDetected _ => Handling
      | HandlingRaceResultScreen | HandlingTrainingResultScreen
      | HandlingChoiceScreen | ChoiceText _ => ResultHandling
      | ErrorDetected _ => Scanning
      | CurrentScreen _ => Classifying
      | TooManyUnknownScreens => Stopping
      | StartingAutomation | GameWindowDetected _ | GameWindowNotDetected
      | FailedToCaptureScreenshot | ErrorDetectedWaiting
      | AutomationStoppedByUser | ErrorInAutomationLoop | AutomationStopped
      | SessionStatsReport _ _ _ _ => Looping
      end
  end.

Definition bump_errors (s : State) : State :=
  set_session_stats (incr_errors_encountered (session_stats s)) s.

Definition known_screens : list string :=
  ["main_menu"; "training_screen"; "race_screen"; "event_screen"; "unknown"].

(** The log line each of the three result handlers starts with. *)
Definition handles_result (e : event) : bool :=
  match e with
  | Log _ HandlingRaceResultScreen => true
  | Log _ HandlingTrainingResultScreen => true
  | Log _ HandlingChoiceScreen => true
  | _ => false
  end.

(** An event other than a classification, a drift stop or the entry of a
    result handler. *)
Definition plain (e : event) : bool :=
  match e with
  | Log _ (CurrentScreen _) => false
  | Log _ TooManyUnknownScreens => false
  | _ => negb (handles_result e)
  end.

Definition is_window_query (e : event) : bool :=
  match e with
  | WindowQuery => true
  | _ => false
  end.

(** Every counter of [b] is at least the one of [a]. *)
Definition stats_le (a b : SessionStats) : Prop :=
  training_sessions a <= training_sessions b
  /\ races_completed a <= races_completed b
  /\ events_handled a <= events_handled b
  /\ errors_encountered a <= errors_encountered b.

(** The three outcome counters are the same and the error counter has not
    gone down. *)
Definition outcomes_kept (s s' : State) : Prop :=
  training_sessions (session_stats s') = training_sessions (session_stats s)
  /\ races_completed (session_stats s') = races_completed (session_stats s)
  /\ events_handled (session_stats s') = events_handled (session_stats s)
  /\ errors_encountered (session_stats s) <= errors_encountered (session_stats s').

(** In addition the loop's flag and its counter of unknown screens are the
    same. *)
Definition quiet_step (s s' : State) : Prop :=
  running s' = running s
  /\ consecutive_unknown_screens s' = consecutive_unknown_screens s
  /\ outcomes_kept s s'.

(** Nothing the loop keeps has changed: the flag, the counter of unknown
    screens and all four session counters. *)
Definition untouched (s s' : State) : Prop :=
  running s' = running s
  /\ consecutive_unknown_screens s' = consecutive_unknown_screens s
  /\ session_stats s' = session_stats s.

(** The region [get_game_region] computes from a rectangle. *)
Definition box_of_rect (r : Rect) : Box :=
  match r with
  | (x, y, width, height) => (x, y, x + width, y + height)
  end.

(** [yields m Q]: from any state, the result of [m] satisfies [Q]. *)
Definition yields {A} (m : M A) (Q : Res A -> Prop) : Prop :=
  forall s, Q (result_of (m s)).

(** [counts incr m]: when the handler [m] reports success, the session
    counters are those of a state reached by ordinary steps with [incr]
    applied once; otherwise only ordinary steps were made. *)
Definition counts (incr : SessionStats -> SessionStats) (m : M bool) : Prop :=
  forall s,
    match result_of (m s) with
    | Return true =>
        exists s1, quiet_step s s1
                   /\ session_stats (state_of (m s)) = incr (session_stats s1)
    | _ => quiet_step s (state_of (m s))
    end.

(** One when a handler reported success, zero otherwise. *)
Definition success_count (r : Res bool) : Z :=
  match r with
  | Return true => 1
  | _ => 0
  end.

(** The durations of the sleeps among the events, in order. *)
Fixpoint sleeps (w : list event) : list float :=
  match w with
  | [] => []
  | Sleep d :: rest => d :: sleeps rest
  | _ :: rest => sleeps rest
  end.

(** The screens the classifier reported among the events, in order. *)
Fixpoint classifications (w : list event) : list string :=
  match w with
  | [] => []
  | Log _ (CurrentScreen c) :: rest => c :: classifications rest
  | _ :: rest => classifications rest
  end.

(** The length of the run of ["unknown"] a list starts with. *)
Fixpoint leading_unknown (l : list string) : Z :=
  match l with
  | c :: rest => if String.eqb c "unknown" then 1 + leading_unknown rest else 0
  | [] => 0
  end.

(** The length of the run of ["unknown"] a list ends with. *)
Definition trailing_unknown (l : list string) : Z := leading_unknown (rev l).

(** The loop gave up because of too many unknown screens. *)
Definition drift_stop (w : list event) : Prop :=
  In (Log ERROR TooManyUnknownScreens) w.

(** An event that neither reports a classification nor the drift stop. *)
Definition uncounted (e : event) : Prop :=
  kind_of e <> Classifying /\ kind_of e <> Stopping.

(** No proper prefix of the history ends with ten unknown screens. *)
Definition never_ten_before (history : list string) : Prop :=
  forall earlier later,
    history = earlier ++ later -> later <> [] -> trailing_unknown earlier < 10.

(** What a piece of the run that classifies at most once does to the
    counter [c] of consecutive unknown screens, given the events [w] it
    produced and the counter [c'] it left. *)
Definition counted_step (c c' : Z) (w : list event) : Prop :=
  match classifications w with
  | [] => c' = c /\ ~ drift_stop w
  | [screen] =>
      c' = (if String.eqb screen "unknown" then c + 1 else 0)
      /\ (drift_stop w <-> String.eqb screen "unknown" = true /\ 10 <= c + 1)
  | _ => False
  end.

(** Whether one of the failure keywords occurs in the lower-cased text. *)
Definition has_error_keyword (text : string) : bool :=
  existsb (fun indicator => str_in indicator (str_lower text)) error_indicators.

Section Vocabulary.

Context {Frame Template : Type}.
Variable W : World Frame Template.
Variable templates : gmap string Template.

(** *** The classifier the specification describes *)

(** The screen-identifying templates in their priority order. *)
Definition screen_priority : list string :=
  ["main_menu"; "training_screen"; "race_screen"; "event_screen"].

(** [classify_first names screenshot]: the first name of the ordered list
    whose template matches at or above the threshold, ["unknown"] when none
    does; a fault of the matcher on the way is passed on. *)
Fixpoint classify_first (names : list string) (screenshot : option Frame)
  : Res string :=
  match names with
  | [] => Return "unknown"
  | name :: rest =>
      match result_of (find_template W templates name screenshot
                         default_threshold initial_state) with
      | Return (Some _) => Return name
      | Return None => classify_first rest screenshot
      | Raise e => Raise e
      end
  end.

Definition found (screenshot : option Frame) (name : string) : Prop :=
  exists b, result_of (find_template W templates name screenshot
                         default_threshold initial_state) = Return (Some b).

Definition not_found (screenshot : option Frame) (name : string) : Prop :=
  result_of (find_template W templates name screenshot
               default_threshold initial_state) = Return None.

End Vocabulary.

(** ** Real values of floats

    The value of the float with integer mantissa [m] and exponent [e] is
    [m * 2^e]; the theorems on the coordinate round trip compare these values
    with the integers the conversions start from. *)

Definition bpow (e : Z) : R := powerRZ 2 e.

Definition F2R (m e : Z) : R := (IZR m * bpow e)%R.
(** * Template files and the platform layer

    The methods embedded so far take the template library and the window
    query as given.  This part embeds the code that produces them:
    [load_templates] of [uma_automation.py], the file handling of
    [template_creator.py], and the platform-specific window search of
    [window_detector.py]. *)

(** ** Python's string operations on file names and command output *)

(** [s.endswith(suffix)]. *)
Definition endswith (s suffix : string) : bool :=
  let n := String.length s in
  let k := String.length suffix in
  (Nat.leb k n && String.eqb (String.substring (n - k) k s) suffix)%bool.

(** [s.rfind(c)] for a one-character [c]: the highest index, [-1] when
    there is none. *)
Fixpoint rfind_from (i : Z) (c : ascii) (s : string) : Z :=
  match s with
  | EmptyString => -1
  | String a rest =>
      let later := rfind_from (i + 1) c rest in
      if Z.leb 0 later then later
      else if Ascii.eqb a c then i else -1
  end.

Definition rfind (c : ascii) (s : string) : Z := rfind_from 0 c s.

(** The [while] of [genericpath._splitext]: whether one of the [steps]
    characters from [filenameIndex] on is not the dot. *)
Fixpoint skip_leading_dots (p : string) (filenameIndex steps : nat) : bool :=
  match steps with
  | O => false
  | S steps' =>
      if negb (String.eqb (String.substring filenameIndex 1 p) ".") then true
      else skip_leading_dots p (S filenameIndex) steps'
  end.

(** [os.path.splitext(p)], that is [genericpath._splitext(p, sep, altsep,
    '.')]: [sep] is ['/'] and [altsep] is absent on POSIX, [sep] is the
    backslash and [altsep] is ['/'] on Windows. *)
Definition splitext (sep : ascii) (altsep : option ascii) (p : string)
  : string * string :=
  let sepIndex :=
    match altsep with
    | Some a => Z.max (rfind sep p) (rfind a p)
    | None => rfind sep p
    end in
  let dotIndex := rfind "." p in
  if Z.ltb sepIndex dotIndex then
    if skip_leading_dots p (Z.to_nat (sepIndex + 1))
         (Z.to_nat (dotIndex - (sepIndex + 1)))
    then (String.substring 0 (Z.to_nat dotIndex) p,
          String.substring (Z.to_nat dotIndex)
            (String.length p - Z.to_nat dotIndex) p)
    else (p, "")
  else (p, "").

(** [s.split(sep)] for a non-empty separator: [skip] characters of a
    separator just recognised are still to be passed over, [field] is the
    field read so far. *)
Fixpoint split_from (sep : string) (s : string) (skip : nat) (field : string)
  : list string :=
  match s with
  | EmptyString => [field]
  | String c rest =>
      match skip with
      | S skip' => split_from sep rest skip' field
      | O =>
          if String.prefix sep s
          then field :: split_from sep rest (String.length sep - 1) ""
          else split_from sep rest 0 (String.append field (String c ""))
      end
  end.

Definition str_split (sep s : string) : list string := split_from sep s 0 "".

(** [s.split()]: the maximal runs of characters that are not whitespace. *)
Fixpoint split_whitespace_from (s : string) (field : string) : list string :=
  match s with
  | EmptyString => if String.eqb field "" then [] else [field]
  | String c rest =>
      if ascii_isspace c then
        if String.eqb field "" then split_whitespace_from rest ""
        else field :: split_whitespace_from rest ""
      else split_whitespace_from rest (String.append field (String c ""))
  end.

Definition split_whitespace (s : string) : list string :=
  split_whitespace_from s "".

(** ** The templates directory *)

(** What the file handling asks of the operating system and of OpenCV. *)
Record FileSystem (Template : Type) : Type := mkFileSystem {
  (** [os.sep] and [os.altsep] *)
  os_sep : ascii;
  os_altsep : option ascii;
  (** [os.path.exists] *)
  os_path_exists : string -> bool;
  (** [os.makedirs] *)
  os_makedirs : string -> Res unit;
  (** [os.listdir] *)
  os_listdir : string -> Res (list string);
  (** [os.path.join] *)
  os_path_join : string -> string -> string;
  (** [os.remove] *)
  os_remove : string -> Res unit;
  (** [cv2.imread] with [IMREAD_COLOR]; the result for a file OpenCV cannot
      read is Python's [None], a value of [Template] like any other *)
  cv2_imread : string -> Template
}.
Arguments os_sep {Template}.
Arguments os_altsep {Template}.
Arguments os_path_exists {Template}.
Arguments os_makedirs {Template}.
Arguments os_listdir {Template}.
Arguments os_path_join {Template}.
Arguments os_remove {Template}.
Arguments cv2_imread {Template}.

Inductive file_msg : Type :=
| CreatedTemplatesDirectory (templates_dir : string)
| LoadedTemplate (template_name : string).

(** The message boxes of the template creator, with title and text. *)
Inductive file_event : Type :=
| MakeDirs (path : string)
| RemoveFile (path : string)
| FileLog (l : level) (m : file_msg)
| ShowInfo (title message : string)
| ShowWarning (title message : string)
| ShowError (title : string)
| LoadTemplateList.

Definition templates_dir : string := "templates".

(** The suffixes of [filename.endswith(('.png', '.jpg', '.jpeg'))]. *)
Definition image_suffixes : list string := [".png"; ".jpg"; ".jpeg"].

Definition is_image_file (filename : string) : bool :=
  existsb (endswith filename) image_suffixes.

(** [f"{template_name}.png"], the file [save_template] writes and
    [delete_template] removes. *)
Definition template_file (template_name : string) : string :=
  String.append template_name ".png".

Section TemplateFiles.

Context {Template : Type}.
Variable fs : FileSystem Template.

(** [os.path.splitext(filename)[0]]. *)
Definition template_name_of (filename : string) : string :=
  fst (splitext (os_sep fs) (os_altsep fs) filename).

(** The body of the [for] of [load_templates] for one file name: the
    library and the log so far, and after. *)
Definition load_template (acc : gmap string Template * list file_event)
    (filename : string) : gmap string Template * list file_event :=
  if is_image_file filename then
    let template_name := template_name_of filename in
    let template_path := os_path_join fs templates_dir filename in
    (<[template_name := cv2_imread fs template_path]> (fst acc),
     snd acc ++ [FileLog INFO (LoadedTemplate template_name)])
  else acc.

(** [UmaMusumeAutomation.load_templates], on the library [templates] the
    object holds: the outcome, the library afterwards and the effects. *)
Definition load_templates (templates : gmap string Template)
  : Res unit * gmap string Template * list file_event :=
  if negb (os_path_exists fs templates_dir) then
    match os_makedirs fs templates_dir with
    | Return _ =>
        (Return tt, templates,
         [MakeDirs templates_dir;
          FileLog INFO (CreatedTemplatesDirectory templates_dir)])
    | Raise e => (Raise e, templates, [MakeDirs templates_dir])
    end
  else
    match os_listdir fs templates_dir with
    | Return filenames =>
        (Return tt,
         fst (fold_left load_template filenames (templates, [])),
         snd (fold_left load_template filenames (templates, [])))
    | Raise e => (Raise e, templates, [])
    end.

(** The library [UmaMusumeAutomation.__init__] builds: [self.templates = {}]
    followed by [self.load_templates()]. *)
Definition initial_templates : gmap string Template :=
  snd (fst (load_templates ∅)).

(** [TemplateCreator.load_template_list]: the entries of the list box after
    the call. *)
Definition load_template_list : Res (list string) :=
  if os_path_exists fs templates_dir then
    match os_listdir fs templates_dir with
    | Return filenames =>
        Return (fold_left
                  (fun listbox filename =>
                     if is_image_file filename
                     then listbox ++ [template_name_of filename]
                     else listbox)
                  filenames [])
    | Raise e => Raise e
    end
  else Return [].

(** [TemplateCreator.delete_template], on the entries of the list box and
    the indices [curselection()] reports; an index outside the list box
    reads as the empty string.  [LoadTemplateList] stands for the call of
    [load_template_list] that refreshes the list box. *)
Definition delete_template (listbox : list string) (selection : list nat)
  : Res unit * list file_event :=
  match selection with
  | [] =>
      (Return tt, [ShowWarning "Warning" "Please select a template to delete."])
  | index :: _ =>
      let template_name := nth index listbox "" in
      let template_path :=
        os_path_join fs templates_dir (template_file template_name) in
      if os_path_exists fs template_path then
        match os_remove fs template_path with
        | Return _ =>
            let done :=
              [RemoveFile template_path;
               ShowInfo "Success"
                 (String.append "Template "
                    (String.append template_name " deleted."));
               LoadTemplateList] in
            match load_template_list with
            | Return _ => (Return tt, done)
            | Raise Exception => (Return tt, done ++ [ShowError "Error"])
            | Raise KeyboardInterrupt => (Raise KeyboardInterrupt, done)
            end
        | Raise Exception =>
            (Return tt, [RemoveFile template_path; ShowError "Error"])
        | Raise KeyboardInterrupt =>
            (Raise KeyboardInterrupt, [RemoveFile template_path])
        end
      else (Return tt, [])
  end.

End TemplateFiles.

(** ** The platform layer of [window_detector.py] *)

(** The [returncode] and [stdout] of a [subprocess.CompletedProcess]. *)
Record CompletedProcess : Type := mkCompletedProcess {
  returncode : Z;
  stdout : string
}.

(** A top-level window as [win32gui] reports it to the callback of
    [EnumWindows]: [GetWindowRect] is [(left, top, right, bottom)]. *)
Record Win32Window : Type := mkWin32Window {
  IsWindowVisible : bool;
  GetWindowText : string;
  GetWindowRect : Z * Z * Z * Z
}.

(** [import win32gui] fails with [ImportError], or succeeds, and then
    [EnumWindows] visits the windows or raises. *)
Inductive Win32Gui : Type :=
| Win32ImportError
| Win32EnumWindows (windows : Res (list Win32Window)).

Record Platform : Type := mkPlatform {
  (** [platform.system()] *)
  platform_system : string;
  (** [subprocess.run] with captured text output *)
  subprocess_run : nat -> list string -> Res CompletedProcess;
  (** [int(s)] on a string *)
  int_of_string : string -> Res Z;
  (** [import win32gui] and [win32gui.EnumWindows] *)
  import_win32gui : nat -> Win32Gui;
  (** [pyautogui.size()] *)
  display_size : Z * Z
}.

Inductive detector_msg : Type :=
| UnsupportedOperatingSystem (system : string)
| ErrorFindingWindowOnMacOS
| Win32guiNotAvailable
| ErrorFindingWindowOnWindows
| ErrorFindingWindowOnLinux
| ErrorCheckingActiveWindow.

Inductive detector_event : Type :=
| Subprocess (cmd : list string)
| ImportWin32Gui
| DetectorLog (l : level) (m : detector_msg).

(** A run against the operating system: the state is the clock of the
    calls made to it, [E] is the type of the effects recorded. *)
Definition Run (E A : Type) : Type := nat -> Res A * nat * list E.

(** The monad of the platform layer. *)
Definition D (A : Type) : Type := Run detector_event A.

Definition d_ret {E A} (a : A) : Run E A := fun t => (Return a, t, []).

Definition d_bind {E A B} (m : Run E A) (f : A -> Run E B) : Run E B :=
  fun t =>
    match m t with
    | (Return a, t1, w1) =>
        match f a t1 with
        | (r, t2, w2) => (r, t2, w1 ++ w2)
        end
    | (Raise e, t1, w1) => (Raise e, t1, w1)
    end.

(** [try: m except Exception: h]. *)
Definition d_try {E A} (m : Run E A) (h : Run E A) : Run E A :=
  fun t =>
    match m t with
    | (Raise Exception, t1, w1) =>
        match h t1 with
        | (r, t2, w2) => (r, t2, w1 ++ w2)
        end
    | other => other
    end.

Definition d_lift {E A} (r : Res A) : Run E A := fun t => (r, t, []).
Definition d_log (l : level) (m : detector_msg) : D unit :=
  fun t => (Return tt, t, [DetectorLog l m]).

Declare Scope det_scope.
Delimit Scope det_scope with det.
Notation "x <- m ;; k" := (d_bind m (fun x => k))
  (at level 100, m at next level, right associativity) : det_scope.
Notation "m ;;; k" := (d_bind m (fun _ => k))
  (at level 100, right associativity) : det_scope.

Definition d_result {E A} (o : Res A * nat * list E) : Res A := fst (fst o).
Definition d_clock {E A} (o : Res A * nat * list E) : nat := snd (fst o).
Definition d_events {E A} (o : Res A * nat * list E) : list E := snd o.

(** The double quote, for the AppleScript sources. *)
Definition dquote : string := String (ascii_of_nat 34) "".

Definition quoted (s : string) : string :=
  String.append dquote (String.append s dquote).

(** [tell application "System Events" to get position and size of window 1
    of process "<process>"]. *)
Definition position_and_size_script (process : string) : string :=
  String.append "tell application "
    (String.append (quoted "System Events")
       (String.append " to get position and size of window 1 of process "
          (quoted process))).

(** The title test of the Windows and Linux searches. *)
Definition is_game_title (title : string) : bool :=
  (str_in "Uma Musume" title || str_in "Pretty Derby" title)%bool.

(** [x, y, w, h = rect[0], rect[1], rect[2] - rect[0], rect[3] - rect[1]]. *)
Definition rect_of_window_rect (rect : Z * Z * Z * Z) : Rect :=
  match rect with
  | (rect0, rect1, rect2, rect3) => (rect0, rect1, rect2 - rect0, rect3 - rect1)
  end.

(** The callback of [EnumWindows], on the list [windows] it appends to. *)
Definition enum_windows_callback (windows : list Rect) (hwnd : Win32Window)
  : list Rect :=
  if IsWindowVisible hwnd then
    if is_game_title (GetWindowText hwnd)
    then windows ++ [rect_of_window_rect (GetWindowRect hwnd)]
    else windows
  else windows.

(** The line feed, the separator of the output of [wmctrl -l]. *)
Definition line_feed : string := String (ascii_of_nat 10) "".

(** [tell application "System Events" to get name of first process whose
    frontmost is true]. *)
Definition frontmost_script : string :=
  String.append "tell application "
    (String.append (quoted "System Events")
       " to get name of first process whose frontmost is true").

Module WindowDetector.

Local Open Scope det_scope.

Section Methods.

Variable P : Platform.

Definition run (cmd : list string) : D CompletedProcess :=
  fun t => (subprocess_run P t cmd, S t, [Subprocess cmd]).

(** [x, y, width, height = map(int, fields)]; unpacking anything but four
    values raises [ValueError]. *)
Definition four_ints (fields : list string) : D Rect :=
  match fields with
  | [a; b; c; d] =>
      x <- d_lift (int_of_string P a) ;;
      y <- d_lift (int_of_string P b) ;;
      width <- d_lift (int_of_string P c) ;;
      height <- d_lift (int_of_string P d) ;;
      d_ret (x, y, width, height)
  | _ => d_lift (Raise Exception)
  end.

(** One of the two [osascript] queries of [_find_window_macos]: the
    rectangle it makes the method return, or [None] when the method goes
    on. *)
Definition query_process (process : string) : D (option Rect) :=
  result <- run ["osascript"; "-e"; position_and_size_script process] ;;
  if Z.eqb (returncode result) 0 then
    let coords := str_split ", " (str_strip (stdout result)) in
    if Nat.eqb (List.length coords) 4 then
      rect <- four_ints coords ;; d_ret (Some rect)
    else d_ret None
  else d_ret None.

(** [WindowDetector._find_window_macos]. *)
Definition _find_window_macos : D (option Rect) :=
  d_try
    (first <- query_process "Uma Musume" ;;
     match first with
     | Some rect => d_ret (Some rect)
     | None => query_process "Uma Musume Pretty Derby"
     end)
    (d_log ERROR ErrorFindingWindowOnMacOS ;;; d_ret None).

Definition import_win32gui_and_enumerate : D Win32Gui :=
  fun t => (Return (import_win32gui P t), S t, [ImportWin32Gui]).

(** [WindowDetector._find_window_windows]. *)
Definition _find_window_windows : D (option Rect) :=
  gui <- import_win32gui_and_enumerate ;;
  match gui with
  | Win32EnumWindows (Return hwnds) =>
      match fold_left enum_windows_callback hwnds [] with
      | first :: _ => d_ret (Some first)
      | [] => d_ret None
      end
  | Win32EnumWindows (Raise e) => d_lift (Raise e)
  | Win32ImportError =>
      d_log WARNING Win32guiNotAvailable ;;;
      d_try
        (result <- run ["tasklist"; "/FI"; "IMAGENAME eq UmaMusume.exe"] ;;
         if str_in "UmaMusume.exe" (stdout result) then
           match display_size P with
           | (screen_width, screen_height) =>
               d_ret (Some (0, 0, screen_width, screen_height))
           end
         else d_ret None)
        (d_log ERROR ErrorFindingWindowOnWindows ;;; d_ret None)
  end.

(** The [for line in lines] of [_find_window_linux]. *)
Fixpoint scan_lines (lines : list string) : D (option Rect) :=
  match lines with
  | [] => d_ret None
  | line :: rest =>
      if is_game_title line then
        let parts := split_whitespace line in
        if Nat.leb 2 (List.length parts) then
          let window_id := nth 0 parts "" in
          geom_result <- run ["wmctrl"; "-G"; "-r"; window_id] ;;
          if Z.eqb (returncode geom_result) 0 then
            let geom_parts := split_whitespace (stdout geom_result) in
            if Nat.leb 6 (List.length geom_parts) then
              rect <- four_ints (firstn 4 (skipn 2 geom_parts)) ;;
              d_ret (Some rect)
            else scan_lines rest
          else scan_lines rest
        else scan_lines rest
      else scan_lines rest
  end.

(** [WindowDetector._find_window_linux]. *)
Definition _find_window_linux : D (option Rect) :=
  d_try
    (result <- run ["wmctrl"; "-l"] ;;
     if Z.eqb (returncode result) 0
     then scan_lines (str_split line_feed (stdout result))
     else d_ret None)
    (d_log ERROR ErrorFindingWindowOnLinux ;;; d_ret None).

(** [WindowDetector.find_uma_musume_window]. *)
Definition find_uma_musume_window : D (option Rect) :=
  if String.eqb (platform_system P) "Darwin" then _find_window_macos
  else if String.eqb (platform_system P) "Windows" then _find_window_windows
  else if String.eqb (platform_system P) "Linux" then _find_window_linux
  else
    d_log ERROR (UnsupportedOperatingSystem (platform_system P)) ;;; d_ret None.

(** [WindowDetector.is_game_window_active]. *)
Definition is_game_window_active : D bool :=
  if String.eqb (platform_system P) "Darwin" then
    d_try
      (result <- run ["osascript"; "-e"; frontmost_script] ;;
       if Z.eqb (returncode result) 0
       then d_ret (str_in "Uma Musume" (str_strip (stdout result)))
       else d_ret true)
      (d_log ERROR ErrorCheckingActiveWindow ;;; d_ret true)
  else d_ret true.

End Methods.

End WindowDetector.

(** ** The capture buttons of [template_creator.py] *)

(** What the capture buttons ask of Pillow and of the canvas:
    [display_screenshot] resizes the image and draws it, and is taken as a
    whole. *)
Record Canvas (Image : Type) : Type := mkCanvas {
  (** [ImageGrab.grab(bbox=...)] *)
  grab : nat -> option Box -> Res Image;
  (** [TemplateCreator.display_screenshot] *)
  display_screenshot : Image -> Res unit
}.
Arguments grab {Image}.
Arguments display_screenshot {Image}.

(** The effects of a capture button: those of the window search, the
    grabs, the drawing and the message boxes.  The text of an error box
    ends with the text of the exception, which is left out. *)
Inductive creator_event : Type :=
| Search (e : detector_event)
| GrabImage (bbox : option Box)
| DisplayScreenshot
| MessageBox (kind : level) (title message : string).

Module TemplateCreator.

Local Open Scope det_scope.

Section Buttons.

Context {Image : Type}.
Variable P : Platform.
Variable canvas : Canvas Image.

Definition searching {A} (m : D A) : Run creator_event A :=
  fun t =>
    match m t with
    | (r, t1, w) => (r, t1, map Search w)
    end.

Definition grab_image (bbox : option Box) : Run creator_event Image :=
  fun t => (grab canvas t bbox, S t, [GrabImage bbox]).

Definition display (screenshot : Image) : Run creator_event unit :=
  fun t => (display_screenshot canvas screenshot, t, [DisplayScreenshot]).

Definition message (kind : level) (title text : string) : Run creator_event unit :=
  fun t => (Return tt, t, [MessageBox kind title text]).

(** [WindowDetector().get_game_region()]: the detector is new, so that
    nothing is cached. *)
Definition get_game_region : D (option Box) :=
  window_rect <- WindowDetector.find_uma_musume_window P ;;
  match window_rect with
  | Some (x, y, width, height) => d_ret (Some (x, y, x + width, y + height))
  | None => d_ret None
  end.

(** [TemplateCreator.capture_screen]. *)
Definition capture_screen : Run creator_event unit :=
  d_try
    (screenshot <- grab_image None ;;
     display screenshot ;;;
     message INFO "Success" "Screenshot captured successfully!")
    (message ERROR "Error" "Failed to capture screenshot: ").

(** [TemplateCreator.capture_game_window]. *)
Definition capture_game_window : Run creator_event unit :=
  d_try
    (game_region <- searching get_game_region ;;
     match game_region with
     | Some region =>
         screenshot <- grab_image (Some region) ;;
         display screenshot ;;;
         message INFO "Success" "Game window captured successfully!"
     | None =>
         message WARNING "Warning"
           "Game window not detected. Capturing full screen instead." ;;;
         capture_screen
     end)
    (message ERROR "Error" "Failed to capture game window: " ;;;
     capture_screen).

End Buttons.

End TemplateCreator.
(** ** Counting events *)

Definition is_click (e : event) : bool :=
  match e with
  | Click _ _ => true
  | _ => false
  end.

Definition is_grab (e : event) : bool :=
  match e with
  | Grab _ => true
  | _ => false
  end.

Definition is_classification (e : event) : bool :=
  match e with
  | Log _ (CurrentScreen _) => true
  | _ => false
  end.

(** The number of events satisfying [p]. *)
Fixpoint count_events (p : event -> bool) (w : list event) : nat :=
  match w with
  | [] => O
  | e :: rest => ((if p e then 1 else 0) + count_events p rest)%nat
  end.

(** The points clicked, in order. *)
Fixpoint clicks (w : list event) : list (Z * Z) :=
  match w with
  | [] => []
  | Click x y :: rest => (x, y) :: clicks rest
  | _ :: rest => clicks rest
  end.

(** [spends p n m]: from any state, [m] produces at most [n] events
    satisfying [p]. *)
Definition spends {A} (p : event -> bool) (n : nat) (m : M A) : Prop :=
  forall s, (count_events p (events_of (m s)) <= n)%nat.

(** [within p q m]: from any state, [m] produces no more events satisfying
    [p] than events satisfying [q]. *)
Definition within {A} (p q : event -> bool) (m : M A) : Prop :=
  forall s,
    (count_events p (events_of (m s)) <= count_events q (events_of (m s)))%nat.

(** An event of a run that recognises nothing: not a click, and a
    classification only as unknown. *)
Definition recognises_nothing (e : event) : Prop :=
  is_click e = false
  /\ forall l current_screen,
       e = Log l (CurrentScreen current_screen) -> current_screen = "unknown".

(** The templates without which the automation can neither classify a
    screen nor press the continue button. *)
Definition essential_templates : list string :=
  ["main_menu"; "training_screen"; "race_screen"; "event_screen";
   "continue_button"].

(** ** Vocabulary for file names *)

(** Whether the character [c] occurs in [s]. *)
Fixpoint occurs (c : ascii) (s : string) : bool :=
  match s with
  | EmptyString => false
  | String a rest => (Ascii.eqb a c || occurs c rest)%bool
  end.

(** Whether [s] consists of dots only (the empty string does). *)
Fixpoint only_dots (s : string) : bool :=
  match s with
  | EmptyString => true
  | String a rest => (Ascii.eqb a "." && only_dots rest)%bool
  end.

(** Whether a path separator of the file system [fs] occurs in [s]. *)
Definition has_separator {Template} (fs : FileSystem Template) (s : string) : bool :=
  (occurs (os_sep fs) s
   || match os_altsep fs with
      | Some a => occurs a s
      | None => false
      end)%bool.

(** The last of [filenames] that [load_templates] stores under [name]. *)
Definition last_file_named {Template} (fs : FileSystem Template)
    (name : string) (filenames : list string) : option string :=
  List.find (fun filename =>
               (is_image_file filename
                && String.eqb (template_name_of fs filename) name)%bool)
            (rev filenames).

(** The commands run among the events of the platform layer, in order. *)
Fixpoint subprocesses (w : list detector_event) : list (list string) :=
  match w with
  | [] => []
  | Subprocess cmd :: rest => cmd :: subprocesses rest
  | _ :: rest => subprocesses rest
  end.

(** The first visible window with the game's title, as the callback of the
    Windows search selects it. *)
Definition first_game_window (hwnds : list Win32Window) : option Win32Window :=
  List.find (fun hwnd => (IsWindowVisible hwnd && is_game_title (GetWindowText hwnd))%bool)
            hwnds.

(** The geometry query of the Linux search for a line of [wmctrl -l]. *)
Definition geometry_query (line : string) : list string :=
  ["wmctrl"; "-G"; "-r"; nth 0 (split_whitespace line) ""].

(** ** Vocabulary for the counters and the faults *)

(** The log line of a click that could not be injected. *)
Definition failed_click (e : event) : bool :=
  match e with
  | Log _ (FailedToClickAt _ _) => true
  | _ => false
  end.

(** The log line a screen handler starts with. *)
Definition enters_handler (e : event) : bool :=
  match e with
  | Log _ HandlingMainMenu | Log _ HandlingTrainingScreen
  | Log _ HandlingEventScreen | Log _ HandlingRaceScreen
  | Log _ HandlingRaceResultScreen | Log _ HandlingTrainingResultScreen
  | Log _ HandlingChoiceScreen => true
  | _ => false
  end.

(** The log line of a focus request that failed. *)
Definition is_focus_error (e : event) : bool :=
  match e with
  | Log _ ErrorFocusingWindow => true
  | _ => false
  end.

(** The world [W] with another answer of [osascript] to the request to
    activate the game. *)
Definition with_osascript {Frame Template : Type} (answer : nat -> Res Z)
    (W : World Frame Template) : World Frame Template :=
  mkWorld Frame Template
    (find_uma_musume_window W) (ImageGrab_grab W) (cv2_matchTemplate W)
    (template_shape W) (image_to_string W) (pyautogui_click W)
    answer (stop_requested W) (pyautogui_size W) (system W).

(** What [click_at] does before the click: the focus request and the
    pause after it, when window detection is enabled. *)
Definition before_click {Frame Template : Type} (W : World Frame Template)
    (config : Config) : M unit :=
  if window_detection_enabled config
  then bind (focus_game_window W) (fun _ => sleep 0x1.999999999999ap-4)
  else ret tt.

(** The lines of [wmctrl -l] that carry the game's title. *)
Definition title_lines (lines : list string) : list string :=
  List.filter is_game_title lines.

(** Whether the Linux search, asking from clock [t] on, passes over all of
    [lines]: each title line among them gets a geometry reply with a
    return code other than 0 or with fewer than six fields. *)
Fixpoint passed_over (P : Platform) (t : nat) (lines : list string) : bool :=
  match lines with
  | [] => true
  | line :: rest =>
      if is_game_title line then
        match subprocess_run P t (geometry_query line) with
        | Return geom =>
            (negb (Z.eqb (returncode geom) 0
                   && Nat.leb 6 (List.length (split_whitespace (stdout geom))))
             && passed_over P (S t) rest)%bool
        | Raise _ => false
        end
      else passed_over P t rest
  end.


(** What a handler reports once its button has been looked for: success
    when the button is found and the click returns, failure when it is not
    found. *)
Definition report_of (btn : Res (option Box)) (click : Box -> Res unit)
  : Res bool :=
  match btn with
  | Return (Some b) =>
      match click b with
      | Return _ => Return true
      | Raise e => Raise e
      end
  | Return None => Return false
  | Raise e => Raise e
  end.

(** The two log lines that go with an increment of [errors_encountered]:
    the one of [click_at] and the one of the loop's [except] clause. *)
Definition counted_error (e : event) : bool :=
  match e with
  | Log _ (FailedToClickAt _ _) | Log _ ErrorInAutomationLoop => true
  | _ => false
  end.

(** [tallies p m]: [m] adds to [errors_encountered] exactly the number of
    events satisfying [p] it produces. *)
Definition tallies {A} (p : event -> bool) (m : M A) : Prop :=
  forall s,
    errors_encountered (session_stats (state_of (m s)))
    = errors_encountered (session_stats s)
      + Z.of_nat (count_events p (events_of (m s))).

(** [quiet m]: [m] leaves [errors_encountered] alone and writes neither of
    the two log lines. *)
Definition quiet {A} (m : M A) : Prop :=
  forall s,
    errors_encountered (session_stats (state_of (m s)))
    = errors_encountered (session_stats s)
    /\ count_events counted_error (events_of (m s)) = O.

(** [grabs_on_entry capture l m o]: the effects [o] of a handler are its
    log line, the effects [capture] of a capture, and a rest in which the
    grabber is not asked. *)
Definition grabs_on_entry {A} (capture : list event) (l : level) (m : log_msg)
    (o : Res A * State * list event) : Prop :=
  exists rest,
    events_of o = Log l m :: capture ++ rest
    /\ count_events is_grab rest = O.

(** ** Concrete installations

    File systems and platforms of the examples.  A template image is the
    path it was read from. *)

Module Installation.

(** The training screen with the power and the guts option on it. *)
Definition training_frame : Scenario.frame :=
  Scenario.mkFrame ["training_screen"; "power_train"; "guts_train"] "".

(** The race screen with both buttons on it. *)
Definition race_frame : Scenario.frame :=
  Scenario.mkFrame ["race_screen"; "skip_race_button"; "race_start_button"] "".

(** A library with the training options and the race buttons. *)
Definition training_library : gmap string string :=
  list_to_map
    (map (fun n => (n, n))
       ["main_menu"; "training_screen"; "race_screen"; "event_screen";
        "speed_train"; "stamina_train"; "power_train"; "guts_train";
        "intelligence_train"; "technique_train";
        "race_start_button"; "skip_race_button"]).

(** A world in which the screen cannot be grabbed. *)
Definition dark : World Scenario.frame string :=
  Scenario.showing (fun _ => Raise Exception).

(** A world whose window search fails. *)
Definition no_window_system : World Scenario.frame string :=
  mkWorld Scenario.frame string
    (fun _ => Raise Exception)
    (fun _ _ => Return Scenario.blank)
    Scenario.matcher
    (fun _ => (30, 40))
    (fun f _ => Return (Scenario.text f))
    (fun _ _ _ => Return tt)
    (fun _ => Return 0)
    (fun _ => false)
    (1920, 1080)
    "Linux".

Definition tracked : Config := mkConfig true false 1%float.
Definition skipping : Config := mkConfig false true 1%float.

(** A POSIX file system whose templates directory lists [filenames]. *)
Definition posix_directory (filenames : list string) : FileSystem string :=
  mkFileSystem string "/" None
    (fun _ => true)
    (fun _ => Return tt)
    (fun _ => Return filenames)
    (fun directory filename =>
       String.append directory (String.append "/" filename))
    (fun _ => Return tt)
    (fun path => path).

(** The file system of a first run: nothing exists yet. *)
Definition first_run : FileSystem string :=
  mkFileSystem string "/" None
    (fun _ => false)
    (fun _ => Return tt)
    (fun _ => Raise Exception)
    (fun directory filename =>
       String.append directory (String.append "/" filename))
    (fun _ => Return tt)
    (fun path => path).

(** [int] on an unsigned decimal numeral, for the example platforms below:
    a sign, surrounding blanks and underscores, which Python's [int] also
    accepts, do not occur in their replies.  The theorems take the
    platform's [int] as it comes. *)
Fixpoint decimal_value (s : string) (acc : Z) : Res Z :=
  match s with
  | EmptyString => Return acc
  | String c rest =>
      let n := nat_of_ascii c in
      if (Nat.leb 48 n && Nat.leb n 57)%bool
      then decimal_value rest (10 * acc + Z.of_nat (n - 48))
      else Raise Exception
  end.

Definition int_of_decimal (s : string) : Res Z :=
  match s with
  | EmptyString => Raise Exception
  | _ => decimal_value s 0
  end.

(** A Mac on which every [osascript] call answers [reply] with code 0. *)
Definition mac (reply : string) : Platform :=
  mkPlatform "Darwin"
    (fun _ _ => Return (mkCompletedProcess 0 reply))
    int_of_decimal
    (fun _ => Win32ImportError)
    (1920, 1080).

(** A Windows machine with [win32gui] and the given top-level windows. *)
Definition pc (hwnds : list Win32Window) : Platform :=
  mkPlatform "Windows"
    (fun _ _ => Raise Exception)
    int_of_decimal
    (fun _ => Win32EnumWindows (Return hwnds))
    (1920, 1080).

(** A Windows machine without [win32gui] on which the game runs. *)
Definition pc_without_win32gui : Platform :=
  mkPlatform "Windows"
    (fun _ _ => Return (mkCompletedProcess 0 "UmaMusume.exe  4242 Console"))
    int_of_decimal
    (fun _ => Win32ImportError)
    (1920, 1080).

Definition desktop : list Win32Window :=
  [mkWin32Window false "Uma Musume" (0, 0, 10, 10);
   mkWin32Window true "Terminal" (5, 5, 300, 200);
   mkWin32Window true "Uma Musume Pretty Derby" (100, 50, 900, 650);
   mkWin32Window true "Pretty Derby wiki" (0, 0, 640, 480)].

(** A Linux machine: [wmctrl -l] prints [listing], a geometry query prints
    [geometry]. *)
Definition linux (listing geometry : string) : Platform :=
  mkPlatform "Linux"
    (fun _ cmd =>
       match cmd with
       | [_; "-l"] => Return (mkCompletedProcess 0 listing)
       | _ => Return (mkCompletedProcess 0 geometry)
       end)
    int_of_decimal
    (fun _ => Win32ImportError)
    (1920, 1080).

Definition two_windows : string :=
  String.append "0x01 0 host Terminal"
    (String.append line_feed "0x02 0 host Uma Musume").

(** A system the window search does not know. *)
Definition bsd : Platform :=
  mkPlatform "FreeBSD"
    (fun _ _ => Raise Exception)
    int_of_decimal
    (fun _ => Win32ImportError)
    (1920, 1080).

(** A cached window without width. *)
Definition flat_window : State :=
  mkState true (Some (100, 50, 0, 600)) None initial_stats 0 0.

(** A Mac on which [osascript] answers 1 to the request to activate the
    game. *)
Definition unfocusable_mac : World Scenario.frame string :=
  mkWorld Scenario.frame string
    (fun _ => Return (Some (100, 50, 800, 600)))
    (fun _ _ => Return Scenario.blank)
    Scenario.matcher
    (fun _ => (30, 40))
    (fun f _ => Return (Scenario.text f))
    (fun _ _ _ => Return tt)
    (fun _ => Return 1)
    (fun _ => false)
    (1920, 1080)
    "Darwin".

(** A canvas on which only the full screen can be grabbed; an image is the
    name of what it shows. *)
Definition studio : Canvas string :=
  mkCanvas string
    (fun _ bbox =>
       match bbox with
       | None => Return "screen"
       | Some _ => Raise Exception
       end)
    (fun _ => Return tt).

(** A world in which OpenCV fails on every match. *)
Definition no_opencv : World Scenario.frame string :=
  mkWorld Scenario.frame string
    (fun _ => Return (Some (100, 50, 800, 600)))
    (fun _ _ => Return Scenario.main_menu_frame)
    (fun _ _ => Raise Exception)
    (fun _ => (30, 40))
    (fun f _ => Return (Scenario.text f))
    (fun _ _ _ => Return tt)
    (fun _ => Return 0)
    (fun _ => false)
    (1920, 1080)
    "Linux".


(** A terminal and two windows of the game, the first of them gone by the
    time its geometry is asked for. *)
Definition three_windows : string :=
  String.append "0x01 0 host Terminal"
    (String.append line_feed
       (String.append "0x02 0 host Uma Musume"
          (String.append line_feed "0x03 0 host Pretty Derby"))).

Definition linux_with_stale_window : Platform :=
  mkPlatform "Linux"
    (fun _ cmd =>
       match cmd with
       | [_; "-l"] => Return (mkCompletedProcess 0 three_windows)
       | [_; _; _; "0x02"] => Return (mkCompletedProcess 1 "")
       | _ => Return (mkCompletedProcess 0
                        "0x03 0 100 50 800 600 host Pretty Derby")
       end)
    int_of_decimal
    (fun _ => Win32ImportError)
    (1920, 1080).

End Installation.

(** * Facts *)

(** ** Reasoning rules of the monad *)

Lemma bind_Return {A B} (m : M A) (f : A -> M B) s a s1 w1 :
  m s = (Return a, s1, w1) ->
  bind m f s = (result_of (f a s1), state_of (f a s1), w1 ++ events_of (f a s1)).
Proof.
  intros H. unfold bind, result_of, state_of, events_of. rewrite H.
  destruct (f a s1) as [[r s2] w2]. reflexivity.
Qed.

Lemma bind_Raise {A B} (m : M A) (f : A -> M B) s e s1 w1 :
  m s = (Raise e, s1, w1) -> bind m f s = (Raise e, s1, w1).
Proof. intros H. unfold bind. rewrite H. reflexivity. Qed.

Lemma outcome_eta {A} (o : Res A * State * list event) :
  o = (result_of o, state_of o, events_of o).
Proof. destruct o as [[r s] w]. reflexivity. Qed.

Section Follows.

Variable I : State -> Prop.
Variable R : State -> State -> Prop.
Variable P : event -> Prop.
Hypothesis R_refl : forall s, R s s.
Hypothesis R_trans : forall s1 s2 s3, R s1 s2 -> R s2 s3 -> R s1 s3.

Lemma follows_ret {A} (a : A) : follows I R P (ret a).
Proof. intros s Hs. repeat split; [exact Hs | apply R_refl | constructor]. Qed.

Lemma follows_gets {A} (f : State -> A) : follows I R P (gets f).
Proof. intros s Hs. repeat split; [exact Hs | apply R_refl | constructor]. Qed.

Lemma follows_lift_res {A} (r : Res A) : follows I R P (lift_res r).
Proof. intros s Hs. repeat split; [exact Hs | apply R_refl | constructor]. Qed.

Lemma follows_modify (f : State -> State) :
  (forall s, I s -> I (f s) /\ R s (f s)) -> follows I R P (modify f).
Proof.
  intros H s Hs. destruct (H s Hs). repeat split; [assumption .. | constructor].
Qed.

Lemma follows_emit (e : event) : P e -> follows I R P (emit e).
Proof.
  intros H s Hs.
  repeat split; [exact Hs | apply R_refl | repeat constructor; exact H].
Qed.

Lemma follows_ask {A} (e : event) (oracle : nat -> Res A) :
  (forall s, I s -> I (tick s) /\ R s (tick s)) -> P e ->
  follows I R P (ask e oracle).
Proof.
  intros H He s Hs. destruct (H s Hs).
  repeat split; [assumption .. | repeat constructor; exact He].
Qed.

(** The continuation needs to behave only on the values [m] can return. *)
Lemma follows_bind_val {A B} (m : M A) (f : A -> M B) :
  follows I R P m ->
  (forall a, (exists s, result_of (m s) = Return a) -> follows I R P (f a)) ->
  follows I R P (bind m f).
Proof.
  intros Hm Hf s Hs. destruct (Hm s Hs) as (HI & HR & HP).
  unfold bind. destruct (m s) as [[r s1] w1] eqn:E.
  unfold state_of, events_of in *. simpl in HI, HR, HP.
  destruct r as [a | e]; simpl; [| repeat split; assumption].
  assert (Ha : exists s0, result_of (m s0) = Return a)
    by (exists s; rewrite E; reflexivity).
  destruct (Hf a Ha s1 HI) as (HI2 & HR2 & HP2).
  destruct (f a s1) as [[r2 s2] w2]. simpl in *. repeat split.
  - assumption.
  - eapply R_trans; eassumption.
  - apply Forall_app. split; assumption.
Qed.

Lemma follows_bind {A B} (m : M A) (f : A -> M B) :
  follows I R P m -> (forall a, follows I R P (f a)) -> follows I R P (bind m f).
Proof. intros Hm Hf. apply follows_bind_val; auto. Qed.

Lemma follows_try_except {A} (m h : M A) :
  follows I R P m -> follows I R P h -> follows I R P (try_except m h).
Proof.
  intros Hm Hh s Hs. destruct (Hm s Hs) as (HI & HR & HP).
  unfold try_except. destruct (m s) as [[r s1] w1].
  unfold state_of, events_of in *. simpl in HI, HR, HP.
  destruct r as [a | [|]]; simpl; try (repeat split; assumption).
  destruct (Hh s1 HI) as (HI2 & HR2 & HP2).
  destruct (h s1) as [[r2 s2] w2]. simpl in *. repeat split.
  - assumption.
  - eapply R_trans; eassumption.
  - apply Forall_app. split; assumption.
Qed.

End Follows.

Lemma follows_weaken {A} (I : State -> Prop) (R R' : State -> State -> Prop)
    (P P' : event -> Prop) (m : M A) :
  (forall s s', R s s' -> R' s s') -> (forall e, P e -> P' e) ->
  follows I R P m -> follows I R' P' m.
Proof.
  intros HR HP H s Hs. destruct (H s Hs) as (H0 & H1 & H2).
  repeat split; [assumption | auto |].
  eapply Forall_impl; eassumption.
Qed.

(** Rules for [yields]. *)

Lemma yields_ret {A} (a : A) (Q : Res A -> Prop) : Q (Return a) -> yields (ret a) Q.
Proof. intros H s. exact H. Qed.

Lemma yields_returns {A} (m : M A) (Q : Res A -> Prop) :
  (forall s, exists a, result_of (m s) = Return a /\ Q (Return a)) -> yields m Q.
Proof. intros H s. destruct (H s) as (a & -> & Ha). exact Ha. Qed.

Lemma yields_bind {A B} (m : M A) (f : A -> M B)
    (Qm : Res A -> Prop) (Q : Res B -> Prop) :
  yields m Qm ->
  (forall e, Qm (Raise e) -> Q (Raise e)) ->
  (forall a, Qm (Return a) -> yields (f a) Q) ->
  yields (bind m f) Q.
Proof.
  intros Hm He Hf s. specialize (Hm s). unfold bind.
  destruct (m s) as [[r s1] w1]. unfold result_of in Hm. simpl in Hm.
  destruct r as [a | e].
  - specialize (Hf a Hm s1). destruct (f a s1) as [[r2 s2] w2]. exact Hf.
  - apply He. exact Hm.
Qed.

Lemma yields_weaken {A} (m : M A) (Q Q' : Res A -> Prop) :
  (forall r, Q r -> Q' r) -> yields m Q -> yields m Q'.
Proof. intros H Hm s. apply H, Hm. Qed.

Lemma yields_try_except {A} (m h : M A) (Qm Q : Res A -> Prop) :
  yields m Qm ->
  (forall a, Qm (Return a) -> Q (Return a)) ->
  (Qm (Raise KeyboardInterrupt) -> Q (Raise KeyboardInterrupt)) ->
  (Qm (Raise Exception) -> yields h Q) ->
  yields (try_except m h) Q.
Proof.
  intros Hm Ha Hk Hh s. specialize (Hm s). unfold try_except.
  destruct (m s) as [[r s1] w1]. unfold result_of in Hm. simpl in Hm.
  destruct r as [a | [|]].
  - apply Ha, Hm.
  - apply Hk, Hm.
  - specialize (Hh Hm s1). destruct (h s1) as [[r2 s2] w2]. exact Hh.
Qed.



(** Side conditions on the kind of an event are decided by cases. *)
Ltac by_kind :=
  let e := fresh "e" in
  let He := fresh "He" in
  intros e He; destruct e as [? [] | | | | |];
  try discriminate He; try reflexivity; try exact Logic.I.

(** ** What the methods leave alone *)

Section AutomationFacts.

Context {Frame Template : Type}.
Variable W : World Frame Template.
Variable config : Config.
Variable templates : gmap string Template.

(** *** [find_template] and [detect_screen], by cases *)

Lemma find_template_absent name screenshot threshold s :
  templates !! name = None ->
  find_template W templates name screenshot threshold s
  = (Return None, s, [Log WARNING (TemplateNotFound name)]).
Proof. intros H. unfold find_template. rewrite H. reflexivity. Qed.

(** [find_template] neither touches the state nor produces anything but
    the warning about a missing template. *)
Lemma find_template_pure name screenshot threshold s :
  state_of (find_template W templates name screenshot threshold s) = s
  /\ (events_of (find_template W templates name screenshot threshold s) = []
      \/ events_of (find_template W templates name screenshot threshold s)
         = [Log WARNING (TemplateNotFound name)]).
Proof.
  unfold find_template.
  destruct (templates !! name) as [t |]; [| split; [reflexivity | right; reflexivity]].
  unfold bind, match_template.
  destruct screenshot as [f |]; [| split; [reflexivity | left; reflexivity]].
  destruct (cv2_matchTemplate W f t) as [[v [x y]] | e];
    [| split; [reflexivity | left; reflexivity]].
  destruct (PrimFloat.leb threshold v);
    [destruct (template_shape W t) |]; split; try reflexivity; left; reflexivity.
Qed.


Lemma find_template_state name screenshot threshold s :
  state_of (find_template W templates name screenshot threshold s) = s.
Proof. apply find_template_pure. Qed.

(** The answer of [find_template] does not depend on the state. *)
Lemma find_template_result name screenshot threshold s s' :
  result_of (find_template W templates name screenshot threshold s)
  = result_of (find_template W templates name screenshot threshold s').
Proof.
  unfold find_template.
  destruct (templates !! name) as [t |]; [| reflexivity].
  unfold bind, match_template.
  destruct screenshot as [f |]; [| reflexivity].
  destruct (cv2_matchTemplate W f t) as [[v [x y]] | e]; [| reflexivity].
  destruct (PrimFloat.leb threshold v);
    [destruct (template_shape W t) |]; reflexivity.
Qed.

(** A template is found exactly when it is in the library and its best
    score on the frame reaches the threshold. *)
Lemma find_template_found name screenshot threshold s b :
  result_of (find_template W templates name screenshot threshold s) = Return (Some b)
  <-> exists frame template max_val x y,
        screenshot = Some frame
        /\ templates !! name = Some template
        /\ cv2_matchTemplate W frame template = Return (max_val, (x, y))
        /\ PrimFloat.leb threshold max_val = true
        /\ b = (x, y, x + snd (template_shape W template),
                      y + fst (template_shape W template)).
Proof.
  unfold find_template. split.
  - destruct (templates !! name) as [t |]; [| discriminate].
    unfold bind, match_template.
    destruct screenshot as [f |]; [| discriminate].
    destruct (cv2_matchTemplate W f t) as [[v [x y]] | e] eqn:E; [| discriminate].
    destruct (PrimFloat.leb threshold v) eqn:L; [| discriminate].
    destruct (template_shape W t) as [h w] eqn:Sh. cbn.
    intros H. injection H as <-.
    exists f, t, v, x, y. rewrite Sh. auto.
  - intros (f & t & v & x & y & -> & -> & E & L & ->).
    unfold bind, match_template. rewrite E, L.
    destruct (template_shape W t) as [h w]. reflexivity.
Qed.



(** One test of [detect_screen]. *)
Lemma bind_find_template {B} name screenshot (k : option Box -> M B) s :
  result_of (bind (find_template W templates name screenshot default_threshold) k s)
  = match result_of (find_template W templates name screenshot
                       default_threshold initial_state) with
    | Return o => result_of (k o s)
    | Raise e => Raise e
    end
  /\ state_of (bind (find_template W templates name screenshot default_threshold) k s)
     = match result_of (find_template W templates name screenshot
                          default_threshold initial_state) with
       | Return o => state_of (k o s)
       | Raise e => s
       end.
Proof.
  rewrite (find_template_result name screenshot default_threshold initial_state s).
  pose proof (find_template_state name screenshot default_threshold s) as Hs.
  unfold bind.
  destruct (find_template W templates name screenshot default_threshold s)
    as [[r s1] w1].
  unfold state_of, result_of in *. simpl in *. subst s1.
  destruct r as [o | e]; [| split; reflexivity].
  destruct (k o s) as [[r2 s2] w2]. split; reflexivity.
Qed.

Lemma detect_screen_classify screenshot s :
  result_of (detect_screen W templates screenshot s)
  = classify_first W templates screen_priority screenshot
  /\ state_of (detect_screen W templates screenshot s) = s.
Proof.
  unfold detect_screen, screen_priority, classify_first.
  repeat match goal with
  | |- context [bind (find_template W templates ?n ?sc default_threshold) ?k ?s0] =>
      destruct (bind_find_template n sc k s0) as [-> ->];
      destruct (result_of (find_template W templates n sc default_threshold
                             initial_state)) as [[? |] | ?];
      cbn [truthy]
  end; split; reflexivity.
Qed.


Lemma classify_first_in names screenshot screen :
  classify_first W templates names screenshot = Return screen ->
  In screen names \/ screen = "unknown".
Proof.
  induction names as [| n rest IH]; simpl.
  - intros H. injection H as <-. right. reflexivity.
  - destruct (result_of _) as [[b |] | e].
    + intros H. injection H as <-. left. left. reflexivity.
    + intros H. destruct (IH H) as [Hin | ->]; [left; right; exact Hin | right; reflexivity].
    + discriminate.
Qed.

(** [detect_screen] answers with one of five names. *)
Lemma detect_screen_known screenshot s screen :
  result_of (detect_screen W templates screenshot s) = Return screen ->
  In screen known_screens.
Proof.
  destruct (detect_screen_classify screenshot s) as [-> _]. intros H.
  apply classify_first_in in H. unfold screen_priority, known_screens in *.
  simpl in *. intuition.
Qed.

End AutomationFacts.

(** ** Steps that preserve an invariant of the run

    The lemmas of this section are stated for any invariant [I], any
    relation [R] between the state before and after, and any property [P]
    of the events, closed under the elementary steps of the methods.  They
    are used below for the session counters, for the counter of unknown
    screens and for the cached window rectangle. *)

Section Frame.

Context {Frame Template : Type}.
Variable W : World Frame Template.
Variable config : Config.
Variable templates : gmap string Template.

Variable I : State -> Prop.
Variable R : State -> State -> Prop.
Variable P : event -> Prop.

Hypothesis R_refl : forall s, R s s.
Hypothesis R_trans : forall s1 s2 s3, R s1 s2 -> R s2 s3 -> R s1 s3.
Hypothesis P_capturing : forall e, kind_of e = Capturing -> P e.
Hypothesis P_matching : forall e, kind_of e = Matching -> P e.
Hypothesis P_reading : forall e, kind_of e = Reading -> P e.
Hypothesis P_sleeping : forall e, kind_of e = Sleeping -> P e.
Hypothesis P_clicking : forall e, kind_of e = Clicking -> P e.
Hypothesis P_handling : forall e, kind_of e = Handling -> P e.
Hypothesis P_scanning : forall e, kind_of e = Scanning -> P e.
Hypothesis P_looping : forall e, kind_of e = Looping -> P e.
Hypothesis step_tick : forall s, I s -> I (tick s) /\ R s (tick s).
Hypothesis step_region :
  forall g s, I s -> I (set_game_region g s) /\ R s (set_game_region g s).
Hypothesis step_errors : forall s, I s -> I (bump_errors s) /\ R s (bump_errors s).
Hypothesis step_window : follows I R P (get_game_region W).

Local Ltac routine_event :=
  first
    [ apply P_capturing; reflexivity
    | apply P_matching; reflexivity
    | apply P_reading; reflexivity
    | apply P_sleeping; reflexivity
    | apply P_clicking; reflexivity
    | apply P_handling; reflexivity
    | apply P_scanning; reflexivity
    | apply P_looping; reflexivity ].

Local Ltac emits := apply follows_emit; [assumption | routine_event].
Local Ltac asks := apply follows_ask; [assumption | routine_event].

Lemma follows_sleep d : follows I R P (sleep d).
Proof. emits. Qed.

Lemma follows_focus : follows I R P (focus_game_window W).
Proof.
  unfold focus_game_window. destruct (String.eqb _ _); [| apply follows_ret; auto].
  apply follows_try_except; auto.
  - apply follows_bind; auto; [| intros; apply follows_ret; auto].
    asks.
  - apply follows_bind; auto; [| intros; apply follows_ret; auto].
    emits.
Qed.

Lemma follows_capture_screen region :
  follows I R P (capture_screen W config region).
Proof.
  unfold capture_screen. apply follows_try_except; auto.
  - apply follows_bind; auto.
    { destruct (window_detection_enabled config); [| apply follows_ret; auto].
      apply follows_bind; auto. intros r. apply follows_modify; auto. }
    intros _. apply follows_bind; auto; [apply follows_gets; auto |].
    intros cached. apply follows_bind; auto.
    { destruct region; [apply follows_ret; auto |].
      destruct cached; [| apply follows_ret; auto].
      apply follows_bind; auto; [| intros; apply follows_ret; auto].
      emits. }
    intros region'. apply follows_bind; auto; [| intros; apply follows_ret; auto].
    asks.
  - apply follows_bind; auto; [| intros; apply follows_ret; auto].
    emits.
Qed.

Lemma follows_find_template name screenshot threshold :
  follows I R P (find_template W templates name screenshot threshold).
Proof.
  intros s Hs.
  destruct (find_template_pure W templates name screenshot threshold s) as [-> He].
  repeat split; auto.
  destruct He as [-> | ->]; repeat constructor. routine_event.
Qed.

Lemma follows_ocr_text image region : follows I R P (ocr_text W image region).
Proof.
  unfold ocr_text. apply follows_try_except; auto.
  - apply follows_bind; auto; [| intros; apply follows_ret; auto].
    intros s Hs. destruct image; repeat split; auto; constructor.
  - apply follows_bind; auto; [| intros; apply follows_ret; auto].
    emits.
Qed.

Lemma follows_click_at x y delay : follows I R P (click_at W config x y delay).
Proof.
  unfold click_at. apply follows_try_except; auto.
  - apply follows_bind; auto.
    { destruct (window_detection_enabled config); [| apply follows_ret; auto].
      apply follows_bind; auto; [apply follows_focus |].
      intros _. apply follows_sleep. }
    intros _. apply follows_bind; auto.
    { asks. }
    intros _. apply follows_bind; auto; [apply follows_sleep |].
    intros _. emits.
  - apply follows_bind; auto.
    { emits. }
    intros _. apply follows_modify; auto.
Qed.

Lemma follows_click_centre b : follows I R P (click_centre W config b).
Proof.
  unfold click_centre. destruct (centroid b). apply follows_click_at.
Qed.

(** The shape shared by the handlers: click the centre when a button was
    found. *)
Lemma follows_click_if_found (btn : option Box) (otherwise : M bool) :
  follows I R P otherwise ->
  follows I R P (match btn with
                 | Some b => bind (click_centre W config b) (fun _ => ret true)
                 | None => otherwise
                 end).
Proof.
  intros H. destruct btn; [| exact H].
  apply follows_bind; auto; [apply follows_click_centre |].
  intros; apply follows_ret; auto.
Qed.

Lemma follows_detect_screen screenshot :
  follows I R P (detect_screen W templates screenshot).
Proof.
  unfold detect_screen.
  repeat (apply follows_bind; auto; [apply follows_find_template |];
          (let o := fresh "o" in intros o; destruct (truthy o));
          [apply follows_ret; auto |]).
  apply follows_ret; auto.
Qed.

Lemma follows_scan_indicators indicators text :
  follows I R P (scan_indicators indicators text).
Proof.
  induction indicators as [| i rest IH]; simpl; [apply follows_ret; auto |].
  destruct (str_in i text); [| exact IH].
  apply follows_bind; auto; [| intros; apply follows_ret; auto].
  emits.
Qed.

Lemma follows_check_for_errors screenshot :
  follows I R P (check_for_errors W screenshot).
Proof.
  unfold check_for_errors. apply follows_bind; auto; [apply follows_ocr_text |].
  intros text. apply follows_scan_indicators.
Qed.

Lemma follows_handle_main_menu : follows I R P (handle_main_menu W config templates).
Proof.
  unfold handle_main_menu.
  apply follows_bind; auto; [emits |].
  intros _. apply follows_bind; auto; [apply follows_capture_screen |].
  intros sc. apply follows_bind; auto; [apply follows_find_template |].
  intros btn. apply follows_click_if_found. apply follows_ret; auto.
Qed.

Lemma follows_try_training_options options screenshot :
  follows I R P (try_training_options W config templates options screenshot).
Proof.
  induction options as [| o rest IH]; simpl; [apply follows_ret; auto |].
  apply follows_bind; auto; [apply follows_find_template |].
  intros btn. apply follows_click_if_found. exact IH.
Qed.

Lemma follows_handle_training_screen :
  follows I R P (handle_training_screen W config templates).
Proof.
  unfold handle_training_screen.
  apply follows_bind; auto; [emits |].
  intros _. apply follows_bind; auto; [apply follows_capture_screen |].
  intros sc. apply follows_try_training_options.
Qed.

Lemma follows_handle_event_screen :
  follows I R P (handle_event_screen W config templates).
Proof.
  unfold handle_event_screen.
  apply follows_bind; auto; [emits |].
  intros _. apply follows_bind; auto; [apply follows_capture_screen |].
  intros sc. apply follows_bind; auto; [apply follows_find_template |].
  intros btn. apply follows_click_if_found. apply follows_ret; auto.
Qed.

Lemma follows_press_race_start screenshot :
  follows I R P (press_race_start W config templates screenshot).
Proof.
  unfold press_race_start.
  apply follows_bind; auto; [apply follows_find_template |].
  intros btn. apply follows_click_if_found. apply follows_ret; auto.
Qed.

Lemma follows_handle_race_screen :
  follows I R P (handle_race_screen W config templates).
Proof.
  unfold handle_race_screen.
  apply follows_bind; auto; [emits |].
  intros _. apply follows_bind; auto; [apply follows_capture_screen |].
  intros sc. destruct (skip_races config); [| apply follows_press_race_start].
  apply follows_bind; auto; [apply follows_find_template |].
  intros btn. apply follows_click_if_found. apply follows_press_race_start.
Qed.

Lemma follows_click_continue_fallback current_screen screenshot :
  follows I R P (click_continue_fallback W config templates current_screen screenshot).
Proof.
  unfold click_continue_fallback.
  apply follows_bind; auto; [emits |].
  intros _. apply follows_bind; auto; [apply follows_find_template |].
  intros btn. apply follows_click_if_found. apply follows_ret; auto.
Qed.


(** *** The loop *)

Hypothesis P_classifying : forall e, kind_of e = Classifying -> P e.
Hypothesis P_stopping : forall e, kind_of e = Stopping -> P e.
Hypothesis step_counter :
  forall n s, I s ->
    I (set_consecutive_unknown_screens n s)
    /\ R s (set_consecutive_unknown_screens n s).
Hypothesis step_running :
  forall b s, I s -> I (set_running b s) /\ R s (set_running b s).

Lemma follows_count_unknown current_screen :
  follows I R P (count_unknown current_screen).
Proof.
  unfold count_unknown. destruct (negb _).
  - apply follows_bind; auto; [| intros; apply follows_ret; auto].
    apply follows_modify; auto.
  - apply follows_bind; auto; [apply follows_modify; auto |].
    intros _. apply follows_bind; auto; [apply follows_gets; auto |].
    intros n. destruct (Z.leb _ _); [| apply follows_ret; auto].
    apply follows_bind; auto; [| intros; apply follows_ret; auto].
    apply follows_emit; [assumption | apply P_stopping; reflexivity].
Qed.

(** On the five names [detect_screen] can answer, the dispatch reaches one
    of the four screen handlers or the fall-back. *)
Lemma follows_dispatch_known current_screen screenshot :
  In current_screen known_screens ->
  follows I R P (dispatch W config templates current_screen screenshot).
Proof.
  unfold known_screens. simpl.
  intros [<- | [<- | [<- | [<- | [<- | []]]]]]; unfold dispatch; simpl.
  - apply follows_handle_main_menu.
  - apply follows_handle_training_screen.
  - apply follows_handle_race_screen.
  - apply follows_handle_event_screen.
  - apply follows_click_continue_fallback.
Qed.

Lemma follows_act_on current_screen screenshot :
  In current_screen known_screens ->
  follows I R P (act_on W config templates current_screen screenshot).
Proof.
  intros Hs. unfold act_on.
  apply follows_bind; auto;
    [apply follows_emit; [assumption | apply P_classifying; reflexivity] |].
  intros _.
  apply follows_bind; auto; [apply follows_count_unknown |].
  intros ctl. destruct ctl; [| apply follows_ret; auto].
  apply follows_bind; auto; [apply follows_dispatch_known; exact Hs |].
  intros handled.
  apply follows_bind; auto; [| intros; apply follows_ret; auto].
  destruct (negb handled); apply follows_sleep.
Qed.

Lemma follows_iteration_body : follows I R P (iteration_body W config templates).
Proof.
  unfold iteration_body.
  apply follows_bind; auto; [apply follows_capture_screen |].
  intros screenshot. destruct screenshot as [f |].
  - apply follows_bind; auto; [apply follows_check_for_errors |].
    intros failed. destruct failed.
    + apply follows_bind; auto; [emits |]. intros _.
      apply follows_bind; auto; [apply follows_sleep |]. intros _.
      apply follows_ret; auto.
    + apply follows_bind_val; auto; [apply follows_detect_screen |].
      intros current_screen [s Hs]. apply detect_screen_known in Hs.
      apply follows_act_on. exact Hs.
  - apply follows_bind; auto; [emits |]. intros _.
    apply follows_bind; auto; [apply follows_sleep |]. intros _.
    apply follows_ret; auto.
Qed.

Lemma follows_iteration : follows I R P (iteration W config templates).
Proof.
  intros s Hs. destruct (follows_iteration_body s Hs) as (HI & HR & HP).
  unfold iteration.
  destruct (iteration_body W config templates s) as [[r s1] w1].
  unfold state_of, events_of in *. simpl in HI, HR, HP.
  destruct r as [ctl | [|]]; simpl.
  - repeat split; assumption.
  - repeat split; try assumption.
    apply Forall_app. split; [assumption |]. repeat constructor.
    routine_event.
  - destruct (step_errors s1 HI) as [HI2 HR2]. repeat split.
    + exact HI2.
    + eapply R_trans; eassumption.
    + apply Forall_app. split; [assumption |].
      repeat constructor; routine_event.
Qed.

Lemma follows_poll_running : follows I R P (poll_running W).
Proof.
  intros s Hs. unfold poll_running, state_of, events_of. simpl.
  destruct (stop_requested W (clock s)).
  - destruct (step_running false s Hs) as [H1 H2].
    destruct (step_tick _ H1) as [H3 H4].
    repeat split; [assumption | eapply R_trans; eassumption | constructor].
  - destruct (step_tick s Hs) as [H3 H4].
    repeat split; [assumption .. | constructor].
Qed.

Lemma follows_automation_loop fuel :
  follows I R P (automation_loop W config templates fuel).
Proof.
  induction fuel as [| fuel IH]; simpl; [apply follows_ret; auto |].
  apply follows_bind; auto; [apply follows_poll_running |].
  intros go. destruct go; [| apply follows_ret; auto].
  apply follows_bind; auto; [apply follows_iteration |].
  intros ctl. destruct ctl; [exact IH | apply follows_ret; auto].
Qed.

Lemma follows_run_automation fuel :
  follows I R P (run_automation W config templates fuel).
Proof.
  unfold run_automation.
  apply follows_bind; auto; [emits |]. intros _.
  apply follows_bind; auto; [apply follows_modify; auto |]. intros _.
  apply follows_bind; auto.
  { destruct (window_detection_enabled config); [| apply follows_ret; auto].
    apply follows_bind; auto. intros r.
    apply follows_bind; auto; [apply follows_modify; auto |]. intros _.
    destruct r; emits. }
  intros _. apply follows_bind; auto; [apply follows_modify; auto |]. intros _.
  apply follows_bind; auto; [apply follows_automation_loop |].
  intros status. destruct status; [| apply follows_ret; auto].
  apply follows_bind; auto; [apply follows_modify; auto |]. intros _.
  apply follows_bind; auto; [emits |]. intros _.
  apply follows_bind; auto; [apply follows_gets; auto |]. intros st.
  apply follows_bind; auto; [emits |]. intros _.
  apply follows_ret; auto.
Qed.

End Frame.

(** ** The three instances of the frame lemmas *)

Section Instances.

Context {Frame Template : Type}.
Variable W : World Frame Template.
Variable config : Config.
Variable templates : gmap string Template.

(** [get_game_region], by cases on the cache and on the answer of the OS. *)
Lemma get_game_region_cases s :
  get_game_region W s
  = match window_rect s with
    | Some r => (Return (Some (box_of_rect r)), s, [])
    | None =>
        match find_uma_musume_window W (clock s) with
        | Return found =>
            (Return (option_map box_of_rect found),
             set_window_rect found (tick s), [WindowQuery])
        | Raise e => (Raise e, tick s, [WindowQuery])
        end
    end.
Proof.
  unfold get_game_region, bind, gets, ask, modify, ret. simpl.
  destruct (window_rect s) as [[[[x y] w] h] |] eqn:E; simpl.
  - rewrite E. reflexivity.
  - destruct (find_uma_musume_window W (clock s)) as [[[[[x y] w] h] |] | e];
      reflexivity.
Qed.

Lemma outcomes_kept_refl s : outcomes_kept s s.
Proof. unfold outcomes_kept. lia. Qed.

Lemma outcomes_kept_trans s1 s2 s3 :
  outcomes_kept s1 s2 -> outcomes_kept s2 s3 -> outcomes_kept s1 s3.
Proof. unfold outcomes_kept. lia. Qed.

Lemma quiet_step_refl s : quiet_step s s.
Proof. unfold quiet_step, outcomes_kept. repeat split; lia. Qed.

Lemma quiet_step_trans s1 s2 s3 :
  quiet_step s1 s2 -> quiet_step s2 s3 -> quiet_step s1 s3.
Proof.
  unfold quiet_step, outcomes_kept.
  intros (-> & -> & H1) (-> & -> & H2). repeat split; lia.
Qed.

Lemma untouched_refl s : untouched s s.
Proof. unfold untouched. auto. Qed.

Lemma untouched_trans s1 s2 s3 :
  untouched s1 s2 -> untouched s2 s3 -> untouched s1 s3.
Proof. unfold untouched. intros (-> & -> & ->) (-> & -> & ->). auto. Qed.

Lemma plain_not_result e : plain e = true -> handles_result e = false.
Proof.
  destruct e as [l m | | | | |]; try reflexivity.
  destruct m; simpl; auto; discriminate.
Qed.

Local Ltac window_step R_unfold :=
  intros s _; rewrite get_game_region_cases;
  destruct (window_rect s);
    [| destruct (find_uma_musume_window W (clock s)) as [found | e]];
  unfold state_of, events_of; simpl;
  (split; [exact Logic.I |]); split;
    try (R_unfold; simpl; repeat split; lia);
    repeat constructor.

(** The window query touches the cache and the clock only. *)
Lemma window_untouched :
  follows (fun _ => True) untouched (fun e => plain e = true) (get_game_region W).
Proof. window_step ltac:(unfold untouched). Qed.

Lemma window_quiet :
  follows (fun _ => True) quiet_step (fun e => plain e = true) (get_game_region W).
Proof.
  eapply follows_weaken; [| | apply window_untouched]; [| auto].
  unfold untouched, quiet_step, outcomes_kept.
  intros s s' (-> & -> & ->). repeat split; lia.
Qed.

Lemma window_outcomes :
  follows (fun _ => True) outcomes_kept (fun e => handles_result e = false)
    (get_game_region W).
Proof.
  eapply follows_weaken; [| | apply window_quiet].
  - intros s s' (_ & _ & H). exact H.
  - apply plain_not_result.
Qed.

(** With a rectangle in the cache the OS is not asked. *)
Lemma window_cached r :
  follows (fun s => window_rect s = Some r) (fun _ _ => True)
    (fun e => is_window_query e = false) (get_game_region W).
Proof.
  intros s Hs. rewrite get_game_region_cases, Hs.
  unfold state_of, events_of. simpl. repeat split; [exact Hs | constructor].
Qed.

End Instances.

(** ** The session counters *)

Section Counters.

Context {Frame Template : Type}.
Variable W : World Frame Template.
Variable config : Config.
Variable templates : gmap string Template.

Local Ltac quiet_side :=
  first
    [ exact quiet_step_refl
    | exact quiet_step_trans
    | exact (fun _ _ => Logic.I)
    | exact (follows_weaken _ _ _ _ _ _ (fun _ _ H => H) (fun _ _ => Logic.I) (window_quiet W))
    | (intros; split; [exact Logic.I |];
       unfold quiet_step, outcomes_kept; simpl; repeat split; lia) ].

Lemma capture_screen_quiet region :
  follows (fun _ => True) quiet_step (fun _ => True)
    (capture_screen W config region).
Proof. apply follows_capture_screen; quiet_side. Qed.

Lemma find_template_quiet name screenshot threshold :
  follows (fun _ => True) quiet_step (fun _ => True)
    (find_template W templates name screenshot threshold).
Proof. apply follows_find_template; quiet_side. Qed.

Lemma ocr_text_quiet image region :
  follows (fun _ => True) quiet_step (fun _ => True)
    (ocr_text W image region).
Proof. apply follows_ocr_text; quiet_side. Qed.

Lemma click_centre_quiet b :
  follows (fun _ => True) quiet_step (fun _ => True)
    (click_centre W config b).
Proof. apply follows_click_centre; quiet_side. Qed.

Lemma log_quiet l m :
  follows (fun _ => True) quiet_step (fun _ => True) (log l m).
Proof. apply follows_emit; [quiet_side | exact Logic.I]. Qed.


Lemma counts_ret_false incr : counts incr (ret false).
Proof. intros s. simpl. apply quiet_step_refl. Qed.

Lemma counts_bind {A} incr (m : M A) (k : A -> M bool) :
  follows (fun _ => True) quiet_step (fun _ => True) m ->
  (forall a, counts incr (k a)) ->
  counts incr (bind m k).
Proof.
  intros Hm Hk s. destruct (Hm s Logic.I) as (_ & HR & _).
  unfold bind. destruct (m s) as [[r s1] w1].
  unfold state_of in HR. simpl in HR.
  destruct r as [a | e]; [| exact HR].
  specialize (Hk a s1).
  destruct (k a s1) as [[r2 s2] w2].
  unfold result_of, state_of in *. simpl in *.
  destruct r2 as [[|] | e].
  - destruct Hk as (s3 & H3 & H4). exists s3. split; [| exact H4].
    eapply quiet_step_trans; eassumption.
  - eapply quiet_step_trans; eassumption.
  - eapply quiet_step_trans; eassumption.
Qed.

(** The tail of the three result handlers: the click, then the counter. *)
Lemma counts_click_then_incr incr b :
  counts incr
    (bind (click_centre W config b) (fun _ =>
     bind (modify (fun s => set_session_stats (incr (session_stats s)) s)) (fun _ =>
     ret true))).
Proof.
  intros s. destruct (click_centre_quiet b s Logic.I) as (_ & HR & _).
  unfold bind. destruct (click_centre W config b s) as [[r s1] w1].
  unfold state_of in HR. simpl in HR.
  destruct r as [u | e]; unfold result_of, state_of; simpl; [| exact HR].
  exists s1. split; [exact HR | reflexivity].
Qed.

Lemma handle_race_result_counts :
  counts incr_races_completed (handle_race_result W config templates).
Proof.
  unfold handle_race_result.
  apply counts_bind; [apply log_quiet |]. intros _.
  apply counts_bind; [apply capture_screen_quiet |]. intros screenshot.
  apply counts_bind; [apply find_template_quiet |]. intros btn.
  destruct btn; [| apply counts_ret_false].
  apply counts_click_then_incr.
Qed.

Lemma handle_training_result_counts :
  counts incr_training_sessions (handle_training_result W config templates).
Proof.
  unfold handle_training_result.
  apply counts_bind; [apply log_quiet |]. intros _.
  apply counts_bind; [apply capture_screen_quiet |]. intros screenshot.
  apply counts_bind; [apply find_template_quiet |]. intros btn.
  destruct btn; [| apply counts_ret_false].
  apply counts_click_then_incr.
Qed.

Lemma handle_choice_screen_counts :
  counts incr_events_handled (handle_choice_screen W config templates).
Proof.
  unfold handle_choice_screen.
  apply counts_bind; [apply log_quiet |]. intros _.
  apply counts_bind; [apply capture_screen_quiet |]. intros screenshot.
  apply counts_bind; [apply ocr_text_quiet |]. intros choice_text.
  apply counts_bind; [apply log_quiet |]. intros _.
  apply counts_bind; [apply find_template_quiet |]. intros btn.
  destruct btn; [| apply counts_ret_false].
  apply counts_click_then_incr.
Qed.


(** What a handler that counts does to the three outcome counters. *)
Lemma counts_outcome incr (m : M bool) s :
  counts incr m ->
  (forall st, training_sessions (incr st) + races_completed (incr st)
              + events_handled (incr st)
              = training_sessions st + races_completed st + events_handled st + 1
              /\ training_sessions st <= training_sessions (incr st)
              /\ races_completed st <= races_completed (incr st)
              /\ events_handled st <= events_handled (incr st)
              /\ errors_encountered (incr st) = errors_encountered st) ->
  stats_le (session_stats s) (session_stats (state_of (m s))).
Proof.
  intros Hm Hi. specialize (Hm s). unfold stats_le.
  destruct (result_of (m s)) as [[|] | e].
  - destruct Hm as (s1 & (_ & _ & H1) & ->). unfold outcomes_kept in H1.
    specialize (Hi (session_stats s1)). lia.
  - destruct Hm as (_ & _ & H1). unfold outcomes_kept in H1. lia.
  - destruct Hm as (_ & _ & H1). unfold outcomes_kept in H1. lia.
Qed.

Local Ltac outcomes_side :=
  first
    [ exact outcomes_kept_refl
    | exact outcomes_kept_trans
    | exact (window_outcomes W)
    | by_kind
    | (intros; split; [exact Logic.I |];
       unfold outcomes_kept; simpl; repeat split; lia) ].

(** From the loop, the three outcome counters are never written and no
    result handler is entered. *)
Lemma run_automation_outcomes fuel :
  follows (fun _ => True) outcomes_kept (fun e => handles_result e = false)
    (run_automation W config templates fuel).
Proof. apply follows_run_automation; outcomes_side. Qed.

Lemma handle_race_screen_outcomes :
  follows (fun _ => True) outcomes_kept (fun e => handles_result e = false)
    (handle_race_screen W config templates).
Proof. apply follows_handle_race_screen; outcomes_side. Qed.

Local Ltac untouched_side :=
  first
    [ exact untouched_refl
    | exact untouched_trans
    | (by_kind; auto)
    | (intros; split; [exact Logic.I |];
       unfold untouched; simpl; repeat split; reflexivity) ].

Lemma window_untouched_kind :
  follows (fun _ => True) untouched
    (fun e => kind_of e = Capturing \/ kind_of e = Querying) (get_game_region W).
Proof.
  intros s _. rewrite get_game_region_cases.
  destruct (window_rect s);
    [| destruct (find_uma_musume_window W (clock s)) as [found | e]];
    unfold state_of, events_of; simpl;
    (split; [exact Logic.I |]); (split; [unfold untouched; auto |]);
    repeat constructor; right; reflexivity.
Qed.

(** A capture touches neither the flag, nor the counter of unknown screens,
    nor the session counters, and consists of the window query, the grab
    and their log lines. *)
Lemma capture_screen_untouched region :
  follows (fun _ => True) untouched
    (fun e => kind_of e = Capturing \/ kind_of e = Querying)
    (capture_screen W config region).
Proof.
  apply follows_capture_screen;
    first [exact window_untouched_kind | untouched_side].
Qed.

Lemma ocr_text_untouched image region :
  follows (fun _ => True) untouched (fun e => kind_of e = Reading)
    (ocr_text W image region).
Proof. apply follows_ocr_text; untouched_side. Qed.

Lemma check_for_errors_untouched screenshot :
  follows (fun _ => True) untouched
    (fun e => kind_of e = Reading \/ kind_of e = Scanning)
    (check_for_errors W screenshot).
Proof. apply follows_check_for_errors; untouched_side. Qed.

End Counters.

(** * The statements of the specification *)

(** ** Template matcher and screen classifier *)

(** C4.  For every frame (also a missing one) and every threshold,
    [find_template] called with a name that is absent from the template
    library returns [None]: it returns normally, raises nothing, writes the
    warning to the log and leaves every field of the automation (its
    [running] flag included) as it was. *)
Theorem find_template_absent_is_not_found {Frame Template : Type}
    (W : World Frame Template) (templates : gmap string Template)
    (name : string) (screenshot : option Frame) (threshold : float) (s : State) :
  templates !! name = None ->
  find_template W templates name screenshot threshold s
  = (Return None, s, [Log WARNING (TemplateNotFound name)]).
Proof. apply find_template_absent. Qed.

Lemma find_template_absent_is_not_found_witness :
  (∅ : gmap string string) !! "main_menu" = None
  /\ find_template (Scenario.showing (fun _ => Return Scenario.main_menu_frame)) ∅
       "main_menu" (Some Scenario.main_menu_frame) default_threshold Scenario.started
     = (Return None, Scenario.started, [Log WARNING (TemplateNotFound "main_menu")]).
Proof.
  split; [reflexivity |].
  apply find_template_absent_is_not_found. reflexivity.
Defined.



(** C9.  [detect_screen] answers with one of the five names ["main_menu"],
    ["training_screen"], ["race_screen"], ["event_screen"], ["unknown"] and
    never with ["race_result"], ["training_result"] or ["choice_screen"].
    Hence, in every run of the loop, none of the three result handlers is
    entered and the three counters they increment keep their values. *)
Theorem result_screens_unreachable {Frame Template : Type}
    (W : World Frame Template) (config : Config)
    (templates : gmap string Template) :
  (forall screenshot s,
     match result_of (detect_screen W templates screenshot s) with
     | Return screen =>
         In screen ["main_menu"; "training_screen"; "race_screen";
                    "event_screen"; "unknown"]
         /\ screen <> "race_result"
         /\ screen <> "training_result"
         /\ screen <> "choice_screen"
     | Raise _ => True
     end)
  /\ (forall fuel s,
        Forall (fun e => handles_result e = false)
          (events_of (run_automation W config templates fuel s))
        /\ training_sessions (session_stats (state_of (run_automation W config templates fuel s)))
           = training_sessions (session_stats s)
        /\ races_completed (session_stats (state_of (run_automation W config templates fuel s)))
           = races_completed (session_stats s)
        /\ events_handled (session_stats (state_of (run_automation W config templates fuel s)))
           = events_handled (session_stats s)).
Proof.
  split.
  - intros screenshot s.
    destruct (result_of (detect_screen W templates screenshot s))
      as [screen | e] eqn:E; [| exact Logic.I].
    apply detect_screen_known in E. split; [exact E |].
    unfold known_screens in E. simpl in E.
    repeat split; intros ->;
      repeat destruct E as [E | E]; try discriminate; exact E.
  - intros fuel s.
    destruct (run_automation_outcomes W config templates fuel s Logic.I)
      as (_ & (H1 & H2 & H3 & _) & HP).
    auto.
Qed.

(** ** Window region cache *)

Lemma run_automation_cached {Frame Template : Type}
    (W : World Frame Template) (config : Config)
    (templates : gmap string Template) (r : Rect) (fuel : nat) :
  follows (fun s => window_rect s = Some r) (fun _ _ => True)
    (fun e => is_window_query e = false)
    (run_automation W config templates fuel).
Proof.
  apply follows_run_automation;
    first
      [ exact (window_cached W r)
      | by_kind
      | (intros; split; [assumption | exact Logic.I])
      | auto ].
Qed.

(** C10.  [get_game_region] asks the OS for the window exactly when the
    cached rectangle is [None].  Once a call has left a rectangle
    [(x, y, width, height)] in the cache, that call and every later one
    return the region [(x, y, x + width, y + height)]; a later call asks
    nothing of the OS and changes nothing, and this stays so through any
    run of the automation loop, in which the rectangle is never replaced
    and the OS is never asked again. *)
Theorem get_game_region_cached_once {Frame Template : Type}
    (W : World Frame Template) (config : Config)
    (templates : gmap string Template) (s0 : State) :
  (In WindowQuery (events_of (get_game_region W s0)) <-> window_rect s0 = None)
  /\ (forall x y width height,
        window_rect (state_of (get_game_region W s0)) = Some (x, y, width, height) ->
        let s := state_of (get_game_region W s0) in
        result_of (get_game_region W s0)
        = Return (Some (x, y, x + width, y + height))
        /\ get_game_region W s
           = (Return (Some (x, y, x + width, y + height)), s, [])
        /\ (forall fuel,
              window_rect (state_of (run_automation W config templates fuel s))
              = Some (x, y, width, height)
              /\ Forall (fun e => is_window_query e = false)
                   (events_of (run_automation W config templates fuel s)))).
Proof.
  split.
  - rewrite get_game_region_cases.
    destruct (window_rect s0) as [r |].
    + unfold events_of; simpl. split; [intros [] | discriminate].
    + destruct (find_uma_musume_window W (clock s0)); unfold events_of; simpl;
        split; auto.
  - intros x y w h Hs s. subst s.
    assert (Hlater : forall s r, window_rect s = Some r ->
              get_game_region W s = (Return (Some (box_of_rect r)), s, [])
              /\ (forall fuel,
                    window_rect (state_of (run_automation W config templates fuel s))
                    = Some r
                    /\ Forall (fun e => is_window_query e = false)
                         (events_of (run_automation W config templates fuel s)))).
    { intros s r Hr. split.
      - rewrite get_game_region_cases, Hr. reflexivity.
      - intros fuel.
        destruct (run_automation_cached W config templates r fuel s Hr)
          as (H1 & _ & H2).
        split; assumption. }
    destruct (Hlater _ _ Hs) as [H1 H2].
    split; [| split; [exact H1 | exact H2]].
    clear H1 H2 Hlater. revert Hs. rewrite (get_game_region_cases W s0).
    destruct (window_rect s0) as [r |] eqn:E0.
    + unfold state_of, result_of. cbn [fst snd]. rewrite E0.
      intros H. injection H as ->. reflexivity.
    + destruct (find_uma_musume_window W (clock s0)) as [found | e];
        unfold state_of, result_of; cbn [fst snd].
      * unfold set_window_rect. cbn [window_rect]. intros ->. reflexivity.
      * unfold tick. cbn [window_rect]. rewrite E0. discriminate.
Qed.

(** The first call finds the window at (100, 50) with size 800 x 600; the
    second call answers from the cache. *)
Lemma get_game_region_cached_once_witness :
  let W := Scenario.showing (fun _ => Return Scenario.blank) in
  let s := state_of (get_game_region W Scenario.started) in
  window_rect s = Some (100, 50, 800, 600)
  /\ get_game_region W s = (Return (Some (100, 50, 900, 650)), s, []).
Proof.
  intros W s. split; [reflexivity |].
  destruct (get_game_region_cached_once W default_config Scenario.library
              Scenario.started) as (_ & H).
  destruct (H 100 50 800 600 eq_refl) as (_ & H2 & _).
  exact H2.
Defined.

(** ** One iteration, by cases *)

Section Iteration.

Context {Frame Template : Type}.
Variable W : World Frame Template.
Variable config : Config.
Variable templates : gmap string Template.

(** The body of the [try], spelled out along the outcomes of the capture,
    of the error scan and of the classification. *)
Lemma iteration_body_cases s :
  let o1 := capture_screen W config None s in
  match result_of o1 with
  | Raise e => iteration_body W config templates s = (Raise e, state_of o1, events_of o1)
  | Return None =>
      iteration_body W config templates s
      = (Return Continue, state_of o1,
         events_of o1 ++ [Log WARNING FailedToCaptureScreenshot; Sleep 1])
  | Return (Some frame) =>
      let o2 := check_for_errors W (Some frame) (state_of o1) in
      match result_of o2 with
      | Raise e =>
          iteration_body W config templates s
          = (Raise e, state_of o2, events_of o1 ++ events_of o2)
      | Return true =>
          iteration_body W config templates s
          = (Return Continue, state_of o2,
             events_of o1 ++ events_of o2
             ++ [Log WARNING ErrorDetectedWaiting; Sleep 3])
      | Return false =>
          let o3 := detect_screen W templates (Some frame) (state_of o2) in
          match result_of o3 with
          | Raise e =>
              iteration_body W config templates s
              = (Raise e, state_of o3, events_of o1 ++ events_of o2 ++ events_of o3)
          | Return current_screen =>
              let o4 := act_on W config templates current_screen (Some frame)
                          (state_of o3) in
              iteration_body W config templates s
              = (result_of o4, state_of o4,
                 events_of o1 ++ events_of o2 ++ events_of o3 ++ events_of o4)
          end
      end
  end.
Proof.
  unfold iteration_body. cbv zeta.
  destruct (capture_screen W config None s) as [[r1 s1] w1] eqn:E1.
  cbn [result_of state_of events_of fst snd].
  destruct r1 as [[f |] | e];
    [rewrite (bind_Return _ _ _ _ _ _ E1)
    | rewrite (bind_Return _ _ _ _ _ _ E1); reflexivity
    | rewrite (bind_Raise _ _ _ _ _ _ E1); reflexivity].
  destruct (check_for_errors W (Some f) s1) as [[r2 s2] w2] eqn:E2.
  cbn [result_of state_of events_of fst snd].
  destruct r2 as [[|] | e];
    [rewrite (bind_Return _ _ _ _ _ _ E2); reflexivity
    | rewrite (bind_Return _ _ _ _ _ _ E2)
    | rewrite (bind_Raise _ _ _ _ _ _ E2); reflexivity].
  cbv beta iota.
  destruct (detect_screen W templates (Some f) s2) as [[r3 s3] w3] eqn:E3.
  cbn [result_of state_of events_of fst snd].
  destruct r3 as [cs | e];
    [rewrite (bind_Return _ _ _ _ _ _ E3)
    | rewrite (bind_Raise _ _ _ _ _ _ E3); reflexivity].
  reflexivity.
Qed.

End Iteration.

(** ** Faults of the outside world *)

Section Faults.

Context {Frame Template : Type}.
Variable W : World Frame Template.
Variable config : Config.
Variable templates : gmap string Template.

(** The window query raises only what the OS query raises. *)
Lemma get_game_region_yields (Q : Res (option Box) -> Prop) :
  (forall r, Q (Return r)) ->
  (forall t e, find_uma_musume_window W t = Raise e -> Q (Raise e)) ->
  yields (get_game_region W) Q.
Proof.
  intros Hr He s. rewrite get_game_region_cases.
  destruct (window_rect s); [apply Hr |].
  destruct (find_uma_musume_window W (clock s)) as [found | e] eqn:E;
    [apply Hr | eapply He; exact E].
Qed.



(** When the grabber fails and the window query is not interrupted, so does
    [capture_screen]. *)
Lemma capture_screen_fails region :
  (forall t b, ImageGrab_grab W t b = Raise Exception) ->
  (forall t, find_uma_musume_window W t <> Raise KeyboardInterrupt) ->
  yields (capture_screen W config region) (fun r => r = Return None).
Proof.
  intros Hg Hq. unfold capture_screen.
  apply yields_try_except with (Qm := fun r => r = Raise Exception);
    [| discriminate | discriminate | intros _ s; reflexivity].
  apply yields_bind with (Qm := fun r => r <> Raise KeyboardInterrupt).
  - destruct (window_detection_enabled config); [| intros s; discriminate].
    apply yields_bind with (Qm := fun r => r <> Raise KeyboardInterrupt).
    + apply get_game_region_yields; [discriminate |].
      intros t e He Heq. injection Heq as ->. exact (Hq t He).
    + intros e H Heq. apply H. injection Heq as ->. reflexivity.
    + intros r _ s. discriminate.
  - intros [|] H; [contradiction | reflexivity].
  - intros _ _.
    apply yields_bind with (Qm := fun r => exists a, r = Return a).
    + intros s. eexists. reflexivity.
    + intros e [a Ha]. discriminate.
    + intros cached _.
      apply yields_bind with (Qm := fun r => exists a, r = Return a).
      * intros s. destruct region; [| destruct cached]; eexists; reflexivity.
      * intros e [a Ha]. discriminate.
      * intros region' _.
        apply yields_bind with (Qm := fun r => r = Raise Exception).
        -- intros s. apply Hg.
        -- intros e H. injection H as ->. reflexivity.
        -- discriminate.
Qed.

(** [ocr_text] lets no [Exception] through and leaves the state alone. *)
Lemma ocr_text_cases image region s :
  ocr_text W image region s
  = match image with
    | Some frame =>
        match image_to_string W frame region with
        | Return text => (Return (str_strip text), s, [])
        | Raise Exception => (Return "", s, [Log ERROR OcrFailed])
        | Raise KeyboardInterrupt => (Raise KeyboardInterrupt, s, [])
        end
    | None => (Return "", s, [Log ERROR OcrFailed])
    end.
Proof.
  unfold ocr_text, try_except, bind. destruct image as [f |]; [| reflexivity].
  destruct (image_to_string W f region) as [text | [|]]; reflexivity.
Qed.

(** The error scan answers whether a keyword occurs. *)
Lemma scan_indicators_cases indicators text s :
  result_of (scan_indicators indicators text s)
  = Return (existsb (fun indicator => str_in indicator text) indicators)
  /\ state_of (scan_indicators indicators text s) = s
  /\ (existsb (fun indicator => str_in indicator text) indicators = true ->
      exists indicator,
        In indicator indicators /\ str_in indicator text = true
        /\ events_of (scan_indicators indicators text s)
           = [Log WARNING (ErrorDetected indicator)])
  /\ (existsb (fun indicator => str_in indicator text) indicators = false ->
      events_of (scan_indicators indicators text s) = []).
Proof.
  induction indicators as [| i rest IH]; simpl.
  - split; [reflexivity |]. split; [reflexivity |].
    split; [discriminate | reflexivity].
  - destruct (str_in i text) eqn:Ei; simpl.
    + split; [reflexivity |]. split; [reflexivity |].
      split; [| discriminate].
      intros _. exists i. auto.
    + destruct IH as (H1 & H2 & H3 & H4).
      split; [exact H1 |]. split; [exact H2 |]. split; [| exact H4].
      intros H. destruct (H3 H) as (j & Hj1 & Hj2 & Hj3).
      exists j. auto.
Qed.

Lemma check_for_errors_cases frame s text :
  result_of (ocr_text W (Some frame) None s) = Return text ->
  result_of (check_for_errors W (Some frame) s) = Return (has_error_keyword text)
  /\ state_of (check_for_errors W (Some frame) s) = s
  /\ (has_error_keyword text = true ->
      exists indicator,
        In indicator error_indicators
        /\ str_in indicator (str_lower text) = true
        /\ events_of (check_for_errors W (Some frame) s)
           = events_of (ocr_text W (Some frame) None s)
             ++ [Log WARNING (ErrorDetected indicator)])
  /\ (has_error_keyword text = false ->
      events_of (check_for_errors W (Some frame) s)
      = events_of (ocr_text W (Some frame) None s)).
Proof.
  intros Ht. unfold check_for_errors.
  assert (Hs : state_of (ocr_text W (Some frame) None s) = s).
  { rewrite ocr_text_cases.
    destruct (image_to_string W frame None) as [? | [|]]; reflexivity. }
  destruct (ocr_text W (Some frame) None s) as [[r s1] w1] eqn:E.
  unfold result_of, state_of in Ht, Hs. simpl in Ht, Hs. subst r s1.
  rewrite (bind_Return _ _ _ _ _ _ E).
  destruct (scan_indicators_cases error_indicators (str_lower text) s)
    as (H1 & H2 & H3 & H4).
  unfold result_of, state_of, events_of in *. cbn [fst snd].
  unfold has_error_keyword.
  split; [exact H1 |]. split; [exact H2 |]. split.
  - intros H. destruct (H3 H) as (i & Hi1 & Hi2 & Hi3).
    exists i. rewrite Hi3. auto.
  - intros H. rewrite (H4 H). apply app_nil_r.
Qed.

End Faults.

(** ** Capture failure and the error scan *)

Lemma sleeps_app w1 w2 : sleeps (w1 ++ w2) = sleeps w1 ++ sleeps w2.
Proof.
  induction w1 as [| e w1 IH]; [reflexivity |].
  destruct e; simpl; rewrite IH; reflexivity.
Qed.

Lemma classifications_app w1 w2 :
  classifications (w1 ++ w2) = classifications w1 ++ classifications w2.
Proof.
  induction w1 as [| e w1 IH]; [reflexivity |].
  destruct e as [l [] | | | | |]; simpl; rewrite IH; reflexivity.
Qed.

Lemma sleeps_none w :
  Forall (fun e => kind_of e <> Sleeping) w -> sleeps w = [].
Proof.
  induction 1 as [| e w He _ IH]; [reflexivity |].
  destruct e; simpl in *; try exact IH. congruence.
Qed.

Lemma classifications_none w :
  Forall (fun e => kind_of e <> Classifying) w -> classifications w = [].
Proof.
  induction 1 as [| e w He _ IH]; [reflexivity |].
  destruct e as [l [] | | | | |]; simpl in *; try exact IH. congruence.
Qed.

Lemma iteration_of_body {Frame Template : Type} (W : World Frame Template)
    config templates s c s1 w1 :
  iteration_body W config templates s = (Return c, s1, w1) ->
  iteration W config templates s = (Return c, s1, w1).
Proof. intros H. unfold iteration. rewrite H. reflexivity. Qed.

(** An iteration whose capture fails. *)
Lemma iteration_capture_failed {Frame Template : Type} (W : World Frame Template)
    config templates s :
  result_of (capture_screen W config None s) = Return None ->
  iteration W config templates s
  = (Return Continue, state_of (capture_screen W config None s),
     events_of (capture_screen W config None s)
     ++ [Log WARNING FailedToCaptureScreenshot; Sleep 1])
  /\ untouched s (state_of (capture_screen W config None s))
  /\ Forall (fun e => kind_of e = Capturing \/ kind_of e = Querying)
       (events_of (capture_screen W config None s)).
Proof.
  intros H. pose proof (iteration_body_cases W config templates s) as Hb.
  cbv zeta in Hb. rewrite H in Hb.
  split; [apply iteration_of_body; exact Hb |].
  apply (capture_screen_untouched W config None s Logic.I).
Qed.

(** C7.  When the capture at the top of an iteration fails, the iteration
    ends with a warning and a sleep of one second and the loop goes on to
    the next iteration: the [running] flag, the four session counters
    ([errors_encountered] among them) and the counter of consecutive unknown
    screens are as before, and nothing is classified.  When the grabber
    keeps failing, any number of iterations in a row (three, say) end this
    way, and the loop is still running after them. *)
Theorem capture_failure_sleeps_and_retries {Frame Template : Type}
    (W : World Frame Template) (config : Config)
    (templates : gmap string Template) :
  (forall s,
     result_of (capture_screen W config None s) = Return None ->
     let o := iteration W config templates s in
     result_of o = Return Continue
     /\ events_of o
        = events_of (capture_screen W config None s)
          ++ [Log WARNING FailedToCaptureScreenshot; Sleep 1]
     /\ sleeps (events_of o) = [1%float]
     /\ classifications (events_of o) = []
     /\ running (state_of o) = running s
     /\ session_stats (state_of o) = session_stats s
     /\ consecutive_unknown_screens (state_of o) = consecutive_unknown_screens s)
  /\ ((forall t b, ImageGrab_grab W t b = Raise Exception) ->
      (forall t, find_uma_musume_window W t <> Raise KeyboardInterrupt) ->
      (forall t, stop_requested W t = false) ->
      forall n s,
        running s = true ->
        let o := automation_loop W config templates n s in
        result_of o = Return OutOfFuel
        /\ sleeps (events_of o) = repeat 1%float n
        /\ classifications (events_of o) = []
        /\ running (state_of o) = true
        /\ session_stats (state_of o) = session_stats s
        /\ consecutive_unknown_screens (state_of o) = consecutive_unknown_screens s).
Proof.
  assert (Hone : forall s,
            result_of (capture_screen W config None s) = Return None ->
            let o := iteration W config templates s in
            result_of o = Return Continue
            /\ events_of o
               = events_of (capture_screen W config None s)
                 ++ [Log WARNING FailedToCaptureScreenshot; Sleep 1]
            /\ sleeps (events_of o) = [1%float]
            /\ classifications (events_of o) = []
            /\ running (state_of o) = running s
            /\ session_stats (state_of o) = session_stats s
            /\ consecutive_unknown_screens (state_of o)
               = consecutive_unknown_screens s).
  { intros s H. destruct (iteration_capture_failed W config templates s H)
      as (Hi & (Hr & Hc & Hs) & Hk).
    cbv zeta. rewrite Hi. unfold result_of, state_of, events_of. cbn [fst snd].
    repeat split; auto.
    - rewrite sleeps_app, sleeps_none; [reflexivity |].
      eapply Forall_impl; [exact Hk |]. intros e [-> | ->]; discriminate.
    - rewrite classifications_app, classifications_none; [reflexivity |].
      eapply Forall_impl; [exact Hk |]. intros e [-> | ->]; discriminate. }
  split; [exact Hone |].
  intros Hg Hq Hstop n. induction n as [| n IH]; intros s Hrun.
  - cbv zeta. unfold automation_loop, ret, result_of, state_of, events_of.
    cbn [fst snd]. repeat split; auto.
  - cbv zeta. cbn [automation_loop].
    assert (Hp : poll_running W s = (Return true, tick s, [])).
    { unfold poll_running. rewrite Hstop, Hrun. reflexivity. }
    rewrite (bind_Return _ _ _ _ _ _ Hp). cbn [app].
    pose proof (capture_screen_fails W config None Hg Hq (tick s)) as Hc.
    destruct (Hone (tick s) Hc) as (H1 & H2 & H3 & H4 & H5 & H6 & H7).
    destruct (iteration W config templates (tick s)) as [[r1 s1] w1] eqn:Ei.
    unfold result_of, state_of, events_of in H1, H3, H4, H5, H6, H7.
    cbn [fst snd] in H1, H3, H4, H5, H6, H7. subst r1.
    rewrite (bind_Return _ _ _ _ _ _ Ei).
    assert (Hrun1 : running s1 = true) by (rewrite H5; exact Hrun).
    destruct (IH s1 Hrun1) as (I1 & I2 & I3 & I4 & I5 & I6).
    unfold result_of, state_of, events_of in *. cbn [fst snd].
    repeat split.
    + exact I1.
    + rewrite sleeps_app, H3, I2. reflexivity.
    + rewrite classifications_app, H4, I3. reflexivity.
    + exact I4.
    + rewrite I5, H6. reflexivity.
    + rewrite I6, H7. reflexivity.
Qed.

(** The grabber fails three times in a row. *)
Lemma capture_failure_sleeps_and_retries_witness :
  let W := Scenario.showing (fun _ => Raise Exception) in
  let o := automation_loop W default_config Scenario.library 3 Scenario.started in
  result_of o = Return OutOfFuel
  /\ sleeps (events_of o) = [1%float; 1%float; 1%float]
  /\ running (state_of o) = true
  /\ errors_encountered (session_stats (state_of o)) = 0
  /\ consecutive_unknown_screens (state_of o) = 0.
Proof.
  intros W o.
  destruct (capture_failure_sleeps_and_retries W default_config Scenario.library)
    as [_ H].
  assert (Hg : forall t b, ImageGrab_grab W t b = Raise Exception)
    by reflexivity.
  assert (Hq : forall t, find_uma_musume_window W t <> Raise KeyboardInterrupt)
    by (intros t; discriminate).
  assert (Hs : forall t, stop_requested W t = false) by reflexivity.
  destruct (H Hg Hq Hs 3%nat Scenario.started eq_refl)
    as (H1 & H2 & _ & H4 & H5 & H6).
  repeat split; assumption.
Defined.

(** [str_in] is the substring test. *)
Lemma append_cons c (a b : string) :
  String.append (String c a) b = String c (String.append a b).
Proof. reflexivity. Qed.

Lemma append_nil (b : string) : String.append "" b = b.
Proof. reflexivity. Qed.

Lemma prefix_spec (needle hay : string) :
  String.prefix needle hay = true
  <-> exists after, hay = String.append needle after.
Proof.
  revert hay. induction needle as [| a needle IH]; intros hay.
  - split; [intros _; exists hay; reflexivity |].
    intros _. destruct hay; reflexivity.
  - destruct hay as [| b hay]; simpl.
    + split; [discriminate |]. intros [after H].
      rewrite append_cons in H. discriminate.
    + destruct (ascii_dec a b) as [-> | Hab].
      * rewrite IH. split; intros [after H]; exists after.
        -- rewrite append_cons, H. reflexivity.
        -- rewrite append_cons in H. congruence.
      * split; [discriminate |]. intros [after H].
        rewrite append_cons in H. congruence.
Qed.

Lemma str_in_spec (needle hay : string) :
  str_in needle hay = true
  <-> exists before after,
        hay = String.append before (String.append needle after).
Proof.
  induction hay as [| c hay IH]; cbn [str_in].
  - destruct (String.prefix needle "") eqn:E.
    + apply prefix_spec in E. destruct E as [after E].
      split; [| reflexivity]. intros _. exists "", after. exact E.
    + split; [discriminate |]. intros (before & after & H).
      destruct before; [| rewrite append_cons in H; discriminate].
      rewrite append_nil in H.
      assert (String.prefix needle "" = true)
        by (apply prefix_spec; exists after; exact H).
      congruence.
  - destruct (String.prefix needle (String c hay)) eqn:E.
    + apply prefix_spec in E. destruct E as [after E].
      split; [| reflexivity]. intros _. exists "", after. exact E.
    + rewrite IH. split.
      * intros (before & after & ->). exists (String c before), after. reflexivity.
      * intros (before & after & H). destruct before as [| c' before].
        -- rewrite append_nil in H.
           assert (String.prefix needle (String c hay) = true)
             by (apply prefix_spec; exists after; exact H).
           congruence.
        -- rewrite append_cons in H. injection H as -> ->.
           exists before, after. reflexivity.
Qed.

(** An iteration whose error scan finds a keyword. *)
Lemma iteration_error_detected {Frame Template : Type} (W : World Frame Template)
    config templates s frame :
  result_of (capture_screen W config None s) = Return (Some frame) ->
  result_of (check_for_errors W (Some frame)
               (state_of (capture_screen W config None s))) = Return true ->
  iteration W config templates s
  = (Return Continue,
     state_of (check_for_errors W (Some frame)
                 (state_of (capture_screen W config None s))),
     events_of (capture_screen W config None s)
     ++ events_of (check_for_errors W (Some frame)
                     (state_of (capture_screen W config None s)))
     ++ [Log WARNING ErrorDetectedWaiting; Sleep 3]).
Proof.
  intros H1 H2. pose proof (iteration_body_cases W config templates s) as Hb.
  cbv zeta in Hb. rewrite H1, H2 in Hb.
  apply iteration_of_body; exact Hb.
Qed.

(** C8.  In every iteration that has captured a frame, the loop reads the
    text of the whole frame, lower-cases it and tests whether one of the
    keywords "error", "failed", "connection lost", "retry" occurs in it as a
    substring.  When one does, the iteration consists of the capture, the
    text extraction, the warning naming the keyword, a second warning and a
    sleep of three seconds; the screen is not classified, no handler is
    dispatched and nothing is clicked, the state is the one the capture
    left, and the loop goes on to the next iteration. *)
Theorem error_keyword_backs_off {Frame Template : Type}
    (W : World Frame Template) (config : Config)
    (templates : gmap string Template) (s : State) (frame : Frame) (text : string) :
  result_of (capture_screen W config None s) = Return (Some frame) ->
  let s1 := state_of (capture_screen W config None s) in
  result_of (ocr_text W (Some frame) None s1) = Return text ->
  result_of (check_for_errors W (Some frame) s1)
  = Return (existsb (fun indicator => str_in indicator (str_lower text))
              ["error"; "failed"; "connection lost"; "retry"])
  /\ (forall indicator,
        str_in indicator (str_lower text) = true
        <-> exists before after,
              str_lower text
              = String.append before (String.append indicator after))
  /\ (existsb (fun indicator => str_in indicator (str_lower text))
        ["error"; "failed"; "connection lost"; "retry"] = true ->
      let o := iteration W config templates s in
      result_of o = Return Continue
      /\ state_of o = s1
      /\ (exists indicator,
            In indicator ["error"; "failed"; "connection lost"; "retry"]
            /\ str_in indicator (str_lower text) = true
            /\ events_of o
               = events_of (capture_screen W config None s)
                 ++ events_of (ocr_text W (Some frame) None s1)
                 ++ [Log WARNING (ErrorDetected indicator);
                     Log WARNING ErrorDetectedWaiting; Sleep 3])
      /\ sleeps (events_of o) = [3%float]
      /\ classifications (events_of o) = []
      /\ Forall (fun e => kind_of e <> Handling /\ kind_of e <> ResultHandling
                          /\ kind_of e <> Clicking) (events_of o)).
Proof.
  intros Hc s1 Ht.
  destruct (check_for_errors_cases W frame s1 text Ht) as (H1 & H2 & H3 & _).
  fold error_indicators. fold (has_error_keyword text).
  split; [exact H1 |]. split; [intros indicator; apply str_in_spec |].
  intros Hk. rewrite Hk in H1.
  pose proof (iteration_error_detected W config templates s frame Hc H1) as Hi.
  destruct (H3 Hk) as (indicator & Hin & Hstr & Hev).
  fold s1 in Hi. rewrite H2, Hev in Hi.
  cbv zeta. rewrite Hi.
  change (events_of (Return Continue, s1,
            events_of (capture_screen W config None s)
            ++ (events_of (ocr_text W (Some frame) None s1)
                ++ [Log WARNING (ErrorDetected indicator)])
            ++ [Log WARNING ErrorDetectedWaiting; Sleep 3]))
    with (events_of (capture_screen W config None s)
          ++ (events_of (ocr_text W (Some frame) None s1)
              ++ [Log WARNING (ErrorDetected indicator)])
          ++ [Log WARNING ErrorDetectedWaiting; Sleep 3]).
  destruct (capture_screen_untouched W config None s Logic.I) as (_ & _ & Hk1).
  destruct (ocr_text_untouched W (Some frame) None s1 Logic.I) as (_ & _ & Hk2).
  fold s1 in Hk1.
  set (w1 := events_of (capture_screen W config None s)) in *.
  set (w2 := events_of (ocr_text W (Some frame) None s1)) in *.
  split; [reflexivity |]. split; [reflexivity |]. split.
  { exists indicator. repeat split; auto.
    rewrite <- !app_assoc. reflexivity. }
  split; [| split].
  - rewrite !sleeps_app.
    rewrite (sleeps_none w1), (sleeps_none w2); [reflexivity | |].
    + eapply Forall_impl; [exact Hk2 |]. intros e ->; discriminate.
    + eapply Forall_impl; [exact Hk1 |]. intros e [-> | ->]; discriminate.
  - rewrite !classifications_app.
    rewrite (classifications_none w1), (classifications_none w2); [reflexivity | |].
    + eapply Forall_impl; [exact Hk2 |]. intros e ->; discriminate.
    + eapply Forall_impl; [exact Hk1 |]. intros e [-> | ->]; discriminate.
  - apply Forall_app. split; [| apply Forall_app; split; [apply Forall_app; split |]].
    + eapply Forall_impl; [exact Hk1 |].
      intros e [-> | ->]; repeat split; discriminate.
    + eapply Forall_impl; [exact Hk2 |].
      intros e ->; repeat split; discriminate.
    + repeat constructor; discriminate.
    + repeat constructor; discriminate.
Qed.

(** The banner "Connection Lost" is on the screen. *)
Lemma error_keyword_backs_off_witness :
  let W := Scenario.showing (fun _ => Return Scenario.banner_frame) in
  let o := iteration W Scenario.untracked Scenario.library Scenario.started in
  result_of o = Return Continue
  /\ sleeps (events_of o) = [3%float]
  /\ classifications (events_of o) = [].
Proof.
  intros W o.
  destruct (error_keyword_backs_off W Scenario.untracked Scenario.library
              Scenario.started Scenario.banner_frame "Connection Lost"
              eq_refl eq_refl) as (_ & _ & H).
  destruct (H eq_refl) as (H1 & _ & _ & H4 & H5 & _).
  repeat split; assumption.
Defined.

(** ** Transient faults *)

Section Contained.

Context {Frame Template : Type}.
Variable W : World Frame Template.
Variable config : Config.
Variable templates : gmap string Template.

(** [focus_game_window], by cases on the platform and on [osascript]. *)
Lemma focus_game_window_cases s :
  focus_game_window W s
  = if String.eqb (system W) "Darwin" then
      match osascript_activate W (clock s) with
      | Return returncode => (Return (Z.eqb returncode 0), tick s, [Focus])
      | Raise Exception =>
          (Return false, tick s, [Focus; Log ERROR ErrorFocusingWindow])
      | Raise KeyboardInterrupt => (Raise KeyboardInterrupt, tick s, [Focus])
      end
    else (Return false, s, []).
Proof.
  unfold focus_game_window. destruct (String.eqb _ _); [| reflexivity].
  unfold try_except, bind, ask.
  destruct (osascript_activate W (clock s)) as [rc | [|]]; reflexivity.
Qed.


(** An iteration always comes back to the loop. *)
Lemma iteration_returns s :
  exists ctl, result_of (iteration W config templates s) = Return ctl.
Proof.
  unfold iteration.
  destruct (iteration_body W config templates s) as [[r s1] w1].
  destruct r as [ctl | [|]]; eexists; reflexivity.
Qed.

(** So does the loop: no exception leaves it. *)
Lemma automation_loop_returns fuel s :
  exists status, result_of (automation_loop W config templates fuel s) = Return status.
Proof.
  revert s. induction fuel as [| fuel IH]; intros s; simpl.
  - eexists; reflexivity.
  - unfold bind at 1. unfold poll_running at 1.
    destruct (running _).
    + destruct (iteration_returns
                  (tick (if stop_requested W (clock s)
                         then set_running false s else s))) as [ctl Hc].
      unfold bind.
      destruct (iteration W config templates _) as [[r s1] w1].
      unfold result_of in Hc. simpl in Hc. subst r.
      destruct ctl.
      * destruct (IH s1) as [st Hst].
        destruct (automation_loop W config templates fuel s1) as [[r2 s2] w2].
        unfold result_of in *. simpl in *. subst r2. eexists; reflexivity.
      * eexists; reflexivity.
    + eexists; reflexivity.
Qed.

End Contained.


(** ** The counter of consecutive unknown screens *)

Lemma leading_unknown_nonneg l : 0 <= leading_unknown l.
Proof.
  induction l as [| c l IH]; simpl; [lia |].
  destruct (String.eqb c "unknown"); lia.
Qed.

Lemma leading_unknown_app_known l c rest :
  String.eqb c "unknown" = false ->
  Forall (fun x => String.eqb x "unknown" = true) l ->
  leading_unknown (l ++ c :: rest) = Z.of_nat (length l).
Proof.
  intros Hc. induction 1 as [| x l Hx _ IH]; simpl.
  - rewrite Hc. reflexivity.
  - rewrite Hx, IH. lia.
Qed.

Lemma trailing_unknown_nil : trailing_unknown [] = 0.
Proof. reflexivity. Qed.

Lemma trailing_unknown_snoc l c :
  trailing_unknown (l ++ [c])
  = if String.eqb c "unknown" then trailing_unknown l + 1 else 0.
Proof.
  unfold trailing_unknown. rewrite rev_app_distr. simpl.
  destruct (String.eqb c "unknown"); lia.
Qed.

Lemma uncounted_classifications w :
  Forall uncounted w -> classifications w = [].
Proof.
  intros H. apply classifications_none.
  eapply Forall_impl; [exact H |]. intros e [He _]. exact He.
Qed.

Lemma uncounted_no_drift w : Forall uncounted w -> ~ drift_stop w.
Proof.
  unfold drift_stop. intros H Hin.
  rewrite List.Forall_forall in H. destruct (H _ Hin) as [_ Hs].
  apply Hs. reflexivity.
Qed.

Lemma drift_stop_app w1 w2 :
  drift_stop (w1 ++ w2) <-> drift_stop w1 \/ drift_stop w2.
Proof. unfold drift_stop. apply in_app_iff. Qed.

Lemma uncounted_of_kind (K : kind -> Prop) w :
  (forall k, K k -> k <> Classifying /\ k <> Stopping) ->
  Forall (fun e => K (kind_of e)) w -> Forall uncounted w.
Proof.
  intros HK H. eapply Forall_impl; [exact H |].
  intros e He. apply HK. exact He.
Qed.

Lemma counted_step_pre c c' w1 w2 :
  Forall uncounted w1 -> counted_step c c' w2 -> counted_step c c' (w1 ++ w2).
Proof.
  intros H1 H2. unfold counted_step in *.
  rewrite classifications_app, (uncounted_classifications w1 H1). simpl.
  pose proof (uncounted_no_drift w1 H1) as Hn.
  destruct (classifications w2) as [| c1 [| c2 rest]]; [| | exact H2].
  - destruct H2 as [-> H2]. split; [reflexivity |].
    rewrite drift_stop_app. tauto.
  - destruct H2 as [-> H2]. split; [reflexivity |].
    rewrite drift_stop_app. tauto.
Qed.

Lemma counted_step_post c c' w1 w2 :
  counted_step c c' w1 -> Forall uncounted w2 -> counted_step c c' (w1 ++ w2).
Proof.
  intros H1 H2. unfold counted_step in *.
  rewrite classifications_app, (uncounted_classifications w2 H2), app_nil_r.
  pose proof (uncounted_no_drift w2 H2) as Hn.
  destruct (classifications w1) as [| c1 [| c2 rest]]; [| | exact H1].
  - destruct H1 as [-> H1]. split; [reflexivity |].
    rewrite drift_stop_app. tauto.
  - destruct H1 as [-> H1]. split; [reflexivity |].
    rewrite drift_stop_app. tauto.
Qed.

Lemma drift_stop_pre w1 w2 :
  Forall uncounted w1 -> drift_stop (w1 ++ w2) -> drift_stop w2.
Proof.
  intros H. rewrite drift_stop_app. intros [Hd | Hd]; [| exact Hd].
  exfalso. exact (uncounted_no_drift w1 H Hd).
Qed.

Lemma drift_stop_post w1 w2 :
  Forall uncounted w2 -> drift_stop (w1 ++ w2) -> drift_stop w1.
Proof.
  intros H. rewrite drift_stop_app. intros [Hd | Hd]; [exact Hd |].
  exfalso. exact (uncounted_no_drift w2 H Hd).
Qed.

Section Drift.

Context {Frame Template : Type}.
Variable W : World Frame Template.
Variable config : Config.
Variable templates : gmap string Template.

Lemma untouched_quiet s s' : untouched s s' -> quiet_step s s'.
Proof.
  unfold untouched, quiet_step, outcomes_kept.
  intros (-> & -> & ->). repeat split; lia.
Qed.

Lemma window_uncounted :
  follows (fun _ => True) quiet_step uncounted (get_game_region W).
Proof.
  eapply follows_weaken; [exact untouched_quiet | | apply window_untouched_kind].
  intros e [He | He]; unfold uncounted; rewrite He; split; discriminate.
Qed.

Local Ltac uncounted_side :=
  first
    [ exact quiet_step_refl
    | exact quiet_step_trans
    | exact window_uncounted
    | (intros e He; unfold uncounted; rewrite He; split; discriminate)
    | (intros; split; [exact Logic.I |];
       unfold quiet_step, outcomes_kept; simpl; repeat split; lia) ].

(** After the bookkeeping of the counter, the dispatch and the pacing
    neither classify, nor stop, nor touch the counter. *)
Lemma dispatch_and_pace_quiet current_screen screenshot :
  In current_screen known_screens ->
  follows (fun _ => True) quiet_step uncounted
    (bind (dispatch W config templates current_screen screenshot) (fun handled =>
     bind (if negb handled then sleep (screenshot_delay config) else sleep 0.5)
       (fun _ => ret Continue))).
Proof.
  intros Hs. apply follows_bind; [uncounted_side | |].
  - apply follows_dispatch_known; [uncounted_side .. | exact Hs].
  - intros handled. apply follows_bind; [uncounted_side | |].
    + destruct (negb handled); apply follows_sleep; uncounted_side.
    + intros _. apply follows_ret. uncounted_side.
Qed.


Lemma count_unknown_cases current_screen s :
  count_unknown current_screen s
  = if negb (String.eqb current_screen "unknown") then
      (Return Continue, set_consecutive_unknown_screens 0 s, [])
    else if Z.leb max_unknown_screens (consecutive_unknown_screens s + 1) then
      (Return Break,
       set_consecutive_unknown_screens (consecutive_unknown_screens s + 1) s,
       [Log ERROR TooManyUnknownScreens])
    else
      (Return Continue,
       set_consecutive_unknown_screens (consecutive_unknown_screens s + 1) s, []).
Proof.
  unfold count_unknown. destruct (negb _); [reflexivity |].
  unfold bind, modify, gets. simpl.
  destruct (Z.leb _ _); reflexivity.
Qed.

Lemma uncounted_step c w : Forall uncounted w -> counted_step c c w.
Proof.
  intros H. unfold counted_step. rewrite (uncounted_classifications w H).
  split; [reflexivity | apply uncounted_no_drift; exact H].
Qed.

(** The classified part of an iteration. *)
Lemma act_on_counter current_screen screenshot s :
  In current_screen known_screens ->
  let o := act_on W config templates current_screen screenshot s in
  classifications (events_of o) = [current_screen]
  /\ counted_step (consecutive_unknown_screens s)
       (consecutive_unknown_screens (state_of o)) (events_of o)
  /\ (drift_stop (events_of o) -> result_of o = Return Break).
Proof.
  intros Hk. cbv zeta.
  pose proof (dispatch_and_pace_quiet current_screen screenshot Hk) as Htail.
  unfold act_on.
  set (tail := bind (dispatch W config templates current_screen screenshot) _) in *.
  assert (Hlog : log INFO (CurrentScreen current_screen) s
                 = (Return tt, s, [Log INFO (CurrentScreen current_screen)]))
    by reflexivity.
  rewrite (bind_Return _ _ _ _ _ _ Hlog).
  pose proof (count_unknown_cases current_screen s) as Hcount.
  unfold counted_step, drift_stop.
  destruct (String.eqb current_screen "unknown") eqn:Eu; simpl negb in Hcount;
    cbv iota in Hcount.
  - destruct (Z.leb max_unknown_screens (consecutive_unknown_screens s + 1)) eqn:El;
      rewrite (bind_Return _ _ _ _ _ _ Hcount); cbv beta iota;
      unfold max_unknown_screens in El.
    + apply Z.leb_le in El.
      cbn. rewrite Eu. repeat split; auto.
    + apply Z.leb_gt in El.
      specialize (Htail (set_consecutive_unknown_screens
                           (consecutive_unknown_screens s + 1) s) Logic.I).
      destruct (tail _) as [[rt st] wt].
      destruct Htail as (_ & (_ & Hc & _) & Hw).
      unfold result_of, state_of, events_of in *. cbn [fst snd app] in *.
      cbn [classifications consecutive_unknown_screens
             set_consecutive_unknown_screens] in *.
      pose proof (uncounted_no_drift _ Hw) as Hnd. unfold drift_stop in Hnd.
      rewrite (uncounted_classifications _ Hw), Eu, Hc.
      assert (Hno : ~ In (Log ERROR TooManyUnknownScreens)
                      (Log INFO (CurrentScreen current_screen) :: wt)).
      { intros [Hd | Hd]; [discriminate | contradiction]. }
      repeat split; auto; try (intros; contradiction).
      intros [_ Hge]. lia.
  - rewrite (bind_Return _ _ _ _ _ _ Hcount). cbv beta iota.
    specialize (Htail (set_consecutive_unknown_screens 0 s) Logic.I).
    destruct (tail _) as [[rt st] wt].
    destruct Htail as (_ & (_ & Hc & _) & Hw).
    unfold result_of, state_of, events_of in *. cbn [fst snd app] in *.
    cbn [classifications consecutive_unknown_screens
           set_consecutive_unknown_screens] in *.
    pose proof (uncounted_no_drift _ Hw) as Hnd. unfold drift_stop in Hnd.
    rewrite (uncounted_classifications _ Hw), Eu, Hc.
    assert (Hno : ~ In (Log ERROR TooManyUnknownScreens)
                    (Log INFO (CurrentScreen current_screen) :: wt)).
    { intros [Hd | Hd]; [discriminate | contradiction]. }
    repeat split; auto; try (intros; contradiction).
    intros [Hf _]. discriminate.
Qed.


Lemma capture_screen_uncounted region :
  follows (fun _ => True) quiet_step uncounted (capture_screen W config region).
Proof. apply follows_capture_screen; uncounted_side. Qed.

Lemma check_for_errors_uncounted screenshot :
  follows (fun _ => True) quiet_step uncounted (check_for_errors W screenshot).
Proof. apply follows_check_for_errors; uncounted_side. Qed.

Lemma detect_screen_uncounted screenshot :
  follows (fun _ => True) quiet_step uncounted (detect_screen W templates screenshot).
Proof. apply follows_detect_screen; uncounted_side. Qed.

(** The body of the [try]: at most one classification, and the counter
    follows it. *)
Lemma iteration_body_counter s :
  let o := iteration_body W config templates s in
  counted_step (consecutive_unknown_screens s)
    (consecutive_unknown_screens (state_of o)) (events_of o)
  /\ (drift_stop (events_of o) -> result_of o = Return Break).
Proof.
  pose proof (iteration_body_cases W config templates s) as Hb.
  cbv zeta in Hb |- *.
  destruct (capture_screen_uncounted None s Logic.I) as (_ & (_ & Hc1 & _) & Hw1).
  destruct (capture_screen W config None s) as [[r1 s1] w1].
  unfold result_of, state_of, events_of in Hb, Hc1, Hw1. cbn [fst snd] in Hb, Hc1, Hw1.
  assert (Hlog : forall l m d, kind_of (Log l m) = Looping ->
            Forall uncounted [Log l m; Sleep d]).
  { intros l m d Hk. repeat constructor; unfold uncounted; try rewrite Hk;
      simpl; discriminate. }
  destruct r1 as [[f |] | e].
  - destruct (check_for_errors_uncounted (Some f) s1 Logic.I)
      as (_ & (_ & Hc2 & _) & Hw2).
    destruct (check_for_errors W (Some f) s1) as [[r2 s2] w2].
    unfold result_of, state_of, events_of in Hb, Hc2, Hw2.
    cbn [fst snd] in Hb, Hc2, Hw2.
    destruct r2 as [[|] | e].
    + rewrite Hb. unfold result_of, state_of, events_of. cbn [fst snd].
      rewrite Hc2, Hc1. split.
      * apply uncounted_step. rewrite !Forall_app.
        repeat split; auto; apply Hlog; reflexivity.
      * intros Hd. exfalso. revert Hd. apply uncounted_no_drift.
        rewrite !Forall_app. repeat split; auto; apply Hlog; reflexivity.
    + destruct (detect_screen_uncounted (Some f) s2 Logic.I)
        as (_ & (_ & Hc3 & _) & Hw3).
      pose proof (detect_screen_known W templates (Some f) s2) as Hk.
      destruct (detect_screen W templates (Some f) s2) as [[r3 s3] w3].
      unfold result_of, state_of, events_of in Hb, Hc3, Hw3, Hk.
      cbn [fst snd] in Hb, Hc3, Hw3, Hk.
      destruct r3 as [cs | e].
      * destruct (act_on_counter cs (Some f) s3 (Hk cs eq_refl)) as (_ & H4 & H5).
        cbv zeta in H4, H5.
        destruct (act_on W config templates cs (Some f) s3) as [[r4 s4] w4].
        unfold result_of, state_of, events_of in Hb, H4, H5 |- *.
        cbn [fst snd] in Hb, H4, H5. rewrite Hb. cbn [fst snd].
        rewrite <- Hc1, <- Hc2, <- Hc3. split.
        -- apply counted_step_pre; [exact Hw1 |].
           apply counted_step_pre; [exact Hw2 |].
           apply counted_step_pre; [exact Hw3 |]. exact H4.
        -- intros Hd. apply H5.
           apply drift_stop_pre in Hd; [| exact Hw1].
           apply drift_stop_pre in Hd; [| exact Hw2].
           apply drift_stop_pre in Hd; [| exact Hw3]. exact Hd.
      * rewrite Hb. unfold result_of, state_of, events_of. cbn [fst snd].
        rewrite Hc3, Hc2, Hc1. split.
        -- apply uncounted_step. rewrite !Forall_app. repeat split; auto.
        -- intros Hd. exfalso. revert Hd. apply uncounted_no_drift.
           rewrite !Forall_app. repeat split; auto.
    + rewrite Hb. unfold result_of, state_of, events_of. cbn [fst snd].
      rewrite Hc2, Hc1. split.
      * apply uncounted_step. rewrite !Forall_app. repeat split; auto.
      * intros Hd. exfalso. revert Hd. apply uncounted_no_drift.
        rewrite !Forall_app. repeat split; auto.
  - rewrite Hb. unfold result_of, state_of, events_of. cbn [fst snd].
    rewrite Hc1. split.
    + apply uncounted_step. rewrite !Forall_app.
      repeat split; auto; apply Hlog; reflexivity.
    + intros Hd. exfalso. revert Hd. apply uncounted_no_drift.
      rewrite !Forall_app. repeat split; auto; apply Hlog; reflexivity.
  - rewrite Hb. unfold result_of, state_of, events_of. cbn [fst snd].
    rewrite Hc1. split.
    + apply uncounted_step. exact Hw1.
    + intros Hd. exfalso. revert Hd. apply uncounted_no_drift. exact Hw1.
Qed.

(** One iteration with its [except] clauses. *)
Lemma iteration_counter s :
  let o := iteration W config templates s in
  counted_step (consecutive_unknown_screens s)
    (consecutive_unknown_screens (state_of o)) (events_of o)
  /\ (drift_stop (events_of o) -> result_of o = Return Break)
  /\ (result_of o = Return Continue \/ result_of o = Return Break).
Proof.
  destruct (iteration_body_counter s) as [H1 H2]. cbv zeta in *.
  unfold iteration.
  destruct (iteration_body W config templates s) as [[r s1] w1].
  unfold result_of, state_of, events_of in *. cbn [fst snd] in *.
  destruct r as [[|] | [|]]; cbn [fst snd].
  - auto.
  - auto.
  - split; [| split; [| auto]].
    + apply counted_step_post; [exact H1 |].
      repeat constructor; unfold uncounted; simpl; discriminate.
    + intros Hd. apply drift_stop_post in Hd.
      * specialize (H2 Hd). discriminate.
      * repeat constructor; unfold uncounted; simpl; discriminate.
  - split; [| split; [| auto]].
    + apply counted_step_post; [exact H1 |].
      repeat constructor; unfold uncounted; simpl; discriminate.
    + intros Hd. apply drift_stop_post in Hd.
      * specialize (H2 Hd). discriminate.
      * repeat constructor; unfold uncounted; simpl; discriminate.
Qed.


(** One turn of the [while]. *)
Lemma automation_loop_S fuel s :
  automation_loop W config templates (S fuel) s
  = let s0 := tick (if stop_requested W (clock s) then set_running false s else s) in
    if running s0 then
      let o := iteration W config templates s0 in
      match result_of o with
      | Return Continue =>
          let o' := automation_loop W config templates fuel (state_of o) in
          (result_of o', state_of o', events_of o ++ events_of o')
      | Return Break => (Return LoopExited, state_of o, events_of o ++ [])
      | Raise e => (Raise e, state_of o, events_of o)
      end
    else (Return LoopExited, s0, []).
Proof.
  cbn [automation_loop]. cbv zeta.
  assert (Hp : poll_running W s
               = (Return (running (tick (if stop_requested W (clock s)
                                         then set_running false s else s))),
                  tick (if stop_requested W (clock s) then set_running false s else s),
                  [])) by reflexivity.
  rewrite (bind_Return _ _ _ _ _ _ Hp).
  destruct (running _); [| reflexivity].
  destruct (iteration W config templates _) as [[r s1] w1] eqn:Ei.
  cbn [result_of state_of events_of fst snd].
  destruct r as [[|] | e].
  - rewrite (bind_Return _ _ _ _ _ _ Ei). reflexivity.
  - rewrite (bind_Return _ _ _ _ _ _ Ei). reflexivity.
  - rewrite (bind_Raise _ _ _ _ _ _ Ei). reflexivity.
Qed.

Lemma never_ten_before_snoc history screen :
  trailing_unknown history < 10 ->
  never_ten_before history ->
  never_ten_before (history ++ [screen]).
Proof.
  intros Ht Hn earlier later Heq Hne.
  destruct (exists_last Hne) as (later' & last & ->).
  rewrite app_assoc in Heq. apply app_inj_tail in Heq. destruct Heq as [Heq _].
  destruct later' as [| x later'].
  - rewrite app_nil_r in Heq. subst. exact Ht.
  - apply (Hn earlier (x :: later')); [exact Heq | discriminate].
Qed.

(** The loop: the counter is the length of the run of unknown screens the
    history of classifications ends with; the loop gives up exactly when
    that length reaches ten, and it never was ten before. *)
Lemma automation_loop_counter fuel :
  forall s history,
    consecutive_unknown_screens s = trailing_unknown history ->
    trailing_unknown history < 10 ->
    never_ten_before history ->
    let o := automation_loop W config templates fuel s in
    let history' := history ++ classifications (events_of o) in
    consecutive_unknown_screens (state_of o) = trailing_unknown history'
    /\ (drift_stop (events_of o) <-> trailing_unknown history' = 10)
    /\ trailing_unknown history' <= 10
    /\ never_ten_before history'
    /\ (drift_stop (events_of o) -> result_of o = Return LoopExited).
Proof.
  assert (Hstay : forall s history,
            consecutive_unknown_screens s = trailing_unknown history ->
            trailing_unknown history < 10 ->
            never_ten_before history ->
            forall r,
              consecutive_unknown_screens s = trailing_unknown (history ++ [])
              /\ (drift_stop [] <-> trailing_unknown (history ++ []) = 10)
              /\ trailing_unknown (history ++ []) <= 10
              /\ never_ten_before (history ++ [])
              /\ (drift_stop [] -> r = Return LoopExited)).
  { intros s history Hc Hlt Hn r. rewrite app_nil_r. unfold drift_stop. simpl.
    repeat split; auto; try lia; try tauto. }
  induction fuel as [| fuel IH]; intros s history Hc Hlt Hn.
  - apply Hstay; assumption.
  - cbv zeta. rewrite automation_loop_S. cbv zeta.
    set (s0 := tick (if stop_requested W (clock s) then set_running false s else s)).
    assert (Hc0 : consecutive_unknown_screens s0 = trailing_unknown history).
    { unfold s0. destruct (stop_requested W (clock s)); exact Hc. }
    destruct (running s0); [| apply (Hstay s0); assumption].
    destruct (iteration_counter s0) as (Hstep & Hbreak & Hres).
    cbv zeta in Hstep, Hbreak, Hres.
    destruct (iteration W config templates s0) as [[r s1] w1].
    unfold result_of, state_of, events_of in Hstep, Hbreak, Hres |- *.
    cbn [fst snd] in Hstep, Hbreak, Hres |- *.
    unfold counted_step in Hstep. rewrite Hc0 in Hstep.
    (* the history after this iteration *)
    assert (Hnext :
      exists history1,
        history ++ classifications w1 = history1
        /\ consecutive_unknown_screens s1 = trailing_unknown history1
        /\ never_ten_before history1
        /\ (drift_stop w1 <-> trailing_unknown history1 = 10)
        /\ trailing_unknown history1 <= 10).
    { destruct (classifications w1) as [| c1 [| c2 rest]]; [| | contradiction].
      - destruct Hstep as [Hs Hnd]. exists history. rewrite app_nil_r.
        repeat split; auto; try lia. intros Hd. contradiction.
      - destruct Hstep as [Hs Hd]. exists (history ++ [c1]).
        rewrite trailing_unknown_snoc.
        pose proof (never_ten_before_snoc history c1 Hlt Hn) as Hn1.
        pose proof (leading_unknown_nonneg (rev history)) as Hpos.
        fold (trailing_unknown history) in Hpos.
        destruct (String.eqb c1 "unknown"); repeat split; auto; try lia.
        + intros Hdd. apply Hd in Hdd. destruct Hdd as [_ Hdd]. lia.
        + intros Hdd. apply Hd. split; [reflexivity | lia].
        + intros Hdd. apply Hd in Hdd. destruct Hdd; discriminate. }
    destruct Hnext as (history1 & Hh & Hc1 & Hn1 & Hd1 & Hle1).
    destruct Hres as [-> | ->].
    + (* the loop goes on *)
      destruct (Z.eq_dec (trailing_unknown history1) 10) as [Hten | Hten].
      { apply Hd1 in Hten. specialize (Hbreak Hten). discriminate. }
      assert (Hlt1 : trailing_unknown history1 < 10) by lia.
      specialize (IH s1 history1 Hc1 Hlt1 Hn1). cbv zeta in IH.
      unfold result_of, state_of, events_of in IH.
      destruct (automation_loop W config templates fuel s1) as [[r2 s2] w2].
      cbn [fst snd] in IH |- *.
      rewrite classifications_app, app_assoc, Hh.
      destruct IH as (I1 & I2 & I3 & I4 & I5).
      repeat split; auto.
      * intros Hd. apply I2. apply drift_stop_app in Hd.
        destruct Hd as [Hd | Hd]; [| exact Hd].
        apply Hd1 in Hd. contradiction.
      * intros Hd. apply drift_stop_app. right. apply I2. exact Hd.
      * intros Hd. apply I5. apply drift_stop_app in Hd.
        destruct Hd as [Hd | Hd]; [| exact Hd].
        apply Hd1 in Hd. contradiction.
    + (* the loop is left *)
      cbn [fst snd]. rewrite app_nil_r, Hh.
      repeat split; auto; apply Hd1.
Qed.

End Drift.

(** The statements of [run_automation] before the loop neither classify nor
    touch the flag and the counters. *)
Lemma window_setup_uncounted {Frame Template : Type} (W : World Frame Template)
    (config : Config) :
  follows (fun _ => True) quiet_step uncounted
    (if window_detection_enabled config then
       bind (get_game_region W) (fun r =>
       bind (modify (set_game_region r)) (fun _ =>
       match r with
       | Some region => log INFO (GameWindowDetected region)
       | None => log WARNING GameWindowNotDetected
       end))
     else ret tt).
Proof.
  destruct (window_detection_enabled config);
    [| apply follows_ret; exact quiet_step_refl].
  apply follows_bind; [exact quiet_step_trans | apply window_uncounted |].
  intros r. apply follows_bind; [exact quiet_step_trans | |].
  - apply follows_modify. intros s _. split; [exact Logic.I |].
    unfold quiet_step, outcomes_kept. simpl. repeat split; lia.
  - intros _. destruct r; apply follows_emit;
      first [exact quiet_step_refl | unfold uncounted; simpl; split; discriminate].
Qed.

(** C1.  In every run of [run_automation], write [history] for the
    sequence of screens the classifier reported.  The loop gives up for too
    many unknown screens exactly when [history] ends with ten ["unknown"] in
    a row, and not before: no proper prefix of [history] ends with ten.
    When it gives up, the loop is left and [running] is false.  The counter
    of consecutive unknown screens is the length of the run of ["unknown"]
    that [history] ends with; so a screen other than ["unknown"] resets it
    to zero, and nine unknown screens followed by a known one leave the loop
    running with the counter at zero. *)
Theorem loop_stops_at_ten_unknown_screens {Frame Template : Type}
    (W : World Frame Template) (config : Config)
    (templates : gmap string Template) (fuel : nat) (s : State) :
  let o := run_automation W config templates fuel s in
  let history := classifications (events_of o) in
  (drift_stop (events_of o) <-> trailing_unknown history = 10)
  /\ trailing_unknown history <= 10
  /\ (forall earlier later,
        history = earlier ++ later -> later <> [] ->
        trailing_unknown earlier < 10)
  /\ (drift_stop (events_of o) ->
      result_of o = Return LoopExited /\ running (state_of o) = false)
  /\ (forall status,
        result_of o = Return status ->
        consecutive_unknown_screens (state_of o) = trailing_unknown history)
  /\ (forall earlier screen,
        history = earlier ++ [screen] -> screen <> "unknown" ->
        ~ drift_stop (events_of o)
        /\ (forall status,
              result_of o = Return status ->
              consecutive_unknown_screens (state_of o) = 0)).
Proof.
  cbv zeta.
  assert (Hmain :
    let o := run_automation W config templates fuel s in
    let history := classifications (events_of o) in
    (drift_stop (events_of o) <-> trailing_unknown history = 10)
    /\ trailing_unknown history <= 10
    /\ never_ten_before history
    /\ (drift_stop (events_of o) ->
        result_of o = Return LoopExited /\ running (state_of o) = false)
    /\ (forall status,
          result_of o = Return status ->
          consecutive_unknown_screens (state_of o) = trailing_unknown history)).
  { cbv zeta. unfold run_automation.
    rewrite (bind_Return _ _ s tt s [Log INFO StartingAutomation] eq_refl).
    rewrite (bind_Return _ _ s tt (set_running true s) [] eq_refl).
    rewrite app_nil_l.
    pose proof (window_setup_uncounted W config (set_running true s) Logic.I)
      as (_ & _ & Hw).
    match goal with
    | |- context [bind ?m ?k (set_running true s)] =>
        destruct (m (set_running true s)) as [[rW sW] wW] eqn:EW
    end.
    unfold events_of in Hw. cbn [snd] in Hw.
    assert (Hnil : never_ten_before []).
    { intros earlier later Heq Hne. symmetry in Heq.
      apply app_eq_nil in Heq. destruct Heq as [_ ->]. contradiction. }
    destruct rW as [[] | e].
    - rewrite (bind_Return _ _ _ _ _ _ EW).
      rewrite (bind_Return _ _ sW tt (set_consecutive_unknown_screens 0 sW) []
                 eq_refl).
      rewrite app_nil_l.
      pose proof (automation_loop_counter W config templates fuel
                    (set_consecutive_unknown_screens 0 sW) []
                    eq_refl ltac:(unfold trailing_unknown; simpl; lia) Hnil) as Hl.
      cbv zeta in Hl. rewrite app_nil_l in Hl.
      destruct (automation_loop W config templates fuel
                  (set_consecutive_unknown_screens 0 sW)) as [[rL sL] wL] eqn:EL.
      unfold result_of, state_of, events_of in Hl. cbn [fst snd] in Hl.
      destruct Hl as (L1 & L2 & L3 & L4 & L5).
      destruct rL as [[|] | e].
      + rewrite (bind_Return _ _ _ _ _ _ EL). cbv beta iota.
        set (tail := [Log INFO AutomationStopped;
                      Log INFO (SessionStatsReport
                                  (training_sessions (session_stats sL))
                                  (races_completed (session_stats sL))
                                  (events_handled (session_stats sL))
                                  (errors_encountered (session_stats sL)))]).
        match goal with
        | |- context [result_of (?e sL)] =>
            assert (He : e sL = (Return LoopExited, set_running false sL, tail))
              by reflexivity;
            rewrite He
        end.
        unfold result_of, state_of, events_of. cbn [fst snd].
        assert (Ht : Forall uncounted tail)
          by (repeat constructor; unfold uncounted; simpl; discriminate).
        assert (Hcl : classifications
                        ([Log INFO StartingAutomation] ++ wW ++ wL ++ tail)
                      = classifications wL).
        { rewrite !classifications_app, (uncounted_classifications wW Hw),
            (uncounted_classifications tail Ht), app_nil_r. reflexivity. }
        assert (Hdr : drift_stop ([Log INFO StartingAutomation] ++ wW ++ wL ++ tail)
                      <-> drift_stop wL).
        { rewrite !drift_stop_app.
          pose proof (uncounted_no_drift wW Hw).
          pose proof (uncounted_no_drift tail Ht).
          assert (~ drift_stop [Log INFO StartingAutomation])
            by (intros [Hd | []]; discriminate).
          tauto. }
        rewrite Hdr, Hcl.
        split; [exact L2 |]. split; [exact L3 |]. split; [exact L4 |].
        split; [intros _; split; reflexivity |].
        intros status _. exact L1.
      + rewrite (bind_Return _ _ _ _ _ _ EL). cbv beta iota.
        unfold result_of, state_of, events_of, ret. cbn [fst snd].
        rewrite app_nil_r.
        assert (Hcl : classifications ([Log INFO StartingAutomation] ++ wW ++ wL)
                      = classifications wL).
        { rewrite !classifications_app, (uncounted_classifications wW Hw).
          reflexivity. }
        assert (Hdr : drift_stop ([Log INFO StartingAutomation] ++ wW ++ wL)
                      <-> drift_stop wL).
        { rewrite !drift_stop_app.
          pose proof (uncounted_no_drift wW Hw).
          assert (~ drift_stop [Log INFO StartingAutomation])
            by (intros [Hd | []]; discriminate).
          tauto. }
        rewrite Hdr, Hcl.
        split; [exact L2 |]. split; [exact L3 |]. split; [exact L4 |].
        split; [intros Hd; specialize (L5 Hd); discriminate |].
        intros status _. exact L1.
      + rewrite (bind_Raise _ _ _ _ _ _ EL).
        unfold result_of, state_of, events_of. cbn [fst snd].
        assert (Hcl : classifications ([Log INFO StartingAutomation] ++ wW ++ wL)
                      = classifications wL).
        { rewrite !classifications_app, (uncounted_classifications wW Hw).
          reflexivity. }
        assert (Hdr : drift_stop ([Log INFO StartingAutomation] ++ wW ++ wL)
                      <-> drift_stop wL).
        { rewrite !drift_stop_app.
          pose proof (uncounted_no_drift wW Hw).
          assert (~ drift_stop [Log INFO StartingAutomation])
            by (intros [Hd | []]; discriminate).
          tauto. }
        rewrite Hdr, Hcl.
        split; [exact L2 |]. split; [exact L3 |]. split; [exact L4 |].
        split; [intros Hd; specialize (L5 Hd); discriminate |].
        intros status _. exact L1.
    - rewrite (bind_Raise _ _ _ _ _ _ EW).
      unfold result_of, state_of, events_of. cbn [fst snd].
      assert (Hall : Forall uncounted ([Log INFO StartingAutomation] ++ wW)).
      { constructor; [unfold uncounted; simpl; split; discriminate | exact Hw]. }
      rewrite (uncounted_classifications _ Hall).
      pose proof (uncounted_no_drift _ Hall) as Hn.
      split; [split; [intros Hd; contradiction | discriminate] |].
      split; [unfold trailing_unknown; simpl; lia |].
      split; [exact Hnil |].
      split; [intros Hd; contradiction |].
      discriminate. }
  cbv zeta in Hmain. destruct Hmain as (H1 & H2 & H3 & H4 & H5).
  split; [exact H1 |]. split; [exact H2 |]. split; [exact H3 |].
  split; [exact H4 |]. split; [exact H5 |].
  intros earlier screen H Hscreen. split.
  - intros Hd. apply H1 in Hd. rewrite H in Hd.
    rewrite trailing_unknown_snoc in Hd.
    destruct (String.eqb screen "unknown") eqn:E; [| lia].
    apply String.eqb_eq in E. contradiction.
  - intros status Hs. rewrite (H5 status Hs), H, trailing_unknown_snoc.
    destruct (String.eqb screen "unknown") eqn:E; [| reflexivity].
    apply String.eqb_eq in E. contradiction.
Qed.

(** Nine blank frames followed by the main menu leave the loop running with
    the counter at zero; ten blank frames stop it. *)
Lemma loop_stops_at_ten_unknown_screens_witness :
  (let W := Scenario.showing Scenario.nine_blank_then_menu in
   let o := run_automation W Scenario.untracked Scenario.library 10 Scenario.started in
   classifications (events_of o) = repeat "unknown" 9 ++ ["main_menu"]
   /\ ~ drift_stop (events_of o)
   /\ result_of o = Return OutOfFuel
   /\ running (state_of o) = true
   /\ consecutive_unknown_screens (state_of o) = 0)
  /\ (let W := Scenario.showing (fun _ => Return Scenario.blank) in
      let o := run_automation W Scenario.untracked Scenario.library 12 Scenario.started in
      classifications (events_of o) = repeat "unknown" 10
      /\ drift_stop (events_of o)
      /\ result_of o = Return LoopExited
      /\ running (state_of o) = false).
Proof.
  split.
  - intros W o.
    destruct (loop_stops_at_ten_unknown_screens W Scenario.untracked
                Scenario.library 10 Scenario.started)
      as (_ & _ & _ & _ & _ & H).
    assert (Hh : classifications (events_of o) = repeat "unknown" 9 ++ ["main_menu"])
      by (vm_compute; reflexivity).
    assert (Hr : result_of o = Return OutOfFuel) by (vm_compute; reflexivity).
    destruct (H (repeat "unknown" 9) "main_menu" Hh ltac:(discriminate)) as [H1 H2].
    split; [exact Hh |]. split; [exact H1 |]. split; [exact Hr |].
    split; [vm_compute; reflexivity |].
    exact (H2 OutOfFuel Hr).
  - intros W o.
    destruct (loop_stops_at_ten_unknown_screens W Scenario.untracked
                Scenario.library 12 Scenario.started)
      as (H1 & _ & _ & H4 & _).
    assert (Hh : classifications (events_of o) = repeat "unknown" 10)
      by (vm_compute; reflexivity).
    assert (Hd : drift_stop (events_of o)).
    { apply H1. fold o. rewrite Hh. vm_compute. reflexivity. }
    destruct (H4 Hd) as [H5 H6].
    split; [exact Hh |]. split; [exact Hd |]. split; [exact H5 | exact H6].
Defined.

(** * Double-precision arithmetic of the coordinate conversions

    [get_relative_coordinates] divides two [int]s and
    [get_absolute_coordinates] multiplies, adds and truncates: each operation
    is IEEE-754 binary64 with rounding to nearest, ties to even.  The lemmas
    below bound the rounding of each operation through the real value of its
    result. *)

Lemma digits2_pos_size p : digits2_pos p = Pos.size p.
Proof. induction p; simpl; congruence. Qed.

Lemma digits2_bounds p :
  2 ^ (Zpos (digits2_pos p) - 1) <= Zpos p < 2 ^ Zpos (digits2_pos p).
Proof.
  rewrite digits2_pos_size. split.
  - pose proof (Pos.size_le p) as H.
    assert (Hs : Zpos (Pos.size p) = Z.succ (Zpos (Pos.size p) - 1)) by lia.
    assert (H2 : 2 ^ Zpos (Pos.size p) <= 2 * Zpos p).
    { change (2 * Zpos p) with (Zpos (2 * p)). rewrite <- Pos2Z.inj_pow. lia. }
    rewrite Hs, Z.pow_succ_r in H2 by lia. lia.
  - pose proof (Pos.size_gt p) as H. rewrite <- Pos2Z.inj_pow. lia.
Qed.

(** digits are determined by the bounds *)
Lemma digits2_unique p d :
  0 < d -> 2 ^ (d - 1) <= Zpos p < 2 ^ d -> Zpos (digits2_pos p) = d.
Proof.
  intros Hd [H1 H2]. pose proof (digits2_bounds p) as [H3 H4].
  set (k := Zpos (digits2_pos p)) in *.
  assert (0 < k) by (unfold k; lia).
  destruct (Z.lt_trichotomy k d) as [Hlt | [Heq | Hgt]]; [| exact Heq |].
  - assert (2 ^ k <= 2 ^ (d - 1)) by (apply Z.pow_le_mono_r; lia). lia.
  - assert (2 ^ d <= 2 ^ (k - 1)) by (apply Z.pow_le_mono_r; lia). lia.
Qed.

Lemma shr_1_m mrs : 0 <= shr_m mrs -> shr_m (shr_1 mrs) = shr_m mrs / 2.
Proof.
  destruct mrs as [m r s]. simpl. intros Hm.
  destruct m as [| [p | p |] | p]; simpl; try reflexivity; try lia.
  - apply Z.div_unique with 1; lia.
  - apply Z.div_unique with 0; lia.
Qed.

Lemma shr_1_nonneg mrs : 0 <= shr_m mrs -> 0 <= shr_m (shr_1 mrs).
Proof.
  intros H. rewrite shr_1_m by exact H. apply Z.div_pos; lia.
Qed.

Lemma iter_shr_m n : forall mrs,
  0 <= shr_m mrs ->
  shr_m (SpecFloat.iter_pos shr_1 n mrs) = shr_m mrs / 2 ^ Zpos n
  /\ 0 <= shr_m (SpecFloat.iter_pos shr_1 n mrs).
Proof.
  induction n as [n IH | n IH |]; intros mrs Hm; cbn [SpecFloat.iter_pos].
  - pose proof (shr_1_nonneg mrs Hm) as H1.
    destruct (IH (shr_1 mrs) H1) as [E1 P1].
    destruct (IH _ P1) as [E2 P2]. split; [| exact P2].
    rewrite E2, E1, shr_1_m by exact Hm.
    rewrite !Z.div_div by lia.
    f_equal.
    replace (Zpos n~1) with (1 + Zpos n + Zpos n) by lia.
    rewrite !Z.pow_add_r by lia. lia.
  - destruct (IH mrs Hm) as [E1 P1].
    destruct (IH _ P1) as [E2 P2]. split; [| exact P2].
    rewrite E2, E1. rewrite !Z.div_div by lia.
    f_equal.
    replace (Zpos n~0) with (Zpos n + Zpos n) by lia.
    rewrite !Z.pow_add_r by lia. lia.
  - split; [apply shr_1_m; exact Hm | apply shr_1_nonneg; exact Hm].
Qed.

Lemma shr_record_of_loc_m m l : shr_m (shr_record_of_loc m l) = m.
Proof. destruct l as [| []]; reflexivity. Qed.

(** [shr] divides the mantissa by [2^n] and adds [n] to the exponent *)
Lemma shr_spec mrs e n :
  0 <= shr_m mrs -> 0 <= n ->
  shr_m (fst (shr mrs e n)) = shr_m mrs / 2 ^ n /\ snd (shr mrs e n) = e + n.
Proof.
  intros Hm Hn. destruct n as [| p | p]; simpl; try lia.
  - rewrite Z.div_1_r. split; [reflexivity | lia].
  - split; [apply iter_shr_m; exact Hm | reflexivity].
Qed.

Lemma round_nearest_even_cases m l :
  round_nearest_even m l = m \/ round_nearest_even m l = m + 1.
Proof.
  destruct l as [| []]; simpl; auto. destruct (Z.even m); auto.
Qed.

Lemma fexp_eq e : fexp prec emax e = Z.max (e - 53) (-1074).
Proof. reflexivity. Qed.

Lemma loc_of_shr_record_of_loc m l :
  loc_of_shr_record (shr_record_of_loc m l) = l.
Proof. destruct l as [| []]; reflexivity. Qed.

Lemma shr_zero mrs e n : n <= 0 -> shr mrs e n = (mrs, e).
Proof. destruct n; simpl; intros; try reflexivity; lia. Qed.

Lemma div_pow2_bounds mx d n :
  0 <= n -> n < d -> 2 ^ (d - 1) <= mx < 2 ^ d ->
  2 ^ (d - n - 1) <= mx / 2 ^ n < 2 ^ (d - n).
Proof.
  intros Hn Hd [H1 H2].
  assert (Hp : 0 < 2 ^ n) by (apply Z.pow_pos_nonneg; lia).
  split.
  - apply Z.div_le_lower_bound; [exact Hp |].
    rewrite <- Z.pow_add_r by lia. replace (n + (d - n - 1)) with (d - 1) by lia.
    exact H1.
  - apply Z.div_lt_upper_bound; [exact Hp |].
    rewrite <- Z.pow_add_r by lia. replace (n + (d - n)) with d by lia.
    exact H2.
Qed.

(** Rounding a mantissa of at least 53 digits in the normal range: the
    result is finite and valid, and its mantissa is the truncated mantissa
    or its successor. *)
Lemma binary_round_aux_normal sx mx ex lx :
  0 < mx ->
  let d := Zdigits2 mx in
  53 <= d -> -1074 <= d + ex - 53 -> d + ex <= 1023 ->
  let n := d - 53 in
  let lo := mx / 2 ^ n in
  exists m e c,
    binary_round_aux prec emax sx mx ex lx = S754_finite sx m e
    /\ SpecFloat.bounded prec emax m e = true
    /\ (c = lo \/ c = lo + 1)
    /\ (lx = loc_Exact -> n = 0 -> c = mx)
    /\ ((e = ex + n /\ Zpos m = c)
        \/ (e = ex + n + 1 /\ c = 2 ^ 53 /\ Zpos m = 2 ^ 52))
    /\ 2 ^ 52 <= lo < 2 ^ 53
    /\ 2 ^ 52 <= Zpos m < 2 ^ 53.
Proof.
  intros Hmx d Hd Hmin Hmax n lo.
  destruct mx as [| p | p]; try lia.
  pose proof (digits2_bounds p) as Hdig. fold (Zdigits2 (Zpos p)) in Hdig.
  change (Zdigits2 (Zpos p)) with d in Hdig.
  assert (Hlo : 2 ^ 52 <= lo < 2 ^ 53).
  { unfold lo, n.
    pose proof (div_pow2_bounds (Zpos p) d (d - 53) ltac:(lia) ltac:(lia) Hdig) as H.
    replace (d - (d - 53) - 1) with 52 in H by lia.
    replace (d - (d - 53)) with 53 in H by lia. exact H. }
  unfold binary_round_aux, shr_fexp.
  fold d. rewrite fexp_eq.
  replace (Z.max (d + ex - 53) (-1074) - ex) with n by (unfold n; lia).
  (* first shift *)
  pose proof (shr_spec (shr_record_of_loc (Zpos p) lx) ex n
                ltac:(rewrite shr_record_of_loc_m; lia) ltac:(unfold n; lia))
    as [Hm1 He1].
  rewrite shr_record_of_loc_m in Hm1. fold lo in Hm1.
  assert (Hexact : lx = loc_Exact -> n = 0 ->
            round_nearest_even (shr_m (fst (shr (shr_record_of_loc (Zpos p) lx) ex n)))
              (loc_of_shr_record (fst (shr (shr_record_of_loc (Zpos p) lx) ex n)))
            = Zpos p).
  { intros -> Hn0. rewrite Hn0. reflexivity. }
  destruct (shr (shr_record_of_loc (Zpos p) lx) ex n) as [mrs1 e1].
  cbn [fst snd] in Hm1, He1, Hexact. subst e1.
  set (m2 := round_nearest_even (shr_m mrs1) (loc_of_shr_record mrs1)) in *.
  assert (Hm2 : m2 = lo \/ m2 = lo + 1).
  { unfold m2. rewrite <- Hm1. apply round_nearest_even_cases. }
  assert (Hm2pos : 0 < m2) by lia.
  destruct (Z_lt_le_dec m2 (2 ^ 53)) as [Hsmall | Hbig].
  - (* no carry *)
    destruct m2 as [| p2 | p2] eqn:Ep2; try lia.
    assert (Hd2 : Zdigits2 (Zpos p2) = 53).
    { apply digits2_unique; lia. }
    rewrite Hd2, fexp_eq.
    rewrite shr_zero by lia.
    rewrite shr_record_of_loc_m.
    replace (ex + n <=? emax - prec) with true
      by (symmetry; apply Z.leb_le; unfold emax, prec, n; lia).
    exists p2, (ex + n), (Zpos p2).
    split; [reflexivity |]. split.
    { unfold SpecFloat.bounded, canonical_mantissa. rewrite fexp_eq.
      change (Zpos (digits2_pos p2)) with (Zdigits2 (Zpos p2)). rewrite Hd2.
      apply andb_true_intro. split; [apply Z.eqb_eq | apply Z.leb_le];
        unfold emax, prec, n; lia. }
    split; [exact Hm2 |]. split; [exact Hexact |]. split; [left; auto |].
    split; [exact Hlo | lia].
  - (* carry to 2^53 *)
    assert (Em2 : m2 = 2 ^ 53) by lia.
    destruct m2 as [| p2 | p2] eqn:Ep2; try lia.
    assert (Hd2 : Zdigits2 (Zpos p2) = 54).
    { apply digits2_unique; [lia |]. rewrite Em2. split.
      - apply Z.pow_le_mono_r; lia.
      - apply Z.pow_lt_mono_r; lia. }
    rewrite Hd2, fexp_eq.
    replace (Z.max (54 + (ex + n) - 53) (-1074) - (ex + n)) with 1
      by (unfold n; lia).
    pose proof (shr_spec (shr_record_of_loc (Zpos p2) loc_Exact) (ex + n) 1
                  ltac:(rewrite shr_record_of_loc_m; lia) ltac:(lia))
      as [Hm3 He3].
    destruct (shr (shr_record_of_loc (Zpos p2) loc_Exact) (ex + n) 1) as [mrs3 e3].
    cbn [fst snd] in Hm3, He3. subst e3.
    rewrite shr_record_of_loc_m, Em2 in Hm3.
    change (2 ^ 53 / 2 ^ 1) with (2 ^ 52) in Hm3.
    rewrite Hm3. change (2 ^ 52) with (Zpos (2 ^ 52)).
    replace (ex + n + 1 <=? emax - prec) with true
      by (symmetry; apply Z.leb_le; unfold emax, prec, n; lia).
    exists (2 ^ 52)%positive, (ex + n + 1), (Zpos p2).
    split; [reflexivity |]. split.
    { unfold SpecFloat.bounded, canonical_mantissa. rewrite fexp_eq.
      assert (Hd3 : Zpos (digits2_pos (2 ^ 52)) = 53) by (vm_compute; reflexivity).
      rewrite Hd3.
      apply andb_true_intro. split; [apply Z.eqb_eq | apply Z.leb_le];
        unfold emax, prec, n; lia. }
    split; [exact Hm2 |]. split; [exact Hexact |].
    split; [right; auto |]. split; [exact Hlo | lia].
Qed.

Lemma bpow_pos e : (0 < bpow e)%R.
Proof. apply powerRZ_lt. lra. Qed.

Lemma bpow_add a b : bpow (a + b) = (bpow a * bpow b)%R.
Proof. apply powerRZ_add. lra. Qed.

Lemma bpow_0 : bpow 0 = 1%R.
Proof. reflexivity. Qed.

Lemma bpow_IZR k : 0 <= k -> bpow k = IZR (2 ^ k).
Proof.
  intros Hk. destruct k as [| p | p]; try lia; [reflexivity |].
  unfold bpow. change (2 ^ Zpos p) with (Z.pow_pos 2 p).
  rewrite Zpower_pos_powerRZ. reflexivity.
Qed.

Lemma bpow_opp_r a : (bpow a * bpow (- a) = 1)%R.
Proof. rewrite <- bpow_add. replace (a + - a) with 0 by lia. apply bpow_0. Qed.

Lemma bpow_ge_1 k : 0 <= k -> (1 <= bpow k)%R.
Proof.
  intros Hk. rewrite bpow_IZR by exact Hk. apply IZR_le.
  assert (0 < 2 ^ k) by (apply Z.pow_pos_nonneg; lia). lia.
Qed.

Lemma bpow_le a b : a <= b -> (bpow a <= bpow b)%R.
Proof.
  intros H. replace b with (a + (b - a)) by lia. rewrite bpow_add.
  pose proof (bpow_pos a). pose proof (bpow_ge_1 (b - a) ltac:(lia)). nra.
Qed.

Lemma bpow_lt a b : a < b -> (bpow a < bpow b)%R.
Proof.
  intros H. replace b with (a + 1 + (b - a - 1)) by lia. rewrite !bpow_add.
  pose proof (bpow_pos a). pose proof (bpow_ge_1 (b - a - 1) ltac:(lia)).
  assert (Hb1 : bpow 1 = 2%R) by (unfold bpow; simpl; lra).
  rewrite Hb1. nra.
Qed.

Lemma F2R_shift m e k : 0 <= k -> F2R (m * 2 ^ k) (e - k) = F2R m e.
Proof.
  intros Hk. unfold F2R. rewrite mult_IZR, <- bpow_IZR by exact Hk.
  rewrite Rmult_assoc, <- bpow_add. f_equal. f_equal. lia.
Qed.

Lemma F2R_mult m1 e1 m2 e2 : F2R (m1 * m2) (e1 + e2) = (F2R m1 e1 * F2R m2 e2)%R.
Proof. unfold F2R. rewrite mult_IZR, bpow_add. ring. Qed.

Lemma F2R_opp m e : F2R (- m) e = (- F2R m e)%R.
Proof. unfold F2R. rewrite opp_IZR. ring. Qed.

Lemma F2R_plus m1 m2 e : F2R (m1 + m2) e = (F2R m1 e + F2R m2 e)%R.
Proof. unfold F2R. rewrite plus_IZR. ring. Qed.

Lemma F2R_0 m : F2R m 0 = IZR m.
Proof. unfold F2R. rewrite bpow_0. ring. Qed.

Lemma F2R_le m1 m2 e : m1 <= m2 -> (F2R m1 e <= F2R m2 e)%R.
Proof.
  intros H. unfold F2R. pose proof (bpow_pos e). apply IZR_le in H. nra.
Qed.

Lemma F2R_lt m1 m2 e : m1 < m2 -> (F2R m1 e < F2R m2 e)%R.
Proof.
  intros H. unfold F2R. pose proof (bpow_pos e). apply IZR_lt in H. nra.
Qed.

Lemma F2R_lt_inv m1 m2 e : (F2R m1 e < F2R m2 e)%R -> m1 < m2.
Proof.
  intros H. destruct (Z_lt_le_dec m1 m2) as [Hlt | Hle]; [exact Hlt |].
  apply (F2R_le _ _ e) in Hle. lra.
Qed.

Lemma F2R_le_inv m1 m2 e : (F2R m1 e <= F2R m2 e)%R -> m1 <= m2.
Proof.
  intros H. destruct (Z_lt_le_dec m2 m1) as [Hlt | Hle]; [| exact Hle].
  apply (F2R_lt _ _ e) in Hlt. lra.
Qed.

(** The faithful rounding of [binary_round_aux], over the reals: the
    mantissa [mx] at exponent [ex] lies between two neighbours [a] and
    [a + u] of the grid of step [u], and the result is one of them. *)
Lemma binary_round_aux_faithful sx mx ex lx :
  0 < mx ->
  let d := Zdigits2 mx in
  53 <= d -> -1074 <= d + ex - 53 -> d + ex <= 1023 ->
  let E := ex + d - 53 in
  exists m e lo,
    binary_round_aux prec emax sx mx ex lx = S754_finite sx m e
    /\ SpecFloat.bounded prec emax m e = true
    /\ 2 ^ 52 <= lo < 2 ^ 53
    /\ (F2R lo E <= F2R mx ex)%R
    /\ (F2R (mx + 1) ex <= F2R (lo + 1) E)%R
    /\ (F2R (Zpos m) e = F2R lo E \/ F2R (Zpos m) e = F2R (lo + 1) E)
    /\ (lx = loc_Exact -> d = 53 -> F2R (Zpos m) e = F2R mx ex)
    /\ 2 ^ 52 <= Zpos m < 2 ^ 53
    /\ E <= e <= E + 1.
Proof.
  intros Hmx d Hd Hmin Hmax E.
  destruct (binary_round_aux_normal sx mx ex lx Hmx Hd Hmin Hmax)
    as (m & e & c & Hr & Hb & Hc & Hex & Hme & Hlo & Hnorm).
  fold d in Hc, Hex, Hme, Hlo.
  set (n := d - 53) in *. set (lo := mx / 2 ^ n) in *.
  assert (Hn : 0 <= n) by (unfold n; lia).
  assert (Hp : 0 < 2 ^ n) by (apply Z.pow_pos_nonneg; lia).
  assert (HE : E = ex + n) by (unfold E, n; lia).
  assert (Hdiv : lo * 2 ^ n <= mx < (lo + 1) * 2 ^ n).
  { unfold lo. pose proof (Z.mul_div_le mx (2 ^ n) Hp).
    pose proof (Z.mul_succ_div_gt mx (2 ^ n) Hp). lia. }
  assert (Hval : F2R (Zpos m) e = F2R c E).
  { destruct Hme as [[-> ->] | (-> & -> & ->)]; rewrite HE; [reflexivity |].
    rewrite <- (F2R_shift (2 ^ 52) (ex + n + 1) 1) by lia.
    f_equal; lia. }
  exists m, e, lo. split; [exact Hr |]. split; [exact Hb |]. split; [exact Hlo |].
  split; [| split; [| split; [| split; [| split]]]].
  - rewrite HE, <- (F2R_shift lo (ex + n) n) by lia.
    replace (ex + n - n) with ex by lia. apply F2R_le. lia.
  - rewrite HE, <- (F2R_shift (lo + 1) (ex + n) n) by lia.
    replace (ex + n - n) with ex by lia. apply F2R_le. lia.
  - rewrite Hval. destruct Hc as [-> | ->]; auto.
  - intros Hl Hd53. rewrite Hval, (Hex Hl ltac:(unfold n; lia)).
    rewrite HE. f_equal. unfold n. lia.
  - exact Hnorm.
  - destruct Hme as [[-> _] | (-> & _)]; lia.
Qed.

Lemma pos_iter_xO p d : Zpos (Pos.iter xO p d) = Zpos p * 2 ^ Zpos d.
Proof.
  induction d as [| d IH] using Pos.peano_ind.
  - simpl. lia.
  - rewrite Pos.iter_succ, Pos2Z.inj_xO, IH, Pos2Z.inj_succ, Z.pow_succ_r by lia.
    lia.
Qed.

Lemma shl_align_spec p ex ex' :
  snd (shl_align p ex ex') = Z.min ex ex'
  /\ Zpos (fst (shl_align p ex ex')) = Zpos p * 2 ^ (ex - Z.min ex ex').
Proof.
  unfold shl_align. destruct (ex' - ex) as [| k | k] eqn:E; cbn [fst snd].
  - replace (Z.min ex ex') with ex by lia. rewrite Z.sub_diag, Z.pow_0_r. lia.
  - replace (Z.min ex ex') with ex by lia. rewrite Z.sub_diag, Z.pow_0_r. lia.
  - replace (Z.min ex ex') with ex' by lia.
    rewrite pos_iter_xO. split; [reflexivity |]. f_equal. f_equal. lia.
Qed.

Lemma digits2_mul_pow2 p k :
  0 <= k -> forall q, Zpos q = Zpos p * 2 ^ k ->
  Zpos (digits2_pos q) = Zpos (digits2_pos p) + k.
Proof.
  intros Hk q Hq. apply digits2_unique; [lia |].
  pose proof (digits2_bounds p) as [H1 H2]. rewrite Hq.
  assert (Hp : 0 < 2 ^ k) by (apply Z.pow_pos_nonneg; lia).
  replace (Zpos (digits2_pos p) + k - 1) with (Zpos (digits2_pos p) - 1 + k) by lia.
  rewrite !Z.pow_add_r by lia. nia.
Qed.

(** [binary_round] in the normal range. *)
Lemma binary_round_faithful sx p ex :
  let d := Zpos (digits2_pos p) in
  -1074 <= d + ex - 53 -> d + ex <= 1023 ->
  let E := ex + d - 53 in
  exists m e lo,
    binary_round prec emax sx p ex = S754_finite sx m e
    /\ SpecFloat.bounded prec emax m e = true
    /\ 2 ^ 52 <= lo < 2 ^ 53
    /\ (F2R lo E <= F2R (Zpos p) ex)%R
    /\ (F2R (Zpos p) ex < F2R (lo + 1) E)%R
    /\ (F2R (Zpos m) e = F2R lo E \/ F2R (Zpos m) e = F2R (lo + 1) E)
    /\ (d <= 53 -> F2R (Zpos m) e = F2R (Zpos p) ex)
    /\ 2 ^ 52 <= Zpos m < 2 ^ 53
    /\ E <= e <= E + 1.
Proof.
  intros d Hmin Hmax E. unfold binary_round.
  rewrite fexp_eq. fold d.
  pose proof (shl_align_spec p ex (Z.max (d + ex - 53) (-1074))) as [He Hm].
  destruct (shl_align p ex (Z.max (d + ex - 53) (-1074))) as [mz ez].
  cbn [fst snd] in He, Hm.
  destruct (Z_le_gt_dec 53 d) as [Hbig | Hsmall].
  - (* enough digits: no alignment *)
    assert (Hez : ez = ex) by lia. clear He. subst ez.
    replace (ex - Z.min ex (Z.max (d + ex - 53) (-1074))) with 0 in Hm by lia.
    rewrite Z.pow_0_r, Z.mul_1_r in Hm. injection Hm as ->.
    destruct (binary_round_aux_faithful sx (Zpos p) ex loc_Exact
                ltac:(lia) Hbig Hmin Hmax)
      as (m & e & lo & H1 & H2 & H3 & H4 & H5 & H6 & H7 & H8 & H9).
    exists m, e, lo.
    split; [exact H1 |]. split; [exact H2 |]. split; [exact H3 |].
    split; [exact H4 |]. split; [| split; [exact H6 |]].
    { eapply Rlt_le_trans; [| exact H5]. apply F2R_lt. lia. }
    split; [| split; [exact H8 | exact H9]].
    intros Hd. apply H7; [reflexivity |]. change (Zdigits2 (Zpos p)) with d. lia.
  - (* too few digits: the mantissa is shifted to 53 digits *)
    assert (Hez : ez = d + ex - 53) by lia. clear He. subst ez.
    replace (ex - Z.min ex (Z.max (d + ex - 53) (-1074))) with (53 - d) in Hm by lia.
    assert (Hdz : Zdigits2 (Zpos mz) = 53).
    { change (Zdigits2 (Zpos mz)) with (Zpos (digits2_pos mz)).
      rewrite (digits2_mul_pow2 p (53 - d) ltac:(lia) mz Hm). fold d. lia. }
    destruct (binary_round_aux_faithful sx (Zpos mz) (d + ex - 53) loc_Exact
                ltac:(lia) ltac:(lia) ltac:(lia) ltac:(lia))
      as (m & e & lo & H1 & H2 & H3 & H4 & H5 & H6 & H7 & H8 & H9).
    rewrite Hdz in H4, H5, H6, H7, H9.
    replace (d + ex - 53 + 53 - 53) with E in * by (unfold E; lia).
    assert (Hsame : F2R (Zpos mz) (d + ex - 53) = F2R (Zpos p) ex).
    { rewrite Hm. rewrite <- (F2R_shift (Zpos p) ex (53 - d)) by lia.
      f_equal. lia. }
    exists m, e, lo. rewrite <- Hsame.
    split; [exact H1 |]. split; [exact H2 |]. split; [exact H3 |].
    split; [exact H4 |]. split; [| split; [exact H6 |]].
    { eapply Rlt_le_trans; [| exact H5]. apply F2R_lt. lia. }
    split; [| split; [exact H8 | exact H9]].
    intros _. apply H7; reflexivity.
Qed.

(** [binary_normalize] of a non-zero integer mantissa. *)
Lemma binary_normalize_faithful z ex :
  z <> 0 ->
  let d := Zdigits2 z in
  -1074 <= d + ex - 53 -> d + ex <= 1023 ->
  let E := ex + d - 53 in
  exists m e lo,
    binary_normalize prec emax z ex false = S754_finite (z <? 0) m e
    /\ SpecFloat.bounded prec emax m e = true
    /\ 2 ^ 52 <= lo < 2 ^ 53
    /\ (F2R lo E <= F2R (Z.abs z) ex)%R
    /\ (F2R (Z.abs z) ex < F2R (lo + 1) E)%R
    /\ (F2R (Zpos m) e = F2R lo E \/ F2R (Zpos m) e = F2R (lo + 1) E)
    /\ (d <= 53 -> F2R (Zpos m) e = F2R (Z.abs z) ex)
    /\ 2 ^ 52 <= Zpos m < 2 ^ 53
    /\ E <= e <= E + 1.
Proof.
  intros Hz d Hmin Hmax E. destruct z as [| p | p]; [contradiction | |].
  - exact (binary_round_faithful false p ex Hmin Hmax).
  - exact (binary_round_faithful true p ex Hmin Hmax).
Qed.

Lemma digits2_le p k : 0 <= k -> Zpos p < 2 ^ k -> Zpos (digits2_pos p) <= k.
Proof.
  intros Hk H. pose proof (digits2_bounds p) as [H1 _].
  destruct (Z_le_gt_dec (Zpos (digits2_pos p)) k) as [Hle | Hgt]; [exact Hle |].
  assert (2 ^ k <= 2 ^ (Zpos (digits2_pos p) - 1)) by (apply Z.pow_le_mono_r; lia).
  lia.
Qed.

Lemma digits2_ge p k : 0 <= k -> 2 ^ k <= Zpos p -> k + 1 <= Zpos (digits2_pos p).
Proof.
  intros Hk H. pose proof (digits2_bounds p) as [_ H2].
  destruct (Z_le_gt_dec (k + 1) (Zpos (digits2_pos p))) as [Hle | Hgt]; [exact Hle |].
  assert (2 ^ (Zpos (digits2_pos p)) <= 2 ^ k) by (apply Z.pow_le_mono_r; lia).
  lia.
Qed.

Lemma Prim2SF_SF2Prim_finite s m e :
  SpecFloat.bounded prec emax m e = true ->
  Prim2SF (SF2Prim (S754_finite s m e)) = S754_finite s m e.
Proof. intros H. apply Prim2SF_SF2Prim. exact H. Qed.

(** The conversion of a non-zero [int] below 2^53 is exact. *)
Lemma float_of_int_exact z :
  z <> 0 -> Z.abs z < 2 ^ 53 ->
  exists m e,
    float_of_int z = Return (SF2Prim (S754_finite (z <? 0) m e))
    /\ SpecFloat.bounded prec emax m e = true
    /\ F2R (Zpos m) e = IZR (Z.abs z)
    /\ 2 ^ 52 <= Zpos m < 2 ^ 53
    /\ -52 <= e <= 1.
Proof.
  intros Hz Hlt.
  assert (Hd : 1 <= Zdigits2 z <= 53).
  { destruct z as [| p | p]; [contradiction | |]; simpl in *;
      (split; [lia | apply digits2_le; lia]). }
  destruct (binary_normalize_faithful z 0 Hz ltac:(lia) ltac:(lia))
    as (m & e & lo & H1 & H2 & H3 & H4 & H5 & H6 & H7 & H8 & H9).
  exists m, e. unfold float_of_int. rewrite H1. cbn [finite_float].
  split; [reflexivity |]. split; [exact H2 |]. split.
  - rewrite (H7 ltac:(lia)). apply F2R_0.
  - split; [exact H8 | lia].
Qed.

Lemma float_of_int_zero : float_of_int 0 = Return (SF2Prim (S754_zero false)).
Proof. reflexivity. Qed.

(** The quotient of two positive [int]s below 2^53 is faithfully rounded. *)
Lemma int_truediv_faithful d w :
  0 < d -> 0 < w -> d < 2 ^ 53 -> w < 2 ^ 53 ->
  exists m e lo E,
    int_truediv d w = Return (SF2Prim (S754_finite false m e))
    /\ SpecFloat.bounded prec emax m e = true
    /\ 2 ^ 52 <= lo < 2 ^ 53
    /\ (F2R lo E <= IZR d / IZR w < F2R (lo + 1) E)%R
    /\ (F2R (Zpos m) e = F2R lo E \/ F2R (Zpos m) e = F2R (lo + 1) E)
    /\ 2 ^ 52 <= Zpos m < 2 ^ 53
    /\ -106 <= e <= 1.
Proof.
  intros Hd Hw Hd53 Hw53.
  destruct d as [| pd | pd]; try lia. destruct w as [| pw | pw]; try lia.
  unfold int_truediv. cbn [Z.eqb Z2SF SFdiv].
  pose proof (digits2_bounds pd) as Hbd. pose proof (digits2_bounds pw) as Hbw.
  pose proof (digits2_le pd 53 ltac:(lia) Hd53) as Hd1.
  pose proof (digits2_le pw 53 ltac:(lia) Hw53) as Hd2.
  set (d1 := Zpos (digits2_pos pd)) in *. set (d2 := Zpos (digits2_pos pw)) in *.
  assert (Hd1' : 1 <= d1) by (unfold d1; lia).
  assert (Hd2' : 1 <= d2) by (unfold d2; lia).
  unfold SFdiv_core_binary. cbn [Zdigits2]. fold d1 d2.
  clearbody d1 d2.
  rewrite fexp_eq.
  replace (Z.min (Z.max (d1 + 0 - (d2 + 0) - 53) (-1074)) (0 - 0))
    with (d1 - d2 - 53) by lia.
  replace (0 - 0 - (d1 - d2 - 53)) with (53 + d2 - d1) by lia.
  set (s := 53 + d2 - d1).
  assert (Hs : 0 < s) by (unfold s; lia).
  destruct s as [| ps | ps] eqn:Es; try lia. rewrite <- Es in *.
  rewrite Z.shiftl_mul_pow2 by lia.
  destruct (Z.div_eucl (Zpos pd * 2 ^ s) (Zpos pw)) as [qq r] eqn:Eq.
  assert (Hqq : qq = Zpos pd * 2 ^ s / Zpos pw)
    by (unfold Z.div; rewrite Eq; reflexivity).
  assert (Hps : 0 < 2 ^ s) by (apply Z.pow_pos_nonneg; lia).
  assert (Hfloor : qq * Zpos pw <= Zpos pd * 2 ^ s < (qq + 1) * Zpos pw).
  { rewrite Hqq.
    pose proof (Z.mul_div_le (Zpos pd * 2 ^ s) (Zpos pw) ltac:(lia)).
    pose proof (Z.mul_succ_div_gt (Zpos pd * 2 ^ s) (Zpos pw) ltac:(lia)). lia. }
  (* the quotient has 53 or 54 digits *)
  assert (Hq52 : 2 ^ 52 <= qq).
  { rewrite Hqq. apply Z.div_le_lower_bound; [lia |].
    assert (2 ^ 52 * 2 ^ d2 = 2 ^ (d1 - 1) * 2 ^ s).
    { rewrite <- !Z.pow_add_r by lia. f_equal. unfold s. lia. }
    nia. }
  assert (Hq54 : qq < 2 ^ 54).
  { rewrite Hqq. apply Z.div_lt_upper_bound; [lia |].
    assert (2 ^ 54 * 2 ^ (d2 - 1) = 2 ^ d1 * 2 ^ s).
    { rewrite <- !Z.pow_add_r by lia. f_equal. unfold s. lia. }
    nia. }
  destruct qq as [| pq | pq]; try lia.
  pose proof (digits2_ge pq 52 ltac:(lia) Hq52) as Hdq1.
  pose proof (digits2_le pq 54 ltac:(lia) Hq54) as Hdq2.
  destruct (binary_round_aux_faithful false (Zpos pq) (d1 - d2 - 53)
              (new_location (Zpos pw) r)
              ltac:(lia) ltac:(cbn [Zdigits2]; lia) ltac:(cbn [Zdigits2]; lia)
              ltac:(cbn [Zdigits2]; lia))
    as (m & e & lo & H1 & H2 & H3 & H4 & H5 & H6 & _ & H8 & H9).
  cbn [Zdigits2] in H4, H5, H6, H9.
  set (E := d1 - d2 - 53 + Zpos (digits2_pos pq) - 53) in *.
  exists m, e, lo, E. cbn [xorb]. rewrite H1. cbn [finite_float].
  split; [reflexivity |]. split; [exact H2 |]. split; [exact H3 |].
  split; [| split; [exact H6 | split; [exact H8 | unfold E in H9; lia]]].
  (* the real quotient lies between the truncated mantissa and its successor *)
  assert (Hx : (F2R (Zpos pq) (d1 - d2 - 53) <= IZR (Zpos pd) / IZR (Zpos pw)
                < F2R (Zpos pq + 1) (d1 - d2 - 53))%R).
  { replace (d1 - d2 - 53) with (- s) by (unfold s; lia).
    assert (HW : (0 < IZR (Zpos pw))%R) by (apply IZR_lt; lia).
    assert (HS : (0 < bpow s)%R) by apply bpow_pos.
    pose proof (bpow_opp_r s) as Hinv.
    destruct Hfloor as [Hf1 Hf2].
    apply IZR_le in Hf1. apply IZR_lt in Hf2.
    rewrite !mult_IZR, <- bpow_IZR in Hf1, Hf2 by lia.
    rewrite plus_IZR in Hf2.
    unfold F2R. rewrite plus_IZR.
    set (Q := IZR (Zpos pq)) in *. set (D := IZR (Zpos pd)) in *.
    set (Wr := IZR (Zpos pw)) in *. set (B := bpow s) in *.
    set (Bi := bpow (- s)) in *.
    assert (HBi : (0 < Bi)%R) by apply bpow_pos.
    split.
    - apply Rmult_le_reg_r with (r := (Wr * B)%R); [nra |].
      replace (D / Wr * (Wr * B))%R with (D * B)%R by (field; lra).
      replace (Q * Bi * (Wr * B))%R with (Q * Wr * (B * Bi))%R by ring.
      rewrite Hinv. lra.
    - apply Rmult_lt_reg_r with (r := (Wr * B)%R); [nra |].
      replace (D / Wr * (Wr * B))%R with (D * B)%R by (field; lra).
      replace ((Q + 1) * Bi * (Wr * B))%R with ((Q + 1) * Wr * (B * Bi))%R by ring.
      rewrite Hinv. lra. }
  lra.
Qed.

Lemma bpow_lt_inv a b : (bpow a < bpow b)%R -> a < b.
Proof.
  intros H. destruct (Z_lt_le_dec a b) as [Hlt | Hle]; [exact Hlt |].
  apply bpow_le in Hle. lra.
Qed.

(** The product of two normalised positive floats is faithfully rounded. *)
Lemma SFmul_faithful m1 e1 m2 e2 :
  2 ^ 52 <= Zpos m1 < 2 ^ 53 -> 2 ^ 52 <= Zpos m2 < 2 ^ 53 ->
  -500 <= e1 <= 400 -> -500 <= e2 <= 400 ->
  exists m e lo E,
    SFmul prec emax (S754_finite false m1 e1) (S754_finite false m2 e2)
      = S754_finite false m e
    /\ SpecFloat.bounded prec emax m e = true
    /\ 2 ^ 52 <= lo < 2 ^ 53
    /\ (F2R lo E <= F2R (Zpos m1) e1 * F2R (Zpos m2) e2 < F2R (lo + 1) E)%R
    /\ (F2R (Zpos m) e = F2R lo E \/ F2R (Zpos m) e = F2R (lo + 1) E)
    /\ 2 ^ 52 <= Zpos m < 2 ^ 53
    /\ e1 + e2 + 52 <= e <= e1 + e2 + 54.
Proof.
  intros H1 H2 He1 He2. cbn [SFmul xorb].
  assert (Hlo : 2 ^ 104 <= Zpos (m1 * m2)) by (rewrite Pos2Z.inj_mul; nia).
  assert (Hhi : Zpos (m1 * m2) < 2 ^ 106) by (rewrite Pos2Z.inj_mul; nia).
  pose proof (digits2_ge (m1 * m2) 104 ltac:(lia) Hlo) as Hd1.
  pose proof (digits2_le (m1 * m2) 106 ltac:(lia) Hhi) as Hd2.
  destruct (binary_round_aux_faithful false (Zpos (m1 * m2)) (e1 + e2) loc_Exact
              ltac:(lia) ltac:(cbn [Zdigits2]; lia) ltac:(cbn [Zdigits2]; lia)
              ltac:(cbn [Zdigits2]; lia))
    as (m & e & lo & R1 & R2 & R3 & R4 & R5 & R6 & _ & R8 & R9).
  cbn [Zdigits2] in R4, R5, R6, R9.
  set (E := e1 + e2 + Zpos (digits2_pos (m1 * m2)) - 53) in *.
  exists m, e, lo, E. rewrite R1.
  split; [reflexivity |]. split; [exact R2 |]. split; [exact R3 |].
  split; [| split; [exact R6 | split; [exact R8 | unfold E in R9; lia]]].
  rewrite <- F2R_mult, <- Pos2Z.inj_mul.
  pose proof (F2R_lt (Zpos (m1 * m2)) (Zpos (m1 * m2) + 1) (e1 + e2) ltac:(lia)).
  lra.
Qed.

(** Truncation towards zero of a positive float's value. *)
Lemma shiftl_floor m e :
  (IZR (Z.shiftl (Zpos m) e) <= F2R (Zpos m) e < IZR (Z.shiftl (Zpos m) e) + 1)%R.
Proof.
  destruct (Z_le_gt_dec 0 e) as [He | He].
  - rewrite Z.shiftl_mul_pow2 by exact He. unfold F2R.
    rewrite mult_IZR, <- bpow_IZR by exact He. lra.
  - rewrite Z.shiftl_div_pow2 by lia.
    assert (Hp : 0 < 2 ^ (- e)) by (apply Z.pow_pos_nonneg; lia).
    pose proof (Z.mul_div_le (Zpos m) (2 ^ (- e)) Hp) as Hlo.
    pose proof (Z.mul_succ_div_gt (Zpos m) (2 ^ (- e)) Hp) as Hhi.
    set (z := Zpos m / 2 ^ (- e)) in *.
    apply IZR_le in Hlo. apply IZR_lt in Hhi.
    rewrite mult_IZR, <- bpow_IZR in Hlo, Hhi by lia.
    unfold Z.succ in Hhi. rewrite plus_IZR in Hhi.
    unfold F2R. pose proof (bpow_opp_r e) as Hinv. pose proof (bpow_pos e) as Hb.
    pose proof (bpow_pos (- e)) as Hb'.
    set (B := bpow e) in *. set (B' := bpow (- e)) in *. set (M := IZR (Zpos m)) in *.
    split.
    + apply Rmult_le_reg_r with (r := B'); [exact Hb' |].
      replace (M * B * B')%R with (M * (B * B'))%R by ring. rewrite Hinv. lra.
    + apply Rmult_lt_reg_r with (r := B'); [exact Hb' |].
      replace (M * B * B')%R with (M * (B * B'))%R by ring. rewrite Hinv. lra.
Qed.

(** A float whose exponent is not positive moves integer bounds of the
    real it rounds onto itself: integers lie on its grid. *)
Lemma grid_upper lo E K :
  E <= 0 -> (F2R lo E < IZR K)%R -> (F2R (lo + 1) E <= IZR K)%R.
Proof.
  intros HE H.
  rewrite <- (F2R_0 K) in *.
  rewrite <- (F2R_shift K 0 (- E)) in * by lia.
  replace (0 - - E) with E in * by lia.
  apply F2R_lt_inv in H. apply F2R_le. lia.
Qed.

Lemma grid_lower lo E K :
  E <= 0 -> (IZR K < F2R (lo + 1) E)%R -> (IZR K <= F2R lo E)%R.
Proof.
  intros HE H.
  rewrite <- (F2R_0 K) in *.
  rewrite <- (F2R_shift K 0 (- E)) in * by lia.
  replace (0 - - E) with E in * by lia.
  apply F2R_lt_inv in H. apply F2R_le. lia.
Qed.

(** Integer bounds of a real survive truncation of its magnitude. *)
Lemma floor_between z x K' K :
  (IZR z <= x < IZR z + 1)%R -> (IZR K' <= x <= IZR K)%R -> K' <= z <= K.
Proof.
  intros [H1 H2] [H3 H4]. split.
  - assert (IZR K' < IZR (z + 1))%R by (rewrite plus_IZR; lra).
    apply lt_IZR in H. lia.
  - apply le_IZR. lra.
Qed.

Lemma F2R_abs m e : F2R (Z.abs m) e = Rabs (F2R m e).
Proof.
  unfold F2R. rewrite Rabs_mult, abs_IZR.
  rewrite (Rabs_pos_eq (bpow e)) by (left; apply bpow_pos). reflexivity.
Qed.

Lemma F2R_pow2 k e : 0 <= k -> F2R (2 ^ k) e = bpow (k + e).
Proof. intros Hk. unfold F2R. rewrite <- bpow_IZR by exact Hk. symmetry. apply bpow_add. Qed.

Lemma Zdigits2_bounds z : z <> 0 -> 2 ^ (Zdigits2 z - 1) <= Z.abs z /\ 1 <= Zdigits2 z.
Proof.
  intros Hz. destruct z as [| p | p]; [contradiction | |]; cbn [Zdigits2 Z.abs];
    pose proof (digits2_bounds p); lia.
Qed.

(** The sum of a float and a positive float, when it stays below 2^53 in
    magnitude, is rounded onto a grid that contains the integers. *)
Lemma SFadd_faithful s1 m1 e1 m2 e2 :
  -300 <= e1 <= 300 -> -300 <= e2 <= 300 ->
  let t := (F2R (cond_Zopp s1 (Zpos m1)) e1 + F2R (Zpos m2) e2)%R in
  (Rabs t < IZR (2 ^ 53))%R ->
  exists S ez,
    t = F2R S ez
    /\ (S = 0 ->
        SFadd prec emax (S754_finite s1 m1 e1) (S754_finite false m2 e2)
          = S754_zero false)
    /\ (S <> 0 ->
        exists m e lo E,
          SFadd prec emax (S754_finite s1 m1 e1) (S754_finite false m2 e2)
            = S754_finite (S <? 0) m e
          /\ SpecFloat.bounded prec emax m e = true
          /\ E <= 0
          /\ (F2R lo E <= Rabs t < F2R (lo + 1) E)%R
          /\ (F2R (Zpos m) e = F2R lo E \/ F2R (Zpos m) e = F2R (lo + 1) E)).
Proof.
  intros He1 He2 t Ht. cbn [SFadd].
  destruct (shl_align_spec m1 e1 (Z.min e1 e2)) as [_ Ha1].
  destruct (shl_align_spec m2 e2 (Z.min e1 e2)) as [_ Ha2].
  set (ez := Z.min e1 e2) in *.
  replace (Z.min e1 ez) with ez in Ha1 by (unfold ez; lia).
  replace (Z.min e2 ez) with ez in Ha2 by (unfold ez; lia).
  set (a1 := fst (shl_align m1 e1 ez)) in *.
  set (a2 := fst (shl_align m2 e2 ez)) in *.
  cbn [cond_Zopp] in *.
  set (S := cond_Zopp s1 (Zpos a1) + Zpos a2).
  assert (Hez1 : ez <= e1) by (unfold ez; lia).
  assert (Hez2 : ez <= e2) by (unfold ez; lia).
  assert (Hez : -300 <= ez) by (unfold ez; lia).
  assert (Hv1 : F2R (Zpos a1) ez = F2R (Zpos m1) e1).
  { rewrite Ha1. replace ez with (e1 - (e1 - ez)) at 2 by lia.
    apply F2R_shift. lia. }
  assert (Hv2 : F2R (Zpos a2) ez = F2R (Zpos m2) e2).
  { rewrite Ha2. replace ez with (e2 - (e2 - ez)) at 2 by lia.
    apply F2R_shift. lia. }
  assert (HS : t = F2R S ez).
  { unfold t, S. rewrite F2R_plus, Hv2. f_equal.
    destruct s1; cbn [cond_Zopp].
    - change (Z.neg a1) with (- Zpos a1). change (Z.neg m1) with (- Zpos m1).
      rewrite !F2R_opp, Hv1. reflexivity.
    - symmetry. exact Hv1. }
  clearbody ez a1 a2.
  exists S, ez. split; [exact HS |]. split.
  - intros H0. fold S. rewrite H0. reflexivity.
  - intros Hnz. fold S.
    destruct (Zdigits2_bounds S Hnz) as [Hd Hd1].
    assert (Hd53 : Zdigits2 S + ez <= 53).
    { assert (Hb : (bpow (Zdigits2 S - 1 + ez) < bpow 53)%R).
      { rewrite <- F2R_pow2 by lia.
        apply Rle_lt_trans with (r2 := F2R (Z.abs S) ez); [apply F2R_le; exact Hd |].
        rewrite F2R_abs, <- HS. rewrite bpow_IZR by lia. exact Ht. }
      apply bpow_lt_inv in Hb. lia. }
    destruct (binary_normalize_faithful S ez Hnz ltac:(lia) ltac:(lia))
      as (m & e & lo & R1 & R2 & R3 & R4 & R5 & R6 & _ & R8 & R9).
    exists m, e, lo, (ez + Zdigits2 S - 53).
    split; [exact R1 |]. split; [exact R2 |]. split; [lia |].
    rewrite HS, <- F2R_abs. split; [split; assumption | exact R6].
Qed.

Lemma F2R_succ m e : F2R (m + 1) e = (F2R m e + bpow e)%R.
Proof. rewrite F2R_plus. unfold F2R. lra. Qed.

(** A faithful rounding [v] of [x] to 53 bits has relative error at most
    [2^-52]; stated without division, with [c = 2^52]. *)
Lemma faithful_relative lo E v x :
  2 ^ 52 <= lo ->
  (F2R lo E <= x < F2R (lo + 1) E)%R ->
  v = F2R lo E \/ v = F2R (lo + 1) E ->
  (x * (4503599627370496 - 1) <= 4503599627370496 * v
   /\ 4503599627370496 * v <= x * (4503599627370496 + 1))%R.
Proof.
  intros Hlo Hx Hv. rewrite F2R_succ in *.
  assert (Hu : (0 < bpow E)%R) by apply bpow_pos.
  assert (Ha : (4503599627370496 * bpow E <= F2R lo E)%R).
  { unfold F2R. apply IZR_le in Hlo. change (2 ^ 52) with 4503599627370496 in Hlo.
    nra. }
  destruct Hv as [-> | ->]; lra.
Qed.

(** [(d / w) * w] computed in floats is strictly within one of [d]. *)
Lemma product_near d w :
  0 < d <= 2 ^ 50 -> 0 < w < 2 ^ 53 ->
  exists rel fw mm em,
    int_truediv d w = Return rel
    /\ float_of_int w = Return fw
    /\ Prim2SF (rel * fw) = S754_finite false mm em
    /\ (IZR d - 1 < F2R (Zpos mm) em < IZR d + 1)%R
    /\ -300 <= em <= 300.
Proof.
  intros Hd Hw.
  destruct (int_truediv_faithful d w ltac:(lia) ltac:(lia) ltac:(lia) ltac:(lia))
    as (mq & eq & loq & Eq & Q1 & Q2 & Q3 & Q4 & Q5 & Q6 & Q7).
  destruct (float_of_int_exact w ltac:(lia) ltac:(lia))
    as (mw & ew & W1 & W2 & W3 & W4 & W5).
  replace (w <? 0) with false in W1 by (symmetry; apply Z.ltb_ge; lia).
  replace (Z.abs w) with w in W3 by lia.
  destruct (SFmul_faithful mq eq mw ew Q6 W4 ltac:(lia) ltac:(lia))
    as (mm & em & lom & Em & P1 & P2 & P3 & P4 & P5 & P6 & P7).
  exists (SF2Prim (S754_finite false mq eq)), (SF2Prim (S754_finite false mw ew)), mm, em.
  split; [exact Q1 |]. split; [exact W1 |]. split.
  { rewrite mul_spec, !Prim2SF_SF2Prim_finite by assumption. exact P1. }
  split; [| lia].
  pose proof (faithful_relative loq Eq _ _ ltac:(lia) Q4 Q5) as [A1 A2].
  pose proof (faithful_relative lom Em _ _ ltac:(lia) P4 P5) as [B1 B2].
  rewrite W3 in B1, B2.
  set (q := F2R (Zpos mq) eq) in *. set (v := F2R (Zpos mm) em) in *.
  assert (HW : (0 < IZR w)%R) by (apply IZR_lt; lia).
  assert (HD : (1 <= IZR d <= 1125899906842624)%R).
  { split; [apply (IZR_le 1); lia | apply (IZR_le d (2 ^ 50)); lia]. }
  set (D := IZR d) in *. set (Wr := IZR w) in *.
  assert (HX : (D / Wr * Wr = D)%R) by (field; lra).
  set (X := (D / Wr)%R) in *. set (p := (q * Wr)%R) in *.
  assert (C1 : (D * (4503599627370496 - 1) <= 4503599627370496 * p)%R).
  { rewrite <- HX. unfold p. nra. }
  assert (C2 : (4503599627370496 * p <= D * (4503599627370496 + 1))%R).
  { rewrite <- HX. unfold p. nra. }
  clearbody p v D. clear - B1 B2 C1 C2 HD.
  split; nra.
Qed.

Lemma int_of_float_finite f s m e :
  Prim2SF f = S754_finite s m e ->
  int_of_float f = Return (cond_Zopp s (Z.shiftl (Zpos m) e)).
Proof. intros H. unfold int_of_float. rewrite H. reflexivity. Qed.

Lemma int_of_float_zero f s : Prim2SF f = S754_zero s -> int_of_float f = Return 0.
Proof. intros H. unfold int_of_float. rewrite H. reflexivity. Qed.

Lemma trunc_between m e K' K :
  (IZR K' <= F2R (Zpos m) e <= IZR K)%R -> K' <= Z.shiftl (Zpos m) e <= K.
Proof. intros H. exact (floor_between _ _ _ _ (shiftl_floor m e) H). Qed.

Lemma Prim2SF_zero : Prim2SF (SF2Prim (S754_zero false)) = S754_zero false.
Proof. apply Prim2SF_SF2Prim. reflexivity. Qed.

Lemma F2R_cond_Zopp_abs z m e :
  z <> 0 -> F2R (Zpos m) e = IZR (Z.abs z) ->
  F2R (cond_Zopp (z <? 0) (Zpos m)) e = IZR z.
Proof.
  intros Hz H. destruct (Z.ltb_spec z 0) as [Hneg | Hpos]; cbn [cond_Zopp].
  - change (Z.neg m) with (- Zpos m). rewrite F2R_opp, H.
    rewrite <- opp_IZR. f_equal. lia.
  - rewrite H. f_equal. lia.
Qed.

(** [int(origin + p)] for a positive float [p] whose value, added to
    [origin], is strictly within one of the integer [N]. *)
Lemma sum_near origin p mm em N :
  - 2 ^ 50 <= origin <= 2 ^ 50 -> - 2 ^ 52 <= N <= 2 ^ 52 ->
  Prim2SF p = S754_finite false mm em -> -300 <= em <= 300 ->
  (IZR N - 1 < IZR origin + F2R (Zpos mm) em < IZR N + 1)%R ->
  exists fo x',
    float_of_int origin = Return fo
    /\ int_of_float (fo + p) = Return x'
    /\ N - 1 <= x' <= N + 1.
Proof.
  intros Ho HN Hp Hem Ht.
  destruct (Z.eq_dec origin 0) as [-> | Hnz].
  - (* a zero origin leaves the product as it is *)
    exists (SF2Prim (S754_zero false)), (Z.shiftl (Zpos mm) em).
    split; [reflexivity |]. split.
    + apply (int_of_float_finite _ false).
      rewrite add_spec, Prim2SF_zero, Hp. reflexivity.
    + apply trunc_between. rewrite minus_IZR, plus_IZR. lra.
  - destruct (float_of_int_exact origin Hnz ltac:(lia))
      as (mo & eo & O1 & O2 & O3 & O4 & O5).
    exists (SF2Prim (S754_finite (origin <? 0) mo eo)).
    pose proof (F2R_cond_Zopp_abs origin mo eo Hnz O3) as Hval.
    assert (Hsmall : (Rabs (F2R (cond_Zopp (origin <? 0) (Zpos mo)) eo
                            + F2R (Zpos mm) em) < IZR (2 ^ 53))%R).
    { rewrite Hval. apply Rabs_def1.
      - apply Rlt_le_trans with (r2 := (IZR N + 1)%R); [apply Ht |].
        rewrite <- (plus_IZR N 1). apply IZR_le. lia.
      - apply Rle_lt_trans with (r2 := (IZR N - 1)%R); [| apply Ht].
        rewrite <- opp_IZR, <- (minus_IZR N 1). apply IZR_le. lia. }
    destruct (SFadd_faithful (origin <? 0) mo eo mm em ltac:(lia) Hem Hsmall)
      as (S & ez & HS & Hzero & Hfin).
    rewrite Hval in HS, Hfin.
    set (t := (IZR origin + F2R (Zpos mm) em)%R) in *.
    assert (Hadd : Prim2SF (SF2Prim (S754_finite (origin <? 0) mo eo) + p)
                   = SFadd prec emax (S754_finite (origin <? 0) mo eo)
                       (S754_finite false mm em)).
    { rewrite add_spec, Prim2SF_SF2Prim_finite, Hp by exact O2. reflexivity. }
    destruct (Z.eq_dec S 0) as [HS0 | HSnz].
    + (* the sum cancels: it is zero, and so is N *)
      exists 0. split; [exact O1 |]. split.
      * apply (int_of_float_zero _ false). rewrite Hadd. apply Hzero, HS0.
      * rewrite HS0 in HS. unfold F2R in HS. rewrite Rmult_0_l in HS.
        rewrite HS in Ht. destruct Ht as [Ht1 Ht2].
        rewrite <- (minus_IZR N 1) in Ht1. rewrite <- (plus_IZR N 1) in Ht2.
        apply lt_IZR in Ht1, Ht2. lia.
    + destruct (Hfin HSnz) as (m & e & lo & E & R1 & R2 & R3 & R4 & R5).
      exists (cond_Zopp (S <? 0) (Z.shiftl (Zpos m) e)).
      split; [exact O1 |]. split.
      * apply int_of_float_finite. rewrite Hadd. exact R1.
      * assert (Hsign : (S < 0 -> (t < 0)%R) /\ (0 < S -> (0 < t)%R)).
        { rewrite HS. unfold F2R. pose proof (bpow_pos ez) as Hb. split; intros H.
          - apply IZR_lt in H. nra.
          - apply IZR_lt in H. nra. }
        destruct Hsign as [Hneg Hpos].
        assert (Hv : (F2R lo E <= F2R (Zpos m) e <= F2R (lo + 1) E)%R).
        { pose proof (F2R_le lo (lo + 1) E ltac:(lia)). destruct R5 as [-> | ->]; lra. }
        destruct (Z.ltb_spec S 0) as [Hlt | Hge]; cbn [cond_Zopp].
        -- specialize (Hneg Hlt). rewrite Rabs_left in R4 by exact Hneg.
           assert (Hup : (F2R (lo + 1) E <= IZR (- N + 1))%R).
           { apply grid_upper; [exact R3 |]. rewrite plus_IZR, opp_IZR. lra. }
           assert (Hlow : (IZR (- N - 1) <= F2R lo E)%R).
           { apply grid_lower; [exact R3 |]. rewrite minus_IZR, opp_IZR. lra. }
           pose proof (trunc_between m e (- N - 1) (- N + 1) ltac:(lra)). lia.
        -- assert (0 < S) as Hgt by lia. specialize (Hpos Hgt).
           rewrite Rabs_right in R4 by lra.
           assert (Hup : (F2R (lo + 1) E <= IZR (N + 1))%R).
           { apply grid_upper; [exact R3 |]. rewrite plus_IZR. lra. }
           assert (Hlow : (IZR (N - 1) <= F2R lo E)%R).
           { apply grid_lower; [exact R3 |]. rewrite minus_IZR. lra. }
           pose proof (trunc_between m e (N - 1) (N + 1) ltac:(lra)). lia.
Qed.

(** [int(origin + 0.0)] returns [origin]. *)
Lemma sum_zero origin p :
  - 2 ^ 50 <= origin <= 2 ^ 50 -> Prim2SF p = S754_zero false ->
  exists fo,
    float_of_int origin = Return fo /\ int_of_float (fo + p) = Return origin.
Proof.
  intros Ho Hp. destruct (Z.eq_dec origin 0) as [-> | Hnz].
  - exists (SF2Prim (S754_zero false)). split; [reflexivity |].
    apply (int_of_float_zero _ false).
    rewrite add_spec, Prim2SF_zero, Hp. reflexivity.
  - destruct (float_of_int_exact origin Hnz ltac:(lia))
      as (mo & eo & O1 & O2 & O3 & O4 & O5).
    exists (SF2Prim (S754_finite (origin <? 0) mo eo)). split; [exact O1 |].
    rewrite (int_of_float_finite _ (origin <? 0) mo eo).
    + pose proof (trunc_between mo eo (Z.abs origin) (Z.abs origin)
                    ltac:(rewrite O3; lra)) as Ht.
      f_equal. destruct (Z.ltb_spec origin 0); cbn [cond_Zopp]; lia.
    + rewrite add_spec, Prim2SF_SF2Prim_finite, Hp by exact O2. reflexivity.
Qed.

Lemma int_truediv_zero w :
  0 < w -> int_truediv 0 w = Return (SF2Prim (S754_zero false)).
Proof.
  intros Hw. unfold int_truediv. destruct w as [| pw | pw]; try lia. reflexivity.
Qed.

(** One axis of the round trip: a coordinate inside a window of moderate
    size and position comes back within one pixel. *)
Lemma axis_round_trip origin extent x :
  0 < extent <= 2 ^ 50 -> - 2 ^ 50 <= origin <= 2 ^ 50 ->
  origin <= x <= origin + extent ->
  exists rel x',
    to_relative origin extent x = Return rel
    /\ to_absolute origin extent rel = Return x'
    /\ x - 1 <= x' <= x + 1.
Proof.
  intros He Ho Hx. unfold to_relative, to_absolute.
  destruct (Z.eq_dec (x - origin) 0) as [Hd0 | Hd].
  - rewrite Hd0, int_truediv_zero by lia.
    destruct (float_of_int_exact extent ltac:(lia) ltac:(lia))
      as (mw & ew & W1 & W2 & _).
    replace (extent <? 0) with false in W1 by (symmetry; apply Z.ltb_ge; lia).
    assert (Hp : Prim2SF (SF2Prim (S754_zero false)
                          * SF2Prim (S754_finite false mw ew)) = S754_zero false).
    { rewrite mul_spec, Prim2SF_zero, Prim2SF_SF2Prim_finite by exact W2.
      reflexivity. }
    destruct (sum_zero origin _ Ho Hp) as (fo & F1 & F2).
    exists (SF2Prim (S754_zero false)), origin.
    split; [reflexivity |]. rewrite W1. cbn [res_bind]. rewrite F1. cbn [res_bind].
    split; [exact F2 | lia].
  - destruct (product_near (x - origin) extent ltac:(lia) ltac:(lia))
      as (rel & fw & mm & em & D1 & D2 & D3 & D4 & D5).
    assert (Ht : (IZR x - 1 < IZR origin + F2R (Zpos mm) em < IZR x + 1)%R).
    { rewrite minus_IZR in D4. lra. }
    destruct (sum_near origin (rel * fw) mm em x Ho ltac:(lia) D3 D5 Ht)
      as (fo & x' & S1 & S2 & S3).
    exists rel, x'. split; [exact D1 |]. rewrite D2. cbn [res_bind].
    rewrite S1. cbn [res_bind]. split; [exact S2 | exact S3].
Qed.

(** The fall-back of [get_absolute_coordinates] computes what the window
    branch computes for a window at the origin. *)
Lemma to_absolute_from_origin extent rel :
  to_absolute 0 extent rel = to_absolute_screen extent rel.
Proof.
  unfold to_absolute, to_absolute_screen.
  destruct (float_of_int extent) as [fw | e]; cbn [res_bind]; [| reflexivity].
  rewrite float_of_int_zero. cbn [res_bind].
  unfold int_of_float. rewrite add_spec, Prim2SF_zero.
  destruct (Prim2SF (rel * fw)) as [s | s | | s m e]; try reflexivity.
  destruct s; reflexivity.
Qed.

(** * The coordinate round trip *)

Lemma bind_lift_res {A B} (r : Res A) (k : A -> M B) (s : State) :
  bind (lift_res r) k s
  = match r with
    | Return a => k a s
    | Raise e => (Raise e, s, [])
    end.
Proof.
  unfold bind, lift_res. destruct r as [a | e]; [| reflexivity].
  destruct (k a s) as [[r' s'] ev]. reflexivity.
Qed.

Lemma bind_gets {A B} (f : State -> A) (k : A -> M B) (s : State) :
  bind (gets f) k s = k (f s) s.
Proof.
  unfold bind, gets. destruct (k (f s) s) as [[r s'] w]. reflexivity.
Qed.

(** C3.  With a cached rectangle of positive width and height whose
    position and size are at most 2^50 pixels in magnitude, a point inside
    the rectangle converted by [get_relative_coordinates] and back by
    [get_absolute_coordinates] comes back within one pixel on each axis;
    neither conversion raises, changes the state or has an effect.  Without a
    cached rectangle both conversions use the dimensions of the full display:
    they return what they return for the rectangle
    [(0, 0, screen_w, screen_h)]. *)
Theorem round_trip_within_one_pixel {Frame Template : Type}
    (W : World Frame Template) (s : State)
    (window_x window_y window_w window_h x y : Z) :
  window_rect s = Some (window_x, window_y, window_w, window_h) ->
  0 < window_w <= 2 ^ 50 -> 0 < window_h <= 2 ^ 50 ->
  - 2 ^ 50 <= window_x <= 2 ^ 50 -> - 2 ^ 50 <= window_y <= 2 ^ 50 ->
  window_x <= x <= window_x + window_w ->
  window_y <= y <= window_y + window_h ->
  (exists x' y',
      round_trip W x y s = (Return (x', y'), s, [])
      /\ x - 1 <= x' <= x + 1
      /\ y - 1 <= y' <= y + 1)
  /\ (forall s0, window_rect s0 = None ->
        let display :=
          set_window_rect
            (Some (0, 0, fst (pyautogui_size W), snd (pyautogui_size W))) s0 in
        (forall px py,
            get_relative_coordinates W px py s0
            = (result_of (get_relative_coordinates W px py display), s0, []))
        /\ (forall rel_x rel_y,
              get_absolute_coordinates W rel_x rel_y s0
              = (result_of (get_absolute_coordinates W rel_x rel_y display),
                 s0, []))).
Proof.
  intros Hrect Hw Hh Hx0 Hy0 Hx Hy. split.
  - destruct (axis_round_trip window_x window_w x Hw Hx0 Hx)
      as (rel_x & x' & X1 & X2 & X3).
    destruct (axis_round_trip window_y window_h y Hh Hy0 Hy)
      as (rel_y & y' & Y1 & Y2 & Y3).
    exists x', y'. split; [| split; assumption].
    assert (Hrel : get_relative_coordinates W x y s
                   = (Return (rel_x, rel_y), s, [])).
    { unfold get_relative_coordinates.
      rewrite bind_gets, Hrect, bind_lift_res, X1, bind_lift_res, Y1.
      reflexivity. }
    assert (Habs : get_absolute_coordinates W rel_x rel_y s
                   = (Return (x', y'), s, [])).
    { unfold get_absolute_coordinates.
      rewrite bind_gets, Hrect, bind_lift_res, X2, bind_lift_res, Y2.
      reflexivity. }
    unfold round_trip. rewrite (bind_Return _ _ _ _ _ _ Hrel).
    cbn [fst snd]. rewrite Habs. reflexivity.
  - intros s0 Hnone display. split.
    + intros px py. unfold get_relative_coordinates.
      rewrite !bind_gets, Hnone. unfold display.
      cbn [window_rect set_window_rect].
      unfold to_relative. rewrite !Z.sub_0_r, !bind_lift_res.
      destruct (int_truediv px (fst (pyautogui_size W))) as [rx | e];
        [| reflexivity].
      rewrite !bind_lift_res.
      destruct (int_truediv py (snd (pyautogui_size W))) as [ry | e];
        reflexivity.
    + intros rel_x rel_y. unfold get_absolute_coordinates.
      rewrite !bind_gets, Hnone. unfold display.
      cbn [window_rect set_window_rect].
      destruct (pyautogui_size W) as [screen_w screen_h]. cbn [fst snd].
      rewrite !to_absolute_from_origin, !bind_lift_res.
      destruct (to_absolute_screen screen_w rel_x) as [ax | e]; [| reflexivity].
      rewrite !bind_lift_res.
      destruct (to_absolute_screen screen_h rel_y) as [ay | e]; reflexivity.
Qed.

(** The point (500, 350) of the window at (100, 50) with size 800 x 600. *)
Lemma round_trip_within_one_pixel_witness :
  let W := Scenario.showing (fun _ => Return Scenario.blank) in
  window_rect Scenario.cached = Some (100, 50, 800, 600)
  /\ exists x' y',
       round_trip W 500 350 Scenario.cached = (Return (x', y'), Scenario.cached, [])
       /\ 500 - 1 <= x' <= 500 + 1
       /\ 350 - 1 <= y' <= 350 + 1.
Proof.
  intros W. split; [reflexivity |].
  apply (round_trip_within_one_pixel W Scenario.cached 100 50 800 600 500 350);
    [reflexivity | lia ..].
Defined.

(** In a window of 2^61 by 2^61 pixels the point (2^60 + 3, 0) comes back as
    (2^60, 0), three pixels to the left: the quotient
    [(2^60 + 3) / 2^61] has no exact double and rounds to 0.5. *)
Lemma round_trip_drifts_in_huge_window :
  let W := Scenario.showing (fun _ => Return Scenario.blank) in
  window_rect Scenario.far_window = Some (0, 0, 2 ^ 61, 2 ^ 61)
  /\ 0 < 2 ^ 61
  /\ 0 <= 2 ^ 60 + 3 <= 0 + 2 ^ 61
  /\ 0 <= 0 <= 0 + 2 ^ 61
  /\ round_trip W (2 ^ 60 + 3) 0 Scenario.far_window
     = (Return (2 ^ 60, 0), Scenario.far_window, [])
  /\ ~ (2 ^ 60 + 3 - 1 <= 2 ^ 60 <= 2 ^ 60 + 3 + 1).
Proof.
  intros W. split; [reflexivity |]. split; [reflexivity |].
  split; [lia |]. split; [lia |]. split; [vm_compute; reflexivity | lia].
Qed.
(** ** The pace of the loop *)

Section Pace.

Context {Frame Template : Type}.
Variable W : World Frame Template.
Variable config : Config.
Variable templates : gmap string Template.

(** The dispatch followed by the pause that depends on its answer. *)
Lemma dispatch_then_pause (m : M bool) (a b : float) s :
  bind m (fun handled =>
    bind (if negb handled then sleep a else sleep b) (fun _ => ret Continue)) s
  = match m s with
    | (Return handled, s1, w1) =>
        (Return Continue, s1, w1 ++ [Sleep (if handled then b else a)])
    | (Raise e, s1, w1) => (Raise e, s1, w1)
    end.
Proof.
  unfold bind. destruct (m s) as [[[handled | e] s1] w1]; [| reflexivity].
  destruct handled; reflexivity.
Qed.

(** The classified part of an iteration, by cases on the counter and on the
    dispatch. *)
Lemma act_on_cases current_screen screenshot s :
  let o := act_on W config templates current_screen screenshot s in
  let c := count_unknown current_screen s in
  match result_of c with
  | Return Break =>
      o = (Return Break, state_of c,
           Log INFO (CurrentScreen current_screen) :: events_of c)
  | Return Continue =>
      let d := dispatch W config templates current_screen screenshot (state_of c) in
      match result_of d with
      | Return handled =>
          o = (Return Continue, state_of d,
               Log INFO (CurrentScreen current_screen) :: events_of c
               ++ events_of d
               ++ [Sleep (if handled then 0.5%float else screenshot_delay config)])
      | Raise e =>
          o = (Raise e, state_of d,
               Log INFO (CurrentScreen current_screen) :: events_of c ++ events_of d)
      end
  | Raise e => False
  end.
Proof.
  cbv zeta. unfold act_on.
  assert (Hlog : log INFO (CurrentScreen current_screen) s
                 = (Return tt, s, [Log INFO (CurrentScreen current_screen)]))
    by reflexivity.
  rewrite (bind_Return _ _ _ _ _ _ Hlog).
  destruct (count_unknown current_screen s) as [[rc sc] wc] eqn:Ec.
  assert (Hrc : exists ctl, rc = Return ctl).
  { rewrite count_unknown_cases in Ec.
    destruct (negb _); [| destruct (Z.leb _ _)];
      injection Ec as <- _ _; eexists; reflexivity. }
  destruct Hrc as [ctl ->]. cbn [result_of state_of events_of fst snd].
  rewrite (bind_Return _ _ _ _ _ _ Ec).
  destruct ctl.
  - rewrite dispatch_then_pause.
    destruct (dispatch W config templates current_screen screenshot sc)
      as [[[handled | e] sd] wd]; cbn [result_of state_of events_of fst snd];
      reflexivity.
  - cbn. rewrite app_nil_r. reflexivity.
Qed.

End Pace.

(** Lists of events that end with a given event. *)
Lemma ends_app {A} (w1 w2 : list A) (e : A) :
  (exists w, w2 = w ++ [e]) -> exists w, w1 ++ w2 = w ++ [e].
Proof. intros [w ->]. exists (w1 ++ w). apply app_assoc. Qed.

Lemma ends_cons {A} (a : A) (w2 : list A) (e : A) :
  (exists w, w2 = w ++ [e]) -> exists w, a :: w2 = w ++ [e].
Proof. intros [w ->]. exists (a :: w). reflexivity. Qed.

Lemma ends_last {A} (w : list A) (e : A) : exists w0, w ++ [e] = w0 ++ [e].
Proof. exists w. reflexivity. Qed.

Lemma ends_two {A} (a e : A) : exists w0, [a; e] = w0 ++ [e].
Proof. exists [a]. reflexivity. Qed.

Section PaceOfIteration.

Context {Frame Template : Type}.
Variable W : World Frame Template.
Variable config : Config.
Variable templates : gmap string Template.

Lemma count_unknown_break current_screen s :
  result_of (count_unknown current_screen s) = Return Break ->
  events_of (count_unknown current_screen s) = [Log ERROR TooManyUnknownScreens].
Proof.
  rewrite count_unknown_cases.
  destruct (negb _); [discriminate |]. destruct (Z.leb _ _); [| discriminate].
  reflexivity.
Qed.

(** How the classified part of an iteration ends. *)
Lemma act_on_ends current_screen screenshot s :
  let o := act_on W config templates current_screen screenshot s in
  match result_of o with
  | Return Continue =>
      exists w d, events_of o = w ++ [Sleep d]
                  /\ (d = 0.5%float \/ d = screenshot_delay config)
  | Return Break => exists w, events_of o = w ++ [Log ERROR TooManyUnknownScreens]
  | Raise _ => True
  end.
Proof.
  cbv zeta. pose proof (act_on_cases W config templates current_screen screenshot s) as H.
  cbv zeta in H.
  destruct (result_of (count_unknown current_screen s)) as [[|] | e] eqn:Ec;
    [| | contradiction].
  - destruct (result_of (dispatch W config templates current_screen screenshot _))
      as [handled | e]; rewrite H; cbn [result_of events_of fst snd]; [| exact Logic.I].
    eexists ((Log INFO (CurrentScreen current_screen)
              :: events_of (count_unknown current_screen s)) ++ _), _.
    split.
    + rewrite <- app_assoc, <- app_comm_cons. reflexivity.
    + destruct handled; [left | right]; reflexivity.
  - rewrite H. cbn [result_of events_of fst snd].
    rewrite (count_unknown_break _ _ Ec). apply ends_two.
Qed.

(** How the body of the [try] ends. *)
Lemma iteration_body_ends s :
  let o := iteration_body W config templates s in
  match result_of o with
  | Return Continue =>
      exists w d, events_of o = w ++ [Sleep d]
                  /\ In d [1%float; 3%float; 0.5%float; screenshot_delay config]
  | Return Break => exists w, events_of o = w ++ [Log ERROR TooManyUnknownScreens]
  | Raise _ => True
  end.
Proof.
  cbv zeta. pose proof (iteration_body_cases W config templates s) as H.
  cbv zeta in H.
  destruct (result_of (capture_screen W config None s)) as [[frame |] | e];
    [| rewrite H; cbn [result_of events_of fst snd] | rewrite H; exact Logic.I].
  - destruct (result_of (check_for_errors W (Some frame) _)) as [[|] | e];
      [rewrite H; cbn [result_of events_of fst snd] | | rewrite H; exact Logic.I].
    + match goal with
      | |- exists w d, ?a ++ ?b ++ [?x; Sleep ?t] = _ /\ _ =>
          exists (a ++ b ++ [x]), t
      end.
      split.
      * rewrite <- !app_assoc. reflexivity.
      * right. left. reflexivity.
    + destruct (result_of (detect_screen W templates (Some frame) _))
        as [current_screen | e]; [| rewrite H; exact Logic.I].
      rewrite H. cbn [result_of events_of fst snd].
      pose proof (act_on_ends current_screen (Some frame)
                    (state_of (detect_screen W templates (Some frame)
                       (state_of (check_for_errors W (Some frame)
                          (state_of (capture_screen W config None s))))))) as Ha.
      cbv zeta in Ha.
      destruct (result_of (act_on W config templates current_screen _ _))
        as [[|] | e]; [| | exact Logic.I].
      * destruct Ha as (w & d & -> & Hd).
        match goal with
        | |- exists w0 d0, ?a ++ ?b ++ ?c ++ w ++ [Sleep d] = _ /\ _ =>
            exists (a ++ b ++ c ++ w), d
        end.
        split.
        -- rewrite <- !app_assoc. reflexivity.
        -- destruct Hd as [-> | ->]; simpl; auto.
      * destruct Ha as (w & ->).
        match goal with
        | |- exists w0, ?a ++ ?b ++ ?c ++ w ++ [?e] = _ =>
            exists (a ++ b ++ c ++ w)
        end.
        rewrite <- !app_assoc. reflexivity.
  - match goal with
    | |- exists w d, ?a ++ [?x; Sleep ?t] = _ /\ _ => exists (a ++ [x]), t
    end.
    split.
    + rewrite <- app_assoc. reflexivity.
    + left. reflexivity.
Qed.

End PaceOfIteration.

(** X1.  An iteration of the loop that returns to keep the loop going has
    ended with a sleep (of 1, 3, 0.5, [screenshot_delay] or 2 seconds); one
    that returns to end the loop has ended with the log line of the drift
    stop or of the user's interrupt.  The loop never goes round without
    sleeping. *)
Theorem iteration_sleeps_or_stops {Frame Template : Type}
    (W : World Frame Template) (config : Config)
    (templates : gmap string Template) (s : State) :
  let o := iteration W config templates s in
  (result_of o = Return Continue ->
   exists w d,
     events_of o = w ++ [Sleep d]
     /\ In d [1%float; 3%float; 0.5%float; screenshot_delay config; 2%float])
  /\ (result_of o = Return Break ->
      exists w,
        events_of o = w ++ [Log ERROR TooManyUnknownScreens]
        \/ events_of o = w ++ [Log INFO AutomationStoppedByUser]).
Proof.
  cbv zeta. pose proof (iteration_body_ends W config templates s) as H.
  cbv zeta in H. unfold iteration.
  destruct (iteration_body W config templates s) as [[[[|] | [|]] s1] w1];
    cbn [result_of events_of fst snd] in *; split; intros Hr;
    try discriminate Hr.
  - destruct H as (w & d & -> & Hd).
    exists w, d. split; [reflexivity |]. simpl in *. tauto.
  - destruct H as (w & ->). exists w. left. reflexivity.
  - exists w1. right. reflexivity.
  - exists (w1 ++ [Log ERROR ErrorInAutomationLoop]), 2%float. split.
    + rewrite <- app_assoc. reflexivity.
    + simpl. tauto.
Qed.

(** On the main menu the iteration clicks and ends with the short sleep;
    the tenth blank screen in a row ends the loop with the log line of the
    drift stop. *)
Lemma iteration_sleeps_or_stops_witness :
  (let o := iteration (Scenario.showing (fun _ => Return Scenario.main_menu_frame))
              Scenario.untracked Scenario.library Scenario.started in
   result_of o = Return Continue
   /\ exists w d,
        events_of o = w ++ [Sleep d]
        /\ In d [1%float; 3%float; 0.5%float;
                 screenshot_delay Scenario.untracked; 2%float])
  /\ (let o := iteration (Scenario.showing (fun _ => Return Scenario.blank))
                 Scenario.untracked Scenario.library
                 (set_consecutive_unknown_screens 9 Scenario.started) in
      result_of o = Return Break
      /\ exists w,
           events_of o = w ++ [Log ERROR TooManyUnknownScreens]
           \/ events_of o = w ++ [Log INFO AutomationStoppedByUser]).
Proof.
  split.
  - intros o.
    assert (Hr : result_of o = Return Continue) by (vm_compute; reflexivity).
    split; [exact Hr |].
    exact (proj1 (iteration_sleeps_or_stops _ _ _ _) Hr).
  - intros o.
    assert (Hr : result_of o = Return Break) by (vm_compute; reflexivity).
    split; [exact Hr |].
    exact (proj2 (iteration_sleeps_or_stops _ _ _ _) Hr).
Defined.

(** ** Entering and leaving [run_automation] *)

Section EnterAndLeave.

Context {Frame Template : Type}.
Variable W : World Frame Template.
Variable config : Config.
Variable templates : gmap string Template.

(** The statements of [run_automation] before the loop, by cases on the
    configuration, on the cache and on the answer of the OS. *)
Lemma window_setup_cases s :
  (if window_detection_enabled config then
     bind (get_game_region W) (fun r =>
     bind (modify (set_game_region r)) (fun _ =>
     match r with
     | Some region => log INFO (GameWindowDetected region)
     | None => log WARNING GameWindowNotDetected
     end))
   else ret tt) s
  = if window_detection_enabled config then
      match window_rect s with
      | Some r =>
          (Return tt, set_game_region (Some (box_of_rect r)) s,
           [Log INFO (GameWindowDetected (box_of_rect r))])
      | None =>
          match find_uma_musume_window W (clock s) with
          | Return (Some r) =>
              (Return tt,
               set_game_region (Some (box_of_rect r))
                 (set_window_rect (Some r) (tick s)),
               [WindowQuery; Log INFO (GameWindowDetected (box_of_rect r))])
          | Return None =>
              (Return tt, set_game_region None (set_window_rect None (tick s)),
               [WindowQuery; Log WARNING GameWindowNotDetected])
          | Raise e => (Raise e, tick s, [WindowQuery])
          end
      end
    else (Return tt, s, []).
Proof.
  destruct (window_detection_enabled config); [| reflexivity].
  unfold bind at 1. rewrite get_game_region_cases.
  destruct (window_rect s) as [r |]; [reflexivity |].
  destruct (find_uma_musume_window W (clock s)) as [[r |] | e]; reflexivity.
Qed.

(** The statements of [run_automation] after the loop. *)
Lemma run_automation_after_loop status s1 :
  (match status with
   | OutOfFuel => ret OutOfFuel
   | LoopExited =>
       bind (modify (set_running false)) (fun _ =>
       bind (log INFO AutomationStopped) (fun _ =>
       bind get_session_stats (fun st =>
       bind (log INFO (SessionStatsReport (training_sessions st)
                         (races_completed st) (events_handled st)
                         (errors_encountered st))) (fun _ =>
       ret LoopExited))))
   end) s1
  = match status with
    | OutOfFuel => (Return OutOfFuel, s1, [])
    | LoopExited =>
        (Return LoopExited, set_running false s1,
         [Log INFO AutomationStopped;
          Log INFO (SessionStatsReport
                      (training_sessions (session_stats s1))
                      (races_completed (session_stats s1))
                      (events_handled (session_stats s1))
                      (errors_encountered (session_stats s1)))])
    end.
Proof. destruct status; reflexivity. Qed.

(** [run_automation] in terms of its three parts. *)
Lemma run_automation_parts fuel s :
  let setup :=
    (if window_detection_enabled config then
       bind (get_game_region W) (fun r =>
       bind (modify (set_game_region r)) (fun _ =>
       match r with
       | Some region => log INFO (GameWindowDetected region)
       | None => log WARNING GameWindowNotDetected
       end))
     else ret tt) (set_running true s) in
  match result_of setup with
  | Raise e =>
      run_automation W config templates fuel s
      = (Raise e, state_of setup, Log INFO StartingAutomation :: events_of setup)
  | Return _ =>
      let loop := automation_loop W config templates fuel
                    (set_consecutive_unknown_screens 0 (state_of setup)) in
      match result_of loop with
      | Raise e => True
      | Return OutOfFuel =>
          run_automation W config templates fuel s
          = (Return OutOfFuel, state_of loop,
             Log INFO StartingAutomation :: events_of setup ++ events_of loop)
      | Return LoopExited =>
          run_automation W config templates fuel s
          = (Return LoopExited, set_running false (state_of loop),
             Log INFO StartingAutomation :: events_of setup ++ events_of loop
             ++ [Log INFO AutomationStopped;
                 Log INFO (SessionStatsReport
                      (training_sessions (session_stats (state_of loop)))
                      (races_completed (session_stats (state_of loop)))
                      (events_handled (session_stats (state_of loop)))
                      (errors_encountered (session_stats (state_of loop))))])
      end
  end.
Proof.
  cbv zeta. unfold run_automation.
  assert (Hlog : log INFO StartingAutomation s
                 = (Return tt, s, [Log INFO StartingAutomation])) by reflexivity.
  rewrite (bind_Return _ _ _ _ _ _ Hlog).
  assert (Hrun : modify (set_running true) s = (Return tt, set_running true s, []))
    by reflexivity.
  rewrite (bind_Return _ _ _ _ _ _ Hrun).
  set (setup := if window_detection_enabled config then _ else _).
  destruct (setup (set_running true s)) as [[[u | e] s1] w1] eqn:Es;
    cbn [result_of state_of events_of fst snd];
    [rewrite (bind_Return _ _ _ _ _ _ Es)
    | rewrite (bind_Raise _ _ _ _ _ _ Es); reflexivity].
  assert (Hc : modify (set_consecutive_unknown_screens 0) s1
               = (Return tt, set_consecutive_unknown_screens 0 s1, []))
    by reflexivity.
  rewrite (bind_Return _ _ _ _ _ _ Hc).
  destruct (automation_loop W config templates fuel
              (set_consecutive_unknown_screens 0 s1)) as [[[status | e] s2] w2] eqn:El;
    cbn [result_of state_of events_of fst snd]; [| exact Logic.I].
  rewrite (bind_Return _ _ _ _ _ _ El), run_automation_after_loop.
  destruct status; cbn [result_of state_of events_of fst snd app];
    rewrite ?app_nil_r; reflexivity.
Qed.

End EnterAndLeave.

(** X2.  When [run_automation] returns because the loop was left, [running]
    is false and the last two log lines are "Automation stopped" and the
    report of the four session counters as they are in the final state.
    When the window query before the loop raises (window detection is
    enabled, no rectangle is cached and the OS query fails),
    [run_automation] raises the same exception at once: nothing but the
    first log line and the query has happened, and [running] is left
    true. *)
Theorem run_automation_enters_and_leaves {Frame Template : Type}
    (W : World Frame Template) (config : Config)
    (templates : gmap string Template) (fuel : nat) (s : State) :
  let o := run_automation W config templates fuel s in
  (result_of o = Return LoopExited ->
   running (state_of o) = false
   /\ exists w,
        events_of o
        = Log INFO StartingAutomation :: w
          ++ [Log INFO AutomationStopped;
              Log INFO (SessionStatsReport
                          (training_sessions (session_stats (state_of o)))
                          (races_completed (session_stats (state_of o)))
                          (events_handled (session_stats (state_of o)))
                          (errors_encountered (session_stats (state_of o))))])
  /\ (forall e,
        window_detection_enabled config = true ->
        window_rect s = None ->
        find_uma_musume_window W (clock s) = Raise e ->
        result_of o = Raise e
        /\ running (state_of o) = true
        /\ events_of o = [Log INFO StartingAutomation; WindowQuery]).
Proof.
  cbv zeta. pose proof (run_automation_parts W config templates fuel s) as H.
  cbv zeta in H. rewrite window_setup_cases in H.
  cbn [window_rect set_running clock] in H.
  destruct (window_detection_enabled config) eqn:Ed.
  - destruct (window_rect s) as [r |] eqn:Er.
    + cbn [result_of state_of events_of fst snd] in H.
      destruct (automation_loop_returns W config templates fuel
                  (set_consecutive_unknown_screens 0
                     (set_game_region (Some (box_of_rect r)) (set_running true s))))
        as [status Hs].
      rewrite Hs in H. destruct status; rewrite H;
        cbn [result_of state_of events_of fst snd];
        (split; [| intros e _ He; discriminate He]); try discriminate.
      intros _. split; [reflexivity |]. eexists (_ :: _). reflexivity.
    + destruct (find_uma_musume_window W (clock s)) as [[r |] | e] eqn:Eq;
        cbn [result_of state_of events_of fst snd] in H.
      * destruct (automation_loop_returns W config templates fuel
                    (set_consecutive_unknown_screens 0
                       (set_game_region (Some (box_of_rect r))
                          (set_window_rect (Some r) (tick (set_running true s))))))
          as [status Hs].
        rewrite Hs in H. destruct status; rewrite H;
          cbn [result_of state_of events_of fst snd];
          (split; [| intros e _ _ He; discriminate He]); try discriminate.
        intros _. split; [reflexivity |]. eexists (_ :: _ :: _). reflexivity.
      * destruct (automation_loop_returns W config templates fuel
                    (set_consecutive_unknown_screens 0
                       (set_game_region None
                          (set_window_rect None (tick (set_running true s))))))
          as [status Hs].
        rewrite Hs in H. destruct status; rewrite H;
          cbn [result_of state_of events_of fst snd];
          (split; [| intros e _ _ He; discriminate He]); try discriminate.
        intros _. split; [reflexivity |]. eexists (_ :: _ :: _). reflexivity.
      * rewrite H. cbn [result_of state_of events_of fst snd].
        split; [discriminate |].
        intros e' _ _ He. injection He as <-. repeat split; reflexivity.
  - cbn [result_of state_of events_of fst snd] in H.
    destruct (automation_loop_returns W config templates fuel
                (set_consecutive_unknown_screens 0 (set_running true s)))
      as [status Hs].
    rewrite Hs in H. destruct status; rewrite H;
      cbn [result_of state_of events_of fst snd];
      (split; [| intros e He; discriminate He]); try discriminate.
    intros _. split; [reflexivity |]. eexists. cbn [app]. reflexivity.
Qed.

(** ** Counting clicks and grabs *)

Lemma count_events_app p w1 w2 :
  count_events p (w1 ++ w2) = (count_events p w1 + count_events p w2)%nat.
Proof. induction w1 as [| e w1 IH]; simpl; [reflexivity | rewrite IH; lia]. Qed.

Lemma count_events_none p w :
  Forall (fun e => p e = false) w -> count_events p w = O.
Proof.
  induction 1 as [| e w He _ IH]; simpl; [reflexivity |]. rewrite He, IH. reflexivity.
Qed.

Section Spending.

Variable p : event -> bool.

Lemma spends_weaken {A} (n n' : nat) (m : M A) :
  (n <= n')%nat -> spends p n m -> spends p n' m.
Proof. intros Hn H s. specialize (H s). lia. Qed.

Lemma spends_ret {A} (a : A) : spends p 0 (ret a).
Proof. intros s. simpl. lia. Qed.

Lemma spends_gets {A} (f : State -> A) : spends p 0 (gets f).
Proof. intros s. simpl. lia. Qed.

Lemma spends_modify (f : State -> State) : spends p 0 (modify f).
Proof. intros s. simpl. lia. Qed.

Lemma spends_emit (e : event) : p e = false -> spends p 0 (emit e).
Proof. intros H s. simpl. rewrite H. lia. Qed.

Lemma spends_ask {A} (e : event) (oracle : nat -> Res A) :
  p e = false -> spends p 0 (ask e oracle).
Proof. intros H s. simpl. rewrite H. lia. Qed.

Lemma spends_ask_once {A} (e : event) (oracle : nat -> Res A) :
  spends p 1 (ask e oracle).
Proof. intros s. simpl. destruct (p e); lia. Qed.

Lemma spends_bind {A B} (n1 n2 n : nat) (m : M A) (k : A -> M B) :
  spends p n1 m -> (forall a, spends p n2 (k a)) -> (n1 + n2 <= n)%nat ->
  spends p n (bind m k).
Proof.
  intros Hm Hk Hn s. specialize (Hm s). unfold bind.
  destruct (m s) as [[[a | e] s1] w1]; unfold events_of in *; simpl in *; [| lia].
  specialize (Hk a s1). destruct (k a s1) as [[r2 s2] w2]. simpl in *.
  rewrite count_events_app. lia.
Qed.

Lemma spends_try_except {A} (n1 n2 n : nat) (m h : M A) :
  spends p n1 m -> spends p n2 h -> (n1 + n2 <= n)%nat ->
  spends p n (try_except m h).
Proof.
  intros Hm Hh Hn s. specialize (Hm s). unfold try_except.
  destruct (m s) as [[[a | [|]] s1] w1]; unfold events_of in *; simpl in *;
    try lia.
  specialize (Hh s1). destruct (h s1) as [[r2 s2] w2]. simpl in *.
  rewrite count_events_app. lia.
Qed.


End Spending.

Section SpendingMore.

Variable p : event -> bool.

Lemma spends_free {A} (n : nat) (m : M A) : spends p 0 m -> spends p n m.
Proof. apply spends_weaken. lia. Qed.

Lemma spends_after {A B} (n : nat) (m : M A) (k : A -> M B) :
  spends p 0 m -> (forall a, spends p n (k a)) -> spends p n (bind m k).
Proof. intros Hm Hk. apply (spends_bind p 0 n n); auto. Qed.

Lemma spends_before {A B} (n : nat) (m : M A) (k : A -> M B) :
  spends p n m -> (forall a, spends p 0 (k a)) -> spends p n (bind m k).
Proof. intros Hm Hk. apply (spends_bind p n 0 n); auto; lia. Qed.

Lemma spends_try {A} (n : nat) (m h : M A) :
  spends p n m -> spends p 0 h -> spends p n (try_except m h).
Proof. intros Hm Hh. apply (spends_try_except p n 0 n); auto; lia. Qed.

End SpendingMore.

(** Goals [spends p 0 m] on a straight-line [m] without events in [p]. *)
Ltac free_step :=
  first
    [ apply spends_ret
    | apply spends_gets
    | apply spends_modify
    | apply spends_emit; reflexivity
    | apply spends_ask; reflexivity
    | apply spends_after; [| intros ?]
    | apply spends_try ].

Ltac free := repeat free_step.

Section Clicks.

Context {Frame Template : Type}.
Variable W : World Frame Template.
Variable config : Config.
Variable templates : gmap string Template.

Variable p : event -> bool.
Hypothesis p_log : forall l m, p (Log l m) = false.
Hypothesis p_sleep : forall d, p (Sleep d) = false.
Hypothesis p_focus : p Focus = false.
Hypothesis p_query : p WindowQuery = false.

Lemma spends_log l m : spends p 0 (log l m).
Proof. apply spends_emit, p_log. Qed.

Lemma spends_sleep d : spends p 0 (sleep d).
Proof. apply spends_emit, p_sleep. Qed.

Lemma spends_focus : spends p 0 (focus_game_window W).
Proof.
  unfold focus_game_window. destruct (String.eqb _ _); [| apply spends_ret].
  apply spends_try.
  - apply spends_after; [apply spends_ask, p_focus | intros; apply spends_ret].
  - apply spends_after; [apply spends_log | intros; apply spends_ret].
Qed.

Lemma spends_get_game_region : spends p 0 (get_game_region W).
Proof.
  intros s. rewrite get_game_region_cases.
  destruct (window_rect s); [simpl; lia |].
  destruct (find_uma_musume_window W (clock s)); simpl; rewrite p_query; lia.
Qed.

Lemma spends_find_template name screenshot threshold :
  spends p 0 (find_template W templates name screenshot threshold).
Proof.
  intros s.
  destruct (find_template_pure W templates name screenshot threshold s) as [_ He].
  destruct He as [-> | ->]; simpl; rewrite ?p_log; lia.
Qed.

Lemma spends_detect_screen screenshot :
  spends p 0 (detect_screen W templates screenshot).
Proof.
  unfold detect_screen.
  repeat (apply spends_after; [apply spends_find_template |];
          (let o := fresh "o" in intros o; destruct (truthy o));
          [apply spends_ret |]).
  apply spends_ret.
Qed.

Lemma spends_ocr_text image region : spends p 0 (ocr_text W image region).
Proof.
  unfold ocr_text. apply spends_try.
  - apply spends_after; [| intros; apply spends_ret].
    intros s. destruct image; simpl; lia.
  - apply spends_after; [apply spends_log | intros; apply spends_ret].
Qed.

Lemma spends_scan_indicators indicators text :
  spends p 0 (scan_indicators indicators text).
Proof.
  induction indicators as [| i rest IH]; simpl; [apply spends_ret |].
  destruct (str_in i text); [| exact IH].
  apply spends_after; [apply spends_log | intros; apply spends_ret].
Qed.

Lemma spends_check_for_errors screenshot :
  spends p 0 (check_for_errors W screenshot).
Proof.
  unfold check_for_errors. apply spends_after; [apply spends_ocr_text |].
  intros text. apply spends_scan_indicators.
Qed.

Lemma spends_count_unknown current_screen : spends p 0 (count_unknown current_screen).
Proof.
  intros s. rewrite count_unknown_cases.
  destruct (negb _); [simpl; lia |]. destruct (Z.leb _ _); simpl; rewrite ?p_log; lia.
Qed.

End Clicks.

(** The handlers and the iteration, for a kind of event of which a capture
    produces at most [g] and a click at most [c]. *)
Section Budget.

Context {Frame Template : Type}.
Variable W : World Frame Template.
Variable config : Config.
Variable templates : gmap string Template.

Variable p : event -> bool.
Variables g c : nat.
Hypothesis p_log : forall l m, p (Log l m) = false.
Hypothesis p_sleep : forall d, p (Sleep d) = false.
Hypothesis spends_capture :
  forall region, spends p g (capture_screen W config region).
Hypothesis spends_click :
  forall x y delay, spends p c (click_at W config x y delay).

Lemma spends_click_centre b : spends p c (click_centre W config b).
Proof. unfold click_centre. destruct (centroid b). apply spends_click. Qed.

Lemma spends_click_if_found (btn : option Box) (otherwise : M bool) :
  spends p c otherwise ->
  spends p c (match btn with
              | Some b => bind (click_centre W config b) (fun _ => ret true)
              | None => otherwise
              end).
Proof.
  intros H. destruct btn; [| exact H].
  apply spends_before; [apply spends_click_centre | intros; apply spends_ret].
Qed.

Lemma spends_click_then (btn : option Box) (after : M bool) :
  spends p 0 after ->
  spends p c (match btn with
              | Some b => bind (click_centre W config b) (fun _ => after)
              | None => ret false
              end).
Proof.
  intros H. destruct btn; [| apply spends_free, spends_ret].
  apply spends_before; [apply spends_click_centre | intros; exact H].
Qed.

(** A handler: the log line, the capture, then a search that ends in at
    most one click. *)
Lemma spends_handler l m (search : option Frame -> M bool) :
  (forall screenshot, spends p c (search screenshot)) ->
  spends p (g + c)
    (bind (log l m) (fun _ =>
     bind (capture_screen W config None) (fun screenshot => search screenshot))).
Proof.
  intros H. apply spends_after; [apply spends_log, p_log |]. intros _.
  apply (spends_bind p g c); [apply spends_capture | exact H | lia].
Qed.

Lemma spends_search name (otherwise : option Frame -> M bool) screenshot :
  (forall sc, spends p c (otherwise sc)) ->
  spends p c
    (bind (find_template W templates name screenshot default_threshold) (fun btn =>
     match btn with
     | Some b => bind (click_centre W config b) (fun _ => ret true)
     | None => otherwise screenshot
     end)).
Proof.
  intros H. apply spends_after; [apply spends_find_template, p_log |].
  intros btn. apply spends_click_if_found, H.
Qed.

Lemma spends_handle_main_menu :
  spends p (g + c) (handle_main_menu W config templates).
Proof.
  unfold handle_main_menu. apply spends_handler. intros sc.
  apply (spends_search _ (fun _ => ret false)). intros _. apply spends_free, spends_ret.
Qed.

Lemma spends_try_training_options options screenshot :
  spends p c (try_training_options W config templates options screenshot).
Proof.
  induction options as [| o rest IH]; simpl; [apply spends_free, spends_ret |].
  apply spends_after; [apply spends_find_template, p_log |].
  intros btn. apply spends_click_if_found, IH.
Qed.

Lemma spends_handle_training_screen :
  spends p (g + c) (handle_training_screen W config templates).
Proof.
  unfold handle_training_screen. apply spends_handler. intros sc.
  apply spends_try_training_options.
Qed.

Lemma spends_handle_event_screen :
  spends p (g + c) (handle_event_screen W config templates).
Proof.
  unfold handle_event_screen. apply spends_handler. intros sc.
  apply (spends_search _ (fun _ => ret false)). intros _. apply spends_free, spends_ret.
Qed.

Lemma spends_press_race_start screenshot :
  spends p c (press_race_start W config templates screenshot).
Proof.
  unfold press_race_start.
  apply (spends_search _ (fun _ => ret false)). intros _. apply spends_free, spends_ret.
Qed.

Lemma spends_handle_race_screen :
  spends p (g + c) (handle_race_screen W config templates).
Proof.
  unfold handle_race_screen. apply spends_handler. intros sc.
  destruct (skip_races config); [| apply spends_press_race_start].
  apply (spends_search _ (press_race_start W config templates)).
  apply spends_press_race_start.
Qed.

Lemma spends_counting_handler l m name (incr : SessionStats -> SessionStats) :
  spends p (g + c)
    (bind (log l m) (fun _ =>
     bind (capture_screen W config None) (fun screenshot =>
     bind (find_template W templates name screenshot default_threshold) (fun btn =>
     match btn with
     | Some b =>
         bind (click_centre W config b) (fun _ =>
         bind (modify (fun s => set_session_stats (incr (session_stats s)) s))
              (fun _ => ret true))
     | None => ret false
     end)))).
Proof.
  apply spends_handler. intros sc.
  apply spends_after; [apply spends_find_template, p_log |].
  intros btn. apply spends_click_then.
  apply spends_after; [apply spends_modify | intros; apply spends_ret].
Qed.

Lemma spends_handle_race_result :
  spends p (g + c) (handle_race_result W config templates).
Proof. apply spends_counting_handler. Qed.

Lemma spends_handle_training_result :
  spends p (g + c) (handle_training_result W config templates).
Proof. apply spends_counting_handler. Qed.

Lemma spends_handle_choice_screen :
  spends p (g + c) (handle_choice_screen W config templates).
Proof.
  unfold handle_choice_screen. apply spends_handler. intros sc.
  apply spends_after; [apply spends_ocr_text, p_log |]. intros text.
  apply spends_after; [apply spends_log, p_log |]. intros _.
  apply spends_after; [apply spends_find_template, p_log |].
  intros btn. apply spends_click_then.
  apply spends_after; [apply spends_modify | intros; apply spends_ret].
Qed.

Lemma spends_click_continue_fallback current_screen screenshot :
  spends p c (click_continue_fallback W config templates current_screen screenshot).
Proof.
  unfold click_continue_fallback.
  apply spends_after; [apply spends_log, p_log |]. intros _.
  apply (spends_search _ (fun _ => ret false)). intros _. apply spends_free, spends_ret.
Qed.

Lemma spends_dispatch current_screen screenshot :
  spends p (g + c) (dispatch W config templates current_screen screenshot).
Proof.
  unfold dispatch.
  repeat (destruct (String.eqb current_screen _);
          [first [ apply spends_handle_main_menu
                 | apply spends_handle_training_screen
                 | apply spends_handle_event_screen
                 | apply spends_handle_race_screen
                 | apply spends_handle_race_result
                 | apply spends_handle_training_result
                 | apply spends_handle_choice_screen ] |]).
  eapply spends_weaken; [| apply spends_click_continue_fallback]. lia.
Qed.

Lemma spends_act_on current_screen screenshot :
  spends p (g + c) (act_on W config templates current_screen screenshot).
Proof.
  unfold act_on.
  apply spends_after; [apply spends_log, p_log |]. intros _.
  apply spends_after; [apply spends_count_unknown, p_log |].
  intros ctl. destruct ctl; [| apply spends_free, spends_ret].
  apply spends_before; [apply spends_dispatch |].
  intros handled. apply spends_after; [| intros; apply spends_ret].
  destruct (negb handled); apply spends_sleep, p_sleep.
Qed.

Lemma spends_iteration_body :
  spends p (g + (g + c)) (iteration_body W config templates).
Proof.
  unfold iteration_body.
  apply (spends_bind p g (g + c)); [apply spends_capture | | lia].
  intros screenshot. destruct screenshot as [f |].
  - apply spends_after; [apply spends_check_for_errors, p_log |].
    intros failed. destruct failed.
    + apply spends_free.
      apply spends_after; [apply spends_log, p_log |]. intros _.
      apply spends_after; [apply spends_sleep, p_sleep |]. intros _.
      apply spends_ret.
    + apply spends_after; [apply spends_detect_screen, p_log |].
      intros current_screen. apply spends_act_on.
  - apply spends_free.
    apply spends_after; [apply spends_log, p_log |]. intros _.
    apply spends_after; [apply spends_sleep, p_sleep |]. intros _.
    apply spends_ret.
Qed.

Lemma spends_iteration :
  spends p (g + (g + c)) (iteration W config templates).
Proof.
  intros s. pose proof (spends_iteration_body s) as H. unfold iteration.
  destruct (iteration_body W config templates s) as [[[ctl | [|]] s1] w1];
    unfold events_of in *; cbn [fst snd] in *; [exact H | |];
    rewrite count_events_app; simpl; rewrite ?p_log, ?p_sleep; lia.
Qed.

End Budget.

Section ClicksAndGrabs.

Context {Frame Template : Type}.
Variable W : World Frame Template.
Variable config : Config.
Variable templates : gmap string Template.

(** A capture produces one grab at most, and none of any other event that
    is neither a log line nor a window query. *)
Lemma capture_screen_spends p n region :
  (forall l m, p (Log l m) = false) -> p WindowQuery = false ->
  (forall bbox, p (Grab bbox) = false) \/ (1 <= n)%nat ->
  spends p n (capture_screen W config region).
Proof.
  intros p_log p_query Hg. unfold capture_screen. apply spends_try.
  - apply spends_after.
    { destruct (window_detection_enabled config); [| apply spends_ret].
      apply spends_after; [apply spends_get_game_region, p_query |].
      intros; apply spends_modify. }
    intros _. apply spends_after; [apply spends_gets |]. intros cached.
    apply spends_after.
    { destruct region; [apply spends_ret |].
      destruct cached; [| apply spends_ret].
      apply spends_after; [apply spends_log, p_log | intros; apply spends_ret]. }
    intros region'. apply spends_before; [| intros; apply spends_ret].
    destruct Hg as [Hg | Hg].
    + apply spends_free, spends_ask, Hg.
    + eapply spends_weaken; [exact Hg | apply spends_ask_once].
  - apply spends_after; [apply spends_log, p_log | intros; apply spends_ret].
Qed.

(** A call of [click_at] produces one click at most, and none of any other
    event that is neither a log line, a sleep nor the focus request. *)
Lemma click_at_spends p n x y delay :
  (forall l m, p (Log l m) = false) -> (forall d, p (Sleep d) = false) ->
  p Focus = false ->
  (forall cx cy, p (Click cx cy) = false) \/ (1 <= n)%nat ->
  spends p n (click_at W config x y delay).
Proof.
  intros p_log p_sleep p_focus Hc. unfold click_at. apply spends_try.
  - apply spends_after.
    { destruct (window_detection_enabled config); [| apply spends_ret].
      apply spends_after; [apply spends_focus; assumption |].
      intros; apply spends_sleep, p_sleep. }
    intros _. apply spends_before.
    + destruct Hc as [Hc | Hc].
      * apply spends_free, spends_ask, Hc.
      * eapply spends_weaken; [exact Hc | apply spends_ask_once].
    + intros _. apply spends_after; [apply spends_sleep, p_sleep |].
      intros _. apply spends_log, p_log.
  - apply spends_after; [apply spends_log, p_log | intros; apply spends_modify].
Qed.

Lemma iteration_clicks : spends is_click 1 (iteration W config templates).
Proof.
  apply (spends_iteration W config templates is_click 0 1); try reflexivity.
  - intros region. apply capture_screen_spends; auto.
  - intros x y delay. apply click_at_spends; auto.
Qed.

Lemma dispatch_clicks current_screen screenshot :
  spends is_click 1 (dispatch W config templates current_screen screenshot).
Proof.
  apply (spends_dispatch W config templates is_click 0 1); try reflexivity.
  - intros region. apply capture_screen_spends; auto.
  - intros x y delay. apply click_at_spends; auto.
Qed.

Lemma iteration_grabs : spends is_grab 2 (iteration W config templates).
Proof.
  apply (spends_iteration W config templates is_grab 1 0); try reflexivity.
  - intros region. apply capture_screen_spends; auto.
  - intros x y delay. apply click_at_spends; auto.
Qed.

Lemma dispatch_grabs current_screen screenshot :
  spends is_grab 1 (dispatch W config templates current_screen screenshot).
Proof.
  apply (spends_dispatch W config templates is_grab 1 0); try reflexivity.
  - intros region. apply capture_screen_spends; auto.
  - intros x y delay. apply click_at_spends; auto.
Qed.

End ClicksAndGrabs.

Section Within.

Variables p q : event -> bool.

Lemma within_free {A} (m : M A) : spends p 0 m -> within p q m.
Proof. intros H s. specialize (H s). lia. Qed.

Lemma within_bind {A B} (m : M A) (k : A -> M B) :
  within p q m -> (forall a, within p q (k a)) -> within p q (bind m k).
Proof.
  intros Hm Hk s. specialize (Hm s). unfold bind.
  destruct (m s) as [[[a | e] s1] w1]; unfold events_of in *; simpl in *; [| lia].
  specialize (Hk a s1). destruct (k a s1) as [[r2 s2] w2]. simpl in *.
  rewrite !count_events_app. lia.
Qed.

End Within.

Section ClickPerScreen.

Context {Frame Template : Type}.
Variable W : World Frame Template.
Variable config : Config.
Variable templates : gmap string Template.

Lemma act_on_classifies current_screen screenshot s :
  (1 <= count_events is_classification
          (events_of (act_on W config templates current_screen screenshot s)))%nat.
Proof.
  pose proof (act_on_cases W config templates current_screen screenshot s) as H.
  cbv zeta in H.
  destruct (result_of (count_unknown current_screen s)) as [[|] | e];
    [| | contradiction].
  - destruct (result_of (dispatch W config templates current_screen screenshot _));
      rewrite H; simpl; lia.
  - rewrite H. simpl. lia.
Qed.

Lemma act_on_within current_screen screenshot :
  within is_click is_classification
    (act_on W config templates current_screen screenshot).
Proof.
  intros s. pose proof (act_on_classifies current_screen screenshot s).
  assert (Hc : spends is_click 1 (act_on W config templates current_screen screenshot)).
  { apply (spends_act_on W config templates is_click 0 1); try reflexivity.
    - intros region. apply capture_screen_spends; auto.
    - intros x y delay. apply click_at_spends; auto. }
  specialize (Hc s). lia.
Qed.

Lemma iteration_body_within :
  within is_click is_classification (iteration_body W config templates).
Proof.
  unfold iteration_body.
  apply within_bind; [apply within_free, capture_screen_spends; auto |].
  intros screenshot. destruct screenshot as [f |].
  - apply within_bind; [apply within_free, spends_check_for_errors; auto |].
    intros failed. destruct failed.
    + apply within_free.
      apply spends_after; [apply spends_log; auto |]. intros _.
      apply spends_after; [apply spends_sleep; auto |]. intros _.
      apply spends_ret.
    + apply within_bind; [apply within_free, spends_detect_screen; auto |].
      intros current_screen. apply act_on_within.
  - apply within_free.
    apply spends_after; [apply spends_log; auto |]. intros _.
    apply spends_after; [apply spends_sleep; auto |]. intros _.
    apply spends_ret.
Qed.

Lemma iteration_within :
  within is_click is_classification (iteration W config templates).
Proof.
  intros s. pose proof (iteration_body_within s) as H. unfold iteration.
  destruct (iteration_body W config templates s) as [[[ctl | [|]] s1] w1];
    unfold events_of in *; cbn [fst snd] in *; [exact H | |];
    rewrite !count_events_app; simpl; lia.
Qed.

Lemma automation_loop_within fuel :
  within is_click is_classification (automation_loop W config templates fuel).
Proof.
  induction fuel as [| fuel IH]; simpl; [apply within_free, spends_ret |].
  apply within_bind; [intros s; simpl; lia |].
  intros go. destruct go; [| apply within_free, spends_ret].
  apply within_bind; [apply iteration_within |].
  intros ctl. destruct ctl; [exact IH | apply within_free, spends_ret].
Qed.

Lemma run_automation_within fuel :
  within is_click is_classification (run_automation W config templates fuel).
Proof.
  unfold run_automation.
  apply within_bind; [apply within_free, spends_log; auto |]. intros _.
  apply within_bind; [apply within_free, spends_modify |]. intros _.
  apply within_bind.
  { apply within_free.
    destruct (window_detection_enabled config); [| apply spends_ret].
    apply spends_after; [apply spends_get_game_region; auto |]. intros r.
    apply spends_after; [apply spends_modify |]. intros _.
    destruct r; apply spends_log; auto. }
  intros _. apply within_bind; [apply within_free, spends_modify |]. intros _.
  apply within_bind; [apply automation_loop_within |].
  intros status. apply within_free. destruct status; [| apply spends_ret].
  apply spends_after; [apply spends_modify |]. intros _.
  apply spends_after; [apply spends_log; auto |]. intros _.
  apply spends_after; [apply spends_gets |]. intros st.
  apply spends_after; [apply spends_log; auto |]. intros _.
  apply spends_ret.
Qed.

End ClickPerScreen.

(** X3.  Whatever the screen, its handler clicks at most once, and so does
    an iteration of the loop.  In a whole run the number of clicks never
    exceeds the number of screens the classifier has reported: the
    automation clicks only after it has classified a screen, once at most
    per classification. *)
Theorem one_click_per_classified_screen {Frame Template : Type}
    (W : World Frame Template) (config : Config)
    (templates : gmap string Template) :
  (forall current_screen screenshot s,
     (count_events is_click
        (events_of (dispatch W config templates current_screen screenshot s))
      <= 1)%nat)
  /\ (forall s,
        (count_events is_click (events_of (iteration W config templates s))
         <= 1)%nat)
  /\ (forall fuel s,
        let w := events_of (run_automation W config templates fuel s) in
        (count_events is_click w <= count_events is_classification w)%nat).
Proof.
  split; [| split].
  - intros current_screen screenshot. apply dispatch_clicks.
  - apply iteration_clicks.
  - intros fuel. apply run_automation_within.
Qed.

(** ** What the handlers click *)

Lemma clicks_app w1 w2 : clicks (w1 ++ w2) = clicks w1 ++ clicks w2.
Proof.
  induction w1 as [| e w1 IH]; simpl; [reflexivity |].
  destruct e; simpl; rewrite ?IH; reflexivity.
Qed.

Lemma clicks_none w : count_events is_click w = O -> clicks w = [].
Proof.
  induction w as [| e w IH]; simpl; [reflexivity |].
  destruct e; simpl; try discriminate; intros H; apply IH; exact H.
Qed.

Section HandlerClicks.

Context {Frame Template : Type}.
Variable W : World Frame Template.
Variable config : Config.
Variable templates : gmap string Template.

Lemma capture_screen_no_click region s :
  clicks (events_of (capture_screen W config region s)) = [].
Proof.
  apply clicks_none.
  pose proof (capture_screen_spends W config is_click 0 region
                (fun _ _ => eq_refl) eq_refl (or_introl (fun _ => eq_refl)) s).
  lia.
Qed.

Lemma find_template_no_click name screenshot threshold s :
  clicks (events_of (find_template W templates name screenshot threshold s)) = [].
Proof.
  destruct (find_template_pure W templates name screenshot threshold s) as [_ [-> | ->]];
    reflexivity.
Qed.

(** [click_at] clicks the point it is given, once, or not at all (when the
    focus request is interrupted). *)
Lemma click_at_clicks x y delay s :
  clicks (events_of (click_at W config x y delay s)) = []
  \/ clicks (events_of (click_at W config x y delay s)) = [(x, y)].
Proof.
  unfold click_at, try_except.
  set (prepare := if window_detection_enabled config
                  then bind (focus_game_window W)
                         (fun _ => sleep 0x1.999999999999ap-4)
                  else ret tt).
  assert (Hp : clicks (events_of (prepare s)) = []).
  { unfold prepare. destruct (window_detection_enabled config); [| reflexivity].
    unfold bind. rewrite focus_game_window_cases.
    destruct (String.eqb (system W) "Darwin"); [| reflexivity].
    destruct (osascript_activate W (clock s)) as [rc | [|]]; reflexivity. }
  set (rest := bind (ask (Click x y) (fun t => pyautogui_click W t x y)) _).
  assert (Hrest : forall sp, clicks (events_of (rest sp)) = [(x, y)]).
  { intros sp. unfold rest, bind, ask, sleep, log, emit.
    destruct (pyautogui_click W (clock sp) x y); reflexivity. }
  destruct (prepare s) as [[[u | e] sp] wp] eqn:Ep;
    unfold events_of in Hp; cbn [snd] in Hp.
  - rewrite (bind_Return _ _ _ _ _ _ Ep). specialize (Hrest sp).
    destruct (rest sp) as [[[u' | [|]] sr] wr];
      unfold bind, log, emit, modify;
      cbn [result_of state_of events_of fst snd] in *;
      rewrite ?clicks_app, Hp, Hrest; right; reflexivity.
  - rewrite (bind_Raise _ _ _ _ _ _ Ep).
    destruct e; unfold bind, log, emit, modify; cbn [events_of snd];
      [left; exact Hp |].
    rewrite clicks_app, Hp. left. reflexivity.
Qed.

Lemma click_centre_clicks b s :
  clicks (events_of (click_centre W config b s)) = []
  \/ clicks (events_of (click_centre W config b s)) = [centroid b].
Proof.
  unfold click_centre. destruct (centroid b) as [x y]. apply click_at_clicks.
Qed.

(** One search step of a handler, spelled out. *)
Lemma bind_find_template_cases {B} name screenshot threshold (k : option Box -> M B) s :
  bind (find_template W templates name screenshot threshold) k s
  = match result_of (find_template W templates name screenshot threshold s) with
    | Return o =>
        (result_of (k o s), state_of (k o s),
         events_of (find_template W templates name screenshot threshold s)
         ++ events_of (k o s))
    | Raise e =>
        (Raise e, s, events_of (find_template W templates name screenshot threshold s))
    end.
Proof.
  pose proof (find_template_state W templates name screenshot threshold s) as Hs.
  destruct (find_template W templates name screenshot threshold s)
    as [[[o | e] s1] w1] eqn:E; unfold state_of in Hs; cbn [fst snd] in Hs; subst s1;
    cbn [result_of events_of fst snd].
  - apply (bind_Return _ _ _ _ _ _ E).
  - apply (bind_Raise _ _ _ _ _ _ E).
Qed.

(** A template that is found produces no warning. *)
Lemma find_template_found_quiet name screenshot threshold s b :
  result_of (find_template W templates name screenshot threshold s) = Return (Some b) ->
  events_of (find_template W templates name screenshot threshold s) = [].
Proof.
  unfold find_template.
  destruct (templates !! name) as [t |]; [| discriminate].
  unfold bind, match_template.
  destruct screenshot as [f |]; [| discriminate].
  destruct (cv2_matchTemplate W f t) as [[v [x y]] | e]; [| discriminate].
  destruct (PrimFloat.leb threshold v); [| discriminate].
  destruct (template_shape W t). reflexivity.
Qed.

(** The scan of options none of which is found. *)
Lemma try_training_options_none options screenshot s :
  Forall (not_found W templates screenshot) options ->
  result_of (try_training_options W config templates options screenshot s)
  = Return false
  /\ state_of (try_training_options W config templates options screenshot s) = s
  /\ clicks (events_of (try_training_options W config templates options screenshot s))
     = [].
Proof.
  induction 1 as [| o rest Ho _ IH]; [repeat split |].
  cbn [try_training_options]. rewrite bind_find_template_cases.
  unfold not_found in Ho.
  rewrite (find_template_result W templates o screenshot default_threshold s
             initial_state), Ho.
  cbn [result_of state_of events_of fst snd].
  destruct IH as (-> & -> & IH). repeat split.
  rewrite clicks_app, find_template_no_click, IH. reflexivity.
Qed.

(** The scan up to the first option that is found. *)
Lemma try_training_options_first before option after screenshot b s :
  Forall (not_found W templates screenshot) before ->
  result_of (find_template W templates option screenshot default_threshold
               initial_state) = Return (Some b) ->
  let o := try_training_options W config templates
             (before ++ option :: after) screenshot s in
  let oc := click_centre W config b s in
  result_of o = match result_of oc with
                | Return _ => Return true
                | Raise e => Raise e
                end
  /\ state_of o = state_of oc
  /\ clicks (events_of o) = clicks (events_of oc).
Proof.
  intros Hb Hf. cbv zeta.
  induction Hb as [| o rest Ho _ IH]; cbn [app try_training_options];
    rewrite bind_find_template_cases.
  - rewrite (find_template_result W templates option screenshot default_threshold s
               initial_state), Hf.
    cbn [result_of state_of events_of fst snd].
    rewrite clicks_app, find_template_no_click. cbn [app].
    unfold bind, ret. destruct (click_centre W config b s) as [[[u | e] s1] w1];
      cbn [result_of state_of events_of fst snd]; rewrite ?app_nil_r; repeat split.
  - unfold not_found in Ho.
    rewrite (find_template_result W templates o screenshot default_threshold s
               initial_state), Ho.
    cbn [result_of state_of events_of fst snd].
    destruct IH as (-> & -> & IH). repeat split.
    rewrite clicks_app, find_template_no_click, IH. reflexivity.
Qed.

End HandlerClicks.

Section HandlerShape.

Context {Frame Template : Type}.
Variable W : World Frame Template.
Variable config : Config.

(** A handler starts with its log line and a capture of its own; what
    follows works on the screenshot and the state the capture left. *)
Lemma handler_after_capture {B} l m (search : option Frame -> M B) s :
  let o1 := capture_screen W config None s in
  bind (log l m) (fun _ => bind (capture_screen W config None) search) s
  = match result_of o1 with
    | Return screenshot =>
        let o2 := search screenshot (state_of o1) in
        (result_of o2, state_of o2, Log l m :: events_of o1 ++ events_of o2)
    | Raise e => (Raise e, state_of o1, Log l m :: events_of o1)
    end.
Proof.
  cbv zeta.
  assert (Hlog : log l m s = (Return tt, s, [Log l m])) by reflexivity.
  rewrite (bind_Return _ _ _ _ _ _ Hlog).
  destruct (capture_screen W config None s) as [[[sc | e] s1] w1] eqn:E;
    cbn [result_of state_of events_of fst snd].
  - rewrite (bind_Return _ _ _ _ _ _ E). reflexivity.
  - rewrite (bind_Raise _ _ _ _ _ _ E). reflexivity.
Qed.

End HandlerShape.

(** X5.  [handle_training_screen] searches the screenshot it captured for
    the six training options in the order speed, stamina, power, guts,
    intelligence, technique.  When none is found it reports failure and
    clicks nothing.  Otherwise it clicks the centre of the first option
    found, once, never looks at the options after it and reports success
    (unless the click is interrupted). *)
Theorem training_clicks_first_option_found {Frame Template : Type}
    (W : World Frame Template) (config : Config)
    (templates : gmap string Template) (s : State) (screenshot : option Frame) :
  let o1 := capture_screen W config None s in
  let o := handle_training_screen W config templates s in
  result_of o1 = Return screenshot ->
  (Forall (not_found W templates screenshot)
     ["speed_train"; "stamina_train"; "power_train";
      "guts_train"; "intelligence_train"; "technique_train"] ->
   result_of o = Return false
   /\ state_of o = state_of o1
   /\ clicks (events_of o) = [])
  /\ (forall before option after b,
        ["speed_train"; "stamina_train"; "power_train";
         "guts_train"; "intelligence_train"; "technique_train"]
        = before ++ option :: after ->
        Forall (not_found W templates screenshot) before ->
        result_of (find_template W templates option screenshot
                     default_threshold initial_state) = Return (Some b) ->
        let oc := click_centre W config b (state_of o1) in
        result_of o = match result_of oc with
                      | Return _ => Return true
                      | Raise e => Raise e
                      end
        /\ state_of o = state_of oc
        /\ clicks (events_of o) = clicks (events_of oc)
        /\ (clicks (events_of o) = [] \/ clicks (events_of o) = [centroid b])).
Proof.
  cbv zeta. intros Hcap.
  unfold handle_training_screen. rewrite handler_after_capture, Hcap. cbv zeta.
  cbn [result_of state_of events_of fst snd].
  split.
  - intros Hnone.
    destruct (try_training_options_none W config templates training_options
                screenshot (state_of (capture_screen W config None s)) Hnone)
      as (Hr & Hs & Hc).
    repeat split; [exact Hr | exact Hs |].
    cbn [clicks]. rewrite clicks_app, capture_screen_no_click, Hc. reflexivity.
  - intros before option after b Hsplit Hb Hf.
    unfold training_options. rewrite Hsplit.
    destruct (try_training_options_first W config templates before option after
                screenshot b (state_of (capture_screen W config None s)) Hb Hf)
      as (Hr & Hs & Hc).
    assert (Hcl : clicks (Log INFO HandlingTrainingScreen
                          :: events_of (capture_screen W config None s)
                          ++ events_of (try_training_options W config templates
                                          (before ++ option :: after) screenshot
                                          (state_of (capture_screen W config None s))))
                  = clicks (events_of (click_centre W config b
                                         (state_of (capture_screen W config None s))))).
    { cbn [clicks]. rewrite clicks_app, capture_screen_no_click, Hc. reflexivity. }
    repeat split; [exact Hr | exact Hs | exact Hcl |].
    rewrite Hcl. apply click_centre_clicks.
Qed.

(** X6.  A box [find_template] returns is the place of the best match with
    the width and height of the template, and the point a handler clicks
    for it, the centre computed with floor division, lies inside the box.
    The point is in the coordinates of the screenshot: it is the same in
    every state, whatever window rectangle or game region is cached.  The
    height and width OpenCV reports for the template are not negative. *)
Theorem click_point_is_inside_matched_box {Frame Template : Type}
    (W : World Frame Template) (config : Config)
    (templates : gmap string Template) (name : string) (screenshot : option Frame)
    (threshold : float) (s : State) (x1 y1 x2 y2 : Z) :
  result_of (find_template W templates name screenshot threshold s)
  = Return (Some (x1, y1, x2, y2)) ->
  (forall template,
     templates !! name = Some template ->
     0 <= fst (template_shape W template) /\ 0 <= snd (template_shape W template)) ->
  (exists frame template max_val,
      screenshot = Some frame
      /\ templates !! name = Some template
      /\ cv2_matchTemplate W frame template = Return (max_val, (x1, y1))
      /\ PrimFloat.leb threshold max_val = true
      /\ x2 - x1 = snd (template_shape W template)
      /\ y2 - y1 = fst (template_shape W template))
  /\ x1 <= fst (centroid (x1, y1, x2, y2)) <= x2
  /\ y1 <= snd (centroid (x1, y1, x2, y2)) <= y2
  /\ (forall s',
        clicks (events_of (click_centre W config (x1, y1, x2, y2) s')) = []
        \/ clicks (events_of (click_centre W config (x1, y1, x2, y2) s'))
           = [((x1 + x2) / 2, (y1 + y2) / 2)]).
Proof.
  intros Hf Hshape.
  apply find_template_found in Hf.
  destruct Hf as (frame & template & max_val & x & y & -> & Ht & Hm & Hl & Hb).
  injection Hb as -> -> -> ->.
  destruct (Hshape template Ht) as [Hh Hw].
  split; [| split; [| split]].
  - exists frame, template, max_val. repeat split; auto; lia.
  - cbn [centroid fst]. split.
    + apply Z.div_le_lower_bound; lia.
    + apply Z.div_le_upper_bound; lia.
  - cbn [centroid snd]. split.
    + apply Z.div_le_lower_bound; lia.
    + apply Z.div_le_upper_bound; lia.
  - intros s'. apply (click_centre_clicks W config (x, y, _, _) s').
Qed.

Section RaceScreen.

Context {Frame Template : Type}.
Variable W : World Frame Template.
Variable config : Config.
Variable templates : gmap string Template.

(** Removing a template from the library does not change the search for
    another one. *)
Lemma find_template_delete removed name screenshot threshold s :
  name <> removed ->
  find_template W (delete removed templates) name screenshot threshold s
  = find_template W templates name screenshot threshold s.
Proof.
  intros Hne. unfold find_template.
  rewrite lookup_delete_ne by (intros Heq; apply Hne; symmetry; exact Heq).
  reflexivity.
Qed.

Lemma press_race_start_delete screenshot s :
  press_race_start W config (delete "skip_race_button" templates) screenshot s
  = press_race_start W config templates screenshot s.
Proof.
  unfold press_race_start, bind.
  rewrite find_template_delete by discriminate. reflexivity.
Qed.

End RaceScreen.

(** X7.  [handle_race_screen] looks for the skip button only when
    [skip_races] is set: without the setting it behaves as if the library
    had no skip button.  With the setting, a skip button found on the
    captured screenshot is clicked (its centre, once) and the start button
    is not looked for, as if the library had no start button; a skip button
    that is not found leaves the handler to do what it does without the
    setting. *)
Theorem race_screen_skip_policy {Frame Template : Type}
    (W : World Frame Template) (config : Config)
    (templates : gmap string Template) (s : State) :
  (skip_races config = false ->
   handle_race_screen W config templates s
   = handle_race_screen W config (delete "skip_race_button" templates) s)
  /\ (skip_races config = true ->
      forall screenshot,
        result_of (capture_screen W config None s) = Return screenshot ->
        (forall b,
           result_of (find_template W templates "skip_race_button" screenshot
                        default_threshold initial_state) = Return (Some b) ->
           let o := handle_race_screen W config templates s in
           o = handle_race_screen W config (delete "race_start_button" templates) s
           /\ (clicks (events_of o) = [] \/ clicks (events_of o) = [centroid b])
           /\ result_of o <> Return false)
        /\ (result_of (find_template W templates "skip_race_button" screenshot
                         default_threshold initial_state) = Return None ->
            let o := handle_race_screen W config templates s in
            let o' := handle_race_screen W
                        (mkConfig (window_detection_enabled config) false
                                  (screenshot_delay config)) templates s in
            result_of o = result_of o'
            /\ state_of o = state_of o'
            /\ clicks (events_of o) = clicks (events_of o'))).
Proof.
  split.
  - intros Hskip. unfold handle_race_screen. rewrite Hskip.
    rewrite !handler_after_capture. cbv zeta.
    destruct (result_of (capture_screen W config None s)) as [screenshot | e];
      [| reflexivity].
    rewrite press_race_start_delete. reflexivity.
  - intros Hskip screenshot Hcap. split.
    + intros b Hf. cbv zeta. unfold handle_race_screen. rewrite Hskip.
      rewrite !handler_after_capture. cbv zeta. rewrite Hcap.
      rewrite !bind_find_template_cases.
      rewrite (find_template_delete W templates "race_start_button"
                 "skip_race_button") by discriminate.
      pose proof (find_template_found_quiet W templates "skip_race_button"
                    screenshot default_threshold
                    (state_of (capture_screen W config None s)) b) as Hq.
      rewrite (find_template_result W templates "skip_race_button" screenshot
                 default_threshold _ initial_state) in Hq |- *.
      rewrite Hf in Hq |- *. rewrite (Hq eq_refl).
      cbn [result_of state_of events_of fst snd app].
      split; [reflexivity |].
      pose proof (click_centre_clicks W config b
                    (state_of (capture_screen W config None s))) as Hc.
      unfold bind, ret.
      destruct (click_centre W config b _) as [[[u | e] s1] w1];
        cbn [result_of state_of events_of fst snd clicks] in *;
        rewrite ?app_nil_r, clicks_app, capture_screen_no_click; cbn [app];
        (split; [exact Hc | discriminate]).
    + intros Hf. cbv zeta. unfold handle_race_screen. rewrite Hskip.
      cbn [skip_races]. rewrite !handler_after_capture. cbv zeta.
      change (capture_screen W
                (mkConfig (window_detection_enabled config) false
                          (screenshot_delay config)) None s)
        with (capture_screen W config None s).
      rewrite Hcap. rewrite bind_find_template_cases.
      rewrite (find_template_result W templates "skip_race_button" screenshot
                 default_threshold _ initial_state), Hf.
      cbn [result_of state_of events_of fst snd clicks].
      change (press_race_start W
                (mkConfig (window_detection_enabled config) false
                          (screenshot_delay config)) templates)
        with (press_race_start W config templates).
      repeat split.
      rewrite !clicks_app, find_template_no_click. reflexivity.
Qed.

Section MissingScreenshot.

Context {Frame Template : Type}.
Variable W : World Frame Template.
Variable config : Config.
Variable templates : gmap string Template.

(** OpenCV rejects a missing screenshot. *)
Lemma find_template_no_screenshot name template threshold s :
  templates !! name = Some template ->
  find_template W templates name None threshold s = (Raise Exception, s, []).
Proof. intros H. unfold find_template. rewrite H. reflexivity. Qed.

(** A handler whose capture failed raises at its first search. *)
Lemma handler_without_screenshot l m name
    (k : option Frame -> option Box -> M bool) s :
  result_of (capture_screen W config None s) = Return None ->
  is_Some (templates !! name) ->
  let o := bind (log l m) (fun _ =>
           bind (capture_screen W config None) (fun screenshot =>
           bind (find_template W templates name screenshot default_threshold)
                (k screenshot))) s in
  result_of o = Raise Exception
  /\ session_stats (state_of o) = session_stats s
  /\ clicks (events_of o) = [].
Proof.
  intros Hcap [template Ht]. cbv zeta.
  rewrite (handler_after_capture W config l m
             (fun screenshot =>
                bind (find_template W templates name screenshot default_threshold)
                     (k screenshot))).
  cbv zeta. rewrite Hcap.
  rewrite (bind_Raise _ _ _ _ _ _
             (find_template_no_screenshot name template default_threshold _ Ht)).
  cbn [result_of state_of events_of fst snd clicks].
  rewrite app_nil_r, capture_screen_no_click.
  destruct (capture_screen_untouched W config None s Logic.I) as (_ & (_ & _ & Hst) & _).
  repeat split. exact Hst.
Qed.

End MissingScreenshot.

(** X8.  A capture that fails inside a screen handler is not treated like a
    capture that fails at the top of the iteration.  The handler goes on to
    search the missing screenshot; for a template of the library the search
    raises, the exception leaves the handler, and the loop counts an error
    and sleeps two seconds.  Nothing is clicked. *)
Theorem capture_failure_in_handler_is_counted {Frame Template : Type}
    (W : World Frame Template) (config : Config)
    (templates : gmap string Template) (s : State) :
  (forall name template threshold,
     templates !! name = Some template ->
     find_template W templates name None threshold s = (Raise Exception, s, []))
  /\ (result_of (capture_screen W config None s) = Return None ->
      (is_Some (templates !! "training_button") ->
       let o := handle_main_menu W config templates s in
       result_of o = Raise Exception
       /\ session_stats (state_of o) = session_stats s
       /\ clicks (events_of o) = [])
      /\ (is_Some (templates !! "speed_train") ->
          let o := handle_training_screen W config templates s in
          result_of o = Raise Exception
          /\ session_stats (state_of o) = session_stats s
          /\ clicks (events_of o) = [])
      /\ (is_Some (templates !! "confirm_button") ->
          let o := handle_event_screen W config templates s in
          result_of o = Raise Exception
          /\ session_stats (state_of o) = session_stats s
          /\ clicks (events_of o) = [])
      /\ (skip_races config = false ->
          is_Some (templates !! "race_start_button") ->
          let o := handle_race_screen W config templates s in
          result_of o = Raise Exception
          /\ session_stats (state_of o) = session_stats s
          /\ clicks (events_of o) = []))
  /\ (result_of (iteration_body W config templates s) = Raise Exception ->
      let body := iteration_body W config templates s in
      let o := iteration W config templates s in
      result_of o = Return Continue
      /\ session_stats (state_of o)
         = incr_errors_encountered (session_stats (state_of body))
      /\ events_of o = events_of body ++ [Log ERROR ErrorInAutomationLoop; Sleep 2]).
Proof.
  split; [| split].
  - intros name template threshold. apply find_template_no_screenshot.
  - intros Hcap. split; [| split; [| split]].
    + intros Ht. apply (handler_without_screenshot W config templates); assumption.
    + intros Ht. unfold handle_training_screen, training_options.
      cbn [try_training_options].
      apply (handler_without_screenshot W config templates); assumption.
    + intros Ht. apply (handler_without_screenshot W config templates); assumption.
    + intros Hskip Ht. unfold handle_race_screen. rewrite Hskip.
      apply (handler_without_screenshot W config templates); assumption.
  - intros Hbody. cbv zeta. unfold iteration.
    destruct (iteration_body W config templates s) as [[r s1] w1].
    unfold result_of in Hbody. cbn [fst] in Hbody. subst r. repeat split.
Qed.

(** ** The loop over steps given by their properties

    The lemmas of this section derive a property of the whole run from a
    property of the capture, of the error scan, of the classification and
    of what follows a classification that can occur. *)

Section LoopOver.

Context {Frame Template : Type}.
Variable W : World Frame Template.
Variable config : Config.
Variable templates : gmap string Template.

Variable I : State -> Prop.
Variable R : State -> State -> Prop.
Variable P : event -> Prop.

Hypothesis R_refl : forall s, R s s.
Hypothesis R_trans : forall s1 s2 s3, R s1 s2 -> R s2 s3 -> R s1 s3.
Hypothesis P_sleeping : forall e, kind_of e = Sleeping -> P e.
Hypothesis P_looping : forall e, kind_of e = Looping -> P e.
Hypothesis step_tick : forall s, I s -> I (tick s) /\ R s (tick s).
Hypothesis step_errors : forall s, I s -> I (bump_errors s) /\ R s (bump_errors s).
Hypothesis step_running :
  forall b s, I s -> I (set_running b s) /\ R s (set_running b s).
Hypothesis step_counter :
  forall n s, I s ->
    I (set_consecutive_unknown_screens n s)
    /\ R s (set_consecutive_unknown_screens n s).
Hypothesis step_capture :
  forall region, follows I R P (capture_screen W config region).
Hypothesis step_scan :
  forall screenshot, follows I R P (check_for_errors W screenshot).
Hypothesis step_detect :
  forall screenshot, follows I R P (detect_screen W templates screenshot).
Hypothesis step_act :
  forall current_screen screenshot,
    (exists s, result_of (detect_screen W templates screenshot s)
               = Return current_screen) ->
    follows I R P (act_on W config templates current_screen screenshot).

Lemma over_iteration_body : follows I R P (iteration_body W config templates).
Proof.
  unfold iteration_body.
  apply follows_bind; auto. intros screenshot. destruct screenshot as [f |].
  - apply follows_bind; auto. intros failed. destruct failed.
    + apply follows_bind; auto.
      { apply follows_emit; auto. }
      intros _. apply follows_bind; auto.
      { apply follows_emit; auto. }
      intros _. apply follows_ret; auto.
    + apply follows_bind_val; auto.
  - apply follows_bind; auto.
    { apply follows_emit; auto. }
    intros _. apply follows_bind; auto.
    { apply follows_emit; auto. }
    intros _. apply follows_ret; auto.
Qed.

Lemma over_iteration : follows I R P (iteration W config templates).
Proof.
  intros s Hs. destruct (over_iteration_body s Hs) as (HI & HR & HP).
  unfold iteration.
  destruct (iteration_body W config templates s) as [[r s1] w1].
  unfold state_of, events_of in *. simpl in HI, HR, HP.
  destruct r as [ctl | [|]]; simpl.
  - repeat split; assumption.
  - repeat split; try assumption.
    apply Forall_app. split; [assumption |]. repeat constructor.
    apply P_looping. reflexivity.
  - destruct (step_errors s1 HI) as [HI2 HR2]. repeat split.
    + exact HI2.
    + eapply R_trans; eassumption.
    + apply Forall_app. split; [assumption |].
      repeat constructor; [apply P_looping | apply P_sleeping]; reflexivity.
Qed.

Lemma over_automation_loop fuel :
  follows I R P (automation_loop W config templates fuel).
Proof.
  induction fuel as [| fuel IH]; simpl; [apply follows_ret; auto |].
  apply follows_bind; auto.
  { apply follows_poll_running; auto. }
  intros go. destruct go; [| apply follows_ret; auto].
  apply follows_bind; auto; [apply over_iteration |].
  intros ctl. destruct ctl; [exact IH | apply follows_ret; auto].
Qed.

Hypothesis step_region :
  forall g s, I s -> I (set_game_region g s) /\ R s (set_game_region g s).
Hypothesis step_window : follows I R P (get_game_region W).
Hypothesis I_start : forall s, I (set_running true s).

(** The run, from any state: [run_automation] sets [running] itself. *)
Lemma over_run_automation fuel s :
  Forall P (events_of (run_automation W config templates fuel s)).
Proof.
  assert (H : follows I R P
                (bind (if window_detection_enabled config then
                         bind (get_game_region W) (fun r =>
                         bind (modify (set_game_region r)) (fun _ =>
                         match r with
                         | Some region => log INFO (GameWindowDetected region)
                         | None => log WARNING GameWindowNotDetected
                         end))
                       else ret tt) (fun _ =>
                 bind (modify (set_consecutive_unknown_screens 0)) (fun _ =>
                 bind (automation_loop W config templates fuel) (fun status =>
                 match status with
                 | OutOfFuel => ret OutOfFuel
                 | LoopExited =>
                     bind (modify (set_running false)) (fun _ =>
                     bind (log INFO AutomationStopped) (fun _ =>
                     bind get_session_stats (fun st =>
                     bind (log INFO (SessionStatsReport (training_sessions st)
                                       (races_completed st) (events_handled st)
                                       (errors_encountered st))) (fun _ =>
                     ret LoopExited))))
                 end))))).
  { apply follows_bind; auto.
    { destruct (window_detection_enabled config); [| apply follows_ret; auto].
      apply follows_bind; auto. intros r.
      apply follows_bind; auto; [apply follows_modify; auto |]. intros _.
      destruct r; apply follows_emit; auto. }
    intros _. apply follows_bind; auto; [apply follows_modify; auto |]. intros _.
    apply follows_bind; auto; [apply over_automation_loop |].
    intros status. destruct status; [| apply follows_ret; auto].
    apply follows_bind; auto; [apply follows_modify; auto |]. intros _.
    apply follows_bind; auto; [apply follows_emit; auto |]. intros _.
    apply follows_bind; auto; [apply follows_gets; auto |]. intros st.
    apply follows_bind; auto; [apply follows_emit; auto |]. intros _.
    apply follows_ret; auto. }
  unfold run_automation.
  rewrite (bind_Return _ _ s tt s [Log INFO StartingAutomation] eq_refl).
  rewrite (bind_Return _ _ s tt (set_running true s) [] eq_refl).
  destruct (H (set_running true s) (I_start s)) as (_ & _ & Hw).
  cbn [events_of snd app]. constructor; [apply P_looping; reflexivity |].
  exact Hw.
Qed.

End LoopOver.

Section HistoryBound.

Context {Frame Template : Type}.
Variable W : World Frame Template.
Variable config : Config.
Variable templates : gmap string Template.

(** The history of a run never ends with more than ten unknown screens. *)
Lemma run_automation_drift_bound fuel s :
  trailing_unknown
    (classifications (events_of (run_automation W config templates fuel s))) <= 10.
Proof.
  pose proof (run_automation_parts W config templates fuel s) as H. cbv zeta in H.
  pose proof (window_setup_uncounted W config (set_running true s) Logic.I)
    as (_ & _ & Hw).
  match type of Hw with
  | Forall _ (events_of ?x) => set (setup := x) in *
  end.
  destruct (result_of setup) as [u | e].
  - assert (Hnil : never_ten_before []).
    { intros earlier later Heq Hne. symmetry in Heq.
      apply app_eq_nil in Heq. destruct Heq as [_ ->]. contradiction. }
    pose proof (automation_loop_counter W config templates fuel
                  (set_consecutive_unknown_screens 0 (state_of setup)) []
                  eq_refl ltac:(unfold trailing_unknown; simpl; lia) Hnil) as Hl.
    cbv zeta in Hl. rewrite app_nil_l in Hl. destruct Hl as (_ & _ & Hl & _).
    destruct (automation_loop_returns W config templates fuel
                (set_consecutive_unknown_screens 0 (state_of setup)))
      as [status Hs].
    rewrite Hs in H. destruct status; rewrite H; cbn [events_of snd];
      change (classifications (?e :: ?w)) with (classifications ([e] ++ w));
      rewrite !classifications_app, (uncounted_classifications _ Hw);
      cbn [classifications app]; rewrite ?app_nil_r; exact Hl.
  - rewrite H. cbn [events_of snd classifications].
    rewrite (uncounted_classifications _ Hw). unfold trailing_unknown. simpl. lia.
Qed.

End HistoryBound.

Lemma trailing_unknown_all (history : list string) :
  Forall (eq "unknown") history ->
  trailing_unknown history = Z.of_nat (List.length history).
Proof.
  intros H. unfold trailing_unknown. rewrite <- length_rev.
  assert (Hr : Forall (eq "unknown") (rev history)).
  { apply List.Forall_forall. intros x Hx. apply in_rev in Hx.
    revert x Hx. apply List.Forall_forall. exact H. }
  induction Hr as [| c l Hc _ IH]; [reflexivity |].
  subst c. cbn [leading_unknown List.length]. rewrite IH.
  change (String.eqb "unknown" "unknown") with true. cbv iota. lia.
Qed.

(** ** A library without the essential templates *)

Lemma recognises_nothing_kind e :
  kind_of e <> Classifying -> is_click e = false -> recognises_nothing e.
Proof.
  intros Hk Hc. split; [exact Hc |].
  intros l c ->. exfalso. apply Hk. reflexivity.
Qed.

Lemma recognises_nothing_clicks w :
  Forall recognises_nothing w -> count_events is_click w = O.
Proof.
  intros H. apply count_events_none.
  eapply Forall_impl; [exact H |]. intros e [He _]. exact He.
Qed.

Lemma recognises_nothing_history w :
  Forall recognises_nothing w -> Forall (eq "unknown") (classifications w).
Proof.
  induction 1 as [| e w [_ He] _ IH]; [constructor |].
  destruct e as [l m | | | | |]; try exact IH.
  destruct m; try exact IH. cbn [classifications].
  constructor; [| exact IH]. symmetry. eapply He. reflexivity.
Qed.

Section NoTemplates.

Context {Frame Template : Type}.
Variable W : World Frame Template.
Variable config : Config.
Variable templates : gmap string Template.

Hypothesis missing : Forall (fun name => templates !! name = None) essential_templates.

Lemma essential_missing name : In name essential_templates -> templates !! name = None.
Proof. revert name. apply List.Forall_forall. exact missing. Qed.

Local Ltac by_kind_nothing :=
  let e := fresh "e" in
  let He := fresh "He" in
  intros e He; apply recognises_nothing_kind;
  [rewrite He; discriminate | destruct e as [? [] | | | | |]; try discriminate He; reflexivity].

Local Ltac trivial_step := intros; split; exact Logic.I.

Lemma detect_screen_missing screenshot s current_screen :
  result_of (detect_screen W templates screenshot s) = Return current_screen ->
  current_screen = "unknown".
Proof.
  destruct (detect_screen_classify W templates screenshot s) as [-> _].
  unfold screen_priority, classify_first.
  rewrite !find_template_absent by (apply essential_missing; simpl; tauto).
  cbn [result_of fst]. intros H. injection H as <-. reflexivity.
Qed.

Lemma act_on_unknown_nothing screenshot :
  follows (fun _ => True) (fun _ _ => True) recognises_nothing
    (act_on W config templates "unknown" screenshot).
Proof.
  unfold act_on.
  apply follows_bind; auto.
  { apply follows_emit; auto. split; [reflexivity |].
    intros l c H. injection H as _ <-. reflexivity. }
  intros _. apply follows_bind; auto.
  { apply follows_count_unknown; auto; try trivial_step. by_kind_nothing. }
  intros ctl. destruct ctl; [| apply follows_ret; auto].
  apply follows_bind; auto.
  - change (dispatch W config templates "unknown" screenshot)
      with (click_continue_fallback W config templates "unknown" screenshot).
    unfold click_continue_fallback.
    apply follows_bind; auto.
    { apply follows_emit; auto. apply recognises_nothing_kind; [discriminate | reflexivity]. }
    intros _. apply follows_bind_val; auto.
    { apply follows_find_template; auto. by_kind_nothing. }
    intros btn [s Hs].
    rewrite find_template_absent in Hs by (apply essential_missing; simpl; tauto).
    injection Hs as <-. apply follows_ret; auto.
  - intros handled. apply follows_bind; auto; [| intros; apply follows_ret; auto].
    destruct (negb handled); apply follows_emit; auto;
      apply recognises_nothing_kind; try discriminate; reflexivity.
Qed.

Lemma window_nothing :
  follows (fun _ => True) (fun _ _ => True) recognises_nothing (get_game_region W).
Proof.
  eapply follows_weaken; [| | apply (window_untouched_kind W)]; [auto |].
  intros e He. apply recognises_nothing_kind.
  - destruct He as [-> | ->]; discriminate.
  - destruct e as [? [] | | | | |]; destruct He; try discriminate; reflexivity.
Qed.

Lemma run_automation_nothing fuel s :
  Forall recognises_nothing (events_of (run_automation W config templates fuel s)).
Proof.
  apply (over_run_automation W config templates (fun _ => True) (fun _ _ => True));
    auto; try trivial_step; try by_kind_nothing.
  - intros region. apply follows_capture_screen; auto; try trivial_step.
    + by_kind_nothing.
    + apply window_nothing.
  - intros screenshot. apply follows_check_for_errors; auto; by_kind_nothing.
  - intros screenshot. apply follows_detect_screen; auto. by_kind_nothing.
  - intros current_screen screenshot [s0 Hs].
    apply detect_screen_missing in Hs. subst current_screen.
    apply act_on_unknown_nothing.
  - apply window_nothing.
Qed.

End NoTemplates.

(** X13.  Without the four screen templates and the continue button in the
    library (as on a first run, when the templates directory does not exist
    and the library stays empty) the automation recognises nothing: every
    screen is classified as unknown, nothing is ever clicked, and the run
    classifies ten screens at most before it gives up. *)
Theorem no_templates_no_clicks {Frame Template : Type}
    (W : World Frame Template) (config : Config)
    (templates : gmap string Template) (fuel : nat) (s : State) :
  Forall (fun name => templates !! name = None)
    ["main_menu"; "training_screen"; "race_screen"; "event_screen";
     "continue_button"] ->
  let w := events_of (run_automation W config templates fuel s) in
  count_events is_click w = O
  /\ Forall (eq "unknown") (classifications w)
  /\ (List.length (classifications w) <= 10)%nat
  /\ (forall fs : FileSystem Template,
        os_path_exists fs templates_dir = false -> initial_templates fs = ∅).
Proof.
  intros Hmissing. cbv zeta.
  pose proof (run_automation_nothing W config templates Hmissing fuel s) as Hw.
  pose proof (recognises_nothing_history _ Hw) as Hh.
  split; [apply recognises_nothing_clicks; exact Hw |].
  split; [exact Hh |]. split.
  - pose proof (run_automation_drift_bound W config templates fuel s) as Hb.
    rewrite (trailing_unknown_all _ Hh) in Hb. lia.
  - intros fs He. unfold initial_templates, load_templates. rewrite He. cbn [negb].
    destruct (os_makedirs fs templates_dir); reflexivity.
Qed.

(** ** File names *)

Lemma substring_whole (b : string) : String.substring 0 (String.length b) b = b.
Proof. induction b as [| c b IH]; simpl; [reflexivity | rewrite IH; reflexivity]. Qed.

Lemma substring_append_left (a b : string) :
  String.substring 0 (String.length a) (String.append a b) = a.
Proof.
  induction a as [| c a IH].
  - rewrite append_nil. destruct b; reflexivity.
  - rewrite append_cons. simpl. rewrite IH. reflexivity.
Qed.

Lemma substring_append_right (a b : string) (n : nat) :
  String.substring (String.length a) n (String.append a b) = String.substring 0 n b.
Proof.
  induction a as [| c a IH].
  - rewrite append_nil. reflexivity.
  - rewrite append_cons. simpl. exact IH.
Qed.

Lemma length_append (a b : string) :
  String.length (String.append a b) = (String.length a + String.length b)%nat.
Proof.
  induction a as [| c a IH].
  - rewrite append_nil. reflexivity.
  - rewrite append_cons. simpl. rewrite IH. reflexivity.
Qed.

Lemma endswith_append (a suffix : string) :
  endswith (String.append a suffix) suffix = true.
Proof.
  unfold endswith. rewrite length_append.
  replace (String.length a + String.length suffix - String.length suffix)%nat
    with (String.length a) by lia.
  rewrite substring_append_right, substring_whole, String.eqb_refl.
  rewrite andb_true_r. apply Nat.leb_le. lia.
Qed.

Lemma rfind_from_range i c s :
  rfind_from i c s = -1
  \/ i <= rfind_from i c s < i + Z.of_nat (String.length s).
Proof.
  revert i. induction s as [| a s IH]; intros i; simpl; [left; reflexivity |].
  destruct (IH (i + 1)) as [H | H].
  - rewrite H. simpl. destruct (Ascii.eqb a c); [right; lia | left; reflexivity].
  - destruct (Z.leb_spec 0 (rfind_from (i + 1) c s)); [right; lia |].
    destruct (Ascii.eqb a c); [right; lia | left; reflexivity].
Qed.

Lemma rfind_from_absent i c s : occurs c s = false -> rfind_from i c s = -1.
Proof.
  revert i. induction s as [| a s IH]; intros i; simpl; [reflexivity |].
  intros H. apply orb_false_elim in H. destruct H as [Ha Hs].
  rewrite (IH (i + 1) Hs), Ha. reflexivity.
Qed.

Lemma rfind_from_last i c a b :
  0 <= i -> occurs c b = false ->
  rfind_from i c (String.append a (String c b)) = i + Z.of_nat (String.length a).
Proof.
  revert i. induction a as [| x a IH]; intros i Hi Hb.
  - rewrite append_nil. simpl. rewrite (rfind_from_absent (i + 1) c b Hb). simpl.
    rewrite Ascii.eqb_refl. lia.
  - rewrite append_cons. simpl. rewrite (IH (i + 1)) by (lia || exact Hb).
    destruct (Z.leb_spec 0 (i + 1 + Z.of_nat (String.length a))); lia.
Qed.

Lemma occurs_append c a b :
  occurs c (String.append a b) = (occurs c a || occurs c b)%bool.
Proof.
  induction a as [| x a IH].
  - rewrite append_nil. reflexivity.
  - rewrite append_cons. simpl. rewrite IH. apply orb_assoc.
Qed.

Lemma append_assoc (a b c : string) :
  String.append (String.append a b) c = String.append a (String.append b c).
Proof.
  induction a as [| x a IH].
  - rewrite !append_nil. reflexivity.
  - rewrite !append_cons, IH. reflexivity.
Qed.

(** The scan for a character other than the dot, over the part [a] of the
    file name that follows [done]. *)
Lemma skip_leading_dots_prefix (done a b : string) :
  skip_leading_dots (String.append done (String.append a b))
    (String.length done) (String.length a)
  = negb (only_dots a).
Proof.
  revert done. induction a as [| c a IH]; intros done; [reflexivity |].
  cbn [skip_leading_dots String.length only_dots].
  rewrite substring_append_right, append_cons.
  assert (Hc : String.substring 0 1 (String c (String.append a b)) = String c "").
  { simpl. destruct (String.append a b); reflexivity. }
  rewrite Hc.
  assert (Heq : String.eqb (String c "") "." = Ascii.eqb c ".").
  { simpl. destruct (Ascii.eqb c "."); reflexivity. }
  rewrite Heq. destruct (Ascii.eqb c ".") eqn:E; [| reflexivity].
  simpl negb. cbv iota.
  specialize (IH (String.append done (String c ""))).
  rewrite length_append in IH. simpl in IH.
  replace (String.length done + 1)%nat with (S (String.length done)) in IH by lia.
  rewrite <- IH. f_equal.
  rewrite append_assoc, append_cons, append_nil. reflexivity.
Qed.

Section TemplateNames.

Context {Template : Type}.
Variable fs : FileSystem Template.

Lemma splitext_template_file sep altsep name :
  occurs sep (template_file name) = false ->
  match altsep with
  | Some a => occurs a (template_file name) = false
  | None => True
  end ->
  splitext sep altsep (template_file name)
  = if only_dots name then (template_file name, "") else (name, ".png").
Proof.
  intros Hsep Halt. unfold splitext, template_file in *.
  assert (Hs : (match altsep with
                | Some a => Z.max (rfind sep (String.append name ".png"))
                                  (rfind a (String.append name ".png"))
                | None => rfind sep (String.append name ".png")
                end) = -1).
  { unfold rfind. rewrite (rfind_from_absent 0 sep _ Hsep).
    destruct altsep as [a |]; [| reflexivity].
    rewrite (rfind_from_absent 0 a _ Halt). reflexivity. }
  rewrite Hs.
  assert (Hd : rfind "." (String.append name ".png") = Z.of_nat (String.length name)).
  { unfold rfind. change ".png" with (String "."%char "png").
    rewrite rfind_from_last by (lia || reflexivity). lia. }
  rewrite Hd.
  destruct (Z.ltb_spec (-1) (Z.of_nat (String.length name))) as [_ | Hlt]; [| lia].
  replace (Z.to_nat (-1 + 1)) with (String.length (""%string)) by reflexivity.
  replace (Z.to_nat (Z.of_nat (String.length name) - (-1 + 1)))
    with (String.length name) by lia.
  pose proof (skip_leading_dots_prefix "" name ".png") as Hskip.
  rewrite append_nil in Hskip. rewrite Hskip.
  destruct (only_dots name); [reflexivity |]. cbn [negb].
  rewrite Nat2Z.id, substring_append_left, substring_append_right, length_append.
  replace (String.length name + String.length ".png" - String.length name)%nat
    with (String.length ".png") by lia.
  reflexivity.
Qed.

End TemplateNames.

(** X9.  The file [save_template] writes for a template name, and
    [delete_template] removes, is [<name>.png].  [load_templates] and the
    list of the template creator accept this file, and they recover the
    name from it exactly when the name has a character other than the dot;
    a name of dots only comes back as the whole file name. *)
Theorem template_name_round_trip {Template : Type} (fs : FileSystem Template)
    (name : string) :
  has_separator fs (template_file name) = false ->
  is_image_file (template_file name) = true
  /\ template_name_of fs (template_file name)
     = (if only_dots name then template_file name else name)
  /\ (only_dots name = false -> template_name_of fs (template_file name) = name)
  /\ (only_dots name = true -> template_name_of fs (template_file name) <> name).
Proof.
  intros Hsep. unfold has_separator in Hsep.
  apply orb_false_elim in Hsep. destruct Hsep as [Hs Ha].
  assert (Hstem : template_name_of fs (template_file name)
                  = if only_dots name then template_file name else name).
  { unfold template_name_of. rewrite splitext_template_file.
    - destruct (only_dots name); reflexivity.
    - exact Hs.
    - destruct (os_altsep fs); [exact Ha | exact Logic.I]. }
  split; [| split; [exact Hstem | split]].
  - unfold is_image_file, image_suffixes. cbn [existsb].
    unfold template_file. rewrite endswith_append. reflexivity.
  - intros Hd. rewrite Hstem, Hd. reflexivity.
  - intros Hd. rewrite Hstem, Hd. unfold template_file. intros Heq.
    apply (f_equal String.length) in Heq. rewrite length_append in Heq.
    simpl in Heq. lia.
Qed.

Lemma find_app_either {A} (f : A -> bool) (l1 l2 : list A) :
  List.find f (l1 ++ l2)
  = match List.find f l1 with
    | Some x => Some x
    | None => List.find f l2
    end.
Proof.
  induction l1 as [| a l1 IH]; simpl; [reflexivity |].
  destruct (f a); [reflexivity | exact IH].
Qed.

Section LoadTemplates.

Context {Template : Type}.
Variable fs : FileSystem Template.

Lemma last_file_named_cons name filename rest :
  last_file_named fs name (filename :: rest)
  = match last_file_named fs name rest with
    | Some later => Some later
    | None =>
        if (is_image_file filename
            && String.eqb (template_name_of fs filename) name)%bool
        then Some filename else None
    end.
Proof.
  unfold last_file_named. cbn [rev]. rewrite find_app_either. cbn [List.find].
  destruct (List.find _ (rev rest)); [reflexivity |].
  destruct (_ && _)%bool; reflexivity.
Qed.

(** The [for] of [load_templates], from any library and log. *)
Lemma fold_load_template filenames :
  forall (templates : gmap string Template) (w : list file_event),
    let r := fold_left (load_template fs) filenames (templates, w) in
    (forall name,
       fst r !! name
       = match last_file_named fs name filenames with
         | Some filename =>
             Some (cv2_imread fs (os_path_join fs templates_dir filename))
         | None => templates !! name
         end)
    /\ snd r
       = w ++ map (fun filename =>
                     FileLog INFO (LoadedTemplate (template_name_of fs filename)))
                (List.filter is_image_file filenames).
Proof.
  induction filenames as [| filename rest IH]; intros templates w; cbn [fold_left].
  - split; [reflexivity | cbn; rewrite app_nil_r; reflexivity].
  - cbv zeta in *.
    destruct (IH (fst (load_template fs (templates, w) filename))
                 (snd (load_template fs (templates, w) filename))) as [Hl Hw].
    rewrite <- surjective_pairing in Hl, Hw.
    split.
    + intros name. rewrite Hl, last_file_named_cons.
      destruct (last_file_named fs name rest); [reflexivity |].
      unfold load_template. destruct (is_image_file filename); [| reflexivity].
      cbn [fst andb].
      destruct (String.eqb_spec (template_name_of fs filename) name) as [-> | Hne].
      * apply lookup_insert_eq.
      * apply lookup_insert_ne. exact Hne.
    + rewrite Hw. unfold load_template. cbn [List.filter].
      destruct (is_image_file filename); cbn [snd map]; [| reflexivity].
      rewrite <- app_assoc. reflexivity.
Qed.

(** The list box of the template creator, from any entries. *)
Lemma fold_template_list filenames :
  forall listbox : list string,
    fold_left (fun listbox filename =>
                 if is_image_file filename
                 then listbox ++ [template_name_of fs filename]
                 else listbox) filenames listbox
    = listbox ++ map (template_name_of fs) (List.filter is_image_file filenames).
Proof.
  induction filenames as [| filename rest IH]; intros listbox; cbn [fold_left].
  - cbn. rewrite app_nil_r. reflexivity.
  - rewrite IH. cbn [List.filter].
    destruct (is_image_file filename); cbn [map]; [| reflexivity].
    rewrite <- app_assoc. reflexivity.
Qed.

Lemma last_file_named_some name filenames :
  is_Some (last_file_named fs name filenames)
  <-> In name (map (template_name_of fs) (List.filter is_image_file filenames)).
Proof.
  induction filenames as [| filename rest IH].
  - cbn. split; [intros [x Hx]; discriminate | contradiction].
  - rewrite last_file_named_cons. cbn [List.filter].
    destruct (last_file_named fs name rest) as [later |] eqn:El.
    + split; [| intros _; eexists; reflexivity].
      intros _. assert (Hin : In name (map (template_name_of fs)
                                         (List.filter is_image_file rest)))
        by (apply IH; eexists; reflexivity).
      destruct (is_image_file filename); [right |]; exact Hin.
    + destruct (is_image_file filename); cbn [andb map].
      * destruct (String.eqb_spec (template_name_of fs filename) name) as [Heq | Hne].
        -- split; [intros _; left; exact Heq | intros _; eexists; reflexivity].
        -- split; [intros [x Hx]; discriminate |].
           intros [Heq | Hin]; [contradiction |].
           apply IH in Hin. exact Hin.
      * exact IH.
Qed.

End LoadTemplates.

(** X10.  [load_templates] on an existing templates directory stores, for
    every listed file whose name ends with [.png], [.jpg] or [.jpeg], the
    image read from it under the file name without its extension; when two
    files give the same template name, the one listed later wins.  Files
    with other endings are ignored, and one log line is written per stored
    file, in the order of the listing.  When the directory does not exist
    it is created and the library is left as it was. *)
Theorem load_templates_keeps_last_file {Template : Type} (fs : FileSystem Template) :
  (forall filenames,
     os_path_exists fs templates_dir = true ->
     os_listdir fs templates_dir = Return filenames ->
     let o := load_templates fs ∅ in
     fst (fst o) = Return tt
     /\ (forall name,
           snd (fst o) !! name
           = option_map
               (fun filename => cv2_imread fs (os_path_join fs templates_dir filename))
               (last_file_named fs name filenames))
     /\ (forall name,
           is_Some (snd (fst o) !! name)
           <-> exists filename,
                 In filename filenames
                 /\ is_image_file filename = true
                 /\ template_name_of fs filename = name)
     /\ snd o
        = map (fun filename =>
                 FileLog INFO (LoadedTemplate (template_name_of fs filename)))
              (List.filter is_image_file filenames))
  /\ (forall templates,
        os_path_exists fs templates_dir = false ->
        let o := load_templates fs templates in
        snd (fst o) = templates
        /\ exists w, snd o = MakeDirs templates_dir :: w
                     /\ Forall (fun e => forall name,
                                  e <> FileLog INFO (LoadedTemplate name)) w).
Proof.
  split.
  - intros filenames He Hl. cbv zeta. unfold load_templates. rewrite He, Hl.
    cbn [negb fst snd].
    destruct (fold_load_template fs filenames ∅ []) as [Hlook Hlog].
    cbv zeta in Hlook, Hlog.
    split; [reflexivity |]. split; [| split].
    + intros name. rewrite Hlook, lookup_empty.
      destruct (last_file_named fs name filenames); reflexivity.
    + intros name.
      assert (Hsome : is_Some (fst (fold_left (load_template fs) filenames (∅, []))
                               !! name)
                      <-> is_Some (last_file_named fs name filenames)).
      { rewrite Hlook, lookup_empty.
        destruct (last_file_named fs name filenames); split;
          intros [x Hx]; try discriminate; eexists; reflexivity. }
      rewrite Hsome, last_file_named_some, in_map_iff. split.
      * intros (filename & Hn & Hin). apply filter_In in Hin.
        exists filename. tauto.
      * intros (filename & Hin & Hi & Hn). exists filename.
        split; [exact Hn |]. apply filter_In. tauto.
    + exact Hlog.
  - intros templates He. cbv zeta. unfold load_templates. rewrite He. cbn [negb].
    destruct (os_makedirs fs templates_dir); cbn [fst snd];
      (split; [reflexivity |]); eexists; (split; [reflexivity |]);
      repeat constructor; discriminate.
Qed.

(** X11.  The list box of the template creator and the library of the
    automation are built from the same directory by the same rule: a name
    is shown by [load_template_list] exactly when [load_templates] stores a
    template under it.  The list box shows a name once per file that gives
    it, in the order of the listing; the library has it once. *)
Theorem template_list_matches_library {Template : Type} (fs : FileSystem Template)
    (listbox : list string) :
  load_template_list fs = Return listbox ->
  (forall name, In name listbox <-> is_Some (initial_templates fs !! name))
  /\ (os_path_exists fs templates_dir = true ->
      exists filenames,
        os_listdir fs templates_dir = Return filenames
        /\ listbox = map (template_name_of fs) (List.filter is_image_file filenames)).
Proof.
  unfold load_template_list, initial_templates, load_templates.
  destruct (os_path_exists fs templates_dir) eqn:He; cbn [negb].
  - destruct (os_listdir fs templates_dir) as [filenames | e] eqn:El; [| discriminate].
    intros H. injection H as <-. rewrite fold_template_list. cbn [app fst snd].
    split.
    + intros name.
      destruct (fold_load_template fs filenames ∅ []) as [Hlook _].
      cbv zeta in Hlook. rewrite Hlook, lookup_empty, <- last_file_named_some.
      destruct (last_file_named fs name filenames); split;
        intros [x Hx]; try discriminate; eexists; reflexivity.
    + intros _. exists filenames. split; reflexivity.
  - intros H. injection H as <-. split; [| discriminate].
    intros name. split; [contradiction |].
    destruct (os_makedirs fs templates_dir); cbn [fst snd];
      rewrite lookup_empty; intros [x Hx]; discriminate.
Qed.

(** X12.  [delete_template] removes one file at most, and only the file
    [<name>.png] of the selected entry: when no such file exists it does
    nothing at all, without a message.  An entry that was listed for a
    [.jpg] or [.jpeg] file is therefore never deleted with its own file:
    the file looked for has another name. *)
Theorem delete_template_removes_png_only {Template : Type}
    (fs : FileSystem Template) (listbox : list string) (index : nat)
    (others : list nat) :
  let template_name := nth index listbox "" in
  let template_path :=
    os_path_join fs templates_dir (template_file template_name) in
  let o := delete_template fs listbox (index :: others) in
  (os_path_exists fs template_path = false -> o = (Return tt, []))
  /\ (forall path, In (RemoveFile path) (snd o) ->
        path = template_path /\ os_path_exists fs template_path = true)
  /\ (forall filename,
        is_image_file filename = true ->
        endswith filename ".png" = false ->
        template_file (template_name_of fs filename) <> filename)
  /\ (snd (delete_template fs listbox [])
      = [ShowWarning "Warning" "Please select a template to delete."]).
Proof.
  cbv zeta. unfold delete_template.
  split; [| split; [| split]].
  - intros ->. reflexivity.
  - intros path.
    destruct (os_path_exists fs _); [| contradiction].
    destruct (os_remove fs _) as [u | [|]]; cbn [snd].
    + destruct (load_template_list fs) as [l | [|]]; cbn [snd app In];
        intros H; repeat (destruct H as [H | H]; try discriminate H; try contradiction);
        injection H as <-; split; reflexivity.
    + intros [H | []]. injection H as <-. split; reflexivity.
    + intros [H | [H | []]]; [| discriminate]. injection H as <-. split; reflexivity.
  - intros filename _ Hpng Heq. rewrite <- Heq in Hpng.
    unfold template_file in Hpng. rewrite endswith_append in Hpng. discriminate.
  - reflexivity.
Qed.

(** ** The platform layer *)

Lemma d_bind_Return {E A B} (m : Run E A) (f : A -> Run E B) t a t1 w1 :
  m t = (Return a, t1, w1) ->
  d_bind m f t = (d_result (f a t1), d_clock (f a t1), w1 ++ d_events (f a t1)).
Proof.
  intros H. unfold d_bind, d_result, d_clock, d_events. rewrite H.
  destruct (f a t1) as [[r t2] w2]. reflexivity.
Qed.

Lemma d_bind_Raise {E A B} (m : Run E A) (f : A -> Run E B) t e t1 w1 :
  m t = (Raise e, t1, w1) -> d_bind m f t = (Raise e, t1, w1).
Proof. intros H. unfold d_bind. rewrite H. reflexivity. Qed.

Lemma d_outcome_eta {E A} (o : Res A * nat * list E) :
  o = (d_result o, d_clock o, d_events o).
Proof. destruct o as [[r t] w]. reflexivity. Qed.

(** A [try] whose handler logs and returns lets no [Exception] through. *)
Lemma d_try_catches {A} (m : D A) l msg (a : A) t :
  d_result (d_try m (d_bind (d_log l msg) (fun _ => d_ret a)) t) <> Raise Exception.
Proof.
  unfold d_try. destruct (m t) as [[[x | [|]] t1] w1]; cbn; discriminate.
Qed.

Lemma d_try_cases {A} (m : D A) l msg (a : A) t :
  d_try m (d_bind (d_log l msg) (fun _ => d_ret a)) t
  = match d_result (m t) with
    | Raise Exception =>
        (Return a, d_clock (m t), d_events (m t) ++ [DetectorLog l msg])
    | _ => m t
    end.
Proof.
  unfold d_try. destruct (m t) as [[[x | [|]] t1] w1]; reflexivity.
Qed.

Lemma subprocesses_app w1 w2 :
  subprocesses (w1 ++ w2) = subprocesses w1 ++ subprocesses w2.
Proof.
  induction w1 as [| e w1 IH]; simpl; [reflexivity |].
  destruct e; simpl; rewrite ?IH; reflexivity.
Qed.

Section Platform.

Variable P : Platform.

(** [four_ints] runs no command and leaves the clock. *)
Lemma four_ints_pure fields t :
  d_clock (WindowDetector.four_ints P fields t) = t
  /\ d_events (WindowDetector.four_ints P fields t) = [].
Proof.
  unfold WindowDetector.four_ints.
  destruct fields as [| a [| b [| c [| d [| x rest]]]]]; try (split; reflexivity).
  unfold d_bind, d_lift, d_ret.
  destruct (int_of_string P a); [| split; reflexivity].
  destruct (int_of_string P b); [| split; reflexivity].
  destruct (int_of_string P c); [| split; reflexivity].
  destruct (int_of_string P d); split; reflexivity.
Qed.

(** Its answer does not depend on the clock. *)
Lemma four_ints_clockless fields t t' :
  d_result (WindowDetector.four_ints P fields t)
  = d_result (WindowDetector.four_ints P fields t').
Proof.
  unfold WindowDetector.four_ints.
  destruct fields as [| a [| b [| c [| d [| x rest]]]]]; try reflexivity.
  unfold d_bind, d_lift, d_ret.
  destruct (int_of_string P a); [| reflexivity].
  destruct (int_of_string P b); [| reflexivity].
  destruct (int_of_string P c); [| reflexivity].
  destruct (int_of_string P d); reflexivity.
Qed.

(** One [osascript] query runs one command, whatever comes of it. *)
Lemma query_process_runs_once process t :
  d_clock (WindowDetector.query_process P process t) = S t
  /\ d_events (WindowDetector.query_process P process t)
     = [Subprocess ["osascript"; "-e"; position_and_size_script process]].
Proof.
  unfold WindowDetector.query_process, d_bind, WindowDetector.run.
  destruct (subprocess_run P t _) as [result | e]; [| split; reflexivity].
  destruct (Z.eqb (returncode result) 0); [| split; reflexivity].
  destruct (Nat.eqb _ 4); [| split; reflexivity].
  destruct (four_ints_pure (str_split ", " (str_strip (stdout result))) (S t))
    as [Hc He].
  destruct (WindowDetector.four_ints P _ (S t)) as [[[rect | e] t1] w1];
    unfold d_clock, d_events in *; cbn [fst snd] in *; subst; split; reflexivity.
Qed.

End Platform.

Section MacOS.

Variable P : Platform.

Lemma four_ints_result a b c d t :
  d_result (WindowDetector.four_ints P [a; b; c; d] t)
  = res_bind (int_of_string P a) (fun x =>
    res_bind (int_of_string P b) (fun y =>
    res_bind (int_of_string P c) (fun width =>
    res_bind (int_of_string P d) (fun height =>
    Return (x, y, width, height))))).
Proof.
  unfold WindowDetector.four_ints, d_bind, d_lift, d_ret.
  destruct (int_of_string P a); [| reflexivity].
  destruct (int_of_string P b); [| reflexivity].
  destruct (int_of_string P c); [| reflexivity].
  destruct (int_of_string P d); reflexivity.
Qed.

(** The answer of one query, from the answer of [osascript]. *)
Lemma query_process_result process t :
  d_result (WindowDetector.query_process P process t)
  = match subprocess_run P t ["osascript"; "-e"; position_and_size_script process] with
    | Return result =>
        if Z.eqb (returncode result) 0 then
          match str_split ", " (str_strip (stdout result)) with
          | [a; b; c; d] =>
              res_bind (int_of_string P a) (fun x =>
              res_bind (int_of_string P b) (fun y =>
              res_bind (int_of_string P c) (fun width =>
              res_bind (int_of_string P d) (fun height =>
              Return (Some (x, y, width, height))))))
          | _ => Return None
          end
        else Return None
    | Raise e => Raise e
    end.
Proof.
  unfold WindowDetector.query_process, d_bind, WindowDetector.run.
  destruct (subprocess_run P t _) as [result | e]; [| reflexivity].
  destruct (Z.eqb (returncode result) 0); [| reflexivity].
  destruct (str_split ", " (str_strip (stdout result)))
    as [| a [| b [| c [| d [| x rest]]]]]; try reflexivity.
  cbn [List.length Nat.eqb].
  unfold WindowDetector.four_ints, d_bind, d_lift, d_ret.
  destruct (int_of_string P a); [| reflexivity].
  destruct (int_of_string P b); [| reflexivity].
  destruct (int_of_string P c); [| reflexivity].
  destruct (int_of_string P d); reflexivity.
Qed.

(** The macOS search, by cases on the answers of its queries. *)
Lemma find_window_macos_cases t :
  let ask_for name := Subprocess ["osascript"; "-e"; position_and_size_script name] in
  WindowDetector._find_window_macos P t
  = match d_result (WindowDetector.query_process P "Uma Musume" t) with
    | Return (Some rect) => (Return (Some rect), S t, [ask_for "Uma Musume"])
    | Return None =>
        match d_result (WindowDetector.query_process P
                          "Uma Musume Pretty Derby" (S t)) with
        | Raise Exception =>
            (Return None, S (S t),
             [ask_for "Uma Musume"; ask_for "Uma Musume Pretty Derby";
              DetectorLog ERROR ErrorFindingWindowOnMacOS])
        | r => (r, S (S t),
                [ask_for "Uma Musume"; ask_for "Uma Musume Pretty Derby"])
        end
    | Raise Exception =>
        (Return None, S t,
         [ask_for "Uma Musume"; DetectorLog ERROR ErrorFindingWindowOnMacOS])
    | Raise KeyboardInterrupt =>
        (Raise KeyboardInterrupt, S t, [ask_for "Uma Musume"])
    end.
Proof.
  cbv zeta.
  destruct (query_process_runs_once P "Uma Musume" t) as [Hc1 He1].
  destruct (query_process_runs_once P "Uma Musume Pretty Derby" (S t)) as [Hc2 He2].
  unfold WindowDetector._find_window_macos. rewrite d_try_cases.
  set (body := d_bind (WindowDetector.query_process P "Uma Musume") _).
  assert (Hbody :
    body t
    = match d_result (WindowDetector.query_process P "Uma Musume" t) with
      | Return (Some rect) =>
          (Return (Some rect), S t,
           [Subprocess ["osascript"; "-e"; position_and_size_script "Uma Musume"]])
      | Return None =>
          (d_result (WindowDetector.query_process P "Uma Musume Pretty Derby" (S t)),
           S (S t),
           [Subprocess ["osascript"; "-e"; position_and_size_script "Uma Musume"];
            Subprocess ["osascript"; "-e";
                        position_and_size_script "Uma Musume Pretty Derby"]])
      | Raise e =>
          (Raise e, S t,
           [Subprocess ["osascript"; "-e"; position_and_size_script "Uma Musume"]])
      end).
  { unfold body.
    destruct (WindowDetector.query_process P "Uma Musume" t)
      as [[[[rect |] | e] t1] w1] eqn:E1;
      unfold d_clock, d_events in Hc1, He1; cbn [fst snd] in Hc1, He1; subst t1 w1;
      cbn [d_result fst].
    - rewrite (d_bind_Return _ _ _ _ _ _ E1). reflexivity.
    - rewrite (d_bind_Return _ _ _ _ _ _ E1), Hc2, He2. reflexivity.
    - rewrite (d_bind_Raise _ _ _ _ _ _ E1). reflexivity. }
  rewrite Hbody. clear Hbody body.
  destruct (d_result (WindowDetector.query_process P "Uma Musume" t))
    as [[rect |] | [|]]; try reflexivity.
  destruct (d_result (WindowDetector.query_process P "Uma Musume Pretty Derby" (S t)))
    as [r | [|]]; reflexivity.
Qed.

End MacOS.

(** X14.  The macOS search asks [osascript] for the window of the process
    "Uma Musume" first.  An answer of four numbers ends the search with
    that rectangle: the second process name is not tried.  The second name,
    "Uma Musume Pretty Derby", is tried exactly when the first query
    returned without such an answer (a non-zero return code, or other than
    four fields).  A failure of the first query, also a field that is not a
    number, ends the search with [None] without the second name being
    tried.  No [Exception] leaves the method, which runs two commands at
    most. *)
Theorem macos_search_stops_at_first_answer (P : Platform) (t : nat) :
  let ask_for name := ["osascript"; "-e"; position_and_size_script name] in
  let first := WindowDetector.query_process P "Uma Musume" t in
  let second := WindowDetector.query_process P "Uma Musume Pretty Derby" (S t) in
  let o := WindowDetector._find_window_macos P t in
  d_result o <> Raise Exception
  /\ (forall rect,
        d_result first = Return (Some rect) ->
        d_result o = Return (Some rect)
        /\ subprocesses (d_events o) = [ask_for "Uma Musume"])
  /\ (d_result first = Raise Exception ->
      d_result o = Return None
      /\ subprocesses (d_events o) = [ask_for "Uma Musume"])
  /\ (d_result first = Return None ->
      d_result o = match d_result second with
                   | Raise Exception => Return None
                   | r => r
                   end
      /\ subprocesses (d_events o)
         = [ask_for "Uma Musume"; ask_for "Uma Musume Pretty Derby"])
  /\ (forall result a b c d,
        subprocess_run P t (ask_for "Uma Musume") = Return result ->
        returncode result = 0 ->
        str_split ", " (str_strip (stdout result)) = [a; b; c; d] ->
        d_result first
        = res_bind (int_of_string P a) (fun x =>
          res_bind (int_of_string P b) (fun y =>
          res_bind (int_of_string P c) (fun width =>
          res_bind (int_of_string P d) (fun height =>
          Return (Some (x, y, width, height)))))))
  /\ (List.length (subprocesses (d_events o)) <= 2)%nat.
Proof.
  cbv zeta. rewrite find_window_macos_cases. cbv zeta.
  pose proof (query_process_result P "Uma Musume" t) as Hq.
  set (q1 := d_result (WindowDetector.query_process P "Uma Musume" t)) in *.
  set (q2 := d_result (WindowDetector.query_process P "Uma Musume Pretty Derby" (S t))).
  clearbody q2.
  split; [| split; [| split; [| split; [| split]]]].
  - destruct q1 as [[rect |] | [|]]; cbn; try discriminate.
    destruct q2 as [r | [|]]; cbn; discriminate.
  - intros rect ->. cbn. split; reflexivity.
  - intros ->. cbn. split; reflexivity.
  - intros ->. cbn [d_result fst].
    destruct q2 as [r | [|]]; cbn; split; reflexivity.
  - intros result a b c d Hrun Hrc Hfields.
    rewrite Hq, Hrun, Hrc, Hfields. reflexivity.
  - clear Hq. clearbody q1.
    destruct q1 as [[rect |] | [|]]; cbn; try lia.
    destruct q2 as [r | [|]]; cbn; lia.
Qed.

Section Windows.

Variable P : Platform.

Lemma fold_enum_windows hwnds :
  forall windows,
    fold_left enum_windows_callback hwnds windows
    = windows
      ++ map (fun hwnd => rect_of_window_rect (GetWindowRect hwnd))
           (List.filter
              (fun hwnd => (IsWindowVisible hwnd
                            && is_game_title (GetWindowText hwnd))%bool) hwnds).
Proof.
  induction hwnds as [| hwnd rest IH]; intros windows; cbn [fold_left List.filter].
  - cbn. rewrite app_nil_r. reflexivity.
  - rewrite IH. unfold enum_windows_callback.
    destruct (IsWindowVisible hwnd); cbn [andb]; [| reflexivity].
    destruct (is_game_title (GetWindowText hwnd)); cbn [map]; [| reflexivity].
    rewrite <- app_assoc. reflexivity.
Qed.

Lemma first_of_filter {A B} (f : A -> bool) (g : A -> B) (l : list A) :
  match map g (List.filter f l) with
  | first :: _ => Some first
  | [] => None
  end = option_map g (List.find f l).
Proof.
  induction l as [| a l IH]; cbn [List.filter List.find]; [reflexivity |].
  destruct (f a); [reflexivity | exact IH].
Qed.

(** The Windows search, by cases on the import. *)
Lemma find_window_windows_cases t :
  WindowDetector._find_window_windows P t
  = match import_win32gui P t with
    | Win32EnumWindows (Return hwnds) =>
        (Return (match fold_left enum_windows_callback hwnds [] with
                 | first :: _ => Some first
                 | [] => None
                 end), S t, [ImportWin32Gui])
    | Win32EnumWindows (Raise e) => (Raise e, S t, [ImportWin32Gui])
    | Win32ImportError =>
        match subprocess_run P (S t) ["tasklist"; "/FI"; "IMAGENAME eq UmaMusume.exe"] with
        | Return result =>
            (Return (if str_in "UmaMusume.exe" (stdout result)
                     then Some (0, 0, fst (display_size P), snd (display_size P))
                     else None),
             S (S t),
             [ImportWin32Gui; DetectorLog WARNING Win32guiNotAvailable;
              Subprocess ["tasklist"; "/FI"; "IMAGENAME eq UmaMusume.exe"]])
        | Raise Exception =>
            (Return None, S (S t),
             [ImportWin32Gui; DetectorLog WARNING Win32guiNotAvailable;
              Subprocess ["tasklist"; "/FI"; "IMAGENAME eq UmaMusume.exe"];
              DetectorLog ERROR ErrorFindingWindowOnWindows])
        | Raise KeyboardInterrupt =>
            (Raise KeyboardInterrupt, S (S t),
             [ImportWin32Gui; DetectorLog WARNING Win32guiNotAvailable;
              Subprocess ["tasklist"; "/FI"; "IMAGENAME eq UmaMusume.exe"]])
        end
    end.
Proof.
  unfold WindowDetector._find_window_windows, d_bind at 1,
    WindowDetector.import_win32gui_and_enumerate.
  destruct (import_win32gui P t) as [| [hwnds | e]].
  - assert (Hl : d_log WARNING Win32guiNotAvailable (S t)
                 = (Return tt, S t, [DetectorLog WARNING Win32guiNotAvailable]))
      by reflexivity.
    rewrite (d_bind_Return _ _ _ _ _ _ Hl), d_try_cases.
    unfold d_bind, WindowDetector.run.
    destruct (subprocess_run P (S t) _) as [result | [|]]; try reflexivity.
    destruct (str_in "UmaMusume.exe" (stdout result));
      [destruct (display_size P) |]; reflexivity.
  - destruct (fold_left enum_windows_callback hwnds []); reflexivity.
  - reflexivity.
Qed.

End Windows.

(** X15.  With [win32gui] available the Windows search runs no command: it
    returns the first window of the enumeration that is visible and has
    "Uma Musume" or "Pretty Derby" in its title, as left, top, width and
    height, so that [get_game_region] turns it back into the rectangle
    [GetWindowRect] reported; it returns [None] when there is no such
    window, and an exception of the enumeration is not caught.  Only when
    the import fails is [tasklist] asked, and then the full display is the
    answer exactly when its output names [UmaMusume.exe]. *)
Theorem windows_search_takes_first_game_window (P : Platform) (t : nat) :
  let o := WindowDetector._find_window_windows P t in
  let tasklist := ["tasklist"; "/FI"; "IMAGENAME eq UmaMusume.exe"] in
  (forall hwnds,
     import_win32gui P t = Win32EnumWindows (Return hwnds) ->
     o = (Return (option_map (fun hwnd => rect_of_window_rect (GetWindowRect hwnd))
                    (first_game_window hwnds)),
          S t, [ImportWin32Gui]))
  /\ (forall rect, box_of_rect (rect_of_window_rect rect) = rect)
  /\ (forall e,
        import_win32gui P t = Win32EnumWindows (Raise e) ->
        o = (Raise e, S t, [ImportWin32Gui]))
  /\ (import_win32gui P t = Win32ImportError ->
      d_result o <> Raise Exception
      /\ subprocesses (d_events o) = [tasklist]
      /\ (forall rect,
            d_result o = Return (Some rect)
            <-> rect = (0, 0, fst (display_size P), snd (display_size P))
                /\ exists result,
                     subprocess_run P (S t) tasklist = Return result
                     /\ str_in "UmaMusume.exe" (stdout result) = true)).
Proof.
  cbv zeta. rewrite find_window_windows_cases.
  split; [| split; [| split]].
  - intros hwnds ->. rewrite fold_enum_windows. cbn [app].
    unfold first_game_window. rewrite <- first_of_filter. reflexivity.
  - intros [[[rect0 rect1] rect2] rect3]. unfold rect_of_window_rect, box_of_rect.
    repeat f_equal; lia.
  - intros e ->. reflexivity.
  - intros ->.
    destruct (subprocess_run P (S t) _) as [result | [|]];
      [destruct (str_in "UmaMusume.exe" (stdout result)) eqn:Es |..];
      cbn; (split; [discriminate |]); (split; [reflexivity |]);
      intros rect; split.
    + intros H. injection H as <-. split; [reflexivity |].
      exists result. split; [reflexivity | exact Es].
    + intros [-> _]. reflexivity.
    + discriminate.
    + intros [_ (result' & H & Hs)]. injection H as <-. congruence.
    + discriminate.
    + intros [_ (result' & H & _)]. discriminate.
    + discriminate.
    + intros [_ (result' & H & _)]. discriminate.
Qed.

Section Linux.

Variable P : Platform.

(** One step of the scan of the lines. *)
Lemma scan_lines_cons line rest t :
  WindowDetector.scan_lines P (line :: rest) t
  = if (is_game_title line && Nat.leb 2 (List.length (split_whitespace line)))%bool
    then
      match subprocess_run P t (geometry_query line) with
      | Return geom =>
          if (Z.eqb (returncode geom) 0
              && Nat.leb 6 (List.length (split_whitespace (stdout geom))))%bool
          then
            (match d_result (WindowDetector.four_ints P
                               (firstn 4 (skipn 2 (split_whitespace (stdout geom))))
                               (S t)) with
             | Return rect => Return (Some rect)
             | Raise e => Raise e
             end, S t, [Subprocess (geometry_query line)])
          else
            (d_result (WindowDetector.scan_lines P rest (S t)),
             d_clock (WindowDetector.scan_lines P rest (S t)),
             Subprocess (geometry_query line)
             :: d_events (WindowDetector.scan_lines P rest (S t)))
      | Raise e => (Raise e, S t, [Subprocess (geometry_query line)])
      end
    else WindowDetector.scan_lines P rest t.
Proof.
  cbn [WindowDetector.scan_lines]. fold (geometry_query line).
  destruct (is_game_title line); cbn [andb]; [| reflexivity].
  destruct (Nat.leb 2 _); [| reflexivity].
  unfold d_bind at 1, WindowDetector.run.
  destruct (subprocess_run P t (geometry_query line)) as [geom | e]; [| reflexivity].
  destruct (Z.eqb (returncode geom) 0); cbn [andb].
  - destruct (Nat.leb 6 _).
    + destruct (four_ints_pure P
                  (firstn 4 (skipn 2 (split_whitespace (stdout geom)))) (S t))
        as [Hc He].
      unfold d_bind, d_ret.
      destruct (WindowDetector.four_ints P _ (S t)) as [[[rect | e] t1] w1];
        unfold d_clock, d_events, d_result in *; cbn [fst snd] in *; subst;
        reflexivity.
    + destruct (WindowDetector.scan_lines P rest (S t)) as [[r t1] w1]. reflexivity.
  - destruct (WindowDetector.scan_lines P rest (S t)) as [[r t1] w1]. reflexivity.
Qed.

(** The scan of the lines: what it runs and where an answer comes from. *)
Lemma scan_lines_sound lines :
  forall t,
    Forall (fun cmd => exists line,
              In line lines /\ is_game_title line = true
              /\ cmd = geometry_query line)
      (subprocesses (d_events (WindowDetector.scan_lines P lines t)))
    /\ (forall rect,
          d_result (WindowDetector.scan_lines P lines t) = Return (Some rect) ->
          exists line t' geom,
            In line lines /\ is_game_title line = true
            /\ subprocess_run P t' (geometry_query line) = Return geom
            /\ returncode geom = 0
            /\ d_result (WindowDetector.four_ints P
                           (firstn 4 (skipn 2 (split_whitespace (stdout geom))))
                           (S t'))
               = Return rect).
Proof.
  induction lines as [| line rest IH]; intros t.
  - split; [constructor | discriminate].
  - assert (Hlift : forall t0,
      Forall (fun cmd => exists line0,
                In line0 (line :: rest) /\ is_game_title line0 = true
                /\ cmd = geometry_query line0)
        (subprocesses (d_events (WindowDetector.scan_lines P rest t0)))
      /\ (forall rect,
            d_result (WindowDetector.scan_lines P rest t0) = Return (Some rect) ->
            exists line0 t' geom,
              In line0 (line :: rest) /\ is_game_title line0 = true
              /\ subprocess_run P t' (geometry_query line0) = Return geom
              /\ returncode geom = 0
              /\ d_result (WindowDetector.four_ints P
                             (firstn 4 (skipn 2 (split_whitespace (stdout geom))))
                             (S t'))
                 = Return rect)).
    { intros t0. destruct (IH t0) as [H1 H2]. split.
      - eapply Forall_impl; [exact H1 |].
        intros cmd (l & Hin & Ht & Hc). exists l. split; [right; exact Hin | auto].
      - intros rect Hr. destruct (H2 rect Hr) as (l & t' & geom & Hin & H).
        exists l, t', geom. split; [right; exact Hin | exact H]. }
    rewrite scan_lines_cons.
    destruct (is_game_title line) eqn:Et; cbn [andb]; [| apply Hlift].
    destruct (Nat.leb 2 _); [| apply Hlift].
    assert (Hself : exists line0,
               In line0 (line :: rest) /\ is_game_title line0 = true
               /\ geometry_query line = geometry_query line0).
    { exists line. split; [left; reflexivity | auto]. }
    destruct (subprocess_run P t (geometry_query line)) as [geom | e] eqn:Eg.
    + destruct (Z.eqb_spec (returncode geom) 0) as [Hrc | Hrc]; cbn [andb].
      * destruct (Nat.leb 6 _); cbn [d_result d_events fst snd subprocesses].
        -- split; [constructor; [exact Hself | constructor] |].
           intros rect Hr.
           destruct (d_result (WindowDetector.four_ints P _ (S t)))
             as [rect' | e] eqn:E4; [| discriminate].
           injection Hr as <-.
           exists line, t, geom. repeat split; auto. left; reflexivity.
        -- destruct (Hlift (S t)) as [H1 H2].
           split; [constructor; [exact Hself | exact H1] | exact H2].
      * cbn [d_result d_events fst snd subprocesses].
        destruct (Hlift (S t)) as [H1 H2].
        split; [constructor; [exact Hself | exact H1] | exact H2].
    + cbn [d_result d_events fst snd subprocesses].
      split; [constructor; [exact Hself | constructor] | discriminate].
Qed.

(** A scan of lines none of which has the title runs nothing. *)
Lemma scan_lines_no_title lines t :
  Forall (fun line => is_game_title line = false) lines ->
  WindowDetector.scan_lines P lines t = (Return None, t, []).
Proof.
  induction 1 as [| line rest Hl _ IH]; [reflexivity |].
  cbn [WindowDetector.scan_lines]. rewrite Hl. exact IH.
Qed.

End Linux.

(** *** The guard on the number of fields *)

Lemma prefix_split needle :
  forall hay, String.prefix needle hay = true ->
              exists post, hay = String.append needle post.
Proof.
  induction needle as [| a needle IH]; intros hay H.
  - exists hay. reflexivity.
  - destruct hay as [| b hay]; [discriminate |].
    cbn [String.prefix] in H.
    destruct (ascii_dec a b) as [-> |]; [| discriminate].
    destruct (IH hay H) as [post ->]. exists post.
    rewrite append_cons. reflexivity.
Qed.

Lemma str_in_split needle hay :
  str_in needle hay = true ->
  exists pre post, hay = String.append pre (String.append needle post).
Proof.
  induction hay as [| c hay IH]; cbn [str_in]; intros H.
  - destruct (String.prefix needle "") eqn:Ep; [| discriminate].
    destruct (prefix_split _ _ Ep) as [post Hpost].
    exists "", post. rewrite append_nil. exact Hpost.
  - destruct (String.prefix needle (String c hay)) eqn:Ep.
    + destruct (prefix_split _ _ Ep) as [post Hpost].
      exists "", post. rewrite append_nil. exact Hpost.
    + destruct (IH H) as (pre & post & ->).
      exists (String c pre), post. rewrite append_cons. reflexivity.
Qed.

Lemma append_not_empty field c :
  String.eqb (String.append field (String c "")) "" = false.
Proof. destruct field; [rewrite append_nil | rewrite append_cons]; reflexivity. Qed.

(** A field already begun is a field of the result. *)
Lemma split_whitespace_from_begun s :
  forall field, String.eqb field "" = false ->
                (1 <= List.length (split_whitespace_from s field))%nat.
Proof.
  induction s as [| c s IH]; intros field Hf; cbn [split_whitespace_from].
  - rewrite Hf. cbn. lia.
  - destruct (ascii_isspace c).
    + rewrite Hf. cbn. lia.
    + apply IH, append_not_empty.
Qed.

(** A space between two characters that are not whitespace separates two
    fields. *)
Lemma split_whitespace_from_two pre a b post :
  ascii_isspace a = false -> ascii_isspace b = false ->
  forall field,
    (2 <= List.length
            (split_whitespace_from
               (String.append pre (String a (String " " (String b post))))
               field))%nat.
Proof.
  intros Ha Hb. induction pre as [| c pre IH]; intros field.
  - rewrite append_nil. cbn [split_whitespace_from]. rewrite Ha.
    replace (ascii_isspace " ") with true by reflexivity.
    rewrite append_not_empty, Hb. cbn [List.length].
    pose proof (split_whitespace_from_begun post (String.append "" (String b ""))
                  (append_not_empty "" b)).
    lia.
  - rewrite append_cons. cbn [split_whitespace_from].
    destruct (ascii_isspace c).
    + destruct (String.eqb field ""); [apply IH |].
      cbn [List.length]. pose proof (IH ""). lia.
    + apply IH.
Qed.

(** A line with the game's title has two fields at least: the test
    [len(parts) >= 2] of the Linux search never fails. *)
Lemma game_title_has_two_fields line :
  is_game_title line = true ->
  Nat.leb 2 (List.length (split_whitespace line)) = true.
Proof.
  unfold is_game_title, split_whitespace. intros H.
  apply Nat.leb_le. apply orb_true_iff in H.
  destruct H as [H | H]; destruct (str_in_split _ _ H) as (pre & post & ->).
  - replace (String.append pre (String.append "Uma Musume" post))
      with (String.append (String.append pre "Um")
              (String "a" (String " " (String "M" (String.append "usume" post))))).
    + apply split_whitespace_from_two; reflexivity.
    + rewrite append_assoc. f_equal.
  - replace (String.append pre (String.append "Pretty Derby" post))
      with (String.append (String.append pre "Prett")
              (String "y" (String " " (String "D" (String.append "erby" post))))).
    + apply split_whitespace_from_two; reflexivity.
    + rewrite append_assoc. f_equal.
Qed.

Section LinuxSearch.

Variable P : Platform.

(** Lines without the title are passed over. *)
Lemma scan_lines_skip skipped more t :
  Forall (fun line => is_game_title line = false) skipped ->
  WindowDetector.scan_lines P (skipped ++ more) t
  = WindowDetector.scan_lines P more t.
Proof.
  induction 1 as [| line rest Hl _ IH]; [reflexivity |].
  cbn [app WindowDetector.scan_lines]. rewrite Hl. exact IH.
Qed.

(** The body of the [try] of the Linux search. *)
Lemma find_window_linux_cases t :
  WindowDetector._find_window_linux P t
  = match subprocess_run P t ["wmctrl"; "-l"] with
    | Return result =>
        if Z.eqb (returncode result) 0 then
          let scan := WindowDetector.scan_lines P
                        (str_split line_feed (stdout result)) (S t) in
          match d_result scan with
          | Raise Exception =>
              (Return None, d_clock scan,
               Subprocess ["wmctrl"; "-l"]
               :: d_events scan ++ [DetectorLog ERROR ErrorFindingWindowOnLinux])
          | r => (r, d_clock scan, Subprocess ["wmctrl"; "-l"] :: d_events scan)
          end
        else (Return None, S t, [Subprocess ["wmctrl"; "-l"]])
    | Raise Exception =>
        (Return None, S t,
         [Subprocess ["wmctrl"; "-l"]; DetectorLog ERROR ErrorFindingWindowOnLinux])
    | Raise KeyboardInterrupt =>
        (Raise KeyboardInterrupt, S t, [Subprocess ["wmctrl"; "-l"]])
    end.
Proof.
  unfold WindowDetector._find_window_linux. rewrite d_try_cases.
  set (body := d_bind _ _).
  assert (Hbody :
    body t
    = match subprocess_run P t ["wmctrl"; "-l"] with
      | Return result =>
          if Z.eqb (returncode result) 0 then
            (d_result (WindowDetector.scan_lines P
                         (str_split line_feed (stdout result)) (S t)),
             d_clock (WindowDetector.scan_lines P
                        (str_split line_feed (stdout result)) (S t)),
             Subprocess ["wmctrl"; "-l"]
             :: d_events (WindowDetector.scan_lines P
                            (str_split line_feed (stdout result)) (S t)))
          else (Return None, S t, [Subprocess ["wmctrl"; "-l"]])
      | Raise e => (Raise e, S t, [Subprocess ["wmctrl"; "-l"]])
      end).
  { unfold body, d_bind, WindowDetector.run.
    destruct (subprocess_run P t ["wmctrl"; "-l"]) as [result | e];
      [| reflexivity].
    destruct (Z.eqb (returncode result) 0); [| reflexivity].
    destruct (WindowDetector.scan_lines P _ (S t)) as [[r t1] w1]. reflexivity. }
  rewrite Hbody. clear Hbody body.
  destruct (subprocess_run P t ["wmctrl"; "-l"]) as [result | [|]];
    try reflexivity.
  destruct (Z.eqb (returncode result) 0); [| reflexivity].
  cbv zeta.
  destruct (WindowDetector.scan_lines P _ (S t)) as [[[r | [|]] t1] w1];
    reflexivity.
Qed.

End LinuxSearch.

Lemma subprocesses_of_commands cmds :
  subprocesses (map Subprocess cmds) = cmds.
Proof.
  induction cmds as [| cmd cmds IH]; [reflexivity |].
  cbn [map subprocesses]. rewrite IH. reflexivity.
Qed.

Section LinuxPassedOver.

Variable P : Platform.

(** The scan passes over a prefix of lines whose title lines all get a
    reply that is of no use: each of them is asked, in order, and the scan
    goes on behind the prefix. *)
Lemma scan_lines_passed_over skipped more :
  forall t,
    passed_over P t skipped = true ->
    let t' := (t + List.length (title_lines skipped))%nat in
    WindowDetector.scan_lines P (skipped ++ more) t
    = (d_result (WindowDetector.scan_lines P more t'),
       d_clock (WindowDetector.scan_lines P more t'),
       map Subprocess (map geometry_query (title_lines skipped))
       ++ d_events (WindowDetector.scan_lines P more t')).
Proof.
  induction skipped as [| line rest IH]; intros t Hp; cbv zeta.
  - cbn [app title_lines List.filter List.length map]. rewrite Nat.add_0_r.
    apply d_outcome_eta.
  - cbn [passed_over] in Hp. cbn [app]. rewrite scan_lines_cons.
    unfold title_lines in *. cbn [List.filter].
    destruct (is_game_title line) eqn:Et; cbn [andb].
    + rewrite (game_title_has_two_fields line Et).
      destruct (subprocess_run P t (geometry_query line)) as [geom | e];
        [| discriminate].
      apply andb_prop in Hp. destruct Hp as [Hu Hp].
      apply negb_true_iff in Hu. rewrite Hu.
      rewrite (IH (S t) Hp). cbv zeta.
      cbn [d_result d_clock d_events fst snd List.length map app].
      rewrite Nat.add_succ_r. reflexivity.
    + apply (IH t Hp).
Qed.

End LinuxPassedOver.

(** X16.  The Linux search lists the windows with [wmctrl -l] and asks for
    the geometry of those lines only that carry the game's title, naming
    the window by the first field of the line.  A rectangle it returns is
    read from fields 2 to 5 of a geometry reply with return code 0.  When
    the listing returns another code or no line carries the title, the
    answer is [None] after that one command; when the listing raises, the
    failure is logged and the answer is [None].  The title lines are asked
    in order: a title line whose reply has another return code than 0 or
    fewer than six fields is passed over, and when all are passed over the
    answer is [None].  The first title line whose reply has return code 0
    and six fields decides: its numbers are the answer, and a field that is
    not a number ends the search with [None] although later lines are left
    unasked; a geometry query that raises ends it with [None] as well.  No
    [Exception] leaves the method. *)
Theorem linux_search_asks_title_lines_only (P : Platform) (t : nat) :
  let o := WindowDetector._find_window_linux P t in
  let listing := ["wmctrl"; "-l"] in
  d_result o <> Raise Exception
  /\ (exists queries,
        subprocesses (d_events o) = listing :: queries
        /\ Forall (fun cmd =>
                     exists result line,
                       subprocess_run P t listing = Return result
                       /\ In line (str_split line_feed (stdout result))
                       /\ is_game_title line = true
                       /\ cmd = geometry_query line) queries)
  /\ (forall rect,
        d_result o = Return (Some rect) ->
        exists line t' geom,
          is_game_title line = true
          /\ subprocess_run P t' (geometry_query line) = Return geom
          /\ returncode geom = 0
          /\ d_result (WindowDetector.four_ints P
                         (firstn 4 (skipn 2 (split_whitespace (stdout geom))))
                         (S t'))
             = Return rect)
  /\ (forall result,
        subprocess_run P t listing = Return result ->
        returncode result <> 0
        \/ Forall (fun line => is_game_title line = false)
             (str_split line_feed (stdout result)) ->
        o = (Return None, S t, [Subprocess listing]))
  /\ (subprocess_run P t listing = Raise Exception ->
      o = (Return None, S t,
           [Subprocess listing; DetectorLog ERROR ErrorFindingWindowOnLinux]))
  /\ (forall result,
        subprocess_run P t listing = Return result ->
        returncode result = 0 ->
        passed_over P (S t) (str_split line_feed (stdout result)) = true ->
        d_result o = Return None
        /\ subprocesses (d_events o)
           = listing
             :: map geometry_query
                  (title_lines (str_split line_feed (stdout result))))
  /\ (forall result skipped line rest,
        subprocess_run P t listing = Return result ->
        returncode result = 0 ->
        str_split line_feed (stdout result) = skipped ++ line :: rest ->
        passed_over P (S t) skipped = true ->
        is_game_title line = true ->
        let asked := (S t + List.length (title_lines skipped))%nat in
        subprocesses (d_events o)
        = listing :: map geometry_query (title_lines skipped)
          ++ [geometry_query line]
          ++ (if passed_over P asked [line]
              then subprocesses
                     (d_events (WindowDetector.scan_lines P rest (S asked)))
              else [])
        /\ (forall geom,
              subprocess_run P asked (geometry_query line) = Return geom ->
              returncode geom = 0 ->
              (6 <= List.length (split_whitespace (stdout geom)))%nat ->
              passed_over P asked [line] = false
              /\ d_result o
                 = match d_result
                           (WindowDetector.four_ints P
                              (firstn 4 (skipn 2 (split_whitespace (stdout geom))))
                              (S asked)) with
                   | Return rect => Return (Some rect)
                   | Raise Exception => Return None
                   | Raise KeyboardInterrupt => Raise KeyboardInterrupt
                   end)
        /\ (subprocess_run P asked (geometry_query line) = Raise Exception ->
            passed_over P asked [line] = false
            /\ d_result o = Return None)).
Proof.
  cbv zeta. rewrite find_window_linux_cases.
  split; [| split; [| split; [| split; [| split; [| split]]]]].
  - destruct (subprocess_run P t _) as [result | [|]]; try (cbn; discriminate).
    destruct (Z.eqb (returncode result) 0); [| cbn; discriminate].
    cbv zeta.
    destruct (d_result (WindowDetector.scan_lines P _ (S t))) as [r | [|]];
      cbn; discriminate.
  - destruct (subprocess_run P t _) as [result | [|]] eqn:El;
      try (exists []; split; [reflexivity | constructor]).
    destruct (Z.eqb (returncode result) 0);
      [| exists []; split; [reflexivity | constructor]].
    cbv zeta.
    destruct (scan_lines_sound P (str_split line_feed (stdout result)) (S t))
      as [Hq _].
    exists (subprocesses
              (d_events (WindowDetector.scan_lines P
                           (str_split line_feed (stdout result)) (S t)))).
    split.
    + destruct (d_result (WindowDetector.scan_lines P _ (S t))) as [r | [|]];
        cbn [d_events snd subprocesses]; rewrite ?subprocesses_app;
        cbn [subprocesses]; rewrite ?app_nil_r; reflexivity.
    + eapply Forall_impl; [exact Hq |].
      intros cmd (line & Hin & Ht & Hc). exists result, line. auto.
  - intros rect.
    destruct (subprocess_run P t _) as [result | [|]]; try (cbn; discriminate).
    destruct (Z.eqb (returncode result) 0); [| cbn; discriminate].
    cbv zeta.
    destruct (scan_lines_sound P (str_split line_feed (stdout result)) (S t))
      as [_ Hr].
    destruct (d_result (WindowDetector.scan_lines P _ (S t))) as [r | [|]];
      cbn [d_result fst]; try discriminate.
    intros H. destruct (Hr rect H) as (line & t' & geom & _ & H').
    exists line, t', geom. exact H'.
  - intros result -> [Hrc | Hnone].
    + destruct (Z.eqb_spec (returncode result) 0); [contradiction | reflexivity].
    + destruct (Z.eqb (returncode result) 0); [| reflexivity].
      cbv zeta. rewrite (scan_lines_no_title P _ (S t) Hnone). reflexivity.
  - intros ->. reflexivity.
  - intros result -> Hrc Hp. rewrite Hrc. cbn [Z.eqb]. cbv zeta.
    pose proof (scan_lines_passed_over P _ [] (S t) Hp) as Hs.
    cbv zeta in Hs. rewrite app_nil_r in Hs. rewrite Hs.
    cbn [WindowDetector.scan_lines d_ret d_result d_clock d_events fst snd].
    rewrite app_nil_r. split; [reflexivity |].
    cbn [subprocesses]. rewrite subprocesses_of_commands. reflexivity.
  - intros result skipped line rest -> Hrc Hlines Hp Ht.
    pose proof (fun ls => subprocesses_of_commands (map geometry_query ls))
      as Hsub.
    rewrite Hrc, Hlines. cbn [Z.eqb]. cbv zeta.
    rewrite (scan_lines_passed_over P skipped (line :: rest) (S t) Hp).
    cbv zeta. cbn [d_result d_clock d_events fst snd].
    set (asked := (S t + List.length (title_lines skipped))%nat).
    rewrite scan_lines_cons, Ht, (game_title_has_two_fields line Ht).
    cbn [andb passed_over]. rewrite Ht.
    destruct (subprocess_run P asked (geometry_query line)) as [geom | [|]].
    + destruct (Z.eqb (returncode geom) 0
                && Nat.leb 6 (List.length (split_whitespace (stdout geom))))%bool
        eqn:Eu; cbn [negb andb].
      * split; [| split; [| discriminate]].
        -- destruct (d_result (WindowDetector.four_ints P _ (S asked)))
             as [rect | [|]];
             cbn [d_result d_events fst snd subprocesses];
             rewrite ?subprocesses_app, ?Hsub; cbn [subprocesses app];
             rewrite ?app_nil_r; reflexivity.
        -- intros geom' Hg _ _. injection Hg as <-. split; [reflexivity |].
           destruct (d_result (WindowDetector.four_ints P _ (S asked)))
             as [rect | [|]]; reflexivity.
      * split; [| split; [| discriminate]].
        -- destruct (d_result (WindowDetector.scan_lines P rest (S asked)))
             as [r | [|]];
             cbn [d_result d_events fst snd subprocesses];
             rewrite ?subprocesses_app, ?Hsub; cbn [subprocesses app];
             rewrite ?app_nil_r; reflexivity.
        -- intros geom' Hg Hgrc H6. injection Hg as <-.
           apply Nat.leb_le in H6. rewrite Hgrc, H6 in Eu. discriminate.
    + cbn [d_result d_events fst snd subprocesses].
      split; [| split; [discriminate | discriminate]].
      rewrite ?subprocesses_app, ?Hsub. cbn [subprocesses app].
      rewrite ?app_nil_r. reflexivity.
    + cbn [d_result d_events fst snd subprocesses].
      split; [| split; [discriminate |]].
      * rewrite ?subprocesses_app, ?Hsub. cbn [subprocesses app].
        rewrite ?app_nil_r. reflexivity.
      * intros _. split; reflexivity.
Qed.

(** X17.  [is_game_window_active] answers [False] only on macOS, and only
    when [osascript] returned with code 0 and the name of a frontmost
    process that lacks "Uma Musume".  On every other system it answers
    [True] without running a command; a failure of the query is logged and
    answered with [True]; no [Exception] leaves the method. *)
Theorem window_counts_as_active_unless_told_otherwise (P : Platform) (t : nat) :
  let o := WindowDetector.is_game_window_active P t in
  let ask := ["osascript"; "-e"; frontmost_script] in
  d_result o <> Raise Exception
  /\ (d_result o = Return false
      <-> platform_system P = "Darwin"
          /\ exists result,
               subprocess_run P t ask = Return result
               /\ returncode result = 0
               /\ str_in "Uma Musume" (str_strip (stdout result)) = false)
  /\ (platform_system P <> "Darwin" -> o = (Return true, t, []))
  /\ (platform_system P = "Darwin" ->
      subprocess_run P t ask = Raise Exception ->
      o = (Return true, S t,
           [Subprocess ask; DetectorLog ERROR ErrorCheckingActiveWindow])).
Proof.
  cbv zeta. unfold WindowDetector.is_game_window_active.
  destruct (String.eqb_spec (platform_system P) "Darwin") as [Hs | Hs].
  - rewrite d_try_cases. unfold d_bind, WindowDetector.run.
    destruct (subprocess_run P t _) as [result | [|]] eqn:Er.
    + destruct (Z.eqb_spec (returncode result) 0) as [Hrc | Hrc];
        cbn [d_ret d_result d_clock d_events fst snd].
      * destruct (str_in "Uma Musume" (str_strip (stdout result))) eqn:Ein;
          cbn [d_result fst].
        -- split; [discriminate |]. split; [| split; [contradiction | discriminate]].
           split; [discriminate |].
           intros [_ (result' & H & _ & Hin)]. injection H as <-. congruence.
        -- split; [discriminate |]. split; [| split; [contradiction | discriminate]].
           split; [| reflexivity]. intros _. split; [exact Hs |].
           exists result. auto.
      * split; [discriminate |]. split; [| split; [contradiction | discriminate]].
        split; [discriminate |].
        intros [_ (result' & H & Hrc' & _)]. injection H as <-. contradiction.
    + cbn. split; [discriminate |]. split; [| split; [contradiction | discriminate]].
      split; [discriminate |]. intros [_ (result' & H & _)]. discriminate.
    + cbn. split; [discriminate |]. split; [| split; [contradiction | reflexivity]].
      split; [discriminate |]. intros [_ (result' & H & _)]. discriminate.
  - cbn. split; [discriminate |]. split; [| split; [reflexivity | contradiction]].
    split; [discriminate |]. intros [H _]. contradiction.
Qed.

Section Dispatch.

Variable P : Platform.

(** Every command of the macOS search is an [osascript] call. *)
Lemma find_window_macos_commands t :
  Forall (fun cmd => exists args, cmd = "osascript" :: args)
    (subprocesses (d_events (WindowDetector._find_window_macos P t)))
  /\ ~ In ImportWin32Gui (d_events (WindowDetector._find_window_macos P t))
  /\ d_result (WindowDetector._find_window_macos P t) <> Raise Exception.
Proof.
  rewrite find_window_macos_cases. cbv zeta.
  destruct (d_result (WindowDetector.query_process P "Uma Musume" t))
    as [[rect |] | [|]];
    [| destruct (d_result (WindowDetector.query_process P
                             "Uma Musume Pretty Derby" (S t))) as [r | [|]] |..];
    cbn [d_events d_result fst snd subprocesses];
    (split; [repeat constructor; eexists; reflexivity |]);
    (split; [| discriminate]);
    cbn [In]; intros H; repeat destruct H as [H | H]; try discriminate; exact H.
Qed.

(** Every command of the Windows search is the one [tasklist] call. *)
Lemma find_window_windows_commands t :
  Forall (fun cmd => exists args, cmd = "tasklist" :: args)
    (subprocesses (d_events (WindowDetector._find_window_windows P t)))
  /\ (d_result (WindowDetector._find_window_windows P t) = Raise Exception ->
      import_win32gui P t = Win32EnumWindows (Raise Exception)).
Proof.
  rewrite find_window_windows_cases.
  destruct (import_win32gui P t) as [| [hwnds | [|]]];
    [destruct (subprocess_run P (S t) _) as [result | [|]] |..];
    cbn [d_events d_result fst snd subprocesses];
    (split; [repeat constructor; eexists; reflexivity |]);
    try discriminate; reflexivity.
Qed.

(** Every command of the Linux search is a [wmctrl] call. *)
Lemma find_window_linux_commands t :
  Forall (fun cmd => exists args, cmd = "wmctrl" :: args)
    (subprocesses (d_events (WindowDetector._find_window_linux P t)))
  /\ ~ In ImportWin32Gui (d_events (WindowDetector._find_window_linux P t))
  /\ d_result (WindowDetector._find_window_linux P t) <> Raise Exception.
Proof.
  assert (Hscan : forall lines t0,
            Forall (fun cmd => exists args, cmd = "wmctrl" :: args)
              (subprocesses (d_events (WindowDetector.scan_lines P lines t0)))).
  { intros lines t0. destruct (scan_lines_sound P lines t0) as [H _].
    eapply Forall_impl; [exact H |].
    intros cmd (line & _ & _ & ->). eexists. reflexivity. }
  assert (Himport : forall lines t0,
            ~ In ImportWin32Gui (d_events (WindowDetector.scan_lines P lines t0))).
  { induction lines as [| line rest IH]; intros t0.
    - cbn. tauto.
    - rewrite scan_lines_cons.
      destruct (is_game_title line && _)%bool; [| apply IH].
      destruct (subprocess_run P t0 _) as [geom | e];
        [destruct (Z.eqb (returncode geom) 0 && _)%bool |];
        cbn [d_events snd In]; intros [H | H]; try discriminate; try exact H.
      exact (IH _ H). }
  rewrite find_window_linux_cases.
  destruct (subprocess_run P t _) as [result | [|]];
    [destruct (Z.eqb (returncode result) 0);
     [cbv zeta;
      pose proof (Hscan (str_split line_feed (stdout result)) (S t)) as Hs;
      pose proof (Himport (str_split line_feed (stdout result)) (S t)) as Hi;
      destruct (d_result (WindowDetector.scan_lines P _ (S t))) as [r | [|]] |]
    |..];
    cbn [d_events d_result fst snd subprocesses];
    rewrite ?subprocesses_app; cbn [subprocesses]; rewrite ?app_nil_r;
    (split; [first [ constructor; [eexists; reflexivity | exact Hs]
                   | repeat constructor; eexists; reflexivity ] |]);
    (split; [| discriminate]);
    cbn [In]; rewrite ?in_app_iff; cbn [In];
    intros H; repeat destruct H as [H | H]; try discriminate;
    try exact H; try exact (Hi H).
Qed.

End Dispatch.

(** X18.  The window search keeps to the tool of its platform: every
    command is [osascript] on macOS, [tasklist] on Windows, [wmctrl] on
    Linux, and [win32gui] is imported on Windows only.  On any other
    system it logs the system as unsupported and returns [None] without
    running anything.  An [Exception] leaves it only on Windows, and only
    when the enumeration of the windows raised it. *)
Theorem window_search_keeps_to_its_platform (P : Platform) (t : nat) :
  let o := WindowDetector.find_uma_musume_window P t in
  let tool :=
    if String.eqb (platform_system P) "Darwin" then "osascript"
    else if String.eqb (platform_system P) "Windows" then "tasklist"
    else "wmctrl" in
  Forall (fun cmd => exists args, cmd = tool :: args) (subprocesses (d_events o))
  /\ (In ImportWin32Gui (d_events o) -> platform_system P = "Windows")
  /\ (d_result o = Raise Exception ->
      platform_system P = "Windows"
      /\ import_win32gui P t = Win32EnumWindows (Raise Exception))
  /\ (platform_system P <> "Darwin" ->
      platform_system P <> "Windows" ->
      platform_system P <> "Linux" ->
      o = (Return None, t,
           [DetectorLog ERROR (UnsupportedOperatingSystem (platform_system P))])).
Proof.
  cbv zeta. unfold WindowDetector.find_uma_musume_window.
  destruct (String.eqb_spec (platform_system P) "Darwin") as [Hd | Hd].
  - destruct (find_window_macos_commands P t) as (Hc & Hi & Hr).
    split; [exact Hc |]. split; [intros H; contradiction |].
    split; [intros H; contradiction | intros H; contradiction].
  - destruct (String.eqb_spec (platform_system P) "Windows") as [Hw | Hw].
    + destruct (find_window_windows_commands P t) as (Hc & Hr).
      split; [exact Hc |]. split; [intros _; exact Hw |].
      split; [intros H; split; [exact Hw | exact (Hr H)] |].
      intros _ H; contradiction.
    + destruct (String.eqb_spec (platform_system P) "Linux") as [Hl | Hl].
      * destruct (find_window_linux_commands P t) as (Hc & Hi & Hr).
        split; [exact Hc |]. split; [intros H; contradiction |].
        split; [intros H; contradiction |]. intros _ _ H; contradiction.
      * cbn. split; [constructor |].
        split; [intros [H | []]; discriminate |].
        split; [discriminate | reflexivity].
Qed.

(** * The properties on concrete installations *)

(** The power option matched at (10, 20) with a template of 40 by 30: the
    point clicked, (30, 35), lies inside the box. *)
Lemma click_point_is_inside_matched_box_witness :
  10 <= fst (centroid (10, 20, 50, 50)) <= 50
  /\ 20 <= snd (centroid (10, 20, 50, 50)) <= 50.
Proof.
  destruct (click_point_is_inside_matched_box
              (Scenario.showing (fun _ => Return Installation.training_frame))
              Scenario.untracked Installation.training_library "power_train"
              (Some Installation.training_frame) default_threshold
              Scenario.started 10 20 50 50)
    as (_ & Hx & Hy & _).
  - vm_compute. reflexivity.
  - intros template _. simpl. lia.
  - split; [exact Hx | exact Hy].
Defined.

(** With the skip setting and both buttons showing, the skip button is
    clicked and the start button is not looked for. *)
Lemma race_screen_skip_policy_witness :
  let W := Scenario.showing (fun _ => Return Installation.race_frame) in
  let o := handle_race_screen W Installation.skipping
             Installation.training_library Scenario.started in
  o = handle_race_screen W Installation.skipping
        (delete "race_start_button" Installation.training_library)
        Scenario.started
  /\ result_of o <> Return false.
Proof.
  intros W o.
  destruct (race_screen_skip_policy W Installation.skipping
              Installation.training_library Scenario.started) as [_ H].
  destruct (H eq_refl (Some Installation.race_frame) eq_refl) as [Hfound _].
  destruct (Hfound (10, 20, 50, 50) ltac:(vm_compute; reflexivity))
    as (Heq & _ & Hr).
  split; [exact Heq | exact Hr].
Defined.

(** When the screen cannot be grabbed, the handler of the main menu raises
    on the missing screenshot and clicks nothing. *)
Lemma capture_failure_in_handler_is_counted_witness :
  let o := handle_main_menu Installation.dark Scenario.untracked
             Scenario.library Scenario.started in
  result_of o = Raise Exception /\ clicks (events_of o) = [].
Proof.
  intros o.
  destruct (capture_failure_in_handler_is_counted Installation.dark
              Scenario.untracked Scenario.library Scenario.started)
    as (_ & H & _).
  destruct (H eq_refl) as (Hmenu & _).
  destruct (Hmenu ltac:(vm_compute; eexists; reflexivity)) as (Hr & _ & Hc).
  split; [exact Hr | exact Hc].
Defined.

(** A window search that fails before the loop ends the run at once; ten
    blank screens end it through the loop. *)
Lemma run_automation_enters_and_leaves_witness :
  (let o := run_automation Installation.no_window_system Installation.tracked
              Scenario.library 5 Scenario.started in
   result_of o = Raise Exception
   /\ running (state_of o) = true
   /\ events_of o = [Log INFO StartingAutomation; WindowQuery])
  /\ (let o := run_automation (Scenario.showing (fun _ => Return Scenario.blank))
                 Scenario.untracked Scenario.library 12 Scenario.started in
      running (state_of o) = false).
Proof.
  split.
  - intros o.
    destruct (run_automation_enters_and_leaves Installation.no_window_system
                Installation.tracked Scenario.library 5 Scenario.started)
      as (_ & H).
    exact (H Exception eq_refl eq_refl eq_refl).
  - intros o.
    destruct (run_automation_enters_and_leaves
                (Scenario.showing (fun _ => Return Scenario.blank))
                Scenario.untracked Scenario.library 12 Scenario.started)
      as (H & _).
    destruct (H ltac:(vm_compute; reflexivity)) as [Hr _]. exact Hr.
Defined.

(** On a first run the library is empty, and the main menu on the screen is
    not recognised: nothing is clicked. *)
Lemma no_templates_no_clicks_witness :
  let w := events_of
             (run_automation
                (Scenario.showing (fun _ => Return Scenario.main_menu_frame))
                Scenario.untracked
                (initial_templates Installation.first_run) 50 Scenario.started) in
  count_events is_click w = O
  /\ Forall (eq "unknown") (classifications w)
  /\ (List.length (classifications w) <= 10)%nat.
Proof.
  intros w.
  destruct (no_templates_no_clicks
              (Scenario.showing (fun _ => Return Scenario.main_menu_frame))
              Scenario.untracked
              (initial_templates Installation.first_run) 50 Scenario.started)
    as (Hc & Hu & Hl & _).
  - repeat constructor.
  - split; [exact Hc |]. split; [exact Hu | exact Hl].
Defined.

(** On the training screen with the power and the guts option showing, the
    handler passes over speed and stamina and clicks the centre of the
    power option. *)
Lemma training_clicks_first_option_found_witness :
  let W := Scenario.showing (fun _ => Return Installation.training_frame) in
  let o := handle_training_screen W Scenario.untracked
             Installation.training_library Scenario.started in
  result_of o = Return true /\ clicks (events_of o) = [(30, 35)].
Proof.
  intros W o.
  destruct (training_clicks_first_option_found W Scenario.untracked
              Installation.training_library Scenario.started
              (Some Installation.training_frame) eq_refl) as [_ H].
  specialize (H ["speed_train"; "stamina_train"] "power_train"
                ["guts_train"; "intelligence_train"; "technique_train"]
                (10, 20, 50, 50) eq_refl).
  assert (Hb : Forall (not_found W Installation.training_library
                         (Some Installation.training_frame))
                 ["speed_train"; "stamina_train"])
    by (repeat constructor; vm_compute; reflexivity).
  specialize (H Hb ltac:(vm_compute; reflexivity)).
  cbv zeta in H. destruct H as (Hr & _ & Hc & _).
  split.
  - fold o in Hr. rewrite Hr. vm_compute. reflexivity.
  - fold o in Hc. rewrite Hc. vm_compute. reflexivity.
Defined.

(** The name [training_button] comes back from [training_button.png]; the
    name of two dots does not come back from its file. *)
Lemma template_name_round_trip_witness :
  template_name_of (Installation.posix_directory []) "training_button.png"
  = "training_button"
  /\ template_name_of (Installation.posix_directory []) "...png" <> "..".
Proof.
  split.
  - destruct (template_name_round_trip (Installation.posix_directory [])
                "training_button" eq_refl) as (_ & _ & H & _).
    exact (H eq_refl).
  - destruct (template_name_round_trip (Installation.posix_directory [])
                ".." eq_refl) as (_ & _ & _ & H).
    exact (H eq_refl).
Defined.

(** Of two files named [main_menu] the later one is the template; the text
    file is ignored. *)
Lemma load_templates_keeps_last_file_witness :
  let fs := Installation.posix_directory
              ["main_menu.png"; "notes.txt"; "main_menu.jpg";
               "continue_button.jpeg"] in
  snd (fst (load_templates fs ∅)) !! "main_menu" = Some "templates/main_menu.jpg"
  /\ snd (fst (load_templates fs ∅)) !! "notes" = None.
Proof.
  intros fs.
  destruct (load_templates_keeps_last_file fs) as [H _].
  destruct (H ["main_menu.png"; "notes.txt"; "main_menu.jpg";
               "continue_button.jpeg"] eq_refl eq_refl) as (_ & Hl & _).
  split; rewrite Hl; vm_compute; reflexivity.
Defined.

(** The list box shows [main_menu] twice, the library has it once; the
    text file is in neither. *)
Lemma template_list_matches_library_witness :
  let fs := Installation.posix_directory
              ["main_menu.png"; "notes.txt"; "main_menu.jpg";
               "continue_button.jpeg"] in
  let listbox := ["main_menu"; "main_menu"; "continue_button"] in
  (In "main_menu" listbox <-> is_Some (initial_templates fs !! "main_menu"))
  /\ (In "notes" listbox <-> is_Some (initial_templates fs !! "notes")).
Proof.
  intros fs listbox.
  destruct (template_list_matches_library fs listbox
              ltac:(vm_compute; reflexivity)) as [H _].
  split; apply H.
Defined.

(** Without the file [speed_train.png] nothing is removed; the entry of
    [speed_train.jpg] is looked for under another file name. *)
Lemma delete_template_removes_png_only_witness :
  delete_template Installation.first_run ["speed_train"] [O] = (Return tt, [])
  /\ template_file
       (template_name_of Installation.first_run "speed_train.jpg")
     <> "speed_train.jpg".
Proof.
  destruct (delete_template_removes_png_only Installation.first_run
              ["speed_train"] O []) as (Hnone & _ & Hjpg & _).
  split.
  - exact (Hnone eq_refl).
  - exact (Hjpg "speed_train.jpg" eq_refl eq_refl).
Defined.

(** An answer of four numbers to the first query ends the macOS search. *)
Lemma macos_search_stops_at_first_answer_witness :
  let P := Installation.mac (String.append "100, 50, 800, 600" line_feed) in
  let o := WindowDetector._find_window_macos P O in
  d_result o = Return (Some (100, 50, 800, 600))
  /\ subprocesses (d_events o)
     = [["osascript"; "-e"; position_and_size_script "Uma Musume"]].
Proof.
  intros P o.
  destruct (macos_search_stops_at_first_answer P O) as (_ & H & _).
  exact (H (100, 50, 800, 600) ltac:(vm_compute; reflexivity)).
Defined.

(** The hidden window and the terminal are passed over; the first visible
    game window is returned with its width and height. *)
Lemma windows_search_takes_first_game_window_witness :
  WindowDetector._find_window_windows (Installation.pc Installation.desktop) O
  = (Return (Some (100, 50, 800, 600)), 1%nat, [ImportWin32Gui]).
Proof.
  destruct (windows_search_takes_first_game_window
              (Installation.pc Installation.desktop) O) as (H & _).
  exact (H Installation.desktop eq_refl).
Defined.

(** The terminal is not asked for its geometry; the game window that is
    gone is asked and passed over; the next one is asked, and fields 2 to 5
    of the reply are the answer. *)
Lemma linux_search_asks_title_lines_only_witness :
  let P := Installation.linux_with_stale_window in
  let o := WindowDetector._find_window_linux P O in
  subprocesses (d_events o)
  = [["wmctrl"; "-l"]; ["wmctrl"; "-G"; "-r"; "0x02"];
     ["wmctrl"; "-G"; "-r"; "0x03"]]
  /\ d_result o = Return (Some (100, 50, 800, 600)).
Proof.
  intros P o.
  destruct (linux_search_asks_title_lines_only P O)
    as (_ & _ & _ & _ & _ & _ & H).
  destruct (H (mkCompletedProcess 0 Installation.three_windows)
              ["0x01 0 host Terminal"; "0x02 0 host Uma Musume"]
              "0x03 0 host Pretty Derby" []
              eq_refl eq_refl eq_refl eq_refl eq_refl)
    as (Hs & Hr & _).
  split.
  - exact Hs.
  - exact (proj2 (Hr (mkCompletedProcess 0
                        "0x03 0 100 50 800 600 host Pretty Derby")
                    eq_refl eq_refl ltac:(vm_compute; lia))).
Defined.

(** With the Finder in front, the game window is reported as not active. *)
Lemma window_counts_as_active_unless_told_otherwise_witness :
  d_result (WindowDetector.is_game_window_active
              (Installation.mac (String.append "Finder" line_feed)) O)
  = Return false.
Proof.
  destruct (window_counts_as_active_unless_told_otherwise
              (Installation.mac (String.append "Finder" line_feed)) O)
    as (_ & H & _).
  apply H. split; [reflexivity |].
  exists (mkCompletedProcess 0 (String.append "Finder" line_feed)).
  repeat split; reflexivity.
Defined.

(** On FreeBSD the search logs the system and runs nothing. *)
Lemma window_search_keeps_to_its_platform_witness :
  WindowDetector.find_uma_musume_window Installation.bsd O
  = (Return None, O,
     [DetectorLog ERROR (UnsupportedOperatingSystem "FreeBSD")]).
Proof.
  destruct (window_search_keeps_to_its_platform Installation.bsd O)
    as (_ & _ & _ & H).
  apply H; discriminate.
Defined.

(** ** The range of the relative coordinates *)

(** An [int] divided by itself is exactly one. *)
Lemma int_truediv_self w : 0 < w -> int_truediv w w = Return 1%float.
Proof.
  intros Hw. destruct w as [| p | p]; try lia.
  unfold int_truediv. cbn [Z.eqb Z2SF SFdiv]. unfold SFdiv_core_binary.
  cbn [Zdigits2].
  replace (Zpos (digits2_pos p) + 0 - (Zpos (digits2_pos p) + 0)) with 0 by lia.
  change (Z.min (fexp prec emax 0) (0 - 0)) with (-53).
  change (0 - 0 - -53) with 53.
  rewrite Z.shiftl_mul_pow2 by lia.
  assert (Hq : Z.div_eucl (Zpos p * 2 ^ 53) (Zpos p) = (2 ^ 53, 0)).
  { pose proof (Z.div_mul (2 ^ 53) (Zpos p) ltac:(lia)) as Hd.
    pose proof (Z.mod_mul (2 ^ 53) (Zpos p) ltac:(lia)) as Hm.
    rewrite (Z.mul_comm (2 ^ 53)) in Hd, Hm.
    unfold Z.div in Hd. unfold Z.modulo in Hm.
    destruct (Z.div_eucl (Zpos p * 2 ^ 53) (Zpos p)) as [q r].
    subst q r. reflexivity. }
  rewrite Hq. unfold new_location, new_location_even, new_location_odd.
  destruct (Z.even (Zpos p)); vm_compute; reflexivity.
Qed.

(** A float of value at most one with a normal mantissa is at most [1.0]
    in the order of the floats. *)
Lemma leb_one_of_value m e :
  SpecFloat.bounded prec emax m e = true ->
  2 ^ 52 <= Zpos m < 2 ^ 53 ->
  (F2R (Zpos m) e <= 1)%R ->
  PrimFloat.leb 0 (SF2Prim (S754_finite false m e)) = true
  /\ PrimFloat.leb (SF2Prim (S754_finite false m e)) 1 = true.
Proof.
  intros Hb Hm Hv.
  rewrite !leb_spec, (Prim2SF_SF2Prim_finite _ _ _ Hb).
  split; [reflexivity |].
  change (Prim2SF 1) with (S754_finite false 4503599627370496 (-52)).
  unfold SFleb, SFcompare.
  assert (He : e <= -52).
  { destruct (Z_le_gt_dec e (-52)) as [H | H]; [exact H | exfalso].
    assert (H1 : (bpow 1 <= bpow (52 + e))%R) by (apply bpow_le; lia).
    assert (H2 : (F2R (2 ^ 52) e <= F2R (Zpos m) e)%R) by (apply F2R_le; lia).
    rewrite F2R_pow2 in H2 by lia.
    assert (H3 : bpow 1 = 2%R) by (unfold bpow; simpl; lra).
    lra. }
  destruct (Z.compare_spec e (-52)) as [Heq | Hlt | Hgt]; [| reflexivity | lia].
  subst e.
  assert (Hle : Zpos m <= 2 ^ 52).
  { apply (F2R_le_inv _ _ (-52)).
    rewrite (F2R_pow2 52 (-52)) by lia. change (52 + -52) with 0.
    rewrite bpow_0. exact Hv. }
  assert (Hmeq : m = 4503599627370496%positive) by lia.
  subst m. reflexivity.
Qed.

(** One axis of [get_relative_coordinates] for a coordinate inside a
    window: a float between zero and one. *)
Lemma to_relative_range origin extent x :
  0 < extent < 2 ^ 53 -> origin <= x <= origin + extent ->
  exists rel,
    to_relative origin extent x = Return rel
    /\ PrimFloat.leb 0 rel = true
    /\ PrimFloat.leb rel 1 = true
    /\ (x = origin -> rel = 0%float)
    /\ (x = origin + extent -> rel = 1%float).
Proof.
  intros He Hx. unfold to_relative.
  destruct (Z.eq_dec (x - origin) 0) as [H0 | H0].
  - rewrite H0, int_truediv_zero by lia.
    exists (SF2Prim (S754_zero false)).
    split; [reflexivity |]. split; [reflexivity |]. split; [reflexivity |].
    split; [reflexivity | intros; lia].
  - destruct (Z.eq_dec (x - origin) extent) as [H1 | H1].
    + rewrite H1, int_truediv_self by lia.
      exists 1%float.
      split; [reflexivity |]. split; [reflexivity |]. split; [reflexivity |].
      split; [intros; lia | reflexivity].
    + destruct (int_truediv_faithful (x - origin) extent
                  ltac:(lia) ltac:(lia) ltac:(lia) ltac:(lia))
        as (m & e & lo & E & Hr & Hb & Hlo & Hq & Hme & Hm & _).
      assert (Hlt : (IZR (x - origin) / IZR extent < 1)%R).
      { assert (Hw : (0 < IZR extent)%R) by (apply IZR_lt; lia).
        apply Rmult_lt_reg_r with (r := IZR extent); [exact Hw |].
        replace (IZR (x - origin) / IZR extent * IZR extent)%R
          with (IZR (x - origin)) by (field; lra).
        rewrite Rmult_1_l. apply IZR_lt. lia. }
      assert (Hv : (F2R (Zpos m) e <= 1)%R).
      { destruct Hme as [-> | ->]; [lra |].
        assert (HE : E <= -53).
        { destruct (Z_le_gt_dec E (-53)) as [H | H]; [exact H | exfalso].
          assert (H2 : (F2R (2 ^ 52) E <= F2R lo E)%R) by (apply F2R_le; lia).
          rewrite F2R_pow2 in H2 by lia.
          assert (H3 : (bpow 0 <= bpow (52 + E))%R) by (apply bpow_le; lia).
          rewrite bpow_0 in H3. lra. }
        assert (H4 : (F2R (lo + 1) E <= F2R (2 ^ 53) E)%R) by (apply F2R_le; lia).
        rewrite F2R_pow2 in H4 by lia.
        assert (H5 : (bpow (53 + E) <= bpow 0)%R) by (apply bpow_le; lia).
        rewrite bpow_0 in H5. lra. }
      destruct (leb_one_of_value m e Hb Hm Hv) as [L0 L1].
      exists (SF2Prim (S754_finite false m e)).
      split; [exact Hr |]. split; [exact L0 |]. split; [exact L1 |].
      split; intros; lia.
Qed.

Lemma int_truediv_raises a b e : int_truediv a b = Raise e -> e = Exception.
Proof.
  unfold int_truediv, finite_float.
  destruct (Z.eqb b 0); [intros H; injection H as <-; reflexivity |].
  destruct (SFdiv prec emax (Z2SF a) (Z2SF b)); intros H;
    try discriminate; injection H as <-; reflexivity.
Qed.

(** X19.  With a cached window of positive width and height below 2^53
    pixels, [get_relative_coordinates] maps a point inside the window to a
    pair of floats between 0.0 and 1.0: the origin of the window to exactly
    0.0 and its far edge to exactly 1.0 on each axis; it has no effect.  A
    cached window of width or height zero makes it raise. *)
Theorem relative_coordinates_lie_in_unit_square {Frame Template : Type}
    (W : World Frame Template) (s : State)
    (window_x window_y window_w window_h x y : Z) :
  window_rect s = Some (window_x, window_y, window_w, window_h) ->
  let o := get_relative_coordinates W x y s in
  (window_w = 0 \/ window_h = 0 -> result_of o = Raise Exception)
  /\ (0 < window_w < 2 ^ 53 -> 0 < window_h < 2 ^ 53 ->
      window_x <= x <= window_x + window_w ->
      window_y <= y <= window_y + window_h ->
      exists rel_x rel_y,
        o = (Return (rel_x, rel_y), s, [])
        /\ PrimFloat.leb 0 rel_x = true /\ PrimFloat.leb rel_x 1 = true
        /\ PrimFloat.leb 0 rel_y = true /\ PrimFloat.leb rel_y 1 = true
        /\ (x = window_x -> rel_x = 0%float)
        /\ (x = window_x + window_w -> rel_x = 1%float)
        /\ (y = window_y -> rel_y = 0%float)
        /\ (y = window_y + window_h -> rel_y = 1%float)).
Proof.
  intros Hrect. cbv zeta.
  assert (Hm : get_relative_coordinates W x y s
               = match to_relative window_x window_w x with
                 | Return rel_x =>
                     match to_relative window_y window_h y with
                     | Return rel_y => (Return (rel_x, rel_y), s, [])
                     | Raise e => (Raise e, s, [])
                     end
                 | Raise e => (Raise e, s, [])
                 end).
  { unfold get_relative_coordinates. rewrite bind_gets, Hrect.
    rewrite bind_lift_res.
    destruct (to_relative window_x window_w x) as [rel_x | e]; [| reflexivity].
    rewrite bind_lift_res.
    destruct (to_relative window_y window_h y) as [rel_y | e]; reflexivity. }
  rewrite Hm. split.
  - intros Hzero. unfold to_relative.
    destruct (int_truediv (x - window_x) window_w) as [rel_x | e] eqn:Ex.
    + destruct Hzero as [-> | ->]; [discriminate Ex |].
      reflexivity.
    + rewrite (int_truediv_raises _ _ _ Ex). reflexivity.
  - intros Hw Hh Hx Hy.
    destruct (to_relative_range window_x window_w x Hw Hx)
      as (rel_x & -> & Hx0 & Hx1 & Hxo & Hxe).
    destruct (to_relative_range window_y window_h y Hh Hy)
      as (rel_y & -> & Hy0 & Hy1 & Hyo & Hye).
    exists rel_x, rel_y. repeat split; assumption.
Qed.

(** The centre of the window of the test worlds has relative coordinates
    in the unit square; a window without width has none. *)
Lemma relative_coordinates_lie_in_unit_square_witness :
  (exists rel_x rel_y,
      get_relative_coordinates
        (Scenario.showing (fun _ => Return Scenario.blank)) 500 350
        Scenario.cached
      = (Return (rel_x, rel_y), Scenario.cached, [])
      /\ PrimFloat.leb 0 rel_x = true /\ PrimFloat.leb rel_x 1 = true
      /\ PrimFloat.leb 0 rel_y = true /\ PrimFloat.leb rel_y 1 = true)
  /\ result_of
       (get_relative_coordinates
          (Scenario.showing (fun _ => Return Scenario.blank)) 500 350
          Installation.flat_window)
     = Raise Exception.
Proof.
  split.
  - destruct (relative_coordinates_lie_in_unit_square
                (Scenario.showing (fun _ => Return Scenario.blank))
                Scenario.cached 100 50 800 600 500 350 eq_refl) as [_ H].
    destruct H as (rel_x & rel_y & Ho & Hx0 & Hx1 & Hy0 & Hy1 & _);
      try (split; reflexivity); try lia.
    exists rel_x, rel_y. repeat split; assumption.
  - destruct (relative_coordinates_lie_in_unit_square
                (Scenario.showing (fun _ => Return Scenario.blank))
                Installation.flat_window 100 50 0 600 500 350 eq_refl) as [H _].
    apply H. left. reflexivity.
Defined.

(** ** Why the loop ends *)

Section ExitReasons.

Context {Frame Template : Type}.
Variable W : World Frame Template.
Variable config : Config.
Variable templates : gmap string Template.

(** An iteration leaves the flag [running] alone. *)
Lemma iteration_keeps_running :
  follows (fun s => running s = true) (fun _ _ => True) (fun _ => True)
    (iteration W config templates).
Proof.
  apply follows_iteration; auto;
    try (intros; split; [assumption | exact Logic.I]).
  intros s Hs.
  destruct (window_untouched W s Logic.I) as (_ & (Hr & _) & _).
  split; [rewrite Hr; exact Hs |]. split; [exact Logic.I |].
  apply List.Forall_forall. intros; exact Logic.I.
Qed.

(** An iteration that ends the loop has logged why. *)
Lemma iteration_break_reason s :
  result_of (iteration W config templates s) = Return Break ->
  In (Log ERROR TooManyUnknownScreens) (events_of (iteration W config templates s))
  \/ In (Log INFO AutomationStoppedByUser)
       (events_of (iteration W config templates s)).
Proof.
  pose proof (iteration_body_ends W config templates s) as H.
  cbv zeta in H. unfold iteration.
  destruct (iteration_body W config templates s) as [[[[|] | [|]] s1] w1];
    cbn [result_of events_of fst snd] in *; try discriminate; intros _.
  - left. destruct H as (w & ->). apply in_or_app. right. left. reflexivity.
  - right. apply in_or_app. right. left. reflexivity.
Qed.

Lemma automation_loop_exit_reason fuel :
  forall s,
    running s = true ->
    result_of (automation_loop W config templates fuel s) = Return LoopExited ->
    In (Log ERROR TooManyUnknownScreens)
      (events_of (automation_loop W config templates fuel s))
    \/ In (Log INFO AutomationStoppedByUser)
         (events_of (automation_loop W config templates fuel s))
    \/ exists t, stop_requested W t = true.
Proof.
  induction fuel as [| fuel IH]; intros s Hs; [discriminate |].
  rewrite automation_loop_S. cbv zeta.
  destruct (stop_requested W (clock s)) eqn:Estop;
    [intros _; right; right; exists (clock s); exact Estop |].
  replace (running (tick s)) with true by (symmetry; exact Hs).
  destruct (iteration_keeps_running (tick s) Hs) as (Hrun & _).
  pose proof (iteration_break_reason (tick s)) as Hbreak.
  destruct (result_of (iteration W config templates (tick s))) as [[|] | e];
    cbn [result_of events_of fst snd]; [| | discriminate].
  - intros Hexit. destruct (IH _ Hrun Hexit) as [H | [H | H]].
    + left. apply in_or_app. right. exact H.
    + right. left. apply in_or_app. right. exact H.
    + right. right. exact H.
  - intros _. rewrite app_nil_r.
    destruct (Hbreak eq_refl) as [H | H]; [left | right; left]; exact H.
Qed.

End ExitReasons.

(** X21.  When [run_automation] returns with the loop left, there is a
    reason: the drift stop was logged, or the user's interrupt was logged,
    or the flag [running] was cleared from outside.  The loop is not left
    silently by a failed capture, an error keyword, a handler's failure or
    a caught exception. *)
Theorem loop_ends_for_a_reason {Frame Template : Type}
    (W : World Frame Template) (config : Config)
    (templates : gmap string Template) (fuel : nat) (s : State) :
  let o := run_automation W config templates fuel s in
  result_of o = Return LoopExited ->
  In (Log ERROR TooManyUnknownScreens) (events_of o)
  \/ In (Log INFO AutomationStoppedByUser) (events_of o)
  \/ exists t, stop_requested W t = true.
Proof.
  cbv zeta.
  pose proof (run_automation_parts W config templates fuel s) as H.
  cbv zeta in H.
  pose proof (window_setup_cases W config (set_running true s)) as Hsetup.
  match type of Hsetup with
  | ?x = _ => set (setup := x) in *
  end.
  assert (Hrun : running (state_of setup) = true).
  { rewrite Hsetup.
    destruct (window_detection_enabled config); [| reflexivity].
    destruct (window_rect (set_running true s)); [reflexivity |].
    destruct (find_uma_musume_window W _) as [[r |] | e]; reflexivity. }
  destruct (result_of setup) as [u | e]; [| rewrite H; discriminate].
  pose proof (automation_loop_exit_reason W config templates fuel
                (set_consecutive_unknown_screens 0 (state_of setup)) Hrun)
    as Hloop.
  destruct (automation_loop_returns W config templates fuel
              (set_consecutive_unknown_screens 0 (state_of setup)))
    as [status Hs].
  rewrite Hs in H, Hloop. destruct status; rewrite H; [| discriminate].
  intros _. cbn [events_of snd].
  destruct (Hloop eq_refl) as [Hd | [Hi | Hr]].
  - left. right. apply in_or_app. right. apply in_or_app. left. exact Hd.
  - right. left. right. apply in_or_app. right. apply in_or_app. left. exact Hi.
  - right. right. exact Hr.
Qed.

(** Ten blank screens: the loop is left with the drift stop logged. *)
Lemma loop_ends_for_a_reason_witness :
  let o := run_automation (Scenario.showing (fun _ => Return Scenario.blank))
             Scenario.untracked Scenario.library 12 Scenario.started in
  In (Log ERROR TooManyUnknownScreens) (events_of o)
  \/ In (Log INFO AutomationStoppedByUser) (events_of o)
  \/ exists t, stop_requested (Scenario.showing (fun _ => Return Scenario.blank)) t
               = true.
Proof.
  intros o.
  apply (loop_ends_for_a_reason
           (Scenario.showing (fun _ => Return Scenario.blank))
           Scenario.untracked Scenario.library 12 Scenario.started).
  vm_compute. reflexivity.
Defined.

(** ** The capture buttons of the template creator *)

Section CaptureButtons.

Context {Image : Type}.
Variable P : Platform.
Variable canvas : Canvas Image.

Lemma search_events_only (w : list detector_event) (e : creator_event) :
  In e (map Search w) -> exists d, e = Search d.
Proof.
  intros H. apply in_map_iff in H. destruct H as (d & <- & _). exists d. reflexivity.
Qed.

(** [capture_screen] by cases on the grab and on the drawing. *)
Lemma creator_capture_screen_cases t :
  TemplateCreator.capture_screen canvas t
  = match grab canvas t None with
    | Return screenshot =>
        match display_screenshot canvas screenshot with
        | Return _ =>
            (Return tt, S t,
             [GrabImage None; DisplayScreenshot;
              MessageBox INFO "Success" "Screenshot captured successfully!"])
        | Raise Exception =>
            (Return tt, S t,
             [GrabImage None; DisplayScreenshot;
              MessageBox ERROR "Error" "Failed to capture screenshot: "])
        | Raise KeyboardInterrupt =>
            (Raise KeyboardInterrupt, S t, [GrabImage None; DisplayScreenshot])
        end
    | Raise Exception =>
        (Return tt, S t,
         [GrabImage None;
          MessageBox ERROR "Error" "Failed to capture screenshot: "])
    | Raise KeyboardInterrupt => (Raise KeyboardInterrupt, S t, [GrabImage None])
    end.
Proof.
  unfold TemplateCreator.capture_screen, d_try, d_bind,
    TemplateCreator.grab_image, TemplateCreator.display, TemplateCreator.message.
  destruct (grab canvas t None) as [screenshot | [|]]; try reflexivity.
  destruct (display_screenshot canvas screenshot) as [[] | [|]]; reflexivity.
Qed.

(** The region asked of a new detector, from the answer of the search. *)
Lemma creator_get_game_region_cases t :
  TemplateCreator.get_game_region P t
  = (match d_result (WindowDetector.find_uma_musume_window P t) with
     | Return (Some rect) => Return (Some (box_of_rect rect))
     | Return None => Return None
     | Raise e => Raise e
     end,
     d_clock (WindowDetector.find_uma_musume_window P t),
     d_events (WindowDetector.find_uma_musume_window P t)).
Proof.
  unfold TemplateCreator.get_game_region, d_bind.
  destruct (WindowDetector.find_uma_musume_window P t)
    as [[[[[[[x y] width] height] |] | e] t1] w1]; cbn;
    rewrite ?app_nil_r; reflexivity.
Qed.

(** [capture_game_window] by cases on the search, the grab of the region
    and the drawing. *)
Lemma capture_game_window_cases t :
  let found := WindowDetector.find_uma_musume_window P t in
  let t1 := d_clock found in
  let w1 := map Search (d_events found) in
  let fallback := TemplateCreator.capture_screen canvas in
  let failed := MessageBox ERROR "Error" "Failed to capture game window: " in
  TemplateCreator.capture_game_window P canvas t
  = match d_result found with
    | Return (Some rect) =>
        match grab canvas t1 (Some (box_of_rect rect)) with
        | Return screenshot =>
            match display_screenshot canvas screenshot with
            | Return _ =>
                (Return tt, S t1,
                 w1 ++ [GrabImage (Some (box_of_rect rect)); DisplayScreenshot;
                        MessageBox INFO "Success"
                          "Game window captured successfully!"])
            | Raise Exception =>
                (d_result (fallback (S t1)), d_clock (fallback (S t1)),
                 (w1 ++ [GrabImage (Some (box_of_rect rect)); DisplayScreenshot])
                 ++ failed :: d_events (fallback (S t1)))
            | Raise KeyboardInterrupt =>
                (Raise KeyboardInterrupt, S t1,
                 w1 ++ [GrabImage (Some (box_of_rect rect)); DisplayScreenshot])
            end
        | Raise Exception =>
            (d_result (fallback (S t1)), d_clock (fallback (S t1)),
             (w1 ++ [GrabImage (Some (box_of_rect rect))])
             ++ failed :: d_events (fallback (S t1)))
        | Raise KeyboardInterrupt =>
            (Raise KeyboardInterrupt, S t1,
             w1 ++ [GrabImage (Some (box_of_rect rect))])
        end
    | Return None =>
        (d_result (fallback t1), d_clock (fallback t1),
         w1 ++ MessageBox WARNING "Warning"
                 "Game window not detected. Capturing full screen instead."
               :: d_events (fallback t1))
    | Raise Exception =>
        (d_result (fallback t1), d_clock (fallback t1),
         w1 ++ failed :: d_events (fallback t1))
    | Raise KeyboardInterrupt => (Raise KeyboardInterrupt, t1, w1)
    end.
Proof.
  cbv zeta. unfold TemplateCreator.capture_game_window, d_try.
  unfold d_bind at 1, TemplateCreator.searching.
  rewrite creator_get_game_region_cases.
  destruct (WindowDetector.find_uma_musume_window P t) as [[r t1] w1].
  cbn [d_result d_clock d_events fst snd].
  destruct r as [[rect |] | [|]].
  - unfold d_bind, TemplateCreator.grab_image, TemplateCreator.display,
      TemplateCreator.message.
    destruct (grab canvas t1 (Some (box_of_rect rect))) as [screenshot | [|]].
    + destruct (display_screenshot canvas screenshot) as [[] | [|]];
        [reflexivity | reflexivity |].
      destruct (TemplateCreator.capture_screen canvas (S t1)) as [[r2 t2] w2].
      reflexivity.
    + reflexivity.
    + destruct (TemplateCreator.capture_screen canvas (S t1)) as [[r2 t2] w2].
      reflexivity.
  - unfold d_bind, TemplateCreator.message.
    pose proof (creator_capture_screen_cases t1) as Hc.
    destruct (TemplateCreator.capture_screen canvas t1) as [[[[] | [|]] t2] w2];
      try reflexivity.
    exfalso. revert Hc.
    destruct (grab canvas t1 None) as [screenshot | [|]];
      [destruct (display_screenshot canvas screenshot) as [[] | [|]] |..];
      discriminate.
  - reflexivity.
  - unfold d_bind, TemplateCreator.message.
    destruct (TemplateCreator.capture_screen canvas t1) as [[r2 t2] w2].
    reflexivity.
Qed.

End CaptureButtons.

(** X22.  The button "Capture Game Window" never leaves an [Exception] to
    the caller, and when the game window is not captured it falls back to
    the full screen: a run that returns has either reported the capture of
    the game window and grabbed no full screen, or it has attempted a grab
    of the full screen.  This holds whatever the window search does, also
    when it raises.  A region it grabs is the one of the rectangle the
    search found, and the capture of the window is reported only after the
    grab of that region and its drawing have succeeded. *)
Theorem capture_game_window_falls_back_to_full_screen {Image : Type}
    (P : Platform) (canvas : Canvas Image) (t : nat) :
  let o := TemplateCreator.capture_game_window P canvas t in
  let found := WindowDetector.find_uma_musume_window P t in
  let captured :=
    MessageBox INFO "Success" "Game window captured successfully!" in
  d_result o <> Raise Exception
  /\ (d_result o = Return tt ->
      (In captured (d_events o) /\ ~ In (GrabImage None) (d_events o))
      \/ (~ In captured (d_events o) /\ In (GrabImage None) (d_events o)))
  /\ (forall region,
        In (GrabImage (Some region)) (d_events o) ->
        exists rect,
          d_result found = Return (Some rect) /\ region = box_of_rect rect)
  /\ (In captured (d_events o) ->
      exists rect screenshot,
        d_result found = Return (Some rect)
        /\ grab canvas (d_clock found) (Some (box_of_rect rect))
           = Return screenshot
        /\ display_screenshot canvas screenshot = Return tt).
Proof.
  cbv zeta. rewrite capture_game_window_cases. cbv zeta.
  assert (Hsearch : forall e,
            In e (map Search (d_events (WindowDetector.find_uma_musume_window P t))) ->
            exists d, e = Search d) by (intros e; apply search_events_only).
  set (w1 := map Search _) in *. clearbody w1.
  set (t1 := d_clock _). 
  assert (Hfall : forall t0,
            let f := TemplateCreator.capture_screen canvas t0 in
            d_result f <> Raise Exception
            /\ In (GrabImage None) (d_events f)
            /\ (forall e, In e (d_events f) ->
                  e = GrabImage None \/ e = DisplayScreenshot
                  \/ exists kind title text,
                       e = MessageBox kind title text
                       /\ text <> "Game window captured successfully!")).
  { intros t0. cbv zeta. rewrite creator_capture_screen_cases.
    destruct (grab canvas t0 None) as [screenshot | [|]];
      [destruct (display_screenshot canvas screenshot) as [[] | [|]] |..];
      cbn [d_result d_events fst snd];
      (split; [discriminate |]); (split; [left; reflexivity |]);
      intros e He; cbn [In] in He;
      repeat (destruct He as [<- | He]; [auto |]); try contradiction;
      right; right.
    all: eexists _, _, _; split; [reflexivity | discriminate]. }
  assert (Hnot_captured : forall t0,
            ~ In (MessageBox INFO "Success" "Game window captured successfully!")
                (d_events (TemplateCreator.capture_screen canvas t0))).
  { intros t0 Hin. destruct (Hfall t0) as (_ & _ & H).
    destruct (H _ Hin) as [H1 | [H1 | (kind & title & text & H1 & H2)]];
      try discriminate.
    injection H1 as _ _ <-. apply H2. reflexivity. }
  assert (Hno_region : forall t0 region,
            ~ In (GrabImage (Some region))
                (d_events (TemplateCreator.capture_screen canvas t0))).
  { intros t0 region Hin. destruct (Hfall t0) as (_ & _ & H).
    destruct (H _ Hin) as [H1 | [H1 | (kind & title & text & H1 & _)]];
      discriminate. }
  assert (Hw1 : forall e, In e w1 ->
                  e <> GrabImage None
                  /\ e <> MessageBox INFO "Success" "Game window captured successfully!"
                  /\ forall region, e <> GrabImage (Some region)).
  { intros e He. destruct (Hsearch e He) as [d ->].
    split; [discriminate |]. split; [discriminate |].
    intros region; discriminate. }
  destruct (d_result (WindowDetector.find_uma_musume_window P t))
    as [[rect |] | [|]].
  - destruct (grab canvas t1 (Some (box_of_rect rect)))
      as [screenshot | [|]] eqn:Eg.
    + destruct (display_screenshot canvas screenshot) as [[] | [|]] eqn:Edisp;
        cbn [d_result d_events fst snd].
      * split; [discriminate |]. split; [| split].
        -- intros _. left. split.
           ++ apply in_or_app. right. simpl. tauto.
           ++ intros Hin. apply in_app_or in Hin. destruct Hin as [Hin | Hin].
              ** destruct (Hw1 _ Hin) as (H & _). apply H. reflexivity.
              ** simpl in Hin. destruct Hin as [H | [H | [H | []]]]; discriminate.
        -- intros region Hin. apply in_app_or in Hin. destruct Hin as [Hin | Hin].
           ++ destruct (Hw1 _ Hin) as (_ & _ & H). exfalso. apply (H region). reflexivity.
           ++ simpl in Hin. destruct Hin as [H | [H | [H | []]]]; try discriminate.
              injection H as <-. exists rect. split; reflexivity.
        -- intros _. exists rect, screenshot.
           split; [reflexivity | split; [exact Eg | exact Edisp]].
      * split; [discriminate |]. split; [discriminate |]. split.
        -- intros region Hin. rewrite !in_app_iff in Hin. simpl in Hin.
           destruct Hin as [Hin | [H | [H | []]]]; try discriminate.
           ++ destruct (Hw1 _ Hin) as (_ & _ & H). exfalso. apply (H region). reflexivity.
           ++ injection H as <-. exists rect. split; reflexivity.
        -- intros Hin. exfalso. rewrite !in_app_iff in Hin. simpl in Hin.
           destruct Hin as [Hin | [H | [H | []]]]; try discriminate.
           destruct (Hw1 _ Hin) as (_ & H & _). apply H. reflexivity.
      * destruct (Hfall (S t1)) as (Hr & Hg & _).
        split; [exact Hr |]. split; [| split].
        -- intros _. right. split.
           ++ intros Hin. rewrite !in_app_iff in Hin. simpl in Hin.
              destruct Hin as [[Hin | [H | [H | []]]] | [H | Hin]]; try discriminate.
              ** destruct (Hw1 _ Hin) as (_ & H & _). apply H. reflexivity.
              ** exact (Hnot_captured _ Hin).
           ++ apply in_or_app. right. right. exact Hg.
        -- intros region Hin. rewrite !in_app_iff in Hin. simpl in Hin.
           destruct Hin as [[Hin | [H | [H | []]]] | [H | Hin]]; try discriminate.
           ++ destruct (Hw1 _ Hin) as (_ & _ & H). exfalso. apply (H region). reflexivity.
           ++ injection H as <-. exists rect. split; reflexivity.
           ++ exfalso. exact (Hno_region _ _ Hin).
        -- intros Hin. exfalso. rewrite !in_app_iff in Hin. simpl in Hin.
           destruct Hin as [[Hin | [H | [H | []]]] | [H | Hin]]; try discriminate.
           ++ destruct (Hw1 _ Hin) as (_ & H & _). apply H. reflexivity.
           ++ exact (Hnot_captured _ Hin).
    + cbn [d_result d_events fst snd].
      split; [discriminate |]. split; [discriminate |]. split.
      * intros region Hin. rewrite !in_app_iff in Hin. simpl in Hin.
        destruct Hin as [Hin | [H | []]]; try discriminate.
        -- destruct (Hw1 _ Hin) as (_ & _ & H). exfalso. apply (H region). reflexivity.
        -- injection H as <-. exists rect. split; reflexivity.
      * intros Hin. exfalso. rewrite !in_app_iff in Hin. simpl in Hin.
        destruct Hin as [Hin | [H | []]]; try discriminate.
        destruct (Hw1 _ Hin) as (_ & H & _). apply H. reflexivity.
    + cbn [d_result d_events fst snd].
      destruct (Hfall (S t1)) as (Hr & Hg & _).
      split; [exact Hr |]. split; [| split].
      * intros _. right. split.
        -- intros Hin. rewrite !in_app_iff in Hin. simpl in Hin.
           destruct Hin as [[Hin | [H | []]] | [H | Hin]]; try discriminate.
           ++ destruct (Hw1 _ Hin) as (_ & H & _). apply H. reflexivity.
           ++ exact (Hnot_captured _ Hin).
        -- apply in_or_app. right. right. exact Hg.
      * intros region Hin. rewrite !in_app_iff in Hin. simpl in Hin.
        destruct Hin as [[Hin | [H | []]] | [H | Hin]]; try discriminate.
        -- destruct (Hw1 _ Hin) as (_ & _ & H). exfalso. apply (H region). reflexivity.
        -- injection H as <-. exists rect. split; reflexivity.
        -- exfalso. exact (Hno_region _ _ Hin).
      * intros Hin. exfalso. rewrite !in_app_iff in Hin. simpl in Hin.
        destruct Hin as [[Hin | [H | []]] | [H | Hin]]; try discriminate.
        -- destruct (Hw1 _ Hin) as (_ & H & _). apply H. reflexivity.
        -- exact (Hnot_captured _ Hin).
  - cbn [d_result d_events fst snd].
    destruct (Hfall t1) as (Hr & Hg & _).
    split; [exact Hr |]. split; [| split].
    + intros _. right. split.
      * intros Hin. rewrite !in_app_iff in Hin. simpl in Hin.
        destruct Hin as [Hin | [H | Hin]]; try discriminate.
        -- destruct (Hw1 _ Hin) as (_ & H & _). apply H. reflexivity.
        -- exact (Hnot_captured _ Hin).
      * apply in_or_app. right. right. exact Hg.
    + intros region Hin. exfalso. rewrite !in_app_iff in Hin. simpl in Hin.
      destruct Hin as [Hin | [H | Hin]]; try discriminate.
      * destruct (Hw1 _ Hin) as (_ & _ & H). apply (H region). reflexivity.
      * exact (Hno_region _ _ Hin).
    + intros Hin. exfalso. rewrite !in_app_iff in Hin. simpl in Hin.
      destruct Hin as [Hin | [H | Hin]]; try discriminate.
      * destruct (Hw1 _ Hin) as (_ & H & _). apply H. reflexivity.
      * exact (Hnot_captured _ Hin).
  - cbn [d_result d_events fst snd].
    split; [discriminate |]. split; [discriminate |]. split.
    + intros region Hin. exfalso.
      destruct (Hw1 _ Hin) as (_ & _ & H). apply (H region). reflexivity.
    + intros Hin. exfalso.
      destruct (Hw1 _ Hin) as (_ & H & _). apply H. reflexivity.
  - cbn [d_result d_events fst snd].
    destruct (Hfall t1) as (Hr & Hg & _).
    split; [exact Hr |]. split; [| split].
    + intros _. right. split.
      * intros Hin. rewrite !in_app_iff in Hin. simpl in Hin.
        destruct Hin as [Hin | [H | Hin]]; try discriminate.
        -- destruct (Hw1 _ Hin) as (_ & H & _). apply H. reflexivity.
        -- exact (Hnot_captured _ Hin).
      * apply in_or_app. right. right. exact Hg.
    + intros region Hin. exfalso. rewrite !in_app_iff in Hin. simpl in Hin.
      destruct Hin as [Hin | [H | Hin]]; try discriminate.
      * destruct (Hw1 _ Hin) as (_ & _ & H). apply (H region). reflexivity.
      * exact (Hno_region _ _ Hin).
    + intros Hin. exfalso. rewrite !in_app_iff in Hin. simpl in Hin.
      destruct Hin as [Hin | [H | Hin]]; try discriminate.
      * destruct (Hw1 _ Hin) as (_ & H & _). apply H. reflexivity.
      * exact (Hnot_captured _ Hin).
Qed.

(** On a system the search does not know, the button reports no window and
    grabs the full screen. *)
Lemma capture_game_window_falls_back_to_full_screen_witness :
  let w := d_events (TemplateCreator.capture_game_window Installation.bsd
                       Installation.studio O) in
  let captured :=
    MessageBox INFO "Success" "Game window captured successfully!" in
  (In captured w /\ ~ In (GrabImage None) w)
  \/ (~ In captured w /\ In (GrabImage None) w).
Proof.
  intros w captured.
  destruct (capture_game_window_falls_back_to_full_screen Installation.bsd
              Installation.studio O) as (_ & H & _).
  apply H. vm_compute. reflexivity.
Defined.

(** * The counters, the faults and the screenshots, in full *)

(** ** [click_at] by cases *)

Section ClickCases.

Context {Frame Template : Type}.
Variable W : World Frame Template.
Variable config : Config.

(** What precedes the click never raises an [Exception], leaves the
    session counters alone and logs no failed click. *)
Lemma before_click_cases s :
  before_click W config s
  = if window_detection_enabled config then
      if String.eqb (system W) "Darwin" then
        match osascript_activate W (clock s) with
        | Return returncode =>
            (Return tt, tick s, [Focus; Sleep 0x1.999999999999ap-4])
        | Raise Exception =>
            (Return tt, tick s,
             [Focus; Log ERROR ErrorFocusingWindow; Sleep 0x1.999999999999ap-4])
        | Raise KeyboardInterrupt => (Raise KeyboardInterrupt, tick s, [Focus])
        end
      else (Return tt, s, [Sleep 0x1.999999999999ap-4])
    else (Return tt, s, []).
Proof.
  unfold before_click. destruct (window_detection_enabled config); [| reflexivity].
  unfold bind. rewrite focus_game_window_cases.
  destruct (String.eqb (system W) "Darwin"); [| reflexivity].
  destruct (osascript_activate W (clock s)) as [rc | [|]]; reflexivity.
Qed.

(** [click_at], from what precedes the click and the answer of the
    injector. *)
Lemma click_at_cases x y delay s :
  let p := before_click W config s in
  click_at W config x y delay s
  = match result_of p with
    | Return _ =>
        match pyautogui_click W (clock (state_of p)) x y with
        | Return _ =>
            (Return tt, tick (state_of p),
             events_of p ++ [Click x y; Sleep delay; Log INFO (ClickedAt x y)])
        | Raise Exception =>
            (Return tt, bump_errors (tick (state_of p)),
             events_of p ++ [Click x y; Log ERROR (FailedToClickAt x y)])
        | Raise KeyboardInterrupt =>
            (Raise KeyboardInterrupt, tick (state_of p), events_of p ++ [Click x y])
        end
    | Raise _ => (Raise KeyboardInterrupt, state_of p, events_of p)
    end.
Proof.
  cbv zeta. unfold click_at. fold (before_click W config).
  pose proof (before_click_cases s) as Hp.
  destruct (before_click W config s) as [[[u | e] sp] wp] eqn:Ep;
    cbn [result_of state_of events_of fst snd].
  - unfold try_except. rewrite (bind_Return _ _ _ _ _ _ Ep).
    unfold bind, ask, sleep, log, emit, modify, bump_errors.
    destruct (pyautogui_click W (clock sp) x y) as [[] | [|]];
      cbn [fst snd app]; rewrite <- ?app_assoc; reflexivity.
  - assert (He : e = KeyboardInterrupt).
    { destruct (window_detection_enabled config); [| discriminate].
      destruct (String.eqb (system W) "Darwin"); [| discriminate].
      destruct (osascript_activate W (clock s)) as [rc | [|]];
        inversion Hp; reflexivity. }
    subst e. unfold try_except. rewrite (bind_Raise _ _ _ _ _ _ Ep). reflexivity.
Qed.

(** What precedes the click, in short. *)
Lemma before_click_quiet s :
  session_stats (state_of (before_click W config s)) = session_stats s
  /\ count_events failed_click (events_of (before_click W config s)) = O
  /\ clicks (events_of (before_click W config s)) = []
  /\ result_of (before_click W config s) <> Raise Exception.
Proof.
  rewrite before_click_cases.
  destruct (window_detection_enabled config);
    [destruct (String.eqb (system W) "Darwin");
     [destruct (osascript_activate W (clock s)) as [rc | [|]] |] |];
    cbn; repeat split; discriminate.
Qed.

End ClickCases.

(** ** After a click that could not be injected *)

Section FailedClicks.

Context {Frame Template : Type}.
Variable W : World Frame Template.
Variable config : Config.
Variable templates : gmap string Template.

(** A click that could not be injected is counted once, and [click_at]
    returns; a call that logs no such failure leaves the counters alone. *)
Lemma click_at_counts x y delay s :
  let o := click_at W config x y delay s in
  (count_events failed_click (events_of o) <> O ->
   result_of o = Return tt
   /\ session_stats (state_of o) = incr_errors_encountered (session_stats s)
   /\ exists w, events_of o = w ++ [Log ERROR (FailedToClickAt x y)])
  /\ (count_events failed_click (events_of o) = O ->
      session_stats (state_of o) = session_stats s).
Proof.
  cbv zeta. rewrite click_at_cases. cbv zeta.
  destruct (before_click_quiet W config s) as (Hs & Hf & _ & _).
  destruct (result_of (before_click W config s)) as [u | e].
  - destruct (pyautogui_click W _ x y) as [[] | [|]];
      cbn [result_of state_of events_of fst snd];
      rewrite count_events_app, Hf; cbn; (split; [intros H | intros H]);
      try contradiction; try discriminate; try (rewrite Hs; reflexivity).
    split; [reflexivity |]. split; [rewrite Hs; reflexivity |].
    exists (events_of (before_click W config s) ++ [Click x y]).
    rewrite <- app_assoc. reflexivity.
  - cbn [result_of state_of events_of fst snd]. rewrite Hf.
    split; [intros H; contradiction | intros _; exact Hs].
Qed.















End FailedClicks.

Section FailedClickInLoop.

Context {Frame Template : Type}.
Variable W : World Frame Template.
Variable config : Config.
Variable templates : gmap string Template.






End FailedClickInLoop.

(** ** Who writes the session counters *)

Section WhoCounts.

Context {Frame Template : Type}.
Variable W : World Frame Template.
Variable config : Config.
Variable templates : gmap string Template.

Local Ltac outcome_event :=
  let e := fresh "e" in
  let He := fresh "He" in
  intros e He; destruct e as [? [] | | | | |]; try discriminate He; reflexivity.

Local Ltac outcome_side :=
  first
    [ exact outcomes_kept_refl
    | exact outcomes_kept_trans
    | exact (window_outcomes W)
    | outcome_event
    | (intros; split; [exact Logic.I |];
       unfold outcomes_kept; simpl; repeat split; lia) ].

(** The four screen handlers and the fall-back of the dispatch leave the
    three outcome counters alone. *)
Lemma screen_handlers_keep_outcomes current_screen screenshot s :
  outcomes_kept s (state_of (handle_main_menu W config templates s))
  /\ outcomes_kept s (state_of (handle_training_screen W config templates s))
  /\ outcomes_kept s (state_of (handle_event_screen W config templates s))
  /\ outcomes_kept s (state_of (handle_race_screen W config templates s))
  /\ outcomes_kept s
       (state_of (click_continue_fallback W config templates
                    current_screen screenshot s)).
Proof.
  assert (Hmenu : follows (fun _ => True) outcomes_kept
                    (fun e => handles_result e = false)
                    (handle_main_menu W config templates))
    by (apply follows_handle_main_menu; outcome_side).
  assert (Htraining : follows (fun _ => True) outcomes_kept
                        (fun e => handles_result e = false)
                        (handle_training_screen W config templates))
    by (apply follows_handle_training_screen; outcome_side).
  assert (Hevent : follows (fun _ => True) outcomes_kept
                     (fun e => handles_result e = false)
                     (handle_event_screen W config templates))
    by (apply follows_handle_event_screen; outcome_side).
  assert (Hrace : follows (fun _ => True) outcomes_kept
                    (fun e => handles_result e = false)
                    (handle_race_screen W config templates))
    by (apply follows_handle_race_screen; outcome_side).
  assert (Hfallback : follows (fun _ => True) outcomes_kept
                        (fun e => handles_result e = false)
                        (click_continue_fallback W config templates
                           current_screen screenshot))
    by (apply follows_click_continue_fallback; outcome_side).
  split; [exact (proj1 (proj2 (Hmenu s Logic.I))) |].
  split; [exact (proj1 (proj2 (Htraining s Logic.I))) |].
  split; [exact (proj1 (proj2 (Hevent s Logic.I))) |].
  split; [exact (proj1 (proj2 (Hrace s Logic.I))) |].
  exact (proj1 (proj2 (Hfallback s Logic.I))).
Qed.

End WhoCounts.

Section HandlerSucceeds.

Context {Frame Template : Type}.
Variable W : World Frame Template.
Variable config : Config.
Variable templates : gmap string Template.

Lemma click_then_count_result b (incr : SessionStats -> SessionStats) s :
  result_of
    (bind (click_centre W config b)
       (fun _ => bind (modify (fun s => set_session_stats (incr (session_stats s)) s))
                   (fun _ => ret true)) s)
  = match result_of (click_centre W config b s) with
    | Return _ => Return true
    | Raise e => Raise e
    end.
Proof.
  unfold bind, modify, ret.
  destruct (click_centre W config b s) as [[[u | e] s1] w1]; reflexivity.
Qed.

Lemma handle_race_result_reports s screenshot :
  result_of (capture_screen W config None s) = Return screenshot ->
  result_of (handle_race_result W config templates s)
  = report_of
      (result_of (find_template W templates "continue_button" screenshot
                    default_threshold initial_state))
      (fun b => result_of (click_centre W config b
                             (state_of (capture_screen W config None s)))).
Proof.
  intros Hc. unfold handle_race_result. rewrite handler_after_capture.
  cbv zeta. rewrite Hc. cbn [result_of fst]. rewrite bind_find_template_cases.
  set (s1 := state_of (capture_screen W config None s)).
  rewrite (find_template_result W templates "continue_button" screenshot
             default_threshold s1 initial_state).
  unfold report_of.
  destruct (result_of (find_template W templates "continue_button" screenshot
                         default_threshold initial_state)) as [[b |] | e];
    cbn [result_of fst]; [| reflexivity | reflexivity].
  apply click_then_count_result.
Qed.

Lemma handle_training_result_reports s screenshot :
  result_of (capture_screen W config None s) = Return screenshot ->
  result_of (handle_training_result W config templates s)
  = report_of
      (result_of (find_template W templates "continue_button" screenshot
                    default_threshold initial_state))
      (fun b => result_of (click_centre W config b
                             (state_of (capture_screen W config None s)))).
Proof.
  intros Hc. unfold handle_training_result. rewrite handler_after_capture.
  cbv zeta. rewrite Hc. cbn [result_of fst]. rewrite bind_find_template_cases.
  set (s1 := state_of (capture_screen W config None s)).
  rewrite (find_template_result W templates "continue_button" screenshot
             default_threshold s1 initial_state).
  unfold report_of.
  destruct (result_of (find_template W templates "continue_button" screenshot
                         default_threshold initial_state)) as [[b |] | e];
    cbn [result_of fst]; [| reflexivity | reflexivity].
  apply click_then_count_result.
Qed.

Lemma handle_choice_screen_reports s screenshot choice_text :
  result_of (capture_screen W config None s) = Return screenshot ->
  result_of (ocr_text W screenshot None
               (state_of (capture_screen W config None s))) = Return choice_text ->
  result_of (handle_choice_screen W config templates s)
  = report_of
      (result_of (find_template W templates "choice_option_1" screenshot
                    default_threshold initial_state))
      (fun b => result_of
                  (click_centre W config b
                     (state_of (ocr_text W screenshot None
                                  (state_of (capture_screen W config None s)))))).
Proof.
  intros Hc Ho. unfold handle_choice_screen. rewrite handler_after_capture.
  cbv zeta. rewrite Hc. cbn [result_of fst].
  set (s1 := state_of (capture_screen W config None s)) in *.
  destruct (ocr_text W screenshot None s1) as [[r2 s2] w2] eqn:E2.
  cbn [result_of state_of fst snd] in *. subst r2.
  rewrite (bind_Return _ _ _ _ _ _ E2).
  cbn [fst].
  assert (Hlog : log INFO (ChoiceText choice_text) s2
                 = (Return tt, s2, [Log INFO (ChoiceText choice_text)]))
    by reflexivity.
  rewrite (bind_Return _ _ _ _ _ _ Hlog). cbn [fst].
  rewrite bind_find_template_cases.
  rewrite (find_template_result W templates "choice_option_1" screenshot
             default_threshold s2 initial_state).
  unfold report_of.
  destruct (result_of (find_template W templates "choice_option_1" screenshot
                         default_threshold initial_state)) as [[b |] | e];
    cbn [result_of fst]; [| reflexivity | reflexivity].
  apply click_then_count_result.
Qed.

End HandlerSucceeds.

(** ** What [errors_encountered] counts *)

Section Quiet.

Context {Frame Template : Type}.
Variable W : World Frame Template.
Variable config : Config.
Variable templates : gmap string Template.

Lemma quiet_ret {A} (a : A) : quiet (ret a).
Proof. intros s. split; reflexivity. Qed.

Lemma quiet_bind {A B} (m : M A) (k : A -> M B) :
  quiet m -> (forall a, quiet (k a)) -> quiet (bind m k).
Proof.
  intros Hm Hk s. specialize (Hm s). unfold bind.
  destruct (m s) as [[[a | e] s1] w1];
    unfold state_of, events_of in *; cbn [fst snd] in *; [| exact Hm].
  specialize (Hk a s1). destruct (k a s1) as [[r2 s2] w2].
  unfold state_of, events_of in Hk. cbn [fst snd] in *.
  rewrite count_events_app. split; [| lia].
  destruct Hm as [<- _]. apply Hk.
Qed.

Lemma counted_error_kind e :
  kind_of e <> Clicking -> kind_of e <> Looping -> counted_error e = false.
Proof.
  destruct e as [l m | | | | |]; try reflexivity.
  destruct m; try reflexivity; intros H1 H2; exfalso;
    first [apply H1; reflexivity | apply H2; reflexivity].
Qed.

(** A step that leaves the counters alone and writes neither line. *)
Lemma quiet_untouched {A} (P : event -> Prop) (m : M A) :
  (forall e, P e -> counted_error e = false) ->
  follows (fun _ => True) untouched P m -> quiet m.
Proof.
  intros HP H s. destruct (H s Logic.I) as (_ & (_ & _ & Hst) & Hw).
  rewrite Hst. split; [reflexivity |]. apply count_events_none.
  eapply Forall_impl; [exact Hw | exact HP].
Qed.

Lemma quiet_emit e : counted_error e = false -> quiet (emit e).
Proof. intros H s. cbn. rewrite H. split; reflexivity. Qed.

Lemma quiet_modify (f : State -> State) :
  (forall s, errors_encountered (session_stats (f s))
             = errors_encountered (session_stats s)) ->
  quiet (modify f).
Proof. intros H s. cbn. rewrite H. split; reflexivity. Qed.

Lemma quiet_gets {A} (f : State -> A) : quiet (gets f).
Proof. intros s. split; reflexivity. Qed.

Lemma quiet_capture_screen region : quiet (capture_screen W config region).
Proof.
  eapply quiet_untouched; [| apply (capture_screen_untouched W config region)].
  intros e [He | He]; apply counted_error_kind; rewrite He; discriminate.
Qed.

Lemma quiet_get_game_region : quiet (get_game_region W).
Proof.
  eapply quiet_untouched; [| apply (window_untouched_kind W)].
  intros e [He | He]; apply counted_error_kind; rewrite He; discriminate.
Qed.

Lemma quiet_find_template name screenshot threshold :
  quiet (find_template W templates name screenshot threshold).
Proof.
  intros s.
  destruct (find_template_pure W templates name screenshot threshold s)
    as [-> [-> | ->]]; split; reflexivity.
Qed.

Lemma quiet_ocr_text image region : quiet (ocr_text W image region).
Proof.
  eapply quiet_untouched; [| apply (ocr_text_untouched W image region)].
  intros e He. apply counted_error_kind; rewrite He; discriminate.
Qed.

Lemma quiet_check_for_errors screenshot : quiet (check_for_errors W screenshot).
Proof.
  eapply quiet_untouched; [| apply (check_for_errors_untouched W screenshot)].
  intros e [He | He]; apply counted_error_kind; rewrite He; discriminate.
Qed.

Lemma quiet_detect_screen screenshot :
  quiet (detect_screen W templates screenshot).
Proof.
  unfold detect_screen.
  repeat (apply quiet_bind; [apply quiet_find_template |];
          (let o := fresh "o" in intros o; destruct (truthy o));
          [apply quiet_ret |]).
  apply quiet_ret.
Qed.

Lemma quiet_count_unknown current_screen : quiet (count_unknown current_screen).
Proof.
  intros s. rewrite count_unknown_cases.
  destruct (negb _); [| destruct (Z.leb _ _)]; split; reflexivity.
Qed.

Lemma quiet_poll_running : quiet (poll_running W).
Proof.
  intros s. unfold poll_running. cbn.
  destruct (stop_requested W (clock s)); split; reflexivity.
Qed.

Lemma quiet_before_click : quiet (before_click W config).
Proof.
  intros s. rewrite before_click_cases.
  destruct (window_detection_enabled config);
    [destruct (String.eqb (system W) "Darwin");
     [destruct (osascript_activate W (clock s)) as [rc | [|]] |] |];
    split; reflexivity.
Qed.

End Quiet.

(** A property of computations that holds of the quiet steps and of
    [click_at], and is kept by sequencing, holds of every handler and of
    the statements inside the [try] of an iteration. *)
Section Accounting.

Context {Frame Template : Type}.
Variable W : World Frame Template.
Variable config : Config.
Variable templates : gmap string Template.

Variable Q : forall A : Type, M A -> Prop.
Hypothesis Q_bind :
  forall A B (m : M A) (k : A -> M B),
    Q A m -> (forall a, Q B (k a)) -> Q B (bind m k).
Hypothesis Q_quiet : forall A (m : M A), quiet m -> Q A m.
Hypothesis Q_click_at : forall x y delay, Q unit (click_at W config x y delay).

Lemma accounts_click_centre b : Q unit (click_centre W config b).
Proof. unfold click_centre. destruct (centroid b). apply Q_click_at. Qed.

Lemma accounts_click_if_found (btn : option Box) (otherwise : M bool) :
  Q bool otherwise ->
  Q bool (match btn with
          | Some b => bind (click_centre W config b) (fun _ => ret true)
          | None => otherwise
          end).
Proof.
  intros H. destruct btn; [| exact H].
  apply Q_bind; [apply accounts_click_centre |].
  intros _. apply Q_quiet, quiet_ret.
Qed.

Lemma accounts_click_and_count (btn : option Box)
    (incr : SessionStats -> SessionStats) :
  (forall st, errors_encountered (incr st) = errors_encountered st) ->
  Q bool (match btn with
          | Some b =>
              bind (click_centre W config b) (fun _ =>
              bind (modify (fun s => set_session_stats (incr (session_stats s)) s))
                   (fun _ => ret true))
          | None => ret false
          end).
Proof.
  intros H. destruct btn; [| apply Q_quiet, quiet_ret].
  apply Q_bind; [apply accounts_click_centre |]. intros _.
  apply Q_quiet, quiet_bind; [| intros _; apply quiet_ret].
  apply quiet_modify. intros s. cbn. apply H.
Qed.

Lemma accounts_try_training_options options screenshot :
  Q bool (try_training_options W config templates options screenshot).
Proof.
  induction options as [| option rest IH]; cbn [try_training_options].
  - apply Q_quiet, quiet_ret.
  - apply Q_bind; [apply Q_quiet, quiet_find_template |].
    intros btn. apply accounts_click_if_found. exact IH.
Qed.

Lemma accounts_press_race_start screenshot :
  Q bool (press_race_start W config templates screenshot).
Proof.
  unfold press_race_start.
  apply Q_bind; [apply Q_quiet, quiet_find_template |].
  intros btn. apply accounts_click_if_found, Q_quiet, quiet_ret.
Qed.

Local Ltac accounts_handler :=
  apply Q_bind; [apply Q_quiet, quiet_emit; reflexivity |]; intros _;
  apply Q_bind; [apply Q_quiet, quiet_capture_screen |]; intros ?.

Lemma accounts_dispatch current_screen screenshot :
  Q bool (dispatch W config templates current_screen screenshot).
Proof.
  unfold dispatch.
  destruct (String.eqb current_screen "main_menu").
  { unfold handle_main_menu. accounts_handler.
    apply Q_bind; [apply Q_quiet, quiet_find_template |].
    intros btn. apply accounts_click_if_found, Q_quiet, quiet_ret. }
  destruct (String.eqb current_screen "training_screen").
  { unfold handle_training_screen. accounts_handler.
    apply accounts_try_training_options. }
  destruct (String.eqb current_screen "event_screen").
  { unfold handle_event_screen. accounts_handler.
    apply Q_bind; [apply Q_quiet, quiet_find_template |].
    intros btn. apply accounts_click_if_found, Q_quiet, quiet_ret. }
  destruct (String.eqb current_screen "race_screen").
  { unfold handle_race_screen. accounts_handler.
    destruct (skip_races config); [| apply accounts_press_race_start].
    apply Q_bind; [apply Q_quiet, quiet_find_template |].
    intros btn. apply accounts_click_if_found, accounts_press_race_start. }
  destruct (String.eqb current_screen "race_result").
  { unfold handle_race_result. accounts_handler.
    apply Q_bind; [apply Q_quiet, quiet_find_template |].
    intros btn. apply accounts_click_and_count. reflexivity. }
  destruct (String.eqb current_screen "training_result").
  { unfold handle_training_result. accounts_handler.
    apply Q_bind; [apply Q_quiet, quiet_find_template |].
    intros btn. apply accounts_click_and_count. reflexivity. }
  destruct (String.eqb current_screen "choice_screen").
  { unfold handle_choice_screen. accounts_handler.
    apply Q_bind; [apply Q_quiet, quiet_ocr_text |]. intros choice_text.
    apply Q_bind; [apply Q_quiet, quiet_emit; reflexivity |]. intros _.
    apply Q_bind; [apply Q_quiet, quiet_find_template |].
    intros btn. apply accounts_click_and_count. reflexivity. }
  unfold click_continue_fallback.
  apply Q_bind; [apply Q_quiet, quiet_emit; reflexivity |]. intros _.
  apply Q_bind; [apply Q_quiet, quiet_find_template |].
  intros btn. apply accounts_click_if_found, Q_quiet, quiet_ret.
Qed.

Lemma accounts_act_on current_screen screenshot :
  Q loop_ctl (act_on W config templates current_screen screenshot).
Proof.
  unfold act_on.
  apply Q_bind; [apply Q_quiet, quiet_emit; reflexivity |]. intros _.
  apply Q_bind; [apply Q_quiet, quiet_count_unknown |]. intros [|];
    [| apply Q_quiet, quiet_ret].
  apply Q_bind; [apply accounts_dispatch |]. intros handled.
  apply Q_quiet, quiet_bind; [| intros _; apply quiet_ret].
  destruct (negb handled); apply quiet_emit; reflexivity.
Qed.

Lemma accounts_iteration_body :
  Q loop_ctl (iteration_body W config templates).
Proof.
  unfold iteration_body.
  apply Q_bind; [apply Q_quiet, quiet_capture_screen |]. intros [frame |].
  - apply Q_bind; [apply Q_quiet, quiet_check_for_errors |]. intros [|].
    + apply Q_quiet.
      apply quiet_bind; [apply quiet_emit; reflexivity |]. intros _.
      apply quiet_bind; [apply quiet_emit; reflexivity |]. intros _.
      apply quiet_ret.
    + apply Q_bind; [apply Q_quiet, quiet_detect_screen |].
      intros current_screen. apply accounts_act_on.
  - apply Q_quiet.
    apply quiet_bind; [apply quiet_emit; reflexivity |]. intros _.
    apply quiet_bind; [apply quiet_emit; reflexivity |]. intros _.
    apply quiet_ret.
Qed.

End Accounting.

Section Tally.

Context {Frame Template : Type}.
Variable W : World Frame Template.
Variable config : Config.
Variable templates : gmap string Template.

Lemma failed_click_counted e : failed_click e = true -> counted_error e = true.
Proof.
  destruct e as [l m | | | | |]; try discriminate.
  destruct m; try discriminate. reflexivity.
Qed.

Lemma count_failed_clicks_le w :
  (count_events failed_click w <= count_events counted_error w)%nat.
Proof.
  induction w as [| e w IH]; [reflexivity |]. cbn [count_events].
  pose proof (failed_click_counted e).
  destruct (failed_click e), (counted_error e);
    first [lia | discriminate (H eq_refl)].
Qed.

Lemma tallies_bind p {A B} (m : M A) (k : A -> M B) :
  tallies p m -> (forall a, tallies p (k a)) -> tallies p (bind m k).
Proof.
  intros Hm Hk s. specialize (Hm s). unfold bind.
  destruct (m s) as [[[a | e] s1] w1];
    unfold state_of, events_of in *; cbn [fst snd] in *.
  - specialize (Hk a s1). destruct (k a s1) as [[r2 s2] w2].
    unfold state_of, events_of in Hk. cbn [fst snd] in *.
    rewrite count_events_app. lia.
  - exact Hm.
Qed.

Lemma tallies_quiet {A} (m : M A) : quiet m -> tallies counted_error m.
Proof. intros H s. destruct (H s) as [-> ->]. cbn. lia. Qed.



(** [click_at] adds one exactly when it writes its line, and writes it
    only after the click has been asked for. *)
Lemma click_at_accounts x y delay s :
  let o := click_at W config x y delay s in
  errors_encountered (session_stats (state_of o))
  = errors_encountered (session_stats s)
    + Z.of_nat (count_events failed_click (events_of o))
  /\ count_events counted_error (events_of o)
     = count_events failed_click (events_of o)
  /\ (count_events failed_click (events_of o)
      <= count_events is_click (events_of o))%nat.
Proof.
  cbv zeta. rewrite click_at_cases. cbv zeta.
  destruct (quiet_before_click W config s) as [Hs Hq].
  pose proof (count_failed_clicks_le (events_of (before_click W config s))) as Hf.
  destruct (result_of (before_click W config s)) as [u | e].
  - destruct (pyautogui_click W _ x y) as [[] | [|]];
      cbn [result_of state_of events_of fst snd];
      rewrite !count_events_app; cbn; rewrite ?Hs; cbn; lia.
  - cbn [result_of state_of events_of fst snd]. rewrite Hs. lia.
Qed.

Lemma tallies_click_at x y delay :
  tallies counted_error (click_at W config x y delay).
Proof. intros s. destruct (click_at_accounts x y delay s) as (-> & -> & _). lia. Qed.



Lemma tallies_dispatch current_screen screenshot :
  tallies counted_error (dispatch W config templates current_screen screenshot).
Proof.
  apply (accounts_dispatch W config templates (fun A => @tallies A counted_error)).
  - intros A B. apply tallies_bind.
  - intros A. apply tallies_quiet.
  - apply tallies_click_at.
Qed.

Lemma tallies_iteration_body :
  tallies counted_error (iteration_body W config templates).
Proof.
  apply (accounts_iteration_body W config templates (fun A => @tallies A counted_error)).
  - intros A B. apply tallies_bind.
  - intros A. apply tallies_quiet.
  - apply tallies_click_at.
Qed.



(** The loop's [except] clause adds one and writes its line. *)
Lemma tallies_iteration : tallies counted_error (iteration W config templates).
Proof.
  intros s. pose proof (tallies_iteration_body s) as H. unfold iteration.
  destruct (iteration_body W config templates s) as [[[c | [|]] s1] w1];
    unfold state_of, events_of in *; cbn [fst snd] in *;
    rewrite ?count_events_app; cbn; lia.
Qed.

Lemma tallies_automation_loop fuel :
  tallies counted_error (automation_loop W config templates fuel).
Proof.
  induction fuel as [| fuel IH]; cbn [automation_loop];
    [apply tallies_quiet, quiet_ret |].
  apply tallies_bind; [apply tallies_quiet, quiet_poll_running |]. intros [|];
    [| apply tallies_quiet, quiet_ret].
  apply tallies_bind; [apply tallies_iteration |]. intros [|];
    [exact IH | apply tallies_quiet, quiet_ret].
Qed.

Lemma tallies_run_automation fuel :
  tallies counted_error (run_automation W config templates fuel).
Proof.
  unfold run_automation.
  apply tallies_bind; [apply tallies_quiet, quiet_emit; reflexivity |]. intros _.
  apply tallies_bind; [apply tallies_quiet, quiet_modify; reflexivity |]. intros _.
  apply tallies_bind.
  { apply tallies_quiet.
    destruct (window_detection_enabled config); [| apply quiet_ret].
    apply quiet_bind; [apply quiet_get_game_region |]. intros r.
    apply quiet_bind; [apply quiet_modify; reflexivity |]. intros _.
    destruct r; apply quiet_emit; reflexivity. }
  intros _.
  apply tallies_bind; [apply tallies_quiet, quiet_modify; reflexivity |]. intros _.
  apply tallies_bind; [apply tallies_automation_loop |]. intros [|];
    [| apply tallies_quiet, quiet_ret].
  apply tallies_quiet.
  apply quiet_bind; [apply quiet_modify; reflexivity |]. intros _.
  apply quiet_bind; [apply quiet_emit; reflexivity |]. intros _.
  apply quiet_bind; [apply quiet_gets |]. intros st.
  apply quiet_bind; [apply quiet_emit; reflexivity |]. intros _.
  apply quiet_ret.
Qed.


End Tally.

(** C5, as the code has it.  The four session counters never decrease:
    not in a run of the loop and not in any of the three handlers that
    count.  The three outcome counters are written by their result handlers
    only: a handler that counts adds exactly one to its own counter when it
    reports success and nothing otherwise ([handle_race_result] to
    [races_completed], [handle_training_result] to [training_sessions],
    [handle_choice_screen] to [events_handled]) and leaves the other two
    alone, while the four screen handlers ([handle_race_screen] among
    them), the fall-back of the dispatch, [click_at] and every other step
    of the loop leave all three alone.  A handler that counts reports
    success exactly when its button is found in its screenshot and the
    click returns.  [errors_encountered] is written
    outside the handlers: [click_at] adds one when the click cannot be
    injected, and the loop adds one for every [Exception] an iteration
    raises; capture, template matching, OCR, classification, the error scan
    and the bookkeeping of the loop leave all four counters alone.  Over a
    dispatch, an iteration and a whole run, [errors_encountered] grows by
    exactly the number of click failures and loop errors logged. *)
Theorem session_stats_monotone_and_counted {Frame Template : Type}
    (W : World Frame Template) (config : Config)
    (templates : gmap string Template) :
  (forall fuel s,
     stats_le (session_stats s)
       (session_stats (state_of (run_automation W config templates fuel s))))
  /\ (forall s,
        stats_le (session_stats s)
          (session_stats (state_of (handle_race_result W config templates s)))
        /\ stats_le (session_stats s)
             (session_stats (state_of (handle_training_result W config templates s)))
        /\ stats_le (session_stats s)
             (session_stats (state_of (handle_choice_screen W config templates s))))
  /\ (forall s,
        let o := handle_race_result W config templates s in
        races_completed (session_stats (state_of o))
        = races_completed (session_stats s) + success_count (result_of o)
        /\ training_sessions (session_stats (state_of o))
           = training_sessions (session_stats s)
        /\ events_handled (session_stats (state_of o))
           = events_handled (session_stats s))
  /\ (forall s,
        let o := handle_training_result W config templates s in
        training_sessions (session_stats (state_of o))
        = training_sessions (session_stats s) + success_count (result_of o)
        /\ races_completed (session_stats (state_of o))
           = races_completed (session_stats s)
        /\ events_handled (session_stats (state_of o))
           = events_handled (session_stats s))
  /\ (forall s,
        let o := handle_choice_screen W config templates s in
        events_handled (session_stats (state_of o))
        = events_handled (session_stats s) + success_count (result_of o)
        /\ training_sessions (session_stats (state_of o))
           = training_sessions (session_stats s)
        /\ races_completed (session_stats (state_of o))
           = races_completed (session_stats s))
  /\ (forall s,
        races_completed (session_stats (state_of (handle_race_screen W config templates s)))
        = races_completed (session_stats s))
  /\ (forall region name screenshot threshold s,
        session_stats (state_of (capture_screen W config region s)) = session_stats s
        /\ session_stats (state_of (find_template W templates name screenshot threshold s))
           = session_stats s
        /\ session_stats (state_of (ocr_text W screenshot region s)) = session_stats s
        /\ session_stats (state_of (detect_screen W templates screenshot s))
           = session_stats s
        /\ session_stats (state_of (check_for_errors W screenshot s)) = session_stats s)
  /\ (forall current_screen screenshot s,
        outcomes_kept s (state_of (handle_main_menu W config templates s))
        /\ outcomes_kept s (state_of (handle_training_screen W config templates s))
        /\ outcomes_kept s (state_of (handle_event_screen W config templates s))
        /\ outcomes_kept s (state_of (handle_race_screen W config templates s))
        /\ outcomes_kept s
             (state_of (click_continue_fallback W config templates
                          current_screen screenshot s)))
  /\ (forall x y delay s,
        let o := click_at W config x y delay s in
        (count_events failed_click (events_of o) <> O ->
         result_of o = Return tt
         /\ session_stats (state_of o) = incr_errors_encountered (session_stats s)
         /\ exists w, events_of o = w ++ [Log ERROR (FailedToClickAt x y)])
        /\ (count_events failed_click (events_of o) = O ->
            session_stats (state_of o) = session_stats s))
  /\ (forall s,
        let body := iteration_body W config templates s in
        let o := iteration W config templates s in
        (result_of body = Raise Exception ->
         session_stats (state_of o)
         = incr_errors_encountered (session_stats (state_of body)))
        /\ (result_of body <> Raise Exception ->
            session_stats (state_of o) = session_stats (state_of body)))
  /\ (forall current_screen s,
        session_stats (state_of (count_unknown current_screen s)) = session_stats s
        /\ session_stats (state_of (poll_running W s)) = session_stats s)
  /\ (forall s screenshot,
        result_of (capture_screen W config None s) = Return screenshot ->
        let found :=
          result_of (find_template W templates "continue_button" screenshot
                       default_threshold initial_state) in
        let click b :=
          result_of (click_centre W config b
                       (state_of (capture_screen W config None s))) in
        result_of (handle_race_result W config templates s)
        = report_of found click
        /\ result_of (handle_training_result W config templates s)
           = report_of found click)
  /\ (forall s screenshot choice_text,
        let captured := state_of (capture_screen W config None s) in
        result_of (capture_screen W config None s) = Return screenshot ->
        result_of (ocr_text W screenshot None captured) = Return choice_text ->
        result_of (handle_choice_screen W config templates s)
        = report_of
            (result_of (find_template W templates "choice_option_1" screenshot
                          default_threshold initial_state))
            (fun b => result_of
                        (click_centre W config b
                           (state_of (ocr_text W screenshot None captured)))))
  /\ (forall current_screen screenshot,
        tallies counted_error
          (dispatch W config templates current_screen screenshot))
  /\ tallies counted_error (iteration W config templates)
  /\ (forall fuel,
        tallies counted_error (run_automation W config templates fuel)).
Proof.
  pose proof (handle_race_result_counts W config templates) as Hr.
  pose proof (handle_training_result_counts W config templates) as Ht.
  pose proof (handle_choice_screen_counts W config templates) as Hc.
  assert (Hcount : forall incr (m : M bool) s, counts incr m ->
            match result_of (m s) with
            | Return true =>
                exists s1, outcomes_kept s s1
                           /\ session_stats (state_of (m s)) = incr (session_stats s1)
            | _ => outcomes_kept s (state_of (m s))
            end).
  { intros incr m s Hm. specialize (Hm s).
    destruct (result_of (m s)) as [[|] | e].
    - destruct Hm as (s1 & (_ & _ & H1) & H2). exists s1. auto.
    - apply Hm.
    - apply Hm. }
  split; [| split; [| split; [| split; [| split; [| split; [| split;
    [| split; [| split; [| split; [| split; [| split; [| split; [| split;
    [| split]]]]]]]]]]]]]].
  - intros fuel s.
    destruct (run_automation_outcomes W config templates fuel s Logic.I)
      as (_ & H & _).
    unfold outcomes_kept in H. unfold stats_le. lia.
  - intros s. repeat split;
      (eapply counts_outcome; [eassumption |]); intros st; simpl; lia.
  - intros s. simpl. specialize (Hcount _ _ s Hr).
    destruct (result_of (handle_race_result W config templates s)) as [[|] | e];
      simpl; [destruct Hcount as (s1 & H1 & ->) |..];
      unfold outcomes_kept in *; simpl; lia.
  - intros s. simpl. specialize (Hcount _ _ s Ht).
    destruct (result_of (handle_training_result W config templates s)) as [[|] | e];
      simpl; [destruct Hcount as (s1 & H1 & ->) |..];
      unfold outcomes_kept in *; simpl; lia.
  - intros s. simpl. specialize (Hcount _ _ s Hc).
    destruct (result_of (handle_choice_screen W config templates s)) as [[|] | e];
      simpl; [destruct Hcount as (s1 & H1 & ->) |..];
      unfold outcomes_kept in *; simpl; lia.
  - intros s.
    destruct (handle_race_screen_outcomes W config templates s Logic.I)
      as (_ & H & _).
    apply H.
  - intros region name screenshot threshold s. repeat split.
    + apply (capture_screen_untouched W config region s Logic.I).
    + rewrite find_template_state. reflexivity.
    + apply (ocr_text_untouched W screenshot region s Logic.I).
    + destruct (detect_screen_classify W templates screenshot s) as [_ ->].
      reflexivity.
    + apply (check_for_errors_untouched W screenshot s Logic.I).
  - intros current_screen screenshot s. apply screen_handlers_keep_outcomes.
  - intros x y delay s. apply click_at_counts.
  - intros s. cbv zeta. unfold iteration.
    destruct (iteration_body W config templates s) as [[[c | [|]] s1] w1];
      cbn [result_of state_of fst snd];
      split; intros H; try discriminate; try reflexivity.
    exfalso. apply H. reflexivity.
  - intros current_screen s. split.
    + rewrite count_unknown_cases.
      destruct (negb _); [| destruct (Z.leb _ _)]; reflexivity.
    + unfold poll_running. cbn [state_of fst snd].
      destruct (stop_requested W (clock s)); reflexivity.
  - intros s screenshot Hcap. cbv zeta. split.
    + apply handle_race_result_reports. exact Hcap.
    + apply handle_training_result_reports. exact Hcap.
  - intros s screenshot choice_text. cbv zeta.
    apply handle_choice_screen_reports.
  - intros current_screen screenshot. apply tallies_dispatch.
  - apply tallies_iteration.
  - intros fuel. apply tallies_run_automation.
Qed.

(** With the continue button on the screen the result handlers report
    success and each adds one to its own counter; a click that cannot be
    injected adds one to [errors_encountered]. *)
Lemma session_stats_monotone_and_counted_witness :
  (let W := Scenario.showing (fun _ => Return Scenario.result_frame) in
   let o := handle_race_result W Scenario.untracked Scenario.library
              Scenario.started in
   result_of o = Return true
   /\ races_completed (session_stats (state_of o)) = 1)
  /\ (let W := Scenario.showing (fun _ => Return Scenario.result_frame) in
      let o := handle_training_result W Scenario.untracked Scenario.library
                 Scenario.started in
      result_of o = Return true
      /\ training_sessions (session_stats (state_of o)) = 1)
  /\ (let W := Scenario.showing_click_fails
                 (fun _ => Return Scenario.result_frame) in
      let o := click_at W Scenario.untracked 30 35 default_click_delay
                 Scenario.started in
      session_stats (state_of o)
      = incr_errors_encountered (session_stats Scenario.started)).
Proof.
  split; [| split].
  - intros W o.
    destruct (session_stats_monotone_and_counted W Scenario.untracked
                Scenario.library) as (_ & _ & H & _).
    destruct (H Scenario.started) as (Hr & _).
    assert (Hres : result_of o = Return true) by (vm_compute; reflexivity).
    split; [exact Hres |]. fold o in Hr. rewrite Hr, Hres. reflexivity.
  - intros W o.
    destruct (session_stats_monotone_and_counted W Scenario.untracked
                Scenario.library) as (_ & _ & _ & H & _).
    destruct (H Scenario.started) as (Hr & _).
    assert (Hres : result_of o = Return true) by (vm_compute; reflexivity).
    split; [exact Hres |]. fold o in Hr. rewrite Hr, Hres. reflexivity.
  - intros W o.
    destruct (session_stats_monotone_and_counted W Scenario.untracked
                Scenario.library) as (_ & _ & _ & _ & _ & _ & _ & _ & H & _).
    destruct (H 30 35 default_click_delay Scenario.started) as (Hf & _).
    destruct Hf as (_ & Hs & _); [vm_compute; discriminate | exact Hs].
Defined.

(** C5, as the specification states it, fails: the counters are not written
    by the handlers only.  Here the screen is not recognised, no handler is
    entered, the fall-back of the loop clicks the continue button, the click
    cannot be injected, and [errors_encountered] is one; and here OpenCV
    fails in the classification, no handler is entered, and the loop itself
    counts the error. *)
Lemma errors_are_counted_outside_handlers :
  (let W := Scenario.showing_click_fails
              (fun _ => Return Scenario.result_frame) in
   let o := iteration W Scenario.untracked Scenario.library Scenario.started in
   errors_encountered (session_stats Scenario.started) = 0
   /\ errors_encountered (session_stats (state_of o)) = 1
   /\ existsb enters_handler (events_of o) = false
   /\ In (Log ERROR (FailedToClickAt 30 35)) (events_of o))
  /\ (let o := iteration Installation.no_opencv Scenario.untracked
                 Scenario.library Scenario.started in
      errors_encountered (session_stats (state_of o)) = 1
      /\ existsb enters_handler (events_of o) = false
      /\ clicks (events_of o) = []
      /\ In (Log ERROR ErrorInAutomationLoop) (events_of o)).
Proof.
  split.
  - cbv zeta. split; [reflexivity |]. split; [vm_compute; reflexivity |].
    split; [vm_compute; reflexivity |]. vm_compute. tauto.
  - cbv zeta. split; [vm_compute; reflexivity |].
    split; [vm_compute; reflexivity |]. split; [vm_compute; reflexivity |].
    vm_compute. tauto.
Qed.

Section MissingScreenshotMore.

Context {Frame Template : Type}.
Variable W : World Frame Template.
Variable config : Config.
Variable templates : gmap string Template.



End MissingScreenshotMore.



(** ** The screenshot of a handler *)

Section HandlerGrabs.

Context {Frame Template : Type}.
Variable W : World Frame Template.
Variable config : Config.
Variable templates : gmap string Template.

(** A capture asks the grabber once, unless the window query before it
    raises. *)
Lemma capture_screen_grabs region s :
  count_events is_grab (events_of (capture_screen W config region s))
  = if window_detection_enabled config then
      match window_rect s with
      | Some _ => 1%nat
      | None =>
          match find_uma_musume_window W (clock s) with
          | Return _ => 1%nat
          | Raise _ => O
          end
      end
    else 1%nat.
Proof.
  unfold capture_screen, try_except.
  set (prepare := if window_detection_enabled config
                  then bind (get_game_region W) (fun r => modify (set_game_region r))
                  else ret tt).
  assert (Hp : prepare s
               = if window_detection_enabled config then
                   match window_rect s with
                   | Some r =>
                       (Return tt, set_game_region (Some (box_of_rect r)) s, [])
                   | None =>
                       match find_uma_musume_window W (clock s) with
                       | Return found =>
                           (Return tt,
                            set_game_region (option_map box_of_rect found)
                              (set_window_rect found (tick s)), [WindowQuery])
                       | Raise e => (Raise e, tick s, [WindowQuery])
                       end
                   end
                 else (Return tt, s, [])).
  { unfold prepare. destruct (window_detection_enabled config); [| reflexivity].
    unfold bind. rewrite get_game_region_cases.
    destruct (window_rect s); [reflexivity |].
    destruct (find_uma_musume_window W (clock s)); reflexivity. }
  assert (Hrest : forall s1,
            count_events is_grab
              (events_of
                 (bind (gets game_region) (fun cached =>
                  bind (match region, cached with
                        | None, Some g =>
                            bind (log DEBUG (UsingGameRegion g))
                                 (fun _ => ret (Some g))
                        | _, _ => ret region
                        end) (fun region' =>
                  bind (ask (Grab region')
                          (fun t => ImageGrab_grab W t region'))
                       (fun screenshot => ret (Some screenshot)))) s1))
            = 1%nat).
  { intros s1. unfold bind, gets, ask, log, emit, ret. cbn [fst snd].
    destruct region as [b |], (game_region s1) as [g |]; cbn [fst snd];
      match goal with
      | |- context [ImageGrab_grab W ?t ?r] => destruct (ImageGrab_grab W t r)
      end; reflexivity. }
  destruct (prepare s) as [[[u | e] s1] w1] eqn:Ep.
  - rewrite (bind_Return _ _ _ _ _ _ Ep).
    assert (Hw : count_events is_grab w1 = O).
    { destruct (window_detection_enabled config);
        [destruct (window_rect s);
         [| destruct (find_uma_musume_window W (clock s))] |];
        try discriminate Hp; injection Hp as _ _ ->; reflexivity. }
    specialize (Hrest s1).
    match type of Hrest with
    | count_events is_grab (events_of ?o) = _ =>
        destruct o as [[[sc | [|]] s2] w2]
    end;
      unfold bind, log, emit, ret;
      cbn [result_of state_of events_of fst snd] in *;
      rewrite ?count_events_app, Hw, Hrest;
      (destruct (window_detection_enabled config);
       [destruct (window_rect s);
        [| destruct (find_uma_musume_window W (clock s))] |]);
      try discriminate Hp; reflexivity.
  - rewrite (bind_Raise _ _ _ _ _ _ Ep).
    destruct (window_detection_enabled config);
      [destruct (window_rect s);
       [| destruct (find_uma_musume_window W (clock s))] |];
      try discriminate Hp; injection Hp as -> _ ->.
    match goal with
    | |- context [match ?e0 with KeyboardInterrupt => _ | Exception => _ end] =>
        destruct e0
    end; reflexivity.
Qed.

(** Without an answer to the window query there is no screenshot. *)
Lemma capture_screen_needs_window region s e :
  window_detection_enabled config = true ->
  window_rect s = None ->
  find_uma_musume_window W (clock s) = Raise e ->
  forall frame,
    result_of (capture_screen W config region s) <> Return (Some frame).
Proof.
  intros Hd Hr Hf frame. unfold capture_screen, try_except. rewrite Hd.
  assert (Hp : bind (get_game_region W) (fun r => modify (set_game_region r)) s
               = (Raise e, tick s, [WindowQuery])).
  { unfold bind. rewrite get_game_region_cases, Hr, Hf. reflexivity. }
  rewrite (bind_Raise _ _ _ _ _ _ Hp). destruct e; discriminate.
Qed.

(** A capture that returns a screenshot has asked the grabber once. *)
Lemma capture_screen_grabs_once region s frame :
  result_of (capture_screen W config region s) = Return (Some frame) ->
  count_events is_grab (events_of (capture_screen W config region s)) = 1%nat.
Proof.
  intros H. rewrite capture_screen_grabs.
  destruct (window_detection_enabled config) eqn:Hd; [| reflexivity].
  destruct (window_rect s) eqn:Hr; [reflexivity |].
  destruct (find_uma_musume_window W (clock s)) as [found | e] eqn:Hf;
    [reflexivity |].
  exfalso. exact (capture_screen_needs_window region s e Hd Hr Hf frame H).
Qed.

(** A handler's effects: its log line, those of a capture made on entry,
    and a rest in which the grabber is not asked again. *)
Lemma handler_grabs_on_entry l m (search : option Frame -> M bool) s :
  (forall screenshot, spends is_grab 0 (search screenshot)) ->
  grabs_on_entry (events_of (capture_screen W config None s)) l m
    (bind (log l m) (fun _ => bind (capture_screen W config None) search) s).
Proof.
  intros Hs. unfold grabs_on_entry. rewrite handler_after_capture. cbv zeta.
  destruct (result_of (capture_screen W config None s)) as [screenshot | e];
    cbn [events_of snd].
  - eexists. split; [reflexivity |].
    pose proof (Hs screenshot (state_of (capture_screen W config None s))). lia.
  - exists []. rewrite app_nil_r. split; reflexivity.
Qed.

Lemma click_at_no_grab x y delay :
  spends is_grab 0 (click_at W config x y delay).
Proof. apply click_at_spends; auto. Qed.

(** The seven handlers of the dispatch. *)
Lemma handlers_grab_on_entry s :
  let capture := events_of (capture_screen W config None s) in
  grabs_on_entry capture INFO HandlingMainMenu
    (handle_main_menu W config templates s)
  /\ grabs_on_entry capture INFO HandlingTrainingScreen
       (handle_training_screen W config templates s)
  /\ grabs_on_entry capture INFO HandlingEventScreen
       (handle_event_screen W config templates s)
  /\ grabs_on_entry capture INFO HandlingRaceScreen
       (handle_race_screen W config templates s)
  /\ grabs_on_entry capture INFO HandlingRaceResultScreen
       (handle_race_result W config templates s)
  /\ grabs_on_entry capture INFO HandlingTrainingResultScreen
       (handle_training_result W config templates s)
  /\ grabs_on_entry capture INFO HandlingChoiceScreen
       (handle_choice_screen W config templates s).
Proof.
  cbv zeta.
  pose proof (spends_search W config templates is_grab 0
                (fun _ _ => eq_refl) click_at_no_grab) as Hsearch.
  pose proof (spends_press_race_start W config templates is_grab 0
                (fun _ _ => eq_refl) click_at_no_grab) as Hstart.
  pose proof (spends_try_training_options W config templates is_grab 0
                (fun _ _ => eq_refl) click_at_no_grab) as Hopts.
  pose proof (spends_click_then W config is_grab 0 click_at_no_grab) as Hthen.
  assert (Hfind : forall name sc,
            spends is_grab 0
              (find_template W templates name sc default_threshold))
    by (intros; apply spends_find_template; reflexivity).
  split; [| split; [| split; [| split; [| split; [| split]]]]].
  - apply handler_grabs_on_entry. intros sc.
    apply (Hsearch _ (fun _ => ret false)). intros _. apply spends_ret.
  - apply handler_grabs_on_entry. intros sc. apply Hopts.
  - apply handler_grabs_on_entry. intros sc.
    apply (Hsearch _ (fun _ => ret false)). intros _. apply spends_ret.
  - unfold handle_race_screen. apply handler_grabs_on_entry. intros sc.
    destruct (skip_races config); [| apply Hstart].
    apply (Hsearch _ (press_race_start W config templates)). apply Hstart.
  - apply handler_grabs_on_entry. intros sc.
    apply spends_after; [apply Hfind |]. intros btn. apply Hthen.
    apply spends_after; [apply spends_modify | intros; apply spends_ret].
  - apply handler_grabs_on_entry. intros sc.
    apply spends_after; [apply Hfind |]. intros btn. apply Hthen.
    apply spends_after; [apply spends_modify | intros; apply spends_ret].
  - apply handler_grabs_on_entry. intros sc.
    apply spends_after; [apply spends_ocr_text; reflexivity |]. intros text.
    apply spends_after; [apply spends_log; reflexivity |]. intros _.
    apply spends_after; [apply Hfind |]. intros btn. apply Hthen.
    apply spends_after; [apply spends_modify | intros; apply spends_ret].
Qed.

End HandlerGrabs.

(** X4.  A screen handler takes a screenshot of its own: the effects of
    each of the seven handlers are its log line, then those of a capture
    made on entry, then a rest in which the grabber is not asked; and a
    capture that returns a screenshot has asked the grabber exactly once
    (one whose window query raises has not asked it at all, and returns no
    screenshot).  So the dispatch grabs the screen once at most and an
    iteration twice at most (once to classify, once in the handler), while
    the fall-back for a screen that has no handler searches the screenshot
    the iteration already holds and grabs nothing. *)
Theorem handlers_capture_again {Frame Template : Type}
    (W : World Frame Template) (config : Config)
    (templates : gmap string Template) :
  (forall s,
     let capture := events_of (capture_screen W config None s) in
     grabs_on_entry capture INFO HandlingMainMenu
       (handle_main_menu W config templates s)
     /\ grabs_on_entry capture INFO HandlingTrainingScreen
          (handle_training_screen W config templates s)
     /\ grabs_on_entry capture INFO HandlingEventScreen
          (handle_event_screen W config templates s)
     /\ grabs_on_entry capture INFO HandlingRaceScreen
          (handle_race_screen W config templates s)
     /\ grabs_on_entry capture INFO HandlingRaceResultScreen
          (handle_race_result W config templates s)
     /\ grabs_on_entry capture INFO HandlingTrainingResultScreen
          (handle_training_result W config templates s)
     /\ grabs_on_entry capture INFO HandlingChoiceScreen
          (handle_choice_screen W config templates s))
  /\ (forall region s frame,
        result_of (capture_screen W config region s) = Return (Some frame) ->
        count_events is_grab (events_of (capture_screen W config region s))
        = 1%nat)
  /\ (forall region s e,
        window_detection_enabled config = true ->
        window_rect s = None ->
        find_uma_musume_window W (clock s) = Raise e ->
        count_events is_grab (events_of (capture_screen W config region s)) = O
        /\ forall frame,
             result_of (capture_screen W config region s) <> Return (Some frame))
  /\ (forall current_screen screenshot s,
        (count_events is_grab
           (events_of (dispatch W config templates current_screen screenshot s))
         <= 1)%nat)
  /\ (forall s,
        (count_events is_grab (events_of (iteration W config templates s))
         <= 2)%nat)
  /\ (forall current_screen screenshot s,
        count_events is_grab
          (events_of (click_continue_fallback W config templates
                        current_screen screenshot s)) = O).
Proof.
  split; [| split; [| split; [| split; [| split]]]].
  - intros s. apply handlers_grab_on_entry.
  - intros region s frame. apply capture_screen_grabs_once.
  - intros region s e Hd Hr Hf. split.
    + rewrite capture_screen_grabs, Hd, Hr, Hf. reflexivity.
    + apply (capture_screen_needs_window W config region s e Hd Hr Hf).
  - intros current_screen screenshot. apply dispatch_grabs.
  - apply iteration_grabs.
  - intros current_screen screenshot s.
    assert (H : spends is_grab 0
                  (click_continue_fallback W config templates
                     current_screen screenshot)).
    { apply (spends_click_continue_fallback W config templates is_grab 0);
        try reflexivity.
      intros x y delay. apply click_at_spends; auto. }
    specialize (H s). lia.
Qed.

(** On the main menu the handler grabs the screen once, after its log
    line, although the iteration has grabbed it already. *)
Lemma handlers_capture_again_witness :
  let W := Scenario.showing (fun _ => Return Scenario.main_menu_frame) in
  let o := handle_main_menu W Scenario.untracked Scenario.library
             Scenario.started in
  count_events is_grab (events_of o) = 1%nat
  /\ count_events is_grab
       (events_of (iteration W Scenario.untracked Scenario.library
                     Scenario.started)) = 2%nat.
Proof.
  intros W o.
  destruct (handlers_capture_again W Scenario.untracked Scenario.library)
    as (Hh & Hc & _).
  destruct (Hh Scenario.started) as ((rest & Hw & Hrest) & _).
  split.
  - fold o in Hw. rewrite Hw. cbn [count_events is_grab].
    rewrite count_events_app, Hrest,
      (Hc None Scenario.started Scenario.main_menu_frame eq_refl).
    reflexivity.
  - vm_compute. reflexivity.
Defined.

Section FocusAnswer.

Context {Frame Template : Type}.
Variable W : World Frame Template.
Variable config : Config.

(** What precedes the click, for an [osascript] that returns: the return
    code does not enter. *)
Lemma before_click_returned answer rc s :
  (forall t, answer t = Return rc) ->
  before_click (with_osascript answer W) config s
  = if window_detection_enabled config then
      if String.eqb (system W) "Darwin"
      then (Return tt, tick s, [Focus; Sleep 0x1.999999999999ap-4])
      else (Return tt, s, [Sleep 0x1.999999999999ap-4])
    else (Return tt, s, []).
Proof.
  intros Ha. rewrite before_click_cases. cbn [with_osascript system osascript_activate].
  rewrite Ha. reflexivity.
Qed.

End FocusAnswer.

(** X20.  [click_at] does not look at the answer of [focus_game_window]:
    with any two return codes of [osascript] it does the same, and with an
    [osascript] that fails it does the same but for the log line of the
    failure.  [focus_game_window] reports success only on macOS when
    [osascript] returned 0, and it does nothing on any other system; a
    failure of [osascript] is logged and reported as [False].  A call of
    [click_at] that returns without logging a failure has asked for the
    click once, at the point given.  An interrupt during the focus request
    leaves [click_at] before the click is asked for.  No [Exception] leaves
    [click_at]. *)
Theorem click_is_made_whatever_focus_reports {Frame Template : Type}
    (W : World Frame Template) (config : Config) (x y : Z) (delay : float)
    (s : State) :
  let f := focus_game_window W s in
  let o := click_at W config x y delay s in
  result_of f <> Raise Exception
  /\ (result_of f = Return true
      <-> system W = "Darwin" /\ osascript_activate W (clock s) = Return 0)
  /\ (system W <> "Darwin" -> f = (Return false, s, []))
  /\ (forall rc rc' : Z,
        click_at (with_osascript (fun _ => Return rc) W) config x y delay s
        = click_at (with_osascript (fun _ => Return rc') W) config x y delay s)
  /\ (forall rc : Z,
        let failed :=
          click_at (with_osascript (fun _ => Raise Exception) W)
            config x y delay s in
        let answered :=
          click_at (with_osascript (fun _ => Return rc) W) config x y delay s in
        result_of failed = result_of answered
        /\ state_of failed = state_of answered
        /\ List.filter (fun e => negb (is_focus_error e)) (events_of failed)
           = events_of answered)
  /\ (result_of o = Return tt ->
      count_events failed_click (events_of o) = O ->
      clicks (events_of o) = [(x, y)])
  /\ (window_detection_enabled config = true ->
      result_of f = Raise KeyboardInterrupt ->
      clicks (events_of o) = [] /\ result_of o = Raise KeyboardInterrupt)
  /\ result_of o <> Raise Exception.
Proof.
  cbv zeta.
  split; [| split; [| split; [| split; [| split; [| split; [| split]]]]]].
  - rewrite focus_game_window_cases.
    destruct (String.eqb (system W) "Darwin"); [| cbn; discriminate].
    destruct (osascript_activate W (clock s)) as [rc | [|]]; cbn; discriminate.
  - rewrite focus_game_window_cases.
    destruct (String.eqb_spec (system W) "Darwin") as [Hd | Hd].
    + destruct (osascript_activate W (clock s)) as [rc | [|]];
        cbn [result_of fst]; split;
        try discriminate; try (intros [_ H]; discriminate).
      * intros H. injection H as H. apply Z.eqb_eq in H. subst rc. auto.
      * intros [_ H]. injection H as ->. reflexivity.
    + cbn [result_of fst]. split; [discriminate | intros [H _]; contradiction].
  - rewrite focus_game_window_cases.
    intros Hd. destruct (String.eqb_spec (system W) "Darwin"); [contradiction |].
    reflexivity.
  - intros rc rc'. rewrite !click_at_cases. cbv zeta.
    rewrite (before_click_returned W config (fun _ => Return rc) rc s
               (fun _ => eq_refl)),
            (before_click_returned W config (fun _ => Return rc') rc' s
               (fun _ => eq_refl)).
    reflexivity.
  - intros rc. cbv zeta. rewrite !click_at_cases. cbv zeta.
    rewrite (before_click_returned W config (fun _ => Return rc) rc s
               (fun _ => eq_refl)).
    rewrite before_click_cases. cbn [with_osascript system osascript_activate].
    destruct (window_detection_enabled config);
      [destruct (String.eqb (system W) "Darwin") |];
      cbn [result_of state_of events_of fst snd with_osascript pyautogui_click];
      match goal with
      | |- context [pyautogui_click W ?t x y] =>
          destruct (pyautogui_click W t x y) as [[] | [|]]
      end; repeat split; reflexivity.
  - rewrite click_at_cases. cbv zeta.
    destruct (before_click_quiet W config s) as (_ & Hf & Hc & _).
    destruct (result_of (before_click W config s)) as [u | e];
      [| discriminate].
    destruct (pyautogui_click W _ x y) as [[] | [|]];
      cbn [result_of events_of fst snd]; intros Hr; try discriminate Hr;
      rewrite count_events_app, clicks_app, Hc, Hf; cbn;
      [reflexivity | discriminate].
  - intros Ew Hf. rewrite focus_game_window_cases in Hf.
    rewrite click_at_cases. cbv zeta. rewrite before_click_cases, Ew.
    destruct (String.eqb (system W) "Darwin"); [| discriminate].
    destruct (osascript_activate W (clock s)) as [rc | [|]];
      try discriminate.
    split; reflexivity.
  - rewrite click_at_cases. cbv zeta.
    destruct (result_of (before_click W config s)); [| discriminate].
    destruct (pyautogui_click W _ x y) as [[] | [|]]; discriminate.
Qed.

(** On a Mac whose [osascript] answers 1, the focus is reported as failed
    and the click is made all the same, as it is when [osascript] answers
    0. *)
Lemma click_is_made_whatever_focus_reports_witness :
  result_of (focus_game_window Installation.unfocusable_mac Scenario.started)
  = Return false
  /\ clicks (events_of (click_at Installation.unfocusable_mac
                          Installation.tracked 30 35 0.5 Scenario.started))
     = [(30, 35)]
  /\ click_at (with_osascript (fun _ => Return 1) Installation.unfocusable_mac)
       Installation.tracked 30 35 0.5 Scenario.started
     = click_at (with_osascript (fun _ => Return 0) Installation.unfocusable_mac)
         Installation.tracked 30 35 0.5 Scenario.started.
Proof.
  split; [vm_compute; reflexivity |].
  destruct (click_is_made_whatever_focus_reports Installation.unfocusable_mac
              Installation.tracked 30 35 0.5 Scenario.started)
    as (_ & _ & _ & Hsame & _ & H & _).
  split.
  - apply H; vm_compute; reflexivity.
  - apply Hsame.
Defined.
